(** * Preprocessing engine of the ML pipeline: a shallow embedding

    The development follows [src/preprocessors/*.py]:
    - [base_preprocessor.py]: [validate_input], [fit_transform];
    - [text_preprocessor.py], [numeric_preprocessor.py],
      [categorical_preprocessor.py]: the three concrete preprocessors;
    - [preprocessor_factory.py]: the engine that builds one preprocessor per
      declared column type, slices the table and concatenates the outputs.

    Python objects that are mutated in place (pandas data frames) live in a
    heap of locations; every method is a computation in a state-and-exception
    monad over the receiver ([self]) and the world (heap and log records).
    Functions of pandas, scikit-learn, NLTK and the Python runtime are not part
    of the repository: pandas and the two encoders are modelled by their
    documented behaviour, scalers, tokenizer, stemmer and float printing are
    taken as parameters (class [External]). *)

From Stdlib Require Import QArith Qcanon Ascii.
From stdpp Require Import gmap strings list fin_maps numbers.

Set Default Proof Using "Type".

(** ** Cells, tables, exceptions *)

(** A cell of a table: a missing value (NaN / None), a number, or a string.
    Numbers are exact rationals in canonical form, so that equality of cells
    is numeric equality; rounding of floats is not modelled. *)
Inductive cell :=
| NaN
| Num (q : Qc)
| Str (s : string).

#[global] Instance cell_eq_dec : EqDecision cell.
Proof. solve_decision. Defined.

Definition is_nan (c : cell) : bool :=
  match c with NaN => true | _ => false end.
Definition is_str (c : cell) : bool :=
  match c with Str _ => true | _ => false end.
Definition is_num (c : cell) : bool :=
  match c with Num _ => true | _ => false end.

(** A pandas [DataFrame]: row labels and named columns, in order. *)
Record DataFrame := mkDF {
  df_index : list Z;
  df_columns : list (string * list cell)
}.

#[global] Instance DataFrame_eq_dec : EqDecision DataFrame.
Proof. solve_decision. Defined.

Definition nrows (d : DataFrame) : nat := length (df_index d).
Definition column_names (d : DataFrame) : list string := (df_columns d).*1.

(** Tables are rectangular: one cell per row label in every column. *)
Definition df_wf (d : DataFrame) : Prop :=
  Forall (λ c : string * list cell, length c.2 = nrows d) (df_columns d).

#[global] Instance df_wf_dec d : Decision (df_wf d).
Proof. unfold df_wf. apply _. Defined.

(** Python exceptions raised by the modelled code, with their message. *)
Inductive exn :=
| ValueError (msg : string)
| KeyError (msg : string)
| TypeError (msg : string)
| NotFittedError (msg : string)
| LookupError (msg : string)
| AttributeError (msg : string)
| SystemError (msg : string).

Definition exn_str (e : exn) : string :=
  match e with
  | ValueError m | KeyError m | TypeError m
  | NotFittedError m | LookupError m | AttributeError m | SystemError m => m
  end.

Inductive result (A : Type) :=
| Ok (a : A)
| Raise (e : exn).
Arguments Ok {A} a.
Arguments Raise {A} e.

#[global] Instance exn_eq_dec : EqDecision exn.
Proof. solve_decision. Defined.

#[global] Instance result_eq_dec {A} `{EqDecision A} : EqDecision (result A).
Proof. solve_decision. Defined.

Definition is_ok {A} (r : result A) : bool :=
  match r with Ok _ => true | Raise _ => false end.

Definition result_bind {A B} (r : result A) (f : A → result B) : result B :=
  match r with Ok a => f a | Raise e => Raise e end.

(** [[f(x) for x in xs]] where [f] may raise: the first exception wins. *)
Fixpoint result_map {A B} (f : A → result B) (xs : list A) : result (list B) :=
  match xs with
  | [] => Ok []
  | x :: xs' =>
      result_bind (f x) (λ y,
      result_bind (result_map f xs') (λ ys, Ok (y :: ys)))
  end.

(** ** The world: heap of data frames and log records *)

Definition loc := nat.

Inductive level := DEBUG | WARNING | ERROR.

Record LogRecord := mkLog {
  log_name : string;
  log_level : level;
  log_msg : string
}.

Record World := mkWorld {
  heap : list DataFrame;
  logs : list LogRecord
}.

(** ** State and exception monad *)

Definition M (St A : Type) : Type := St → St * result A.

Definition ret {St A} (a : A) : M St A := λ s, (s, Ok a).

Definition bind {St A B} (m : M St A) (f : A → M St B) : M St B :=
  λ s, match m s with
       | (s', Ok a) => f a s'
       | (s', Raise e) => (s', Raise e)
       end.

Definition raise {St A} (e : exn) : M St A := λ s, (s, Raise e).

(** [try: m except Exception as e: h e] *)
Definition try_except {St A} (m : M St A) (h : exn → M St A) : M St A :=
  λ s, match m s with
       | (s', Ok a) => (s', Ok a)
       | (s', Raise e) => h e s'
       end.

Definition lift_result {St A} (r : result A) : M St A := λ s, (s, r).

Declare Scope py_scope.
Delimit Scope py_scope with py.
Notation "x <- m ;; k" := (bind m (λ x, k))
  (at level 100, m at next level, right associativity) : py_scope.
Notation "m ;;; k" := (bind m (λ _, k))
  (at level 100, right associativity) : py_scope.
Open Scope py_scope.

(** [for x in xs: body x] *)
Fixpoint for_each {St X} (xs : list X) (body : X → M St unit) : M St unit :=
  match xs with
  | [] => ret tt
  | x :: xs' => body x ;;; for_each xs' body
  end.

(** A loop that rebinds a local variable [v] in its body. *)
Fixpoint for_fold {St X V} (xs : list X) (v : V) (body : X → V → M St V)
  : M St V :=
  match xs with
  | [] => ret v
  | x :: xs' => v' <- body x v ;; for_fold xs' v' body
  end.

Section world_ops.
Context {Self : Type}.
Abbreviation St := (Self * World)%type.

Definition get_self : M St Self := λ s, (s, Ok s.1).
Definition set_self (x : Self) : M St unit := λ s, ((x, s.2), Ok tt).

Definition log (name : string) (lv : level) (msg : string) : M St unit :=
  λ s, ((s.1, mkWorld (heap s.2) (logs s.2 ++ [mkLog name lv msg])), Ok tt).

(** Dereference of a data frame. References of a running Python program
    never dangle; the [SystemError] branch is unreachable from a valid
    location and only makes the function total. *)
Definition df_load (l : loc) : M St DataFrame :=
  λ s, match heap s.2 !! l with
       | Some d => (s, Ok d)
       | None => (s, Raise (SystemError "dangling reference"))
       end.

(** In-place update of the object at [l]. *)
Definition df_store (l : loc) (d : DataFrame) : M St unit :=
  λ s, match heap s.2 !! l with
       | Some _ => ((s.1, mkWorld (<[l := d]> (heap s.2)) (logs s.2)), Ok tt)
       | None => (s, Raise (SystemError "dangling reference"))
       end.

(** A new object. *)
Definition df_alloc (d : DataFrame) : M St loc :=
  λ s, ((s.1, mkWorld (heap s.2 ++ [d]) (logs s.2)), Ok (length (heap s.2))).
End world_ops.

(** Run a method of a component object stored in a field of [self]. *)
Definition zoom {S1 S2 A} (get : S1 → S2) (set : S2 → S1 → S1)
    (m : M (S2 * World) A) : M (S1 * World) A :=
  λ s, let r := m (get s.1, s.2) in ((set r.1.1 s.1, r.1.2), r.2).

(** ** Python built-ins used by the code *)

(** [repr] of a string and of a list of strings, as an f-string prints them
    (escapes inside the string are not modelled). *)
Definition py_repr_str (s : string) : string := "'" +:+ s +:+ "'".
Definition py_repr_list (l : list string) : string :=
  "[" +:+ String.concat ", " (map py_repr_str l) +:+ "]".

(** [str.lower] on ASCII letters. *)
Definition ascii_lower (a : ascii) : ascii :=
  let n := nat_of_ascii a in
  if (65 <=? n)%nat && (n <=? 90)%nat then ascii_of_nat (n + 32) else a.
Fixpoint py_lower (s : string) : string :=
  match s with
  | EmptyString => EmptyString
  | String a s' => String (ascii_lower a) (py_lower s')
  end.

(** Membership in [string.punctuation]: the ASCII codes 33-47, 58-64, 91-96
    and 123-126. *)
Definition is_punctuation (a : ascii) : bool :=
  let n := nat_of_ascii a in
  ((33 <=? n) && (n <=? 47) || (58 <=? n) && (n <=? 64)
   || (91 <=? n) && (n <=? 96) || (123 <=? n) && (n <=? 126))%nat.

(** [text.translate(...)] with the table that deletes [string.punctuation] *)
Fixpoint strip_punctuation (s : string) : string :=
  match s with
  | EmptyString => EmptyString
  | String a s' =>
      if is_punctuation a then strip_punctuation s'
      else String a (strip_punctuation s')
  end.

(** ** pandas *)

Module pd.

(** The first column with a given name. *)
Fixpoint find_column (col : string) (cs : list (string * list cell))
  : option (list cell) :=
  match cs with
  | [] => None
  | c :: cs' => if decide (c.1 = col) then Some c.2 else find_column col cs'
  end.

Definition lookup_column (col : string) (d : DataFrame) : option (list cell) :=
  find_column col (df_columns d).

(** [col in data.columns] *)
Definition has_column (d : DataFrame) (col : string) : bool :=
  bool_decide (col ∈ column_names d).

(** [Series.fillna(value)]; filling with NaN changes nothing. *)
Definition fillna (v : cell) (s : list cell) : list cell :=
  map (λ c, if is_nan c then v else c) s.

Definition update_column (col : string) (f : list cell → list cell)
    (d : DataFrame) : DataFrame :=
  mkDF (df_index d)
       (map (λ c, if decide (c.1 = col) then (c.1, f c.2) else c)
            (df_columns d)).

(** [df[col] = values]: replaces the column, or appends a new one. *)
Definition set_column (col : string) (vals : list cell) (d : DataFrame)
  : DataFrame :=
  if has_column d col then update_column col (λ _, vals) d
  else mkDF (df_index d) (df_columns d ++ [(col, vals)]).

(** [df.drop(columns=[col])] on a frame that has the column. *)
Definition drop_column (col : string) (d : DataFrame) : DataFrame :=
  mkDF (df_index d) (filter (λ c, c.1 ≠ col) (df_columns d)).

(** [data[columns]] with a list of names: [None] stands for the [KeyError]
    of a name that is not a column. *)
Definition select (cols : list string) (d : DataFrame) : option DataFrame :=
  cs ← mapM (λ col, (λ s, (col, s)) <$> lookup_column col d) cols;
  Some (mkDF (df_index d) cs).

(** [pd.concat(frames, axis=1)] for frames that carry the same row labels,
    which is the case at both call sites (the frames are derived from one
    table by operations that keep its index): the columns side by side. *)
Definition concat_columns (ds : list DataFrame) : DataFrame :=
  mkDF (from_option df_index [] (head ds)) (concat (map df_columns ds)).

(** [pd.DataFrame(values, columns=names, index=index)] from a row-major
    matrix: column [j] collects entry [j] of every row. The shape check
    compares the width of every row with the number of names. *)
Definition from_rows (rows : list (list cell)) (names : list string)
    (index : list Z) : option DataFrame :=
  if forallb (λ r, bool_decide (length r = length names)) rows then
    Some (mkDF index
            (imap (λ j n, (n, map (λ r, default NaN (r !! j)) rows)) names))
  else None.

(** *** Statistics of a column *)

Definition numbers (s : list cell) : list Qc :=
  omap (λ c, match c with Num q => Some q | _ => None end) s.

Definition Qc_of_nat (n : nat) : Qc := Q2Qc (inject_Z (Z.of_nat n)).

Definition Qc_leb (x y : Qc) : bool := Qle_bool x y.

Fixpoint insert_sorted {A} (leb : A → A → bool) (x : A) (l : list A) : list A :=
  match l with
  | [] => [x]
  | y :: l' => if leb x y then x :: l else y :: insert_sorted leb x l'
  end.
Definition sort {A} (leb : A → A → bool) (l : list A) : list A :=
  foldr (insert_sorted leb) [] l.

(** [Series.mean()]: NaN is skipped; a column without numbers has mean NaN;
    strings cannot be averaged. *)
Definition mean (s : list cell) : result cell :=
  if existsb is_str s then Raise (TypeError "Could not convert string to numeric")
  else match numbers s with
       | [] => Ok NaN
       | qs => Ok (Num (foldr Qcplus 0%Qc qs / Qc_of_nat (length qs))%Qc)
       end.

(** [Series.median()]: the middle of the sorted numbers, or the average of
    the two middle ones. *)
Definition median (s : list cell) : result cell :=
  if existsb is_str s then Raise (TypeError "Could not convert string to numeric")
  else
    let qs := sort Qc_leb (numbers s) in
    let n := length qs in
    match qs !! (n / 2)%nat with
    | None => Ok NaN
    | Some hi =>
        if Nat.even n then
          Ok (Num ((default hi (qs !! (n / 2 - 1)%nat) + hi) / Qc_of_nat 2)%Qc)
        else Ok (Num hi)
    end.

(** Order of the values of one type. *)
Definition cell_leb (x y : cell) : bool :=
  match x, y with
  | Num p, Num q => Qc_leb p q
  | Str s, Str t => String.leb s t
  | Num _, _ => true
  | Str _, NaN => true
  | Str _, Num _ => false
  | NaN, NaN => true
  | NaN, _ => false
  end.

Definition uniform (s : list cell) : bool :=
  forallb is_str s || forallb (λ c, negb (is_str c)) s.

(** Distinct values in order of first appearance. *)
Fixpoint distinct (s : list cell) : list cell :=
  match s with
  | [] => []
  | c :: s' => c :: filter (λ x, x ≠ c) (distinct s')
  end.

Definition count (c : cell) (s : list cell) : nat :=
  length (filter (λ x, x = c) s).

(** [Series.mode()]: the most frequent non-missing values, sorted when they
    can be compared, else in order of first appearance. *)
Definition mode (s : list cell) : list cell :=
  let vals := filter (λ c, c ≠ NaN) s in
  let top := foldr Nat.max 0%nat (map (λ c, count c vals) vals) in
  let modes := filter (λ c, count c vals = top) (distinct vals) in
  if uniform modes then sort cell_leb modes else modes.

(** [Series.mode()[0]]: label 0 of an empty result is a [KeyError]. *)
Definition mode0 (s : list cell) : result cell :=
  match mode s with
  | c :: _ => Ok c
  | [] => Raise (KeyError "0")
  end.

End pd.

(** pandas operations on data frames in the heap. *)
Section pandas_ops.
Context {Self : Type}.

Fixpoint load_all (ls : list loc) : M (Self * World) (list DataFrame) :=
  match ls with
  | [] => ret []
  | l :: ls' => d <- df_load l ;; ds <- load_all ls' ;; ret (d :: ds)
  end.

(** [data.copy()] *)
Definition df_copy (data : loc) : M (Self * World) loc :=
  d <- df_load data ;; df_alloc d.

(** [df[col]] read as a column of values *)
Definition df_getitem (df : loc) (col : string) : M (Self * World) (list cell) :=
  d <- df_load df ;;
  match pd.lookup_column col d with
  | Some s => ret s
  | None => raise (KeyError (py_repr_str col))
  end.

(** [df[col].fillna(v, inplace=True)]: the column of [df] itself is
    filled (pandas before copy-on-write, where [df[col]] is a view). *)
Definition df_fillna_inplace (df : loc) (col : string) (v : cell)
  : M (Self * World) unit :=
  d <- df_load df ;;
  if pd.has_column d col then df_store df (pd.update_column col (pd.fillna v) d)
  else raise (KeyError (py_repr_str col)).

(** [df[col] = vals] *)
Definition df_setitem (df : loc) (col : string) (vals : list cell)
  : M (Self * World) unit :=
  d <- df_load df ;; df_store df (pd.set_column col vals d).

(** [data[columns]]: a new frame *)
Definition df_getitem_list (data : loc) (columns : list string)
  : M (Self * World) loc :=
  d <- df_load data ;;
  match pd.select columns d with
  | Some d' => df_alloc d'
  | None => raise (KeyError "not in index")
  end.

(** [df.drop(columns=[col])]: a new frame *)
Definition df_drop (df : loc) (col : string) : M (Self * World) loc :=
  d <- df_load df ;;
  if pd.has_column d col then df_alloc (pd.drop_column col d)
  else raise (KeyError "not found in axis").

(** [pd.concat(frames, axis=1)]: a new frame *)
Definition pd_concat (frames : list loc) : M (Self * World) loc :=
  ds <- load_all frames ;; df_alloc (pd.concat_columns ds).

(** [pd.DataFrame(values, columns=names, index=index)]: a new frame *)
Definition pd_DataFrame (values : list (list cell)) (names : list string)
    (index : list Z) : M (Self * World) loc :=
  match pd.from_rows values names index with
  | Some d => df_alloc d
  | None => raise (ValueError "Shape of passed values does not match")
  end.
End pandas_ops.

(** ** scikit-learn and NLTK *)

Module sk.

Inductive scaler_class := StandardScaler | MinMaxScaler | RobustScaler.

(** Sorted distinct values of a column, as the encoders compute their
    vocabulary: a missing value goes last, and values that are not
    uniformly strings or numbers are a [TypeError]. *)
Definition unique (y : list cell) : result (list cell) :=
  let vals := filter (λ c, c ≠ NaN) y in
  if pd.uniform vals then
    Ok (pd.sort pd.cell_leb (pd.distinct vals)
          ++ (if existsb is_nan y then [NaN] else []))
  else Raise (TypeError "Encoders require their input argument must be uniformly strings or numbers").

(** [LabelEncoder]: [classes_] is [None] until [fit]. *)
Record LabelEncoder := mkLabelEncoder { classes_ : option (list cell) }.

Definition LabelEncoder_fit (y : list cell) : result LabelEncoder :=
  result_bind (unique y) (λ cs, Ok (mkLabelEncoder (Some cs))).

Definition index_of (v : cell) (cs : list cell) : option nat :=
  fst <$> list_find (λ c, c = v) cs.

(** The code of one value; a value outside [classes_] raises. *)
Definition label_code (cs : list cell) (v : cell) : result cell :=
  match index_of v cs with
  | Some i => Ok (Num (pd.Qc_of_nat i))
  | None => Raise (ValueError "y contains previously unseen labels")
  end.

Definition LabelEncoder_transform (enc : LabelEncoder) (y : list cell)
  : result (list cell) :=
  match classes_ enc with
  | None => Raise (NotFittedError "This LabelEncoder instance is not fitted yet")
  | Some cs => result_map (label_code cs) y
  end.

(** [OneHotEncoder(sparse=False, handle_unknown='ignore')] on one feature:
    [categories_] is [None] until [fit]. *)
Record OneHotEncoder := mkOneHotEncoder { categories_ : option (list cell) }.

Definition OneHotEncoder_fit (x : list cell) : result OneHotEncoder :=
  result_bind (unique x) (λ cs, Ok (mkOneHotEncoder (Some cs))).

Definition indicator (v cat : cell) : cell :=
  Num (if decide (v = cat) then 1%Qc else 0%Qc).

(** One row of indicators per value; with [handle_unknown='ignore'] a value
    outside [categories_] matches no category. *)
Definition OneHotEncoder_transform (enc : OneHotEncoder) (x : list cell)
  : result (list (list cell)) :=
  match categories_ enc with
  | None => Raise (NotFittedError "This OneHotEncoder instance is not fitted yet")
  | Some cs => Ok (map (λ v, map (indicator v) cs) x)
  end.

End sk.

(** What the embedding takes from outside the repository as parameters. *)
Class External := {
  (** fitted parameters of a scikit-learn scaler *)
  Scaler : Type;
  (** [scaler_class().fit(X)] on one column *)
  sk_scaler_fit : sk.scaler_class → list cell → result Scaler;
  (** the fitted scaler applied to one number *)
  sk_scaler_apply : Scaler → Qc → Qc;
  (** [nltk.word_tokenize] *)
  nltk_word_tokenize : string → result (list string);
  (** [stopwords.words('english')] *)
  nltk_stopwords_english : result (list string);
  (** [PorterStemmer().stem] *)
  porter_stem : string → result string;
  (** [str] of a float, used in one-hot feature names *)
  py_str_float : Qc → string
}.

Section sklearn_objects.
Context `{External}.

(** A scaler object: created unfitted by [scaler_class()], fitted by [fit]. *)
Inductive scaler_obj :=
| Unfitted (cls : sk.scaler_class)
| Fitted (s : Scaler).

Definition scale_cell (s : Scaler) (c : cell) : result cell :=
  match c with
  | Num q => Ok (Num (sk_scaler_apply s q))
  | NaN => Ok NaN
  | Str _ => Raise (ValueError "could not convert string to float")
  end.

(** [scaler.transform(X)] on one column: element by element. *)
Definition scaler_transform (sc : scaler_obj) (x : list cell)
  : result (list cell) :=
  match sc with
  | Unfitted _ => Raise (NotFittedError "This scaler instance is not fitted yet")
  | Fitted s => result_map (scale_cell s) x
  end.

Definition py_str (c : cell) : string :=
  match c with
  | Str s => s
  | Num q => py_str_float q
  | NaN => "nan"
  end.

(** [encoder.get_feature_names_out([col])] *)
Definition get_feature_names_out (enc : sk.OneHotEncoder) (col : string)
  : result (list string) :=
  match sk.categories_ enc with
  | None => Raise (NotFittedError "This OneHotEncoder instance is not fitted yet")
  | Some cs => Ok (map (λ c, col +:+ "_" +:+ py_str c) cs)
  end.
End sklearn_objects.

(** ** Configuration ([config.yaml], already parsed) *)

Record ColumnSpec := mkColumn { col_name : string; col_type : string }.

#[global] Instance ColumnSpec_eq_dec : EqDecision ColumnSpec.
Proof. solve_decision. Defined.

Record TextConfig := mkTextConfig {
  lowercase : bool;
  remove_punctuation : bool;
  remove_stopwords : bool;
  stemming : bool
}.

Record NumericConfig := mkNumericConfig {
  num_handle_missing : string;
  scaling : string
}.

Record CategoricalConfig := mkCategoricalConfig {
  cat_handle_missing : string;
  encoding : string
}.

(** [config['dataset']['input_columns']] and [config['preprocessing']]. The
    enumerated options are kept as the strings of the file, so that values
    outside the enumeration can be expressed. *)
Record Config := mkConfig {
  input_columns : list ColumnSpec;
  text_config : TextConfig;
  numeric_config : NumericConfig;
  categorical_config : CategoricalConfig
}.

(** [[col['name'] for col in input_columns if col['type'] == data_type]] *)
Definition columns_of_type (cfg : Config) (data_type : string) : list string :=
  map col_name (filter (λ c, col_type c = data_type) (input_columns cfg)).

(** ** base_preprocessor.py *)

Section BasePreprocessor.
Context {Self : Type}.

(** [BasePreprocessor.validate_input] *)
Definition validate_input (cfg : Config) (logger : string) (data : loc)
  : M (Self * World) bool :=
  d <- df_load data ;;
  let expected_columns := map col_name (input_columns cfg) in
  let missing_columns :=
    filter (λ col, col ∉ column_names d) expected_columns in
  if bool_decide (missing_columns = []) then ret true
  else
    log logger ERROR ("Missing columns: " +:+ py_repr_list missing_columns) ;;;
    ret false.
End BasePreprocessor.

(** The abstract methods of [BasePreprocessor]. *)
Class Preprocessor (Self : Type) := {
  fit : loc → M (Self * World) unit;
  transform : loc → M (Self * World) loc
}.

(** [BasePreprocessor.fit_transform] *)
Definition fit_transform `{Preprocessor Self} (data : loc) : M (Self * World) loc :=
  fit data ;;; transform data.


(** [[f(x) for x in xs]] for a method [f] that may log or raise. *)
Fixpoint for_map {St X Y} (xs : list X) (f : X → M St Y) : M St (list Y) :=
  match xs with
  | [] => ret []
  | x :: xs' => y <- f x ;; ys <- for_map xs' f ;; ret (y :: ys)
  end.

(** ** text_preprocessor.py *)

Module TextPreprocessor.
Section with_external.
Context `{External}.

(** [self.stemmer] is [PorterStemmer()] or [None]. *)
Record t := mk {
  config : Config;
  stemmer : option unit
}.

Definition __name__ : string := "TextPreprocessor".

(** The constructor; loading the file, the log handlers and the download of
    the NLTK resources are input/output and left out. *)
Definition __init__ (cfg : Config) : t :=
  mk cfg (if stemming (text_config cfg) then Some tt else None).

Definition _preprocess_text (text : cell) : M (t * World) string :=
  try_except
    (match text with
     | Str text =>
         self <- get_self ;;
         let cfg := text_config (config self) in
         let text := if lowercase cfg then py_lower text else text in
         let text :=
           if remove_punctuation cfg then strip_punctuation text else text in
         tokens <- lift_result (nltk_word_tokenize text) ;;
         tokens <-
           (if remove_stopwords cfg then
              stop_words <- lift_result nltk_stopwords_english ;;
              ret (filter (λ token, token ∉ stop_words) tokens)
            else ret tokens) ;;
         tokens <-
           (if stemming cfg then
              match stemmer self with
              | Some _ => lift_result (result_map porter_stem tokens)
              | None =>
                  raise (AttributeError "'NoneType' object has no attribute 'stem'")
              end
            else ret tokens) ;;
         ret (String.concat " " tokens)
     | _ => ret ""
     end)
    (λ e, log __name__ ERROR ("Error processing text: " +:+ exn_str e) ;;;
          ret "").

Definition fit (data : loc) : M (t * World) unit :=
  self <- get_self ;;
  valid <- validate_input (config self) __name__ data ;;
  if negb valid then raise (ValueError "Invalid input data")
  else log __name__ DEBUG "Text preprocessor fit complete".

(** The body of the loop of [transform]:
    [df[col] = df[col].apply(self._preprocess_text)]. *)
Definition transform_column (df : loc) (col : string) : M (t * World) unit :=
  log __name__ DEBUG ("Processing text column: " +:+ col) ;;;
  s <- df_getitem df col ;;
  s' <- for_map s _preprocess_text ;;
  df_setitem df col (map Str s').

Definition transform (data : loc) : M (t * World) loc :=
  try_except
    (self <- get_self ;;
     valid <- validate_input (config self) __name__ data ;;
     if negb valid then raise (ValueError "Invalid input data")
     else
       df <- df_copy data ;;
       let text_columns := columns_of_type (config self) "text" in
       for_each text_columns (transform_column df) ;;;
       ret df)
    (λ e, log __name__ ERROR ("Error in transform: " +:+ exn_str e) ;;;
          raise e).

#[export] Instance preprocessor : Preprocessor t :=
  Build_Preprocessor t fit transform.

(** [TextPreprocessor.preprocess] *)
Definition preprocess (data : loc) : M (t * World) loc := fit_transform data.

End with_external.
End TextPreprocessor.

(** ** numeric_preprocessor.py *)

Module NumericPreprocessor.
Section with_external.
Context `{External}.

Record t := mk {
  config : Config;
  scaler_class : sk.scaler_class;
  scalers : gmap string scaler_obj
}.

Definition __name__ : string := "NumericPreprocessor".

Definition _setup_scalers (cfg : Config) : result sk.scaler_class :=
  let scaling_method := scaling (numeric_config cfg) in
  if decide (scaling_method = "standard") then Ok sk.StandardScaler
  else if decide (scaling_method = "minmax") then Ok sk.MinMaxScaler
  else if decide (scaling_method = "robust") then Ok sk.RobustScaler
  else Raise (ValueError ("Unknown scaling method: " +:+ scaling_method)).

(** The constructor (file and log set-up left out). *)
Definition __init__ (cfg : Config) : result t :=
  result_bind (_setup_scalers cfg) (λ cls, Ok (mk cfg cls ∅)).

Definition set_scaler (col : string) (sc : scaler_obj) : M (t * World) unit :=
  self <- get_self ;;
  set_self (mk (config self) (scaler_class self) (<[col := sc]> (scalers self))).

(** The body of the loop of [_handle_missing_values]. *)
Definition fill_missing (method : string) (df : loc) (col : string)
  : M (t * World) unit :=
  if decide (method = "mean") then
    s <- df_getitem df col ;;
    v <- lift_result (pd.mean s) ;;
    df_fillna_inplace df col v
  else if decide (method = "median") then
    s <- df_getitem df col ;;
    v <- lift_result (pd.median s) ;;
    df_fillna_inplace df col v
  else if decide (method = "mode") then
    s <- df_getitem df col ;;
    v <- lift_result (pd.mode0 s) ;;
    df_fillna_inplace df col v
  else
    raise (ValueError ("Unknown missing value handling method: " +:+ method)).

Definition _handle_missing_values (data : loc) (columns : list string)
  : M (t * World) loc :=
  self <- get_self ;;
  let method := num_handle_missing (numeric_config (config self)) in
  df <- df_copy data ;;
  for_each columns (fill_missing method df) ;;;
  ret df.

(** The body of the loop of [fit]:
    [self.scalers[col] = self.scaler_class()] and
    [self.scalers[col].fit(data[col].values.reshape(-1, 1))]. *)
Definition fit_column (data : loc) (col : string) : M (t * World) unit :=
  self <- get_self ;;
  set_scaler col (Unfitted (scaler_class self)) ;;;
  x <- df_getitem data col ;;
  s <- lift_result (sk_scaler_fit (scaler_class self) x) ;;
  set_scaler col (Fitted s).

Definition fit (data : loc) : M (t * World) unit :=
  try_except
    (self <- get_self ;;
     valid <- validate_input (config self) __name__ data ;;
     if negb valid then raise (ValueError "Invalid input data")
     else
       let numeric_columns := columns_of_type (config self) "numeric" in
       data <- _handle_missing_values data numeric_columns ;;
       for_each numeric_columns (fit_column data) ;;;
       log __name__ DEBUG "Numeric preprocessor fit complete")
    (λ e, log __name__ ERROR ("Error in fit: " +:+ exn_str e) ;;; raise e).

(** The body of the loop of [transform]. *)
Definition transform_column (df : loc) (col : string) : M (t * World) unit :=
  self <- get_self ;;
  match scalers self !! col with
  | Some sc =>
      x <- df_getitem df col ;;
      y <- lift_result (scaler_transform sc x) ;;
      df_setitem df col y
  | None => log __name__ WARNING ("No scaler found for column: " +:+ col)
  end.

Definition transform (data : loc) : M (t * World) loc :=
  try_except
    (self <- get_self ;;
     valid <- validate_input (config self) __name__ data ;;
     if negb valid then raise (ValueError "Invalid input data")
     else
       df <- df_copy data ;;
       let numeric_columns := columns_of_type (config self) "numeric" in
       df <- _handle_missing_values df numeric_columns ;;
       for_each numeric_columns (transform_column df) ;;;
       ret df)
    (λ e, log __name__ ERROR ("Error in transform: " +:+ exn_str e) ;;;
          raise e).

#[export] Instance preprocessor : Preprocessor t :=
  Build_Preprocessor t fit transform.

(** [NumericPreprocessor.preprocess] *)
Definition preprocess (data : loc) : M (t * World) loc := fit_transform data.

End with_external.
End NumericPreprocessor.

(** ** categorical_preprocessor.py *)

Module CategoricalPreprocessor.
Section with_external.
Context `{External}.

(** [self.encoders[col]]: a [LabelEncoder] or a [OneHotEncoder]. *)
Inductive encoder :=
| Label (enc : sk.LabelEncoder)
| OneHot (enc : sk.OneHotEncoder).

(** [self.encoding_maps[col]]: the dict from class to code of a label
    encoder, or the dict with the key ['feature_names'] of a one-hot
    encoder. *)
Inductive encoding_map :=
| ClassCodes (codes : list (cell * cell))
| FeatureNames (feature_names : list string).

Record t := mk {
  config : Config;
  encoders : gmap string encoder;
  encoding_maps : gmap string encoding_map
}.

Definition __name__ : string := "CategoricalPreprocessor".

(** The constructor (file and log set-up left out). *)
Definition __init__ (cfg : Config) : t := mk cfg ∅ ∅.

Definition set_encoder (col : string) (e : encoder) : M (t * World) unit :=
  self <- get_self ;;
  set_self (mk (config self) (<[col := e]> (encoders self)) (encoding_maps self)).

Definition set_encoding_map (col : string) (m : encoding_map)
  : M (t * World) unit :=
  self <- get_self ;;
  set_self (mk (config self) (encoders self) (<[col := m]> (encoding_maps self))).

(** The body of the loop of [_handle_missing_values]. *)
Definition fill_missing (method : string) (df : loc) (col : string)
  : M (t * World) unit :=
  if decide (method = "mode") then
    s <- df_getitem df col ;;
    v <- lift_result (pd.mode0 s) ;;
    df_fillna_inplace df col v
  else
    df_fillna_inplace df col (Str "MISSING").

Definition _handle_missing_values (data : loc) (columns : list string)
  : M (t * World) loc :=
  self <- get_self ;;
  let method := cat_handle_missing (categorical_config (config self)) in
  df <- df_copy data ;;
  for_each columns (fill_missing method df) ;;;
  ret df.

Definition _setup_encoder (column_name : string) : M (t * World) unit :=
  self <- get_self ;;
  let encoding_method := encoding (categorical_config (config self)) in
  if decide (encoding_method = "label") then
    set_encoder column_name (Label (sk.mkLabelEncoder None))
  else if decide (encoding_method = "onehot") then
    set_encoder column_name (OneHot (sk.mkOneHotEncoder None))
  else raise (ValueError ("Unknown encoding method: " +:+ encoding_method)).

Definition get_encoder (col : string) : M (t * World) encoder :=
  self <- get_self ;;
  match encoders self !! col with
  | Some e => ret e
  | None => raise (KeyError (py_repr_str col))
  end.

(** The body of the loop of [fit]. *)
Definition fit_column (data : loc) (col : string) : M (t * World) unit :=
  _setup_encoder col ;;;
  e <- get_encoder col ;;
  match e with
  | Label _ =>
      y <- df_getitem data col ;;
      enc <- lift_result (sk.LabelEncoder_fit y) ;;
      set_encoder col (Label enc) ;;;
      let classes := default [] (sk.classes_ enc) in
      codes <- lift_result (sk.LabelEncoder_transform enc classes) ;;
      set_encoding_map col (ClassCodes (zip classes codes))
  | OneHot _ =>
      x <- df_getitem data col ;;
      enc <- lift_result (sk.OneHotEncoder_fit x) ;;
      set_encoder col (OneHot enc) ;;;
      names <- lift_result (get_feature_names_out enc col) ;;
      set_encoding_map col (FeatureNames names)
  end.

Definition fit (data : loc) : M (t * World) unit :=
  try_except
    (self <- get_self ;;
     valid <- validate_input (config self) __name__ data ;;
     if negb valid then raise (ValueError "Invalid input data")
     else
       let categorical_columns := columns_of_type (config self) "categorical" in
       data <- _handle_missing_values data categorical_columns ;;
       for_each categorical_columns (fit_column data) ;;;
       log __name__ DEBUG "Categorical preprocessor fit complete")
    (λ e, log __name__ ERROR ("Error in fit: " +:+ exn_str e) ;;; raise e).

(** The body of the loop of [transform]; it returns the frame that [df]
    names after the iteration. *)
Definition transform_column (col : string) (df : loc) : M (t * World) loc :=
  self <- get_self ;;
  match encoders self !! col with
  | None =>
      log __name__ WARNING ("No encoder found for column: " +:+ col) ;;;
      ret df
  | Some (Label enc) =>
      y <- df_getitem df col ;;
      codes <- lift_result (sk.LabelEncoder_transform enc y) ;;
      df_setitem df col codes ;;;
      ret df
  | Some (OneHot enc) =>
      x <- df_getitem df col ;;
      encoded_features <- lift_result (sk.OneHotEncoder_transform enc x) ;;
      names <-
        match encoding_maps self !! col with
        | Some (FeatureNames names) => ret names
        | Some (ClassCodes _) => raise (KeyError "'feature_names'")
        | None => raise (KeyError (py_repr_str col))
        end ;;
      d <- df_load df ;;
      encoded_df <- pd_DataFrame encoded_features names (df_index d) ;;
      df <- df_drop df col ;;
      pd_concat [df; encoded_df]
  end.

Definition transform (data : loc) : M (t * World) loc :=
  try_except
    (self <- get_self ;;
     valid <- validate_input (config self) __name__ data ;;
     if negb valid then raise (ValueError "Invalid input data")
     else
       df <- df_copy data ;;
       let categorical_columns := columns_of_type (config self) "categorical" in
       df <- _handle_missing_values df categorical_columns ;;
       for_fold categorical_columns df transform_column)
    (λ e, log __name__ ERROR ("Error in transform: " +:+ exn_str e) ;;;
          raise e).

#[export] Instance preprocessor : Preprocessor t :=
  Build_Preprocessor t fit transform.

(** [CategoricalPreprocessor.preprocess] *)
Definition preprocess (data : loc) : M (t * World) loc := fit_transform data.

End with_external.
End CategoricalPreprocessor.

(** ** preprocessor_factory.py *)

Module PreprocessorFactory.
Section with_external.
Context `{External}.

(** The values of the dict [self.preprocessors]. *)
Inductive preprocessor :=
| Text (p : TextPreprocessor.t)
| Numeric (p : NumericPreprocessor.t)
| Categorical (p : CategoricalPreprocessor.t).

(** [self.preprocessors] is a dict; its items are kept in insertion order. *)
Record t := mk {
  config : Config;
  preprocessors : list (string * preprocessor)
}.

Definition _initialize_preprocessors (cfg : Config)
  : result (list (string * preprocessor)) :=
  let column_types := map col_type (input_columns cfg) in
  result_bind
    (if bool_decide ("text" ∈ column_types)
     then Ok [("text", Text (TextPreprocessor.__init__ cfg))] else Ok [])
    (λ p_text,
  result_bind
    (if bool_decide ("numeric" ∈ column_types)
     then result_bind (NumericPreprocessor.__init__ cfg)
            (λ p, Ok [("numeric", Numeric p)])
     else Ok [])
    (λ p_numeric,
  let p_categorical :=
    if bool_decide ("categorical" ∈ column_types)
    then [("categorical", Categorical (CategoricalPreprocessor.__init__ cfg))]
    else [] in
  Ok (p_text ++ p_numeric ++ p_categorical))).

Definition __init__ (cfg : Config) : result t :=
  result_bind (_initialize_preprocessors cfg) (λ ps, Ok (mk cfg ps)).

Definition _get_columns_by_type (cfg : Config) (data_type : string)
  : list string :=
  columns_of_type cfg data_type.

(** Dynamic dispatch of [preprocessor.fit] and [preprocessor.transform]. *)
Definition dispatch {A}
    (m_text : M (TextPreprocessor.t * World) A)
    (m_numeric : M (NumericPreprocessor.t * World) A)
    (m_categorical : M (CategoricalPreprocessor.t * World) A)
  : M (preprocessor * World) A :=
  λ s, match s.1 with
       | Text p => let r := m_text (p, s.2) in ((Text r.1.1, r.1.2), r.2)
       | Numeric p => let r := m_numeric (p, s.2) in ((Numeric r.1.1, r.1.2), r.2)
       | Categorical p =>
           let r := m_categorical (p, s.2) in ((Categorical r.1.1, r.1.2), r.2)
       end.

(** [preprocessor.fit(data)] and [preprocessor.transform(data)] on a value
    of the dict. *)
Definition preprocessor_fit (data : loc) : M (preprocessor * World) unit :=
  dispatch (TextPreprocessor.fit data) (NumericPreprocessor.fit data)
    (CategoricalPreprocessor.fit data).

Definition preprocessor_transform (data : loc) : M (preprocessor * World) loc :=
  dispatch (TextPreprocessor.transform data) (NumericPreprocessor.transform data)
    (CategoricalPreprocessor.transform data).

#[export] Instance preprocessor_methods : Preprocessor preprocessor :=
  Build_Preprocessor preprocessor preprocessor_fit preprocessor_transform.

Definition get_item (key : string) (ps : list (string * preprocessor))
  : option preprocessor :=
  (λ r, r.2.2) <$> list_find (λ kv, kv.1 = key) ps.

Fixpoint set_item (key : string) (p : preprocessor)
    (ps : list (string * preprocessor)) : list (string * preprocessor) :=
  match ps with
  | [] => []
  | kv :: ps' =>
      if decide (kv.1 = key) then (kv.1, p) :: ps'
      else kv :: set_item key p ps'
  end.

(** A method call on the object that the dict holds under [key]: the object
    is shared with the dict, so its new state is seen there. *)
Definition call {A} (key : string) (m : M (preprocessor * World) A)
  : M (t * World) A :=
  λ s, match get_item key (preprocessors s.1) with
       | Some p =>
           let r := m (p, s.2) in
           ((mk (config s.1) (set_item key r.1.1 (preprocessors s.1)), r.1.2),
            r.2)
       | None => (s, Raise (KeyError (py_repr_str key)))
       end.

(** The body of the loop of [fit]. *)
Definition fit_type (cfg : Config) (data : loc) (preprocessor_type : string)
  : M (t * World) unit :=
  let columns := _get_columns_by_type cfg preprocessor_type in
  if bool_decide (columns ≠ []) then
    slice <- df_getitem_list data columns ;;
    call preprocessor_type (preprocessor_fit slice)
  else ret tt.

Definition fit (data : loc) : M (t * World) unit :=
  self <- get_self ;;
  for_each (preprocessors self).*1 (fit_type (config self) data).

(** The body of the loop of [transform]; it returns the list
    [processed_dfs] after the iteration. *)
Definition transform_type (cfg : Config) (df : loc) (preprocessor_type : string)
    (processed_dfs : list loc) : M (t * World) (list loc) :=
  let columns := _get_columns_by_type cfg preprocessor_type in
  if bool_decide (columns ≠ []) then
    slice <- df_getitem_list df columns ;;
    processed_df <- call preprocessor_type (preprocessor_transform slice) ;;
    ret (processed_dfs ++ [processed_df])
  else ret processed_dfs.

Definition transform (data : loc) : M (t * World) loc :=
  df <- df_copy data ;;
  self <- get_self ;;
  processed_dfs <-
    for_fold (preprocessors self).*1 [] (transform_type (config self) df) ;;
  if bool_decide (processed_dfs ≠ []) then pd_concat processed_dfs
  else ret df.

(** [PreprocessorFactory.fit_transform] *)
Definition fit_transform (data : loc) : M (t * World) loc :=
  fit data ;;; transform data.

(** [PreprocessorFactory.get_preprocessor] *)
Definition get_preprocessor (self : t) (data_type : string)
  : option preprocessor :=
  get_item data_type (preprocessors self).

End with_external.
End PreprocessorFactory.


(** ** data_ingestion.py

    [process_data] is the caller of the factory. The functions that read
    and write files ([load_data], [save_data], [main]) and the random split
    ([split_data]) are outside of this development. *)

Module data_ingestion.
Section with_external.
Context `{External}.

(** A method call on an object held in a local variable of a function: the
    object is not part of the state of the caller, and is dropped when the
    function returns. *)
Definition on_local {Self A} (self : Self) (m : M (Self * World) A)
  : M (unit * World) A :=
  λ s, let r := m (self, s.2) in ((tt, r.1.2), r.2).

(** [process_data(df, config, logger)]. The factory reads the file
    [config.yaml], whose content is [config_yaml]; the argument [config] is
    not used by the function. [logger] is the name of the logger. *)
Definition process_data (config_yaml : Config) (df : loc) (config : Config)
    (logger : string) : M (unit * World) loc :=
  try_except
    (preprocessor <- lift_result (PreprocessorFactory.__init__ config_yaml) ;;
     processed_df <-
       on_local preprocessor (PreprocessorFactory.fit_transform df) ;;
     log logger DEBUG "Data preprocessing completed" ;;;
     ret processed_df)
    (λ e, log logger ERROR ("Error processing data: " +:+ exn_str e) ;;;
          raise e).

End with_external.
End data_ingestion.
(** * Reasoning about runs *)

(** ** Computations that touch one frame only

    The loops of the preprocessors read and update a single frame [df], the
    receiver and the log. Such a computation behaves in any world as it does
    in the world that holds nothing but that frame, at location 0:
    [sim df m m0] relates the computation [m] on the frame at [df] with the
    computation [m0] on the frame at 0, through their common outcome. *)

Definition sim {Self A} (df : loc) (m m0 : M (Self * World) A) : Prop :=
  ∀ self d, ∃ self' d' l' r,
    (∀ lg, m0 (self, mkWorld [d] lg) = ((self', mkWorld [d'] (lg ++ l')), r)) ∧
    (∀ w, heap w !! df = Some d →
          m (self, w)
          = ((self', mkWorld (<[df := d']> (heap w)) (logs w ++ l')), r)).

(** The world that holds the frame [d] only. *)
Definition mini {Self} (self : Self) (d : DataFrame) : Self * World :=
  (self, mkWorld [d] []).

(** The frame at location 0 after a run. *)
Definition frame_of {Self} (s : Self * World) (d0 : DataFrame) : DataFrame :=
  default d0 (heap s.2 !! 0%nat).


(** ** The checks and loops as functions of the frame content

    Each definition below states what a piece of the code does to the
    content of the frame it works on (or to the fitted state); the lemmas of
    the next part prove that the code computes exactly this. *)

(** The list [missing_columns] of [validate_input], and its verdict. *)
Definition missing_columns (cfg : Config) (d : DataFrame) : list string :=
  filter (λ col, col ∉ column_names d) (map col_name (input_columns cfg)).

Definition valid_input (cfg : Config) (d : DataFrame) : bool :=
  bool_decide (missing_columns cfg d = []).

(** Fill the missing cells of column [col] with a value chosen from the
    column itself. *)
Definition fill_with (choose : list cell → result cell) (col : string)
  : M DataFrame unit :=
  λ d, match pd.lookup_column col d with
       | None => (d, Raise (KeyError (py_repr_str col)))
       | Some s =>
           match choose s with
           | Ok v => (pd.update_column col (pd.fillna v) d, Ok tt)
           | Raise e => (d, Raise e)
           end
       end.

(** The statistic that the numeric policy [method] fills with. *)
Definition numeric_statistic (method : string)
  : option (list cell → result cell) :=
  if decide (method = "mean") then Some pd.mean
  else if decide (method = "median") then Some pd.median
  else if decide (method = "mode") then Some pd.mode0
  else None.

Definition numeric_fill (method : string) (col : string) : M DataFrame unit :=
  match numeric_statistic method with
  | Some stat => fill_with stat col
  | None =>
      raise (ValueError ("Unknown missing value handling method: " +:+ method))
  end.

Definition categorical_fill (method : string) (col : string) : M DataFrame unit :=
  if decide (method = "mode") then fill_with pd.mode0 col
  else fill_with (λ _, Ok (Str "MISSING")) col.

(** The value that the categorical policy [method] fills a column with. *)
Definition categorical_fill_value (method : string) (x : list cell)
  : result cell :=
  if decide (method = "mode") then pd.mode0 x else Ok (Str "MISSING").

Section pure_numeric.
Context `{External}.

(** One iteration of the loop of [NumericPreprocessor.transform]. *)
Definition scale_column (scalers : gmap string scaler_obj) (col : string)
  : M DataFrame unit :=
  λ d, match scalers !! col with
       | None => (d, Ok tt)
       | Some sc =>
           match pd.lookup_column col d with
           | None => (d, Raise (KeyError (py_repr_str col)))
           | Some x =>
               match scaler_transform sc x with
               | Ok y => (pd.set_column col y d, Ok tt)
               | Raise e => (d, Raise e)
               end
           end
       end.

(** What [NumericPreprocessor.transform] does to its copy of a valid
    table. *)
Definition numeric_transform_frame (self : NumericPreprocessor.t)
  : M DataFrame unit :=
  let cols := columns_of_type (NumericPreprocessor.config self) "numeric" in
  let method :=
    num_handle_missing (numeric_config (NumericPreprocessor.config self)) in
  for_each cols (numeric_fill method) ;;;
  for_each cols (scale_column (NumericPreprocessor.scalers self)).

(** One iteration of the loop of [NumericPreprocessor.fit], on the dict
    [self.scalers]. *)
Definition fit_scaler (cls : sk.scaler_class) (d : DataFrame) (col : string)
  : M (gmap string scaler_obj) unit :=
  λ m, match pd.lookup_column col d with
       | None => (<[col := Unfitted cls]> m, Raise (KeyError (py_repr_str col)))
       | Some x =>
           match sk_scaler_fit cls x with
           | Ok s => (<[col := Fitted s]> m, Ok tt)
           | Raise e => (<[col := Unfitted cls]> m, Raise e)
           end
       end.

(** The table that [NumericPreprocessor.transform] returns for a table with
    content [d], or the exception it raises. *)
Definition numeric_transform_pure (self : NumericPreprocessor.t) (d : DataFrame)
  : result DataFrame :=
  if valid_input (NumericPreprocessor.config self) d then
    match numeric_transform_frame self d with
    | (d', Ok _) => Ok d'
    | (_, Raise e) => Raise e
    end
  else Raise (ValueError "Invalid input data").

(** The receiver after a successful [NumericPreprocessor.fit] on a table
    with content [d], or the exception that the call raises. *)
Definition numeric_fit_pure (self : NumericPreprocessor.t) (d : DataFrame)
  : result NumericPreprocessor.t :=
  let cfg := NumericPreprocessor.config self in
  let cls := NumericPreprocessor.scaler_class self in
  let cols := columns_of_type cfg "numeric" in
  if valid_input cfg d then
    match for_each cols (numeric_fill (num_handle_missing (numeric_config cfg))) d with
    | (d', Ok _) =>
        match for_each cols (fit_scaler cls d') (NumericPreprocessor.scalers self) with
        | (m, Ok _) => Ok (NumericPreprocessor.mk cfg cls m)
        | (_, Raise e) => Raise e
        end
    | (_, Raise e) => Raise e
    end
  else Raise (ValueError "Invalid input data").

End pure_numeric.

Section pure_text.
Context `{External}.

(** The steps of [_preprocess_text] on a string, with the exception of a
    failing step. *)
Definition text_steps (self : TextPreprocessor.t) (text : string)
  : result string :=
  let cfg := text_config (TextPreprocessor.config self) in
  let text := if lowercase cfg then py_lower text else text in
  let text := if remove_punctuation cfg then strip_punctuation text else text in
  result_bind (nltk_word_tokenize text) (λ tokens,
  result_bind
    (if remove_stopwords cfg then
       result_bind nltk_stopwords_english (λ stop_words,
         Ok (filter (λ token, token ∉ stop_words) tokens))
     else Ok tokens) (λ tokens,
  result_bind
    (if stemming cfg then
       match TextPreprocessor.stemmer self with
       | Some _ => result_map porter_stem tokens
       | None => Raise (AttributeError "'NoneType' object has no attribute 'stem'")
       end
     else Ok tokens) (λ tokens,
  Ok (String.concat " " tokens)))).

(** The string that [_preprocess_text] returns for a cell. *)
Definition text_of_cell (self : TextPreprocessor.t) (c : cell) : string :=
  match c with
  | Str text =>
      match text_steps self text with Ok s => s | Raise _ => "" end
  | _ => ""
  end.

(** One iteration of the loop of [TextPreprocessor.transform]. *)
Definition text_column (self : TextPreprocessor.t) (col : string)
  : M DataFrame unit :=
  λ d, match pd.lookup_column col d with
       | None => (d, Raise (KeyError (py_repr_str col)))
       | Some s =>
           (pd.set_column col (map (λ c, Str (text_of_cell self c)) s) d, Ok tt)
       end.

(** The table that [TextPreprocessor.transform] returns for a table with
    content [d], or the exception it raises. *)
Definition text_transform_pure (self : TextPreprocessor.t) (d : DataFrame)
  : result DataFrame :=
  let cfg := TextPreprocessor.config self in
  if valid_input cfg d then
    match for_each (columns_of_type cfg "text") (text_column self) d with
    | (d', Ok _) => Ok d'
    | (_, Raise e) => Raise e
    end
  else Raise (ValueError "Invalid input data").

Definition text_fit_pure (self : TextPreprocessor.t) (d : DataFrame)
  : result TextPreprocessor.t :=
  if valid_input (TextPreprocessor.config self) d then Ok self
  else Raise (ValueError "Invalid input data").

(** The processing order in the words of the specification: lowercase,
    strip punctuation, tokenize, remove stopwords, stem, rejoin with single
    spaces; each of the four optional steps applies when it is enabled. The
    steps taken from NLTK may fail. *)
Definition spec_lowercase (cfg : TextConfig) (text : string) : string :=
  if lowercase cfg then py_lower text else text.

Definition spec_strip_punctuation (cfg : TextConfig) (text : string) : string :=
  if remove_punctuation cfg then strip_punctuation text else text.

Definition spec_tokenize (text : string) : result (list string) :=
  nltk_word_tokenize text.

Definition spec_remove_stopwords (cfg : TextConfig) (tokens : list string)
  : result (list string) :=
  if remove_stopwords cfg then
    result_bind nltk_stopwords_english (λ stop_words,
      Ok (filter (λ token, token ∉ stop_words) tokens))
  else Ok tokens.

Definition spec_stem (cfg : TextConfig) (tokens : list string)
  : result (list string) :=
  if stemming cfg then result_map porter_stem tokens else Ok tokens.

Definition spec_rejoin (tokens : list string) : string :=
  String.concat " " tokens.

Definition spec_text_pipeline (cfg : TextConfig) (text : string)
  : result string :=
  result_bind
    (spec_tokenize (spec_strip_punctuation cfg (spec_lowercase cfg text)))
    (λ tokens,
  result_bind (spec_remove_stopwords cfg tokens) (λ tokens,
  result_bind (spec_stem cfg tokens) (λ tokens,
  Ok (spec_rejoin tokens)))).

(** The per-cell function of the specification: the empty string for a cell
    that is not a string or when a step fails, else the pipeline. *)
Definition spec_process_cell (cfg : TextConfig) (c : cell) : string :=
  match c with
  | Str text =>
      match spec_text_pipeline cfg text with
      | Ok s => s
      | Raise _ => ""
      end
  | _ => ""
  end.

End pure_text.

(** A fold with a step that may raise. *)
Fixpoint result_fold {X D} (step : X → D → result D) (xs : list X) (d : D)
  : result D :=
  match xs with
  | [] => Ok d
  | x :: xs' => result_bind (step x d) (result_fold step xs')
  end.

Definition lookup_or_raise (col : string) (d : DataFrame) : result (list cell) :=
  match pd.lookup_column col d with
  | Some s => Ok s
  | None => Raise (KeyError (py_repr_str col))
  end.

Section pure_categorical.
Context `{External}.

(** One successful iteration of the loop of [CategoricalPreprocessor.fit],
    on the receiver. *)
Definition fit_encoder (d : DataFrame) (col : string)
    (self : CategoricalPreprocessor.t) : result CategoricalPreprocessor.t :=
  let cfg := CategoricalPreprocessor.config self in
  let encoding_method := encoding (categorical_config cfg) in
  if decide (encoding_method = "label") then
    result_bind (lookup_or_raise col d) (λ y,
    result_bind (sk.LabelEncoder_fit y) (λ enc,
    let classes := default [] (sk.classes_ enc) in
    result_bind (sk.LabelEncoder_transform enc classes) (λ codes,
    Ok (CategoricalPreprocessor.mk cfg
          (<[col := CategoricalPreprocessor.Label enc]>
             (CategoricalPreprocessor.encoders self))
          (<[col := CategoricalPreprocessor.ClassCodes (zip classes codes)]>
             (CategoricalPreprocessor.encoding_maps self))))))
  else if decide (encoding_method = "onehot") then
    result_bind (lookup_or_raise col d) (λ x,
    result_bind (sk.OneHotEncoder_fit x) (λ enc,
    result_bind (get_feature_names_out enc col) (λ names,
    Ok (CategoricalPreprocessor.mk cfg
          (<[col := CategoricalPreprocessor.OneHot enc]>
             (CategoricalPreprocessor.encoders self))
          (<[col := CategoricalPreprocessor.FeatureNames names]>
             (CategoricalPreprocessor.encoding_maps self))))))
  else Raise (ValueError ("Unknown encoding method: " +:+ encoding_method)).

(** The receiver after a successful [CategoricalPreprocessor.fit] on a
    table with content [d], or the exception that the call raises. *)
Definition categorical_fit_pure (self : CategoricalPreprocessor.t)
    (d : DataFrame) : result CategoricalPreprocessor.t :=
  let cfg := CategoricalPreprocessor.config self in
  let cols := columns_of_type cfg "categorical" in
  if valid_input cfg d then
    match for_each cols
            (categorical_fill (cat_handle_missing (categorical_config cfg))) d with
    | (d', Ok _) => result_fold (fit_encoder d') cols self
    | (_, Raise e) => Raise e
    end
  else Raise (ValueError "Invalid input data").

(** The feature names that the one-hot branch of [transform] reads from
    [self.encoding_maps]. *)
Definition feature_names_of (self : CategoricalPreprocessor.t) (col : string)
  : result (list string) :=
  match CategoricalPreprocessor.encoding_maps self !! col with
  | Some (CategoricalPreprocessor.FeatureNames names) => Ok names
  | Some (CategoricalPreprocessor.ClassCodes _) => Raise (KeyError "'feature_names'")
  | None => Raise (KeyError (py_repr_str col))
  end.

(** The frame of indicator columns [encoded_df]. *)
Definition encoded_frame (rows : list (list cell)) (names : list string)
    (index : list Z) : result DataFrame :=
  match pd.from_rows rows names index with
  | Some d => Ok d
  | None => Raise (ValueError "Shape of passed values does not match")
  end.

(** One iteration of the loop of [CategoricalPreprocessor.transform], on the
    content of the frame [df]. *)
Definition encode_column (self : CategoricalPreprocessor.t) (col : string)
    (d : DataFrame) : result DataFrame :=
  match CategoricalPreprocessor.encoders self !! col with
  | None => Ok d
  | Some (CategoricalPreprocessor.Label enc) =>
      result_bind (lookup_or_raise col d) (λ y,
      result_bind (sk.LabelEncoder_transform enc y) (λ codes,
      Ok (pd.set_column col codes d)))
  | Some (CategoricalPreprocessor.OneHot enc) =>
      result_bind (lookup_or_raise col d) (λ x,
      result_bind (sk.OneHotEncoder_transform enc x) (λ encoded_features,
      result_bind (feature_names_of self col) (λ names,
      result_bind (encoded_frame encoded_features names (df_index d)) (λ encoded,
      Ok (pd.concat_columns [pd.drop_column col d; encoded])))))
  end.

(** The table that [CategoricalPreprocessor.transform] returns for a table
    with content [d], or the exception it raises. *)
Definition categorical_transform_pure (self : CategoricalPreprocessor.t)
    (d : DataFrame) : result DataFrame :=
  let cfg := CategoricalPreprocessor.config self in
  let cols := columns_of_type cfg "categorical" in
  if valid_input cfg d then
    match for_each cols
            (categorical_fill (cat_handle_missing (categorical_config cfg))) d with
    | (d', Ok _) => result_fold (encode_column self) cols d'
    | (_, Raise e) => Raise e
    end
  else Raise (ValueError "Invalid input data").

End pure_categorical.

Section pure_factory.
Context `{External}.

(** Dynamic dispatch of [transform] and [fit], on contents. *)
Definition preprocessor_transform_pure (p : PreprocessorFactory.preprocessor)
    (d : DataFrame) : result DataFrame :=
  match p with
  | PreprocessorFactory.Text p => text_transform_pure p d
  | PreprocessorFactory.Numeric p => numeric_transform_pure p d
  | PreprocessorFactory.Categorical p => categorical_transform_pure p d
  end.

Definition preprocessor_fit_pure (p : PreprocessorFactory.preprocessor)
    (d : DataFrame) : result PreprocessorFactory.preprocessor :=
  match p with
  | PreprocessorFactory.Text p =>
      result_bind (text_fit_pure p d) (λ p', Ok (PreprocessorFactory.Text p'))
  | PreprocessorFactory.Numeric p =>
      result_bind (numeric_fit_pure p d) (λ p', Ok (PreprocessorFactory.Numeric p'))
  | PreprocessorFactory.Categorical p =>
      result_bind (categorical_fit_pure p d)
        (λ p', Ok (PreprocessorFactory.Categorical p'))
  end.

(** One iteration of the loop of [PreprocessorFactory.transform]: the
    contents of [processed_dfs] after the iteration for [preprocessor_type],
    on a table with content [d]. *)
Definition transform_item (self : PreprocessorFactory.t) (d : DataFrame)
    (preprocessor_type : string) (processed : list DataFrame)
  : result (list DataFrame) :=
  let columns :=
    PreprocessorFactory._get_columns_by_type (PreprocessorFactory.config self)
      preprocessor_type in
  if bool_decide (columns ≠ []) then
    match pd.select columns d with
    | None => Raise (KeyError "not in index")
    | Some slice =>
        match PreprocessorFactory.get_item preprocessor_type
                (PreprocessorFactory.preprocessors self) with
        | None => Raise (KeyError (py_repr_str preprocessor_type))
        | Some p =>
            result_bind (preprocessor_transform_pure p slice) (λ out,
            Ok (processed ++ [out]))
        end
    end
  else Ok processed.

(** The contents of [processed_dfs] after the loop. *)
Definition processed_frames (self : PreprocessorFactory.t) (d : DataFrame)
  : result (list DataFrame) :=
  result_fold (transform_item self d)
    (PreprocessorFactory.preprocessors self).*1 [].

(** The table that [PreprocessorFactory.transform] returns for a table with
    content [d], or the exception it raises. *)
Definition factory_transform_pure (self : PreprocessorFactory.t) (d : DataFrame)
  : result DataFrame :=
  result_bind (processed_frames self d) (λ processed,
  if bool_decide (processed ≠ []) then Ok (pd.concat_columns processed)
  else Ok d).

End pure_factory.

(** Two categorical preprocessors with the same configuration, encoders and
    encoding maps, except for the columns [cols]. *)
Definition agree_outside `{External} (cols : list string)
    (s1 s2 : CategoricalPreprocessor.t) : Prop :=
  CategoricalPreprocessor.config s1 = CategoricalPreprocessor.config s2 ∧
  ∀ k, k ∉ cols →
    CategoricalPreprocessor.encoders s1 !! k
    = CategoricalPreprocessor.encoders s2 !! k ∧
    CategoricalPreprocessor.encoding_maps s1 !! k
    = CategoricalPreprocessor.encoding_maps s2 !! k.

(** ** Outcomes of the methods

    [transform_outcome m pure]: called on a table with content [d], the
    method [m] leaves the receiver and every object of the heap as they are,
    and returns a new frame with content [pure self d], or raises the
    exception [pure self d]. [fit_outcome] is the same for a method that
    returns nothing and leaves the receiver [pure self d]. *)
Definition transform_outcome {Self} (m : loc → M (Self * World) loc)
    (pure : Self → DataFrame → result DataFrame) : Prop :=
  ∀ self w data d, heap w !! data = Some d →
    ∃ w', heap w `prefix_of` heap w' ∧ logs w `prefix_of` logs w' ∧
      match pure self d with
      | Ok d' =>
          ∃ out, m data (self, w) = ((self, w'), Ok out) ∧
                 heap w' !! out = Some d' ∧ length (heap w) ≤ out
      | Raise e => m data (self, w) = ((self, w'), Raise e)
      end.

Definition fit_outcome {Self} (m : loc → M (Self * World) unit)
    (pure : Self → DataFrame → result Self) : Prop :=
  ∀ self w data d, heap w !! data = Some d →
    ∃ w', heap w `prefix_of` heap w' ∧ logs w `prefix_of` logs w' ∧
      match pure self d with
      | Ok self' => m data (self, w) = ((self', w'), Ok tt)
      | Raise e => ∃ self', m data (self, w) = ((self', w'), Raise e)
      end.

(** ** Rows

    [rows_kept d d']: the table [d'] has the row labels of [d], in the same
    order, and one cell per row in every column. *)
Definition rows_kept (d d' : DataFrame) : Prop :=
  df_index d' = df_index d ∧ df_wf d'.

(** ** Frames

    [heap_intact m]: a call of the method [m] on a table leaves every object
    that the heap held before the call as it was - the table itself
    included. *)
Definition heap_intact {Self A} (m : loc → M (Self * World) A) : Prop :=
  ∀ self w data d, heap w !! data = Some d →
    ∀ l dl, heap w !! l = Some dl → heap (m data (self, w)).1.2 !! l = Some dl.

(** [keeps_rows m]: whenever the method [m] returns a table for a
    rectangular table, the result has the same row labels in the same order
    (so the same number of rows), and one cell per row in every column. *)
Definition keeps_rows {Self} (m : loc → M (Self * World) loc) : Prop :=
  ∀ self w data d s' out,
    heap w !! data = Some d → df_wf d → m data (self, w) = (s', Ok out) →
    ∃ dout, heap s'.2 !! out = Some dout ∧
            df_index dout = df_index d ∧ nrows dout = nrows d ∧ df_wf dout.

(** The warnings that [transform] logs for a column without fitted state. *)
Definition no_scaler_warning (col : string) : LogRecord :=
  mkLog NumericPreprocessor.__name__ WARNING
    ("No scaler found for column: " +:+ col).

Definition no_encoder_warning (col : string) : LogRecord :=
  mkLog CategoricalPreprocessor.__name__ WARNING
    ("No encoder found for column: " +:+ col).

(** [transform_returns m self d d']: called on a table with content [d], in
    any world, the method [m] of the receiver [self] returns a table with
    content [d']. *)
Definition transform_returns {Self} (m : loc → M (Self * World) loc)
    (self : Self) (d d' : DataFrame) : Prop :=
  ∀ w data, heap w !! data = Some d →
    ∃ w' out, m data (self, w) = ((self, w'), Ok out) ∧
              heap w' !! out = Some d'.

Section engine_output.
Context `{External}.

(** The types for which the factory holds a preprocessor and the
    configuration declares columns, in the order of the dict. *)
Definition active_types (self : PreprocessorFactory.t) : list string :=
  filter
    (λ key, PreprocessorFactory._get_columns_by_type
              (PreprocessorFactory.config self) key ≠ [])
    (PreprocessorFactory.preprocessors self).*1.

(** [out] is the table that the preprocessor under [key] returns for the
    slice of [d] with the columns of its type. *)
Definition output_of_type (self : PreprocessorFactory.t) (d : DataFrame)
    (key : string) (out : DataFrame) : Prop :=
  ∃ p slice,
    PreprocessorFactory.get_item key (PreprocessorFactory.preprocessors self)
      = Some p ∧
    pd.select
      (PreprocessorFactory._get_columns_by_type
         (PreprocessorFactory.config self) key) d = Some slice ∧
    transform_returns PreprocessorFactory.preprocessor_transform p slice out.

End engine_output.

Section unseen_categories.
Context `{External}.

(** The vocabulary that [fit] learned for a column: [classes_] of its label
    encoder or [categories_] of its one-hot encoder. *)
Definition vocabulary (self : CategoricalPreprocessor.t) (col : string)
  : option (list cell) :=
  match CategoricalPreprocessor.encoders self !! col with
  | Some (CategoricalPreprocessor.Label enc) => sk.classes_ enc
  | Some (CategoricalPreprocessor.OneHot enc) => sk.categories_ enc
  | None => None
  end.

Definition feature_name (col : string) (category : cell) : string :=
  col +:+ "_" +:+ py_str category.




(** Every categorical column has a fitted encoder of the configured kind,
    and for one-hot encoding the feature names of its categories. *)
Definition fitted_column (self : CategoricalPreprocessor.t) (col : string)
  : Prop :=
  let method :=
    encoding (categorical_config (CategoricalPreprocessor.config self)) in
  (method = "label" ∧
   ∃ cs, CategoricalPreprocessor.encoders self !! col
         = Some (CategoricalPreprocessor.Label (sk.mkLabelEncoder (Some cs)))) ∨
  (method = "onehot" ∧ method ≠ "label" ∧
   ∃ cs, CategoricalPreprocessor.encoders self !! col
         = Some (CategoricalPreprocessor.OneHot (sk.mkOneHotEncoder (Some cs))) ∧
         CategoricalPreprocessor.encoding_maps self !! col
         = Some (CategoricalPreprocessor.FeatureNames (map (feature_name col) cs))).

End unseen_categories.

(** ** Columns outside of a preprocessor's type *)

(** [same_outside cols d d']: the table [d'] has the row labels, the column
    names and their order of [d], and every column whose name is not in
    [cols] is as in [d]. *)
Definition same_outside (cols : list string) (d d' : DataFrame) : Prop :=
  df_index d' = df_index d ∧
  column_names d' = column_names d ∧
  ∀ c, c ∉ cols → pd.lookup_column c d' = pd.lookup_column c d.

(** [kept_outside cols d d']: the table [d'] has the row labels of [d], and
    every column of [d] whose name is not in [cols] is found in [d'] as it
    is in [d]. *)
Definition kept_outside (cols : list string) (d d' : DataFrame) : Prop :=
  df_index d' = df_index d ∧
  ∀ c, c ∉ cols → is_Some (pd.lookup_column c d) →
       pd.lookup_column c d' = pd.lookup_column c d.

(** ** The vocabulary of an encoder *)

(** The dict that [fit] stores for a label encoder with the classes [cs]:
    the class at position [i] has the code [i]. *)
Definition class_codes (cs : list cell) : list (cell * cell) :=
  imap (λ i c, (c, Num (pd.Qc_of_nat i))) cs.

Section stored_state.
Context `{External}.

(** What [fit] stores for a categorical column with the vocabulary [cs]:
    with label encoding a fitted label encoder and the dict of the codes,
    with one-hot encoding a fitted one-hot encoder and the feature names. *)
Definition stored_for (self : CategoricalPreprocessor.t) (col : string)
    (cs : list cell) : Prop :=
  let method :=
    encoding (categorical_config (CategoricalPreprocessor.config self)) in
  (method = "label" ∧
   CategoricalPreprocessor.encoders self !! col
   = Some (CategoricalPreprocessor.Label (sk.mkLabelEncoder (Some cs))) ∧
   CategoricalPreprocessor.encoding_maps self !! col
   = Some (CategoricalPreprocessor.ClassCodes (class_codes cs))) ∨
  (method = "onehot" ∧ method ≠ "label" ∧
   CategoricalPreprocessor.encoders self !! col
   = Some (CategoricalPreprocessor.OneHot (sk.mkOneHotEncoder (Some cs))) ∧
   CategoricalPreprocessor.encoding_maps self !! col
   = Some (CategoricalPreprocessor.FeatureNames (map (feature_name col) cs))).

End stored_state.

Section factory_state.
Context `{External}.

(** The configuration that a preprocessor of the factory holds. *)
Definition preprocessor_config (p : PreprocessorFactory.preprocessor) : Config :=
  match p with
  | PreprocessorFactory.Text p => TextPreprocessor.config p
  | PreprocessorFactory.Numeric p => NumericPreprocessor.config p
  | PreprocessorFactory.Categorical p => CategoricalPreprocessor.config p
  end.

(** The key under which the constructor stores a preprocessor. *)
Definition preprocessor_kind (p : PreprocessorFactory.preprocessor) : string :=
  match p with
  | PreprocessorFactory.Text _ => "text"
  | PreprocessorFactory.Numeric _ => "numeric"
  | PreprocessorFactory.Categorical _ => "categorical"
  end.

(** Every preprocessor of the factory holds the configuration of the
    factory and is stored under the key of its class, as after the
    constructor. *)
Definition same_config (self : PreprocessorFactory.t) : Prop :=
  Forall (λ kv, preprocessor_config kv.2 = PreprocessorFactory.config self ∧
                preprocessor_kind kv.2 = kv.1)
    (PreprocessorFactory.preprocessors self).

End factory_state.

(** ** Row by row *)

(** [by_row f x y]: the column [y] has one cell per cell of [x], and its
    cell in row [i] is the value of [f] on the cell of [x] in row [i]. *)
Definition by_row (f : cell → result cell) (x y : list cell) : Prop :=
  length y = length x ∧
  ∀ i v, x !! i = Some v → ∃ v', f v = Ok v' ∧ y !! i = Some v'.

(** One cell of [Series.fillna(u)]. *)
Definition fill_cell (u v : cell) : cell := if is_nan v then u else v.

(** Entry [j] of the row of indicators that a one-hot encoder with the
    categories [cs] computes for the value [v]. *)
Definition indicator_at (cs : list cell) (j : nat) (v : cell) : cell :=
  default NaN (sk.indicator v <$> cs !! j).

(** [slice_rows cols d slice]: the table [slice] has the row labels of [d]
    and the columns [cols], each as it is in [d]. *)
Definition slice_rows (cols : list string) (d slice : DataFrame) : Prop :=
  df_index slice = df_index d ∧ column_names slice = cols ∧
  ∀ c, c ∈ cols → pd.lookup_column c slice = pd.lookup_column c d.

Section rows_of_transforms.
Context `{External}.

(** One cell of [scaler.transform]. *)
Definition scaler_cell (sc : scaler_obj) (v : cell) : result cell :=
  match sc with
  | Unfitted _ => Raise (NotFittedError "This scaler instance is not fitted yet")
  | Fitted s => scale_cell s v
  end.

(** What the numeric [transform] computes for one cell of the column [col]
    with the fill value [u]: the cell is filled, then scaled with the
    scaler of the column when there is one. *)
Definition numeric_cell (self : NumericPreprocessor.t) (col : string)
    (u v : cell) : result cell :=
  match NumericPreprocessor.scalers self !! col with
  | Some sc => scaler_cell sc (fill_cell u v)
  | None => Ok (fill_cell u v)
  end.

(** [text_rows self d dout]: [dout] is [d] with every text column replaced,
    row by row, by the result of the per-cell function. *)
Definition text_rows (self : TextPreprocessor.t) (d dout : DataFrame) : Prop :=
  let cols := columns_of_type (TextPreprocessor.config self) "text" in
  same_outside cols d dout ∧
  (NoDup cols → ∀ c, c ∈ cols → ∃ x y,
     pd.lookup_column c d = Some x ∧ pd.lookup_column c dout = Some y ∧
     by_row (λ v, Ok (Str (text_of_cell self v))) x y).

(** [numeric_rows self d dout]: [dout] is [d] with every numeric column
    replaced, row by row, by its filled and scaled cells; the fill value is
    the statistic of the column of [d]. *)
Definition numeric_rows (self : NumericPreprocessor.t) (d dout : DataFrame)
  : Prop :=
  let cfg := NumericPreprocessor.config self in
  let cols := columns_of_type cfg "numeric" in
  same_outside cols d dout ∧
  (NoDup cols → ∀ c, c ∈ cols → ∃ stat x u y,
     numeric_statistic (num_handle_missing (numeric_config cfg)) = Some stat ∧
     pd.lookup_column c d = Some x ∧ stat x = Ok u ∧
     pd.lookup_column c dout = Some y ∧
     by_row (numeric_cell self c u) x y).

(** How the categorical [transform] computes a column of its result, with
    the name [n] and the cells [y], from the categorical column [c] of the
    table, with the cells [x] and the fill value [u]: without encoder the
    filled cells; with a label encoder the codes of the filled cells; with
    a one-hot encoder, for a feature name [n], the indicators of the filled
    cells for the category of that name. *)
Definition categorical_column (self : CategoricalPreprocessor.t) (c : string)
    (u : cell) (x : list cell) (n : string) (y : list cell) : Prop :=
  match CategoricalPreprocessor.encoders self !! c with
  | None => n = c ∧ by_row (λ v, Ok (fill_cell u v)) x y
  | Some (CategoricalPreprocessor.Label enc) =>
      n = c ∧ ∃ cs, sk.classes_ enc = Some cs ∧
                    by_row (λ v, sk.label_code cs (fill_cell u v)) x y
  | Some (CategoricalPreprocessor.OneHot enc) =>
      ∃ cs names j,
        sk.categories_ enc = Some cs ∧
        CategoricalPreprocessor.encoding_maps self !! c
        = Some (CategoricalPreprocessor.FeatureNames names) ∧
        names !! j = Some n ∧
        by_row (λ v, Ok (indicator_at cs j (fill_cell u v))) x y
  end.

(** The loop of the categorical [transform] on the filled table [d1],
    after the columns [treated]: a column [n] with the cells [y] of the
    current frame is a column of [d1] that the loop has not changed, or the
    codes, or the indicators for one category, of a treated column. *)
Definition encoded_column (self : CategoricalPreprocessor.t) (d1 : DataFrame)
    (treated : list string) (n : string) (y : list cell) : Prop :=
  (pd.lookup_column n d1 = Some y ∧
   ((n ∉ treated) ∨ CategoricalPreprocessor.encoders self !! n = None)) ∨
  ∃ c x,
    c ∈ treated ∧ pd.lookup_column c d1 = Some x ∧
    match CategoricalPreprocessor.encoders self !! c with
    | None => False
    | Some (CategoricalPreprocessor.Label enc) =>
        n = c ∧ ∃ cs, sk.classes_ enc = Some cs ∧ by_row (sk.label_code cs) x y
    | Some (CategoricalPreprocessor.OneHot enc) =>
        ∃ cs names j,
          sk.categories_ enc = Some cs ∧
          CategoricalPreprocessor.encoding_maps self !! c
          = Some (CategoricalPreprocessor.FeatureNames names) ∧
          names !! j = Some n ∧
          by_row (λ v, Ok (indicator_at cs j v)) x y
    end.

(** [categorical_rows self d dout]: [dout] has the row labels of [d], the
    columns of [d] that are not categorical are found in it as they are,
    and every column of [dout] is such a column or is computed row by row
    from a categorical column of [d]. *)
Definition categorical_rows (self : CategoricalPreprocessor.t)
    (d dout : DataFrame) : Prop :=
  let cfg := CategoricalPreprocessor.config self in
  let cols := columns_of_type cfg "categorical" in
  kept_outside cols d dout ∧
  (NoDup cols → ∀ n y, pd.lookup_column n dout = Some y →
     ((n ∉ cols) ∧ pd.lookup_column n d = Some y) ∨
     ∃ c x u,
       c ∈ cols ∧ pd.lookup_column c d = Some x ∧
       categorical_fill_value (cat_handle_missing (categorical_config cfg)) x
       = Ok u ∧
       categorical_column self c u x n y).

Definition preprocessor_rows (p : PreprocessorFactory.preprocessor)
    (d dout : DataFrame) : Prop :=
  match p with
  | PreprocessorFactory.Text p => text_rows p d dout
  | PreprocessorFactory.Numeric p => numeric_rows p d dout
  | PreprocessorFactory.Categorical p => categorical_rows p d dout
  end.

(** [rows_of_type self d key out]: [out] is computed row by row, by the
    preprocessor that the factory holds under [key], from the slice of [d]
    with the columns that the configuration declares with the type
    [key]. *)
Definition rows_of_type (self : PreprocessorFactory.t) (d : DataFrame)
    (key : string) (out : DataFrame) : Prop :=
  let columns :=
    PreprocessorFactory._get_columns_by_type
      (PreprocessorFactory.config self) key in
  ∃ p slice,
    PreprocessorFactory.get_item key (PreprocessorFactory.preprocessors self)
      = Some p ∧
    pd.select columns d = Some slice ∧
    slice_rows columns d slice ∧
    preprocessor_rows p slice out.

(** [n] is a feature name that a categorical preprocessor of the factory
    has stored for one of its one-hot encoded columns. *)
Definition stored_feature_name (self : PreprocessorFactory.t) (n : string)
  : Prop :=
  ∃ key p c names,
    PreprocessorFactory.get_item key (PreprocessorFactory.preprocessors self)
      = Some (PreprocessorFactory.Categorical p) ∧
    CategoricalPreprocessor.encoding_maps p !! c
      = Some (CategoricalPreprocessor.FeatureNames names) ∧
    n ∈ names.

End rows_of_transforms.

(** ** A concrete instance of the parameters, for examples

    Min-max scaling (the examples configure [minmax]), tokens split at
    spaces, three stopwords and a stemmer that changes nothing. *)

Definition minmax_fit (x : list cell) : result (Qc * Qc) :=
  if existsb is_str x then Raise (ValueError "could not convert string to float")
  else match pd.sort pd.Qc_leb (pd.numbers x) with
       | [] => Raise (ValueError "Found array with 0 sample(s)")
       | lo :: rest => Ok (lo, List.last rest lo)
       end.

Definition minmax_apply (p : Qc * Qc) (q : Qc) : Qc :=
  ((q - p.1) / (if decide (p.2 - p.1 = 0) then 1 else p.2 - p.1))%Qc.

Definition example_external : External := {|
  Scaler := Qc * Qc;
  sk_scaler_fit := λ _ x, minmax_fit x;
  sk_scaler_apply := minmax_apply;
  nltk_word_tokenize := λ s, Ok (filter (λ t, t ≠ EmptyString) (String.words s));
  nltk_stopwords_english := Ok ["the"; "a"; "is"];
  porter_stem := λ s, Ok s;
  py_str_float := λ q, "num"
|}.

Definition num (z : Z) : cell := Num (Q2Qc (inject_Z z)).

Definition example_text_config : TextConfig := mkTextConfig true true true true.

(** The scenario of the specification: a numeric column [age] and a
    categorical column [city]. *)
Definition example_config (scaling_method encoding_method : string) : Config :=
  mkConfig [mkColumn "age" "numeric"; mkColumn "city" "categorical"]
    example_text_config
    (mkNumericConfig "mean" scaling_method)
    (mkCategoricalConfig "mode" encoding_method).

Definition example_fit_table : DataFrame :=
  mkDF [0; 1; 2]%Z
    [("age", [num 10; num 20; NaN]); ("city", [Str "A"; Str "B"; Str "A"])].

Definition example_transform_table : DataFrame :=
  mkDF [0; 1]%Z [("age", [num 100; NaN]); ("city", [Str "C"; Str "A"])].

Definition example_text_table : DataFrame :=
  mkDF [0; 1; 2]%Z [("note", [Str "The Cat, is here"; NaN; num 3])].

Definition example_text_only : Config :=
  mkConfig [mkColumn "note" "text"] example_text_config
    (mkNumericConfig "mean" "minmax") (mkCategoricalConfig "mode" "label").

(** The numeric preprocessor of the scenario with min-max scaling, as the
    constructor builds it, and a world that holds the two tables. *)
Definition example_numeric : NumericPreprocessor.t (H:=example_external) :=
  NumericPreprocessor.mk (example_config "minmax" "label") sk.MinMaxScaler ∅.

Definition example_world : World :=
  mkWorld [example_fit_table; example_transform_table] [].

(** A configuration with a categorical column whose missing-value policy
    and encoding method are not among the documented options. *)
Definition example_unknown_options (encoding_method : string) : Config :=
  mkConfig [mkColumn "city" "categorical"] example_text_config
    (mkNumericConfig "mean" "minmax")
    (mkCategoricalConfig "bogus" encoding_method).

Definition example_city_table : DataFrame :=
  mkDF [0; 1]%Z [("city", [Str "A"; NaN])].

(** A configuration that declares one column, of a type without a
    preprocessor, and a table with that column. *)
Definition example_other_config : Config :=
  mkConfig [mkColumn "id" "other"] example_text_config
    (mkNumericConfig "mean" "minmax") (mkCategoricalConfig "mode" "label").

Definition example_other_table : DataFrame :=
  mkDF [0; 1]%Z [("id", [num 7; num 8])].

(** The factory of the scenario (a numeric and a categorical column). *)
Definition example_factory : PreprocessorFactory.t (H:=example_external) :=
  PreprocessorFactory.mk (example_config "minmax" "label")
    [("numeric", PreprocessorFactory.Numeric example_numeric);
     ("categorical",
      PreprocessorFactory.Categorical
        (CategoricalPreprocessor.__init__ (example_config "minmax" "label")))].

(** The slice of the fit table that the factory passes to the numeric
    preprocessor. *)
Definition example_numeric_slice : DataFrame :=
  mkDF [0; 1; 2]%Z [("age", [num 10; num 20; NaN])].

(** A configuration with one numeric column, and its factory as the
    constructor builds it. *)
Definition example_numeric_only : Config :=
  mkConfig [mkColumn "age" "numeric"] example_text_config
    (mkNumericConfig "mean" "minmax") (mkCategoricalConfig "mode" "label").

Definition example_numeric_factory : PreprocessorFactory.t (H:=example_external) :=
  PreprocessorFactory.mk example_numeric_only
    [("numeric",
      PreprocessorFactory.Numeric
        (NumericPreprocessor.mk example_numeric_only sk.MinMaxScaler ∅))].

(** A numeric preprocessor whose missing-value policy is not among the
    documented options. *)
Definition example_unknown_policy : NumericPreprocessor.t (H:=example_external) :=
  NumericPreprocessor.mk
    (mkConfig [mkColumn "age" "numeric"; mkColumn "city" "categorical"]
       example_text_config
       (mkNumericConfig "bogus" "minmax") (mkCategoricalConfig "mode" "label"))
    sk.MinMaxScaler ∅.

(** The categorical preprocessor of the scenario after [fit] on the fit
    table, with the given encoding method. *)
Definition example_categorical (encoding_method : string)
  : CategoricalPreprocessor.t :=
  (CategoricalPreprocessor.fit (H:=example_external) 0%nat
     (CategoricalPreprocessor.__init__ (example_config "minmax" encoding_method),
      example_world)).1.1.

(** The numeric preprocessor of the scenario with the policy [mode], and a
    table with a string in its numeric column and a number in its
    categorical column. *)
Definition example_mode_numeric : NumericPreprocessor.t (H:=example_external) :=
  NumericPreprocessor.mk
    (mkConfig [mkColumn "age" "numeric"; mkColumn "city" "categorical"]
       example_text_config
       (mkNumericConfig "mode" "minmax") (mkCategoricalConfig "mode" "label"))
    sk.MinMaxScaler ∅.

Definition example_dirty_table : DataFrame :=
  mkDF [0; 1; 2]%Z
    [("age", [num 10; Str "n/a"; NaN]); ("city", [Str "A"; num 3; Str "B"])].

Definition example_dirty_world : World :=
  mkWorld [example_dirty_table; example_transform_table] [].

(** A configuration with one categorical column, label encoded, and its
    factory as the constructor builds it. *)
Definition example_city_only : Config :=
  mkConfig [mkColumn "city" "categorical"] example_text_config
    (mkNumericConfig "mean" "minmax") (mkCategoricalConfig "mode" "label").

Definition example_city_factory : PreprocessorFactory.t (H:=example_external) :=
  PreprocessorFactory.mk example_city_only
    [("categorical",
      PreprocessorFactory.Categorical
        (CategoricalPreprocessor.__init__ example_city_only))].

(** A table with a string in the numeric column of the scenario. *)
Definition example_string_table : DataFrame :=
  mkDF [0; 1]%Z [("age", [num 1; Str "x"]); ("city", [Str "A"; Str "B"])].
(** Closed decidable goals, by evaluation. *)
Ltac by_compute := apply (bool_decide_unpack _); vm_compute; exact I.

(** A run with a known result. *)
Lemma run_eq {St A} (p : St * result A) (r : result A) :
  p.2 = r → p = (p.1, r).
Proof. destruct p as [s r']. simpl. by intros ->. Qed.

Lemma run_eq_world {Self A} (p : (Self * World) * result A) (r : result A) :
  p.2 = r → p = ((p.1.1, p.1.2), r).
Proof. destruct p as [[s w] r']. simpl. by intros ->. Qed.

Section sim_rules.
Context {Self : Type}.
Implicit Types (df : loc) (s : Self * World).

Lemma sim_run {A} df (m m0 : M (Self * World) A) self w d :
  sim df m m0 → heap w !! df = Some d →
  m (self, w) =
  let r := m0 (mini self d) in
  ((r.1.1, mkWorld (<[df := frame_of r.1 d]> (heap w)) (logs w ++ logs r.1.2)),
   r.2).
Proof.
  intros Hsim Hd. destruct (Hsim self d) as (self' & d' & l' & r & H0 & H1).
  rewrite (H1 w Hd). unfold mini. by rewrite (H0 []).
Qed.

Lemma sim_pure {A} df (m : M (Self * World) A) (f : Self → result A) :
  (∀ s, m s = (s, f s.1)) → sim df m m.
Proof.
  intros Hm self d. exists self, d, [], (f self). split.
  - intros lg. rewrite Hm. simpl. by rewrite app_nil_r.
  - intros [h lg] Hd. rewrite Hm. simpl in *.
    by rewrite app_nil_r, list_insert_id.
Qed.

Lemma sim_ret {A} df (a : A) : sim (Self:=Self) df (ret a) (ret a).
Proof. by apply (sim_pure df _ (λ _, Ok a)). Qed.

Lemma sim_raise {A} df e : sim (Self:=Self) df (raise (A:=A) e) (raise e).
Proof. by apply (sim_pure df _ (λ _, Raise e)). Qed.

Lemma sim_lift_result {A} df (r : result A) :
  sim (Self:=Self) df (lift_result r) (lift_result r).
Proof. by apply (sim_pure df _ (λ _, r)). Qed.

Lemma sim_get_self df : sim (Self:=Self) df get_self get_self.
Proof. by apply (sim_pure df _ (λ self, Ok self)). Qed.

Lemma sim_set_self df (x : Self) : sim df (set_self x) (set_self x).
Proof.
  intros self d. exists x, d, [], (Ok tt). split.
  - intros lg. unfold set_self. simpl. by rewrite app_nil_r.
  - intros [h lg] Hd. unfold set_self. simpl in *.
    by rewrite app_nil_r, list_insert_id.
Qed.

Lemma sim_log df name lv msg :
  sim (Self:=Self) df (log name lv msg) (log name lv msg).
Proof.
  intros self d. exists self, d, [mkLog name lv msg], (Ok tt). split.
  - done.
  - intros [h lg] Hd. unfold log. simpl in *. by rewrite list_insert_id.
Qed.

Lemma sim_bind {A B} df (m m0 : M (Self * World) A)
    (f f0 : A → M (Self * World) B) :
  sim df m m0 → (∀ a, sim df (f a) (f0 a)) → sim df (bind m f) (bind m0 f0).
Proof.
  intros Hm Hf self d.
  destruct (Hm self d) as (self1 & d1 & l1 & [a|e] & H0 & H1).
  - destruct (Hf a self1 d1) as (self2 & d2 & l2 & r2 & G0 & G1).
    exists self2, d2, (l1 ++ l2), r2. split.
    + intros lg. unfold bind. rewrite H0, G0. by rewrite app_assoc.
    + intros w Hd. unfold bind. rewrite (H1 w Hd).
      rewrite G1; simpl.
      * by rewrite list_insert_insert_eq, app_assoc.
      * rewrite list_lookup_insert_eq; [done|]. by eapply lookup_lt_Some.
  - exists self1, d1, l1, (Raise e). split.
    + intros lg. unfold bind. by rewrite H0.
    + intros w Hd. unfold bind. by rewrite (H1 w Hd).
Qed.

Lemma sim_try_except {A} df (m m0 : M (Self * World) A) h h0 :
  sim df m m0 → (∀ e, sim df (h e) (h0 e)) →
  sim df (try_except m h) (try_except m0 h0).
Proof.
  intros Hm Hh self d.
  destruct (Hm self d) as (self1 & d1 & l1 & [a|e] & H0 & H1).
  - exists self1, d1, l1, (Ok a). split.
    + intros lg. unfold try_except. by rewrite H0.
    + intros w Hd. unfold try_except. by rewrite (H1 w Hd).
  - destruct (Hh e self1 d1) as (self2 & d2 & l2 & r2 & G0 & G1).
    exists self2, d2, (l1 ++ l2), r2. split.
    + intros lg. unfold try_except. rewrite H0, G0. by rewrite app_assoc.
    + intros w Hd. unfold try_except. rewrite (H1 w Hd).
      rewrite G1; simpl.
      * by rewrite list_insert_insert_eq, app_assoc.
      * rewrite list_lookup_insert_eq; [done|]. by eapply lookup_lt_Some.
Qed.

Lemma sim_for_each {X} df (xs : list X) (body body0 : X → M (Self * World) unit) :
  (∀ x, sim df (body x) (body0 x)) →
  sim df (for_each xs body) (for_each xs body0).
Proof.
  intros Hb. induction xs as [|x xs IH]; simpl.
  - apply sim_ret.
  - apply sim_bind; [apply Hb|done].
Qed.

Lemma sim_for_map {X Y} df (xs : list X) (f f0 : X → M (Self * World) Y) :
  (∀ x, sim df (f x) (f0 x)) → sim df (for_map xs f) (for_map xs f0).
Proof.
  intros Hb. induction xs as [|x xs IH]; simpl.
  - apply sim_ret.
  - apply sim_bind; [apply Hb|]. intros y.
    apply sim_bind; [done|]. intros ys. apply sim_ret.
Qed.

(** The operations on the frame itself. *)

Lemma sim_df_load df : sim (Self:=Self) df (df_load df) (df_load 0%nat).
Proof.
  intros self d. exists self, d, [], (Ok d). split.
  - intros lg. unfold df_load. simpl. by rewrite app_nil_r.
  - intros [h lg] Hd. unfold df_load. simpl in *. rewrite Hd.
    by rewrite app_nil_r, list_insert_id.
Qed.

Lemma sim_df_store df d' : sim (Self:=Self) df (df_store df d') (df_store 0%nat d').
Proof.
  intros self d. exists self, d', [], (Ok tt). split.
  - intros lg. unfold df_store. simpl. by rewrite app_nil_r.
  - intros [h lg] Hd. unfold df_store. simpl in *. rewrite Hd.
    by rewrite app_nil_r.
Qed.

Lemma sim_df_getitem df col :
  sim (Self:=Self) df (df_getitem df col) (df_getitem 0%nat col).
Proof.
  apply sim_bind; [apply sim_df_load|]. intros d.
  destruct (pd.lookup_column col d); [apply sim_ret|apply sim_raise].
Qed.

Lemma sim_df_fillna_inplace df col v :
  sim (Self:=Self) df (df_fillna_inplace df col v)
    (df_fillna_inplace 0%nat col v).
Proof.
  apply sim_bind; [apply sim_df_load|]. intros d.
  destruct (pd.has_column d col); [apply sim_df_store|apply sim_raise].
Qed.

Lemma sim_df_setitem df col vals :
  sim (Self:=Self) df (df_setitem df col vals) (df_setitem 0%nat col vals).
Proof.
  apply sim_bind; [apply sim_df_load|]. intros d. apply sim_df_store.
Qed.

End sim_rules.

(** One step of a proof of [sim] by the structure of the computation. *)
Ltac sim_step :=
  first
    [ apply sim_ret | apply sim_raise | apply sim_lift_result | apply sim_log
    | apply sim_get_self | apply sim_set_self | apply sim_df_getitem
    | apply sim_df_fillna_inplace | apply sim_df_setitem | apply sim_df_load
    | apply sim_df_store
    | apply sim_bind; [|intros ?]
    | apply sim_try_except; [|intros ?]
    | match goal with
      | |- sim _ (match ?x with _ => _ end) _ => destruct x
      | |- sim _ (let _ := _ in _) _ => cbv zeta
      end ].

(** ** Runs of the primitive operations *)

(** Goals [l `prefix_of` ((l ++ a) ++ b) ++ c]. *)
Ltac solve_prefix :=
  simpl; rewrite <- ?app_assoc;
  first [reflexivity | apply prefix_app_r; reflexivity].

Section run_rules.
Context {Self : Type}.

Lemma find_column_Some col cs s :
  pd.find_column col cs = Some s → (col, s) ∈ cs.
Proof.
  induction cs as [|[n x] cs IH]; simpl; [done|].
  case_decide as Hn; simpl in *.
  - intros [= ->]. subst. apply list_elem_of_here.
  - intros Hs. apply list_elem_of_further. by apply IH.
Qed.

Lemma find_column_is_Some col cs :
  is_Some (pd.find_column col cs) ↔ col ∈ cs.*1.
Proof.
  induction cs as [|[n x] cs IH]; simpl.
  - split; [by intros [? ?]|]. by intros ?%elem_of_nil.
  - case_decide as Hn; simpl in *.
    + subst. split; [intros _; apply list_elem_of_here|by eexists].
    + rewrite IH. split; [apply list_elem_of_further|].
      intros [?|?]%elem_of_cons; [congruence|done].
Qed.

Lemma lookup_column_has_column col d s :
  pd.lookup_column col d = Some s → pd.has_column d col = true.
Proof.
  unfold pd.lookup_column, pd.has_column, column_names. intros Hl.
  apply bool_decide_eq_true. apply find_column_is_Some. by eexists.
Qed.

Lemma has_column_lookup_column col d :
  pd.has_column d col = true → is_Some (pd.lookup_column col d).
Proof.
  unfold pd.lookup_column, pd.has_column, column_names. intros Hl.
  apply bool_decide_eq_true in Hl. by apply find_column_is_Some.
Qed.

Lemma insert_snoc (h : list DataFrame) d d' :
  <[length h := d']> (h ++ [d]) = h ++ [d'].
Proof.
  rewrite insert_app_r_alt by lia. by rewrite Nat.sub_diag.
Qed.

Lemma lookup_snoc (h : list DataFrame) d : (h ++ [d]) !! length h = Some d.
Proof. by apply list_lookup_middle. Qed.

(** [validate_input] reads the frame and may log. *)
Lemma validate_input_run cfg name data (self : Self) w d :
  heap w !! data = Some d →
  validate_input cfg name data (self, w) =
  ((self,
    mkWorld (heap w)
      (logs w ++
       if valid_input cfg d then []
       else [mkLog name ERROR
               ("Missing columns: " +:+ py_repr_list (missing_columns cfg d))])),
   Ok (valid_input cfg d)).
Proof.
  intros Hd. unfold validate_input, bind, df_load. simpl. rewrite Hd.
  unfold valid_input, missing_columns. case_bool_decide; simpl.
  - unfold ret. destruct w. simpl. by rewrite app_nil_r.
  - done.
Qed.

Lemma df_copy_run data (self : Self) w d :
  heap w !! data = Some d →
  df_copy data (self, w)
  = ((self, mkWorld (heap w ++ [d]) (logs w)), Ok (length (heap w))).
Proof. intros Hd. unfold df_copy, bind, df_load, df_alloc. simpl. by rewrite Hd. Qed.

Lemma prefix_insert_ge (h0 h : list DataFrame) i x :
  h0 `prefix_of` h → length h0 ≤ i → h0 `prefix_of` <[i := x]> h.
Proof.
  intros [k ->] Hi. rewrite insert_app_r_alt by done. by apply prefix_app_r.
Qed.

Lemma prefix_snoc (h0 h : list DataFrame) x :
  h0 `prefix_of` h → h0 `prefix_of` h ++ [x].
Proof. apply prefix_app_r. Qed.

Lemma prefix_length_le (h0 h : list DataFrame) :
  h0 `prefix_of` h → length h0 ≤ length h.
Proof. apply prefix_length. Qed.

Lemma df_load_run df (self : Self) w d :
  heap w !! df = Some d → df_load df (self, w) = ((self, w), Ok d).
Proof. intros Hd. unfold df_load. simpl. by rewrite Hd. Qed.

Lemma df_getitem_run df col (self : Self) w d :
  heap w !! df = Some d →
  df_getitem df col (self, w) = ((self, w), lookup_or_raise col d).
Proof.
  intros Hd. unfold df_getitem, bind, lookup_or_raise.
  rewrite (df_load_run df self w d Hd). by destruct (pd.lookup_column col d).
Qed.

Lemma df_setitem_run df col vals (self : Self) w d :
  heap w !! df = Some d →
  df_setitem df col vals (self, w)
  = ((self, mkWorld (<[df := pd.set_column col vals d]> (heap w)) (logs w)),
     Ok tt).
Proof.
  intros Hd. unfold df_setitem, bind.
  rewrite (df_load_run df self w d Hd). unfold df_store. simpl. by rewrite Hd.
Qed.

Lemma df_drop_run df col (self : Self) w d :
  heap w !! df = Some d → pd.has_column d col = true →
  df_drop df col (self, w)
  = ((self, mkWorld (heap w ++ [pd.drop_column col d]) (logs w)),
     Ok (length (heap w))).
Proof.
  intros Hd Hc. unfold df_drop, bind.
  rewrite (df_load_run df self w d Hd). by rewrite Hc.
Qed.

Lemma df_getitem_list_run data cols (self : Self) w d :
  heap w !! data = Some d →
  df_getitem_list data cols (self, w)
  = match pd.select cols d with
    | Some d' =>
        ((self, mkWorld (heap w ++ [d']) (logs w)), Ok (length (heap w)))
    | None => ((self, w), Raise (KeyError "not in index"))
    end.
Proof.
  intros Hd. unfold df_getitem_list, bind.
  rewrite (df_load_run data self w d Hd). by destruct (pd.select cols d).
Qed.

Lemma load_all_run (ls : list loc) (ds : list DataFrame) (self : Self) w :
  Forall2 (λ l d, heap w !! l = Some d) ls ds →
  load_all ls (self, w) = ((self, w), Ok ds).
Proof.
  induction 1 as [|l d ls ds Hl _ IH]; simpl; [done|].
  unfold bind. rewrite (df_load_run l self w d Hl). by rewrite IH.
Qed.

Lemma pd_concat_run (ls : list loc) (ds : list DataFrame) (self : Self) w :
  Forall2 (λ l d, heap w !! l = Some d) ls ds →
  pd_concat ls (self, w)
  = ((self, mkWorld (heap w ++ [pd.concat_columns ds]) (logs w)),
     Ok (length (heap w))).
Proof.
  intros Hl. unfold pd_concat, bind. by rewrite (load_all_run ls ds self w Hl).
Qed.

(** A loop whose body acts on the content of the frame only. *)
Lemma for_each_mini_frame {X} (body : X → M (Self * World) unit)
    (step : Self → X → M DataFrame unit) (xs : list X) :
  (∀ x self d lg, ∃ l',
      body x (self, mkWorld [d] lg)
      = ((self, mkWorld [(step self x d).1] (lg ++ l')), (step self x d).2)) →
  ∀ self d lg, ∃ l',
    for_each xs body (self, mkWorld [d] lg)
    = ((self, mkWorld [(for_each xs (step self) d).1] (lg ++ l')),
       (for_each xs (step self) d).2).
Proof.
  intros Hb. induction xs as [|x xs IH]; intros self d lg; simpl.
  - exists []. unfold ret. simpl. by rewrite app_nil_r.
  - destruct (Hb x self d lg) as [l1 H1]. unfold bind. rewrite H1.
    destruct (step self x d) as [d1 [[]|e]]; simpl.
    + destruct (IH self d1 (lg ++ l1)) as [l2 H2]. exists (l1 ++ l2).
      rewrite H2. by rewrite app_assoc.
    + by exists l1.
Qed.

(** A loop that does not log either. *)
Lemma for_each_mini_frame_quiet {X} (body : X → M (Self * World) unit)
    (step : X → M DataFrame unit) (xs : list X) :
  (∀ x self d lg,
      body x (self, mkWorld [d] lg)
      = ((self, mkWorld [(step x d).1] lg), (step x d).2)) →
  ∀ self d lg,
    for_each xs body (self, mkWorld [d] lg)
    = ((self, mkWorld [(for_each xs step d).1] lg), (for_each xs step d).2).
Proof.
  intros Hb. induction xs as [|x xs IH]; intros self d lg; simpl; [done|].
  unfold bind. rewrite Hb. destruct (step x d) as [d1 [[]|e]]; simpl; [|done].
  by rewrite IH.
Qed.

Lemma for_each_run_at_quiet {X} df (body : loc → X → M (Self * World) unit)
    (step : X → M DataFrame unit) (xs : list X) self w d :
  (∀ x, sim df (body df x) (body 0%nat x)) →
  (∀ x self d lg,
      body 0%nat x (self, mkWorld [d] lg)
      = ((self, mkWorld [(step x d).1] lg), (step x d).2)) →
  heap w !! df = Some d →
  for_each xs (body df) (self, w)
  = ((self, mkWorld (<[df := (for_each xs step d).1]> (heap w)) (logs w)),
     (for_each xs step d).2).
Proof.
  intros Hsim Hstep Hd.
  rewrite (sim_run df _ (for_each xs (body 0%nat)) self w d);
    [|by apply sim_for_each|done].
  cbv zeta. unfold mini.
  rewrite (for_each_mini_frame_quiet (body 0%nat) step xs Hstep self d []).
  simpl. by rewrite app_nil_r.
Qed.

(** The same loop on a frame of any world. *)
Lemma for_each_run_at {X} df (body : loc → X → M (Self * World) unit)
    (step : Self → X → M DataFrame unit) (xs : list X) self w d :
  (∀ x, sim df (body df x) (body 0%nat x)) →
  (∀ x self d lg, ∃ l',
      body 0%nat x (self, mkWorld [d] lg)
      = ((self, mkWorld [(step self x d).1] (lg ++ l')), (step self x d).2)) →
  heap w !! df = Some d →
  ∃ l', for_each xs (body df) (self, w)
        = ((self, mkWorld (<[df := (for_each xs (step self) d).1]> (heap w))
                    (logs w ++ l')),
           (for_each xs (step self) d).2).
Proof.
  intros Hsim Hstep Hd.
  rewrite (sim_run df _ (for_each xs (body 0%nat)) self w d);
    [|by apply sim_for_each|done].
  cbv zeta. unfold mini.
  destruct (for_each_mini_frame (body 0%nat) step xs Hstep self d []) as [l' ->].
  by exists l'.
Qed.

End run_rules.

(** ** Runs of the numeric preprocessor *)

Section numeric_runs.
Context `{External}.
Implicit Types (self : NumericPreprocessor.t) (w : World) (d : DataFrame).

Lemma sim_numeric_fill_missing df method col :
  sim df (NumericPreprocessor.fill_missing method df col)
    (NumericPreprocessor.fill_missing method 0%nat col).
Proof.
  unfold NumericPreprocessor.fill_missing.
  repeat case_decide;
    repeat first
      [ apply sim_raise | apply sim_df_getitem | apply sim_lift_result
      | apply sim_df_fillna_inplace | apply sim_bind; [|intros ?] ].
Qed.

Lemma fill_with_mini_run {Self} (choose : list cell → result cell) col
    (self : Self) d lg :
  (s <- df_getitem 0%nat col ;;
   v <- lift_result (choose s) ;;
   df_fillna_inplace 0%nat col v) (self, mkWorld [d] lg)
  = ((self, mkWorld [(fill_with choose col d).1] lg), (fill_with choose col d).2).
Proof.
  cbv [fill_with bind df_getitem df_fillna_inplace df_load df_store
         lift_result ret raise]. simpl.
  destruct (pd.lookup_column col d) as [s|] eqn:Hs; [|done]. simpl.
  destruct (choose s) as [v|e]; [|done]. simpl.
  by rewrite (lookup_column_has_column _ _ _ Hs).
Qed.

Lemma numeric_fill_missing_mini method col self d lg :
  NumericPreprocessor.fill_missing method 0%nat col (self, mkWorld [d] lg)
  = ((self, mkWorld [(numeric_fill method col d).1] lg),
     (numeric_fill method col d).2).
Proof.
  unfold NumericPreprocessor.fill_missing, numeric_fill, numeric_statistic.
  repeat case_decide; try apply fill_with_mini_run. done.
Qed.

(** [_handle_missing_values] copies the table and fills the copy; it logs
    nothing. *)
Lemma numeric_handle_missing_values_run_exact self w data d cols :
  heap w !! data = Some d →
  let method :=
    num_handle_missing (numeric_config (NumericPreprocessor.config self)) in
  let r := for_each cols (numeric_fill method) d in
  NumericPreprocessor._handle_missing_values data cols (self, w)
  = ((self, mkWorld (heap w ++ [r.1]) (logs w)),
     match r.2 with
     | Ok _ => Ok (length (heap w))
     | Raise e => Raise e
     end).
Proof.
  intros Hd method r.
  unfold NumericPreprocessor._handle_missing_values, bind, get_self. simpl.
  rewrite (df_copy_run data self w d Hd). fold method.
  rewrite (for_each_run_at_quiet (length (heap w))
             (NumericPreprocessor.fill_missing method) (numeric_fill method)
             cols self (mkWorld (heap w ++ [d]) (logs w)) d).
  - simpl. rewrite insert_snoc. fold r. by destruct (r.2) as [[]|e].
  - intros col. apply sim_numeric_fill_missing.
  - intros. apply numeric_fill_missing_mini.
  - apply lookup_snoc.
Qed.

Lemma numeric_handle_missing_values_run self w data d cols :
  heap w !! data = Some d →
  let method :=
    num_handle_missing (numeric_config (NumericPreprocessor.config self)) in
  let r := for_each cols (numeric_fill method) d in
  ∃ l', NumericPreprocessor._handle_missing_values data cols (self, w)
        = ((self, mkWorld (heap w ++ [r.1]) (logs w ++ l')),
           match r.2 with
           | Ok _ => Ok (length (heap w))
           | Raise e => Raise e
           end).
Proof.
  intros Hd method r. exists [].
  rewrite (numeric_handle_missing_values_run_exact self w data d cols Hd).
  by rewrite app_nil_r.
Qed.

Lemma sim_numeric_transform_column df col :
  sim df (NumericPreprocessor.transform_column df col)
    (NumericPreprocessor.transform_column 0%nat col).
Proof.
  unfold NumericPreprocessor.transform_column.
  apply sim_bind; [apply sim_get_self|]. intros self.
  destruct (NumericPreprocessor.scalers self !! col); [|apply sim_log].
  repeat first
    [ apply sim_df_getitem | apply sim_lift_result | apply sim_df_setitem
    | apply sim_bind; [|intros ?] ].
Qed.

Lemma numeric_transform_column_mini col self d lg :
  ∃ l', NumericPreprocessor.transform_column 0%nat col (self, mkWorld [d] lg)
        = ((self,
            mkWorld [(scale_column (NumericPreprocessor.scalers self) col d).1]
              (lg ++ l')),
           (scale_column (NumericPreprocessor.scalers self) col d).2).
Proof.
  cbv [NumericPreprocessor.transform_column scale_column bind get_self
         df_getitem df_setitem df_load df_store lift_result ret raise log].
  simpl.
  destruct (NumericPreprocessor.scalers self !! col) as [sc|]; simpl.
  2: { by eexists. }
  exists []. rewrite app_nil_r.
  destruct (pd.lookup_column col d) as [x|]; [|done]. simpl.
  by destruct (scaler_transform sc x).
Qed.

Lemma numeric_transform_outcome :
  transform_outcome NumericPreprocessor.transform numeric_transform_pure.
Proof.
  intros self w data d Hd.
  unfold numeric_transform_pure, numeric_transform_frame,
    NumericPreprocessor.transform, try_except, bind, get_self. simpl.
  rewrite (validate_input_run _ _ data self w d Hd).
  set (cfg := NumericPreprocessor.config self).
  set (w0 := mkWorld (heap w) (logs w ++ _)).
  destruct (valid_input cfg d) eqn:Hv; simpl.
  2: { eexists. split; [|split; [|done]]; solve_prefix. }
  rewrite (df_copy_run data self w0 d Hd). simpl.
  set (w1 := mkWorld (heap w ++ [d]) _).
  destruct (numeric_handle_missing_values_run self w1 (length (heap w)) d
              (columns_of_type cfg "numeric") (lookup_snoc _ _)) as [l1 H1].
  rewrite H1. clear H1. simpl. fold cfg.
  destruct (for_each _ (numeric_fill _) d) as [d1 [[]|e]]; simpl.
  2: { eexists. split; [|split; [|done]]; solve_prefix. }
  set (w2 := mkWorld _ _).
  destruct (for_each_run_at (length (heap w ++ [d]))
              NumericPreprocessor.transform_column
              (λ self, scale_column (NumericPreprocessor.scalers self))
              (columns_of_type cfg "numeric") self w2 d1) as [l2 H2].
  - intros col. apply sim_numeric_transform_column.
  - intros. apply numeric_transform_column_mini.
  - apply lookup_snoc.
  - rewrite H2. clear H2. simpl. rewrite insert_snoc.
    destruct (for_each _ (scale_column _) d1) as [d2 [[]|e]]; simpl.
    + eexists. split; [|split]; [| |eexists; split; [done|split]]; simpl.
      * solve_prefix.
      * solve_prefix.
      * apply lookup_snoc.
      * rewrite length_app. simpl. lia.
    + eexists. split; [|split; [|done]]; solve_prefix.
Qed.

Lemma sim_numeric_set_scaler df col sc :
  sim df (NumericPreprocessor.set_scaler col sc)
    (NumericPreprocessor.set_scaler col sc).
Proof.
  apply sim_bind; [apply sim_get_self|]. intros self. apply sim_set_self.
Qed.

Lemma sim_numeric_fit_column df col :
  sim df (NumericPreprocessor.fit_column df col)
    (NumericPreprocessor.fit_column 0%nat col).
Proof.
  unfold NumericPreprocessor.fit_column.
  apply sim_bind; [apply sim_get_self|]. intros self.
  repeat first
    [ apply sim_numeric_set_scaler | apply sim_df_getitem
    | apply sim_lift_result | apply sim_bind; [|intros ?] ].
Qed.

Lemma numeric_fit_column_mini col self d lg :
  NumericPreprocessor.fit_column 0%nat col (self, mkWorld [d] lg)
  = let cls := NumericPreprocessor.scaler_class self in
    let r := fit_scaler cls d col (NumericPreprocessor.scalers self) in
    ((NumericPreprocessor.mk (NumericPreprocessor.config self) cls r.1,
      mkWorld [d] lg), r.2).
Proof.
  cbv [NumericPreprocessor.fit_column NumericPreprocessor.set_scaler fit_scaler
         bind get_self set_self df_getitem df_load lift_result ret raise].
  simpl.
  destruct (pd.lookup_column col d) as [x|]; [|done]. simpl.
  destruct (sk_scaler_fit _ x) as [sc|e]; [|done]. simpl.
  by rewrite insert_insert_eq.
Qed.

Lemma numeric_fit_loop_mini cols self d lg :
  for_each cols (NumericPreprocessor.fit_column 0%nat) (self, mkWorld [d] lg)
  = let cls := NumericPreprocessor.scaler_class self in
    let r := for_each cols (fit_scaler cls d) (NumericPreprocessor.scalers self) in
    ((NumericPreprocessor.mk (NumericPreprocessor.config self) cls r.1,
      mkWorld [d] lg), r.2).
Proof.
  revert self. induction cols as [|col cols IH]; intros self; simpl.
  - by destruct self.
  - unfold bind. rewrite numeric_fit_column_mini. simpl.
    destruct (fit_scaler _ d col _) as [m [[]|e]]; simpl; [|done].
    by rewrite IH.
Qed.

Lemma numeric_fit_outcome :
  fit_outcome NumericPreprocessor.fit numeric_fit_pure.
Proof.
  intros self w data d Hd.
  unfold numeric_fit_pure, NumericPreprocessor.fit, try_except, bind, get_self.
  simpl.
  rewrite (validate_input_run _ _ data self w d Hd).
  set (cfg := NumericPreprocessor.config self).
  set (w0 := mkWorld (heap w) (logs w ++ _)).
  destruct (valid_input cfg d) eqn:Hv; simpl.
  2: { eexists. split; [|split; [|by eexists]]; solve_prefix. }
  destruct (numeric_handle_missing_values_run self w0 data d
              (columns_of_type cfg "numeric") Hd) as [l1 H1].
  rewrite H1. clear H1. simpl. fold cfg.
  destruct (for_each _ (numeric_fill _) d) as [d1 [[]|e]]; simpl.
  2: { eexists. split; [|split; [|by eexists]]; solve_prefix. }
  set (w2 := mkWorld _ _).
  rewrite (sim_run (length (heap w)) _
             (for_each (columns_of_type cfg "numeric")
                (NumericPreprocessor.fit_column 0%nat)) self w2 d1).
  2: { apply sim_for_each. intros col. apply sim_numeric_fit_column. }
  2: { apply lookup_snoc. }
  unfold mini. rewrite numeric_fit_loop_mini. simpl. fold cfg.
  rewrite insert_snoc.
  destruct (for_each _ (fit_scaler _ d1) _) as [m [[]|e]]; simpl.
  - eexists. split; [|split; [|done]]; solve_prefix.
  - eexists. split; [|split; [|by eexists]]; solve_prefix.
Qed.

End numeric_runs.

(** ** Runs of the text preprocessor *)

Section text_runs.
Context `{External}.
Implicit Types (self : TextPreprocessor.t) (w : World) (d : DataFrame).

(** [_preprocess_text] never raises, touches neither the receiver nor the
    heap, and returns [text_of_cell]. *)
Lemma preprocess_text_run self w c :
  ∃ l', TextPreprocessor._preprocess_text c (self, w)
        = ((self, mkWorld (heap w) (logs w ++ l')), Ok (text_of_cell self c)).
Proof.
  destruct w as [h lg].
  destruct c as [|q|text]; simpl;
    try (exists []; by rewrite app_nil_r).
  cbv [TextPreprocessor._preprocess_text text_of_cell text_steps try_except bind
         get_self lift_result ret raise log result_bind].
  simpl.
  destruct (nltk_word_tokenize _) as [tokens|e]; simpl; [|by eexists].
  destruct (remove_stopwords _); simpl.
  - destruct nltk_stopwords_english as [sw|e]; simpl; [|by eexists].
    destruct (stemming _); simpl.
    + destruct (TextPreprocessor.stemmer self); simpl; [|by eexists].
      destruct (result_map porter_stem _); simpl; [|by eexists].
      exists []; by rewrite app_nil_r.
    + exists []; by rewrite app_nil_r.
  - destruct (stemming _); simpl.
    + destruct (TextPreprocessor.stemmer self); simpl; [|by eexists].
      destruct (result_map porter_stem _); simpl; [|by eexists].
      exists []; by rewrite app_nil_r.
    + exists []; by rewrite app_nil_r.
Qed.

(** The column-wise application [df[col].apply(self._preprocess_text)]. *)
Lemma apply_preprocess_text_run self w s :
  ∃ l', for_map s TextPreprocessor._preprocess_text (self, w)
        = ((self, mkWorld (heap w) (logs w ++ l')), Ok (map (text_of_cell self) s)).
Proof.
  revert w. induction s as [|c s IH]; intros w; simpl.
  - exists []. destruct w. unfold ret. simpl. by rewrite app_nil_r.
  - destruct (preprocess_text_run self w c) as [l1 H1].
    unfold bind. rewrite H1.
    destruct (IH (mkWorld (heap w) (logs w ++ l1))) as [l2 H2].
    rewrite H2. simpl. exists (l1 ++ l2). unfold ret. simpl.
    by rewrite app_assoc.
Qed.

Lemma sim_preprocess_text df c :
  sim df (TextPreprocessor._preprocess_text c)
    (TextPreprocessor._preprocess_text c).
Proof. unfold TextPreprocessor._preprocess_text. repeat sim_step. Qed.

Lemma sim_text_transform_column df col :
  sim df (TextPreprocessor.transform_column df col)
    (TextPreprocessor.transform_column 0%nat col).
Proof.
  unfold TextPreprocessor.transform_column.
  apply sim_bind; [apply sim_log|intros _].
  apply sim_bind; [apply sim_df_getitem|intros s].
  apply sim_bind; [|intros s'; apply sim_df_setitem].
  apply sim_for_map. intros c. apply sim_preprocess_text.
Qed.

Lemma text_transform_column_mini col self d lg :
  ∃ l', TextPreprocessor.transform_column 0%nat col (self, mkWorld [d] lg)
        = ((self, mkWorld [(text_column self col d).1] (lg ++ l')),
           (text_column self col d).2).
Proof.
  unfold TextPreprocessor.transform_column, text_column.
  cbv [bind log df_getitem df_load ret raise]. simpl.
  destruct (pd.lookup_column col d) as [s|]; simpl; [|by eexists].
  destruct (apply_preprocess_text_run self (mkWorld [d] (lg ++ [mkLog
              TextPreprocessor.__name__ DEBUG ("Processing text column: " +:+ col)])) s)
    as [l1 H1].
  rewrite H1. simpl. cbv [df_setitem bind df_load df_store]. simpl.
  eexists. rewrite <- app_assoc. by rewrite map_map.
Qed.

Lemma text_transform_outcome :
  transform_outcome TextPreprocessor.transform text_transform_pure.
Proof.
  intros self w data d Hd.
  unfold text_transform_pure, TextPreprocessor.transform, try_except, bind,
    get_self. simpl.
  rewrite (validate_input_run _ _ data self w d Hd).
  set (cfg := TextPreprocessor.config self).
  set (w0 := mkWorld (heap w) (logs w ++ _)).
  destruct (valid_input cfg d) eqn:Hv; simpl.
  2: { eexists. split; [|split; [|done]]; solve_prefix. }
  rewrite (df_copy_run data self w0 d Hd). simpl.
  set (w1 := mkWorld (heap w ++ [d]) _).
  destruct (for_each_run_at (length (heap w))
              TextPreprocessor.transform_column text_column
              (columns_of_type cfg "text") self w1 d) as [l2 H2].
  - intros col. apply sim_text_transform_column.
  - intros. apply text_transform_column_mini.
  - apply lookup_snoc.
  - rewrite H2. clear H2. simpl. rewrite insert_snoc.
    destruct (for_each _ (text_column _) d) as [d2 [[]|e]]; simpl.
    + eexists. split; [|split]; [| |eexists; split; [done|split]]; simpl.
      * solve_prefix.
      * solve_prefix.
      * apply lookup_snoc.
      * lia.
    + eexists. split; [|split; [|done]]; solve_prefix.
Qed.

Lemma text_fit_outcome : fit_outcome TextPreprocessor.fit text_fit_pure.
Proof.
  intros self w data d Hd.
  unfold text_fit_pure, TextPreprocessor.fit, bind, get_self. simpl.
  rewrite (validate_input_run _ _ data self w d Hd).
  destruct (valid_input _ d); simpl.
  - eexists. split; [|split; [|done]]; solve_prefix.
  - eexists. split; [|split; [|by eexists]]; solve_prefix.
Qed.

End text_runs.

(** ** Runs of the categorical preprocessor *)

Section categorical_runs.
Context `{External}.
Implicit Types (self : CategoricalPreprocessor.t) (w : World) (d : DataFrame).

Lemma sim_categorical_fill_missing df method col :
  sim df (CategoricalPreprocessor.fill_missing method df col)
    (CategoricalPreprocessor.fill_missing method 0%nat col).
Proof. unfold CategoricalPreprocessor.fill_missing. repeat sim_step. Qed.

Lemma categorical_fill_missing_mini method col self d lg :
  CategoricalPreprocessor.fill_missing method 0%nat col (self, mkWorld [d] lg)
  = ((self, mkWorld [(categorical_fill method col d).1] lg),
     (categorical_fill method col d).2).
Proof.
  unfold CategoricalPreprocessor.fill_missing, categorical_fill.
  case_decide; [apply fill_with_mini_run|].
  cbv [fill_with df_fillna_inplace bind df_load df_store raise]. simpl.
  destruct (pd.lookup_column col d) as [s|] eqn:Hs.
  - by rewrite (lookup_column_has_column _ _ _ Hs).
  - destruct (pd.has_column d col) eqn:Hc; [|done].
    apply has_column_lookup_column in Hc as [s' Hc]. congruence.
Qed.

Lemma categorical_handle_missing_values_run_exact self w data d cols :
  heap w !! data = Some d →
  let method :=
    cat_handle_missing (categorical_config (CategoricalPreprocessor.config self)) in
  let r := for_each cols (categorical_fill method) d in
  CategoricalPreprocessor._handle_missing_values data cols (self, w)
  = ((self, mkWorld (heap w ++ [r.1]) (logs w)),
     match r.2 with
     | Ok _ => Ok (length (heap w))
     | Raise e => Raise e
     end).
Proof.
  intros Hd method r.
  unfold CategoricalPreprocessor._handle_missing_values, bind, get_self. simpl.
  rewrite (df_copy_run data self w d Hd). fold method.
  rewrite (for_each_run_at_quiet (length (heap w))
             (CategoricalPreprocessor.fill_missing method)
             (categorical_fill method)
             cols self (mkWorld (heap w ++ [d]) (logs w)) d).
  - simpl. rewrite insert_snoc. fold r. by destruct (r.2) as [[]|e].
  - intros col. apply sim_categorical_fill_missing.
  - intros. apply categorical_fill_missing_mini.
  - apply lookup_snoc.
Qed.

Lemma categorical_handle_missing_values_run self w data d cols :
  heap w !! data = Some d →
  let method :=
    cat_handle_missing (categorical_config (CategoricalPreprocessor.config self)) in
  let r := for_each cols (categorical_fill method) d in
  ∃ l', CategoricalPreprocessor._handle_missing_values data cols (self, w)
        = ((self, mkWorld (heap w ++ [r.1]) (logs w ++ l')),
           match r.2 with
           | Ok _ => Ok (length (heap w))
           | Raise e => Raise e
           end).
Proof.
  intros Hd method r. exists [].
  rewrite (categorical_handle_missing_values_run_exact self w data d cols Hd).
  by rewrite app_nil_r.
Qed.

Lemma sim_categorical_fit_column df col :
  sim df (CategoricalPreprocessor.fit_column df col)
    (CategoricalPreprocessor.fit_column 0%nat col).
Proof.
  unfold CategoricalPreprocessor.fit_column,
    CategoricalPreprocessor._setup_encoder, CategoricalPreprocessor.get_encoder,
    CategoricalPreprocessor.set_encoder, CategoricalPreprocessor.set_encoding_map.
  repeat sim_step.
Qed.

Lemma categorical_fit_column_mini col self d lg :
  match fit_encoder d col self with
  | Ok self' =>
      CategoricalPreprocessor.fit_column 0%nat col (self, mkWorld [d] lg)
      = ((self', mkWorld [d] lg), Ok tt)
  | Raise e =>
      ∃ self', CategoricalPreprocessor.fit_column 0%nat col (self, mkWorld [d] lg)
               = ((self', mkWorld [d] lg), Raise e)
  end.
Proof.
  cbv [CategoricalPreprocessor.fit_column fit_encoder
         CategoricalPreprocessor._setup_encoder
         CategoricalPreprocessor.get_encoder CategoricalPreprocessor.set_encoder
         CategoricalPreprocessor.set_encoding_map lookup_or_raise result_bind
         bind get_self set_self df_getitem df_load lift_result ret raise].
  simpl.
  destruct (decide (encoding _ = "label")) as [Hl|Hl]; simpl.
  - rewrite lookup_insert_eq. simpl.
    destruct (pd.lookup_column col d) as [y|]; simpl; [|by eexists].
    destruct (sk.LabelEncoder_fit y) as [enc|e]; simpl; [|by eexists].
    destruct (sk.LabelEncoder_transform enc _) as [codes|e]; simpl; [|by eexists].
    by rewrite insert_insert_eq.
  - destruct (decide (encoding _ = "onehot")) as [Ho|Ho]; simpl; [|by eexists].
    rewrite lookup_insert_eq. simpl.
    destruct (pd.lookup_column col d) as [y|]; simpl; [|by eexists].
    destruct (sk.OneHotEncoder_fit y) as [enc|e]; simpl; [|by eexists].
    destruct (get_feature_names_out enc col) as [names|e]; simpl; [|by eexists].
    by rewrite insert_insert_eq.
Qed.

Lemma categorical_fit_loop_mini cols self d lg :
  match result_fold (fit_encoder d) cols self with
  | Ok self' =>
      for_each cols (CategoricalPreprocessor.fit_column 0%nat)
        (self, mkWorld [d] lg)
      = ((self', mkWorld [d] lg), Ok tt)
  | Raise e =>
      ∃ self', for_each cols (CategoricalPreprocessor.fit_column 0%nat)
                 (self, mkWorld [d] lg)
               = ((self', mkWorld [d] lg), Raise e)
  end.
Proof.
  revert self. induction cols as [|col cols IH]; intros self; simpl; [done|].
  pose proof (categorical_fit_column_mini col self d lg) as Hc.
  unfold bind, result_bind.
  destruct (fit_encoder d col self) as [self1|e].
  - rewrite Hc. apply IH.
  - destruct Hc as [self' ->]. by eexists.
Qed.

Lemma categorical_fit_outcome :
  fit_outcome CategoricalPreprocessor.fit categorical_fit_pure.
Proof.
  intros self w data d Hd.
  unfold categorical_fit_pure, CategoricalPreprocessor.fit, try_except, bind,
    get_self. simpl.
  rewrite (validate_input_run _ _ data self w d Hd).
  set (cfg := CategoricalPreprocessor.config self).
  set (w0 := mkWorld (heap w) (logs w ++ _)).
  destruct (valid_input cfg d) eqn:Hv; simpl.
  2: { eexists. split; [|split; [|by eexists]]; solve_prefix. }
  destruct (categorical_handle_missing_values_run self w0 data d
              (columns_of_type cfg "categorical") Hd) as [l1 H1].
  rewrite H1. clear H1. simpl. fold cfg.
  destruct (for_each _ (categorical_fill _) d) as [d1 [[]|e]]; simpl.
  2: { eexists. split; [|split; [|by eexists]]; solve_prefix. }
  set (w2 := mkWorld _ _).
  rewrite (sim_run (length (heap w)) _
             (for_each (columns_of_type cfg "categorical")
                (CategoricalPreprocessor.fit_column 0%nat)) self w2 d1).
  2: { apply sim_for_each. intros col. apply sim_categorical_fit_column. }
  2: { apply lookup_snoc. }
  unfold mini.
  pose proof (categorical_fit_loop_mini (columns_of_type cfg "categorical")
                self d1 []) as Hloop.
  destruct (result_fold _ _ self) as [self'|e].
  - rewrite Hloop. simpl. rewrite insert_snoc.
    eexists. split; [|split; [|done]]; solve_prefix.
  - destruct Hloop as [self' ->]. simpl. rewrite insert_snoc.
    eexists. split; [|split; [|by eexists]]; solve_prefix.
Qed.

(** The run stops in the current world. *)
Ltac stop_here Hp :=
  eexists _, _; split; [reflexivity|]; split; [exact Hp|];
  split; [reflexivity|]; try done.

(** One iteration of the loop of [transform]: [h0] is a part of the heap
    that lies below the frame [df]. *)
Lemma categorical_transform_column_run col (df : loc) self w d
    (h0 : list DataFrame) :
  heap w !! df = Some d → h0 `prefix_of` heap w → length h0 ≤ df →
  ∃ w' r,
    CategoricalPreprocessor.transform_column col df (self, w) = ((self, w'), r) ∧
    h0 `prefix_of` heap w' ∧ logs w `prefix_of` logs w' ∧
    match encode_column self col d with
    | Ok d' => ∃ out, r = Ok out ∧ heap w' !! out = Some d' ∧ length h0 ≤ out
    | Raise e => r = Raise e
    end.
Proof.
  intros Hd Hp Hlen.
  unfold CategoricalPreprocessor.transform_column, encode_column, bind at 1,
    get_self. cbn [fst snd].
  destruct (CategoricalPreprocessor.encoders self !! col) as [[enc|enc]|].
  - (* label encoder *)
    unfold bind at 1. rewrite (df_getitem_run df col self w d Hd).
    unfold result_bind at 1.
    destruct (lookup_or_raise col d) as [y|e]; [|stop_here Hp].
    unfold bind, lift_result, result_bind.
    destruct (sk.LabelEncoder_transform enc y) as [codes|e]; [|stop_here Hp].
    rewrite (df_setitem_run df col codes self w d Hd). unfold ret.
    eexists _, _. split; [reflexivity|]. simpl.
    split; [by apply prefix_insert_ge|]. split; [done|].
    exists df. split; [done|]. split; [|done].
    apply list_lookup_insert_eq. by eapply lookup_lt_Some.
  - (* one-hot encoder *)
    unfold bind at 1. rewrite (df_getitem_run df col self w d Hd).
    unfold result_bind at 1, lookup_or_raise.
    destruct (pd.lookup_column col d) as [x|] eqn:Hx; [|stop_here Hp].
    unfold bind at 1, lift_result. unfold result_bind at 1.
    destruct (sk.OneHotEncoder_transform enc x) as [rows|e]; [|stop_here Hp].
    unfold bind at 1, feature_names_of. unfold result_bind at 1.
    destruct (CategoricalPreprocessor.encoding_maps self !! col)
      as [[codes|names]|]; [stop_here Hp| |stop_here Hp].
    unfold ret at 1. unfold bind at 1. rewrite (df_load_run df self w d Hd).
    unfold bind at 1, pd_DataFrame, encoded_frame, result_bind.
    destruct (pd.from_rows rows names (df_index d)) as [enc_d|];
      [|stop_here Hp].
    unfold df_alloc at 1. simpl. unfold bind at 1.
    rewrite (df_drop_run df col self _ d).
    2: { simpl. by apply lookup_app_l_Some. }
    2: { by eapply lookup_column_has_column. }
    simpl.
    rewrite (pd_concat_run _ [pd.drop_column col d; enc_d]).
    2: { simpl. repeat constructor.
         - apply lookup_snoc.
         - apply lookup_app_l_Some, lookup_snoc. }
    simpl. eexists _, _. split; [reflexivity|]. simpl.
    split; [by do 3 apply prefix_snoc|]. split; [done|].
    eexists. split; [done|]. split; [apply lookup_snoc|].
    apply prefix_length_le in Hp. rewrite !length_app. simpl. lia.
  - (* no encoder *)
    unfold bind, log, ret. simpl.
    eexists _, _. split; [reflexivity|]. simpl.
    split; [done|]. split; [solve_prefix|]. by exists df.
Qed.

Lemma categorical_transform_loop_run cols (df : loc) self w d
    (h0 : list DataFrame) :
  heap w !! df = Some d → h0 `prefix_of` heap w → length h0 ≤ df →
  ∃ w' r,
    for_fold cols df CategoricalPreprocessor.transform_column (self, w)
    = ((self, w'), r) ∧
    h0 `prefix_of` heap w' ∧ logs w `prefix_of` logs w' ∧
    match result_fold (encode_column self) cols d with
    | Ok d' =>
        ∃ out : loc, r = Ok out ∧ heap w' !! out = Some d' ∧ length h0 ≤ out
    | Raise e => r = Raise e
    end.
Proof.
  revert df w d. induction cols as [|col cols IH]; intros df w d Hd Hp Hlen; simpl.
  - eexists _, _. split; [reflexivity|]. split; [done|]. split; [done|].
    by exists df.
  - destruct (categorical_transform_column_run col df self w d h0 Hd Hp Hlen)
      as (w1 & r1 & Hrun & Hp1 & Hl1 & Hres).
    unfold bind. rewrite Hrun. unfold result_bind.
    destruct (encode_column self col d) as [d1|e].
    + destruct Hres as (df1 & -> & Hd1 & Hlen1).
      destruct (IH df1 w1 d1 Hd1 Hp1 Hlen1) as (w2 & r2 & Hrun2 & Hp2 & Hl2 & Hres2).
      exists w2, r2. split; [done|]. split; [done|]. split; [by etrans|done].
    + subst r1. by exists w1, (Raise e).
Qed.

Lemma categorical_transform_outcome :
  transform_outcome CategoricalPreprocessor.transform categorical_transform_pure.
Proof.
  intros self w data d Hd.
  assert (∃ w' r,
    CategoricalPreprocessor.transform data (self, w) = ((self, w'), r) ∧
    heap w `prefix_of` heap w' ∧ logs w `prefix_of` logs w' ∧
    match categorical_transform_pure self d with
    | Ok d' => ∃ out, r = Ok out ∧ heap w' !! out = Some d' ∧ length (heap w) ≤ out
    | Raise e => r = Raise e
    end) as (w' & r & Hrun & Hp & Hl & Hres).
  2: { exists w'. split; [done|]. split; [done|].
       destruct (categorical_transform_pure self d).
       - destruct Hres as (out & -> & ? & ?). by exists out.
       - by subst r. }
  unfold categorical_transform_pure, CategoricalPreprocessor.transform,
    try_except, bind, get_self. simpl.
  rewrite (validate_input_run _ _ data self w d Hd).
  set (cfg := CategoricalPreprocessor.config self).
  set (w0 := mkWorld (heap w) (logs w ++ _)).
  destruct (valid_input cfg d) eqn:Hv; simpl.
  2: { eexists _, _. split; [reflexivity|]. split; [|split; [|done]]; solve_prefix. }
  rewrite (df_copy_run data self w0 d Hd). simpl.
  set (w1 := mkWorld (heap w ++ [d]) _).
  destruct (categorical_handle_missing_values_run self w1 (length (heap w)) d
              (columns_of_type cfg "categorical") (lookup_snoc _ _)) as [l1 H1].
  rewrite H1. clear H1. simpl. fold cfg.
  destruct (for_each _ (categorical_fill _) d) as [d1 [[]|e]]; simpl.
  2: { eexists _, _. split; [reflexivity|]. split; [|split; [|done]]; solve_prefix. }
  set (w2 := mkWorld _ _).
  destruct (categorical_transform_loop_run (columns_of_type cfg "categorical")
              (length (heap w ++ [d])) self w2 d1 (heap w))
    as (w3 & r3 & Hrun & Hp3 & Hl3 & Hres).
  { apply lookup_snoc. }
  { solve_prefix. }
  { rewrite length_app. lia. }
  rewrite Hrun.
  assert (logs w `prefix_of` logs w3) as Hlw.
  { etrans; [|exact Hl3]. solve_prefix. }
  destruct (result_fold _ _ d1) as [d'|e].
  - destruct Hres as (out & -> & Hout & Hlen). simpl.
    eexists _, _. split; [reflexivity|]. split; [done|]. split; [done|].
    by exists out.
  - subst r3. simpl.
    eexists _, _. split; [reflexivity|]. split; [done|]. split; [|done].
    simpl. etrans; [exact Hlw|]. solve_prefix.
Qed.

End categorical_runs.

(** ** Runs of the factory *)

Section factory_runs.
Context `{External}.
Implicit Types (self : PreprocessorFactory.t) (w : World) (d : DataFrame).

Lemma set_item_get_item key ps p :
  PreprocessorFactory.get_item key ps = Some p →
  PreprocessorFactory.set_item key p ps = ps.
Proof.
  unfold PreprocessorFactory.get_item. induction ps as [|[k q] ps IH]; simpl.
  - done.
  - case_decide as Hk; simpl in *.
    + intros [= ->]. by subst.
    + intros Hf. f_equal. apply IH.
      destruct (list_find _ ps) as [[i kv]|]; simpl in *; [|done].
      by injection Hf as ->.
Qed.

Lemma preprocessor_transform_outcome :
  transform_outcome PreprocessorFactory.preprocessor_transform
    preprocessor_transform_pure.
Proof.
  intros [p|p|p] w data d Hd;
    unfold PreprocessorFactory.preprocessor_transform,
      PreprocessorFactory.dispatch, preprocessor_transform_pure; simpl.
  - destruct (text_transform_outcome p w data d Hd) as (w' & Hp & Hl & Hr).
    exists w'. split; [done|]. split; [done|].
    destruct (text_transform_pure p d).
    + destruct Hr as (out & -> & ?). by exists out.
    + by rewrite Hr.
  - destruct (numeric_transform_outcome p w data d Hd) as (w' & Hp & Hl & Hr).
    exists w'. split; [done|]. split; [done|].
    destruct (numeric_transform_pure p d).
    + destruct Hr as (out & -> & ?). by exists out.
    + by rewrite Hr.
  - destruct (categorical_transform_outcome p w data d Hd) as (w' & Hp & Hl & Hr).
    exists w'. split; [done|]. split; [done|].
    destruct (categorical_transform_pure p d).
    + destruct Hr as (out & -> & ?). by exists out.
    + by rewrite Hr.
Qed.

Lemma preprocessor_fit_outcome :
  fit_outcome PreprocessorFactory.preprocessor_fit preprocessor_fit_pure.
Proof.
  intros [p|p|p] w data d Hd;
    unfold PreprocessorFactory.preprocessor_fit,
      PreprocessorFactory.dispatch, preprocessor_fit_pure, result_bind; simpl.
  - destruct (text_fit_outcome p w data d Hd) as (w' & Hp & Hl & Hr).
    exists w'. split; [done|]. split; [done|].
    destruct (text_fit_pure p d).
    + by rewrite Hr.
    + destruct Hr as [p' ->]. by eexists.
  - destruct (numeric_fit_outcome p w data d Hd) as (w' & Hp & Hl & Hr).
    exists w'. split; [done|]. split; [done|].
    destruct (numeric_fit_pure p d).
    + by rewrite Hr.
    + destruct Hr as [p' ->]. by eexists.
  - destruct (categorical_fit_outcome p w data d Hd) as (w' & Hp & Hl & Hr).
    exists w'. split; [done|]. split; [done|].
    destruct (categorical_fit_pure p d).
    + by rewrite Hr.
    + destruct Hr as [p' ->]. by eexists.
Qed.

Lemma Forall2_lookup_prefix (h h' : list DataFrame) (ls : list loc) ds :
  h `prefix_of` h' →
  Forall2 (λ l d, h !! l = Some d) ls ds →
  Forall2 (λ l d, h' !! l = Some d) ls ds.
Proof.
  intros Hp. apply Forall2_impl. intros l d Hl. by eapply prefix_lookup_Some.
Qed.

Lemma factory_transform_type_run self w (df : loc) d tp (acc : list loc) accd :
  heap w !! df = Some d →
  Forall2 (λ l dd, heap w !! l = Some dd) acc accd →
  ∃ w' r,
    PreprocessorFactory.transform_type (PreprocessorFactory.config self) df tp acc
      (self, w) = ((self, w'), r) ∧
    heap w `prefix_of` heap w' ∧ logs w `prefix_of` logs w' ∧
    match transform_item self d tp accd with
    | Ok accd' =>
        ∃ acc' : list loc,
          r = Ok acc' ∧ Forall2 (λ l dd, heap w' !! l = Some dd) acc' accd'
    | Raise e => r = Raise e
    end.
Proof.
  intros Hd Hacc.
  unfold PreprocessorFactory.transform_type, transform_item.
  case_bool_decide as Hcols.
  2: { unfold ret. eexists _, _. split; [reflexivity|]. split; [done|].
       split; [done|]. by exists acc. }
  unfold bind at 1. rewrite (df_getitem_list_run df _ self w d Hd).
  destruct (pd.select _ d) as [slice|].
  2: { eexists _, _. split; [reflexivity|]. by split. }
  unfold bind at 1, PreprocessorFactory.call. cbn [fst snd].
  destruct (PreprocessorFactory.get_item tp _) as [p|] eqn:Hp.
  2: { eexists _, _. split; [reflexivity|]. simpl. split; [solve_prefix|].
       by split. }
  set (w1 := mkWorld (heap w ++ [slice]) (logs w)).
  destruct (preprocessor_transform_outcome p w1 (length (heap w)) slice
              (lookup_snoc _ _)) as (w2 & Hp2 & Hl2 & Hres).
  unfold result_bind.
  destruct (preprocessor_transform_pure p slice) as [out_d|e].
  - destruct Hres as (out & Hrun & Hout & Hlen). rewrite Hrun. simpl.
    rewrite (set_item_get_item _ _ _ Hp). unfold ret.
    eexists _, _. split; [by destruct self|]. simpl.
    assert (heap w `prefix_of` heap w2) as Hpw.
    { etrans; [|exact Hp2]. solve_prefix. }
    split; [done|]. split; [done|].
    eexists. split; [done|]. apply Forall2_app.
    + by eapply Forall2_lookup_prefix.
    + by repeat constructor.
  - rewrite Hres. simpl. rewrite (set_item_get_item _ _ _ Hp).
    eexists _, _. split; [by destruct self|]. simpl.
    split; [|by split]. etrans; [|exact Hp2]. solve_prefix.
Qed.

Lemma factory_transform_loop_run self w (df : loc) d tps (acc : list loc) accd :
  heap w !! df = Some d →
  Forall2 (λ l dd, heap w !! l = Some dd) acc accd →
  ∃ w' r,
    for_fold tps acc
      (PreprocessorFactory.transform_type (PreprocessorFactory.config self) df)
      (self, w) = ((self, w'), r) ∧
    heap w `prefix_of` heap w' ∧ logs w `prefix_of` logs w' ∧
    match result_fold (transform_item self d) tps accd with
    | Ok accd' =>
        ∃ acc' : list loc,
          r = Ok acc' ∧ Forall2 (λ l dd, heap w' !! l = Some dd) acc' accd'
    | Raise e => r = Raise e
    end.
Proof.
  revert w acc accd. induction tps as [|tp tps IH]; intros w acc accd Hd Hacc; simpl.
  - unfold ret. eexists _, _. split; [reflexivity|]. split; [done|].
    split; [done|]. by exists acc.
  - destruct (factory_transform_type_run self w df d tp acc accd Hd Hacc)
      as (w1 & r1 & Hrun & Hp1 & Hl1 & Hres).
    unfold bind. rewrite Hrun. unfold result_bind.
    destruct (transform_item self d tp accd) as [accd1|e].
    + destruct Hres as (acc1 & -> & Hacc1).
      destruct (IH w1 acc1 accd1) as (w2 & r2 & Hrun2 & Hp2 & Hl2 & Hres2).
      { by eapply prefix_lookup_Some. }
      { done. }
      exists w2, r2. split; [done|]. split; [by etrans|]. split; [by etrans|done].
    + subst r1. by exists w1, (Raise e).
Qed.

Lemma factory_transform_outcome :
  transform_outcome PreprocessorFactory.transform factory_transform_pure.
Proof.
  intros self w data d Hd.
  assert (∃ w' r,
    PreprocessorFactory.transform data (self, w) = ((self, w'), r) ∧
    heap w `prefix_of` heap w' ∧ logs w `prefix_of` logs w' ∧
    match factory_transform_pure self d with
    | Ok d' =>
        ∃ out : loc, r = Ok out ∧ heap w' !! out = Some d' ∧ length (heap w) ≤ out
    | Raise e => r = Raise e
    end) as (w' & r & Hrun & Hp & Hl & Hres).
  2: { exists w'. split; [done|]. split; [done|].
       destruct (factory_transform_pure self d).
       - destruct Hres as (out & -> & ? & ?). by exists out.
       - by subst r. }
  unfold factory_transform_pure, processed_frames, PreprocessorFactory.transform,
    bind at 1.
  rewrite (df_copy_run data self w d Hd).
  unfold bind at 1, get_self. cbn [fst snd].
  set (w1 := mkWorld (heap w ++ [d]) (logs w)).
  destruct (factory_transform_loop_run self w1 (length (heap w)) d
              (PreprocessorFactory.preprocessors self).*1 [] [])
    as (w2 & r2 & Hrun & Hp2 & Hl2 & Hres).
  { apply lookup_snoc. }
  { constructor. }
  unfold bind. rewrite Hrun. unfold result_bind.
  assert (heap w `prefix_of` heap w2) as Hpw.
  { etrans; [|exact Hp2]. solve_prefix. }
  destruct (result_fold _ _ []) as [outs_d|e].
  2: { subst r2. by eexists _, _. }
  destruct Hres as (outs & -> & Houts).
  assert (outs ≠ [] ↔ outs_d ≠ []) as Hne.
  { destruct Houts; split; intros; congruence. }
  case_bool_decide as Ho; case_bool_decide as Ho'; try tauto.
  - rewrite (pd_concat_run outs outs_d self w2 Houts).
    eexists _, _. split; [reflexivity|]. simpl.
    split; [by apply prefix_snoc|]. split; [done|].
    eexists. split; [done|]. split; [apply lookup_snoc|].
    apply prefix_length_le in Hpw. lia.
  - unfold ret. eexists _, _. split; [reflexivity|].
    split; [done|]. split; [done|].
    exists (length (heap w)). split; [done|]. split; [|done].
    eapply prefix_lookup_Some; [|exact Hp2]. apply lookup_snoc.
Qed.

Lemma factory_fit_type_prefix cfg data tp self w d :
  heap w !! data = Some d →
  heap w `prefix_of`
    heap (PreprocessorFactory.fit_type cfg data tp (self, w)).1.2.
Proof.
  intros Hd. unfold PreprocessorFactory.fit_type.
  case_bool_decide; [|done].
  unfold bind. rewrite (df_getitem_list_run data _ self w d Hd).
  destruct (pd.select _ d) as [slice|]; [|done].
  unfold PreprocessorFactory.call. cbn [fst snd].
  destruct (PreprocessorFactory.get_item tp _) as [p|]; [|solve_prefix].
  set (w1 := mkWorld (heap w ++ [slice]) (logs w)).
  destruct (preprocessor_fit_outcome p w1 (length (heap w)) slice
              (lookup_snoc _ _)) as (w2 & Hp2 & _ & Hres).
  assert (heap w `prefix_of` heap w2) as Hpw.
  { etrans; [|exact Hp2]. solve_prefix. }
  destruct (preprocessor_fit_pure p slice).
  - by rewrite Hres.
  - destruct Hres as [p' ->]. done.
Qed.

Lemma factory_fit_loop_prefix cfg data tps self w d :
  heap w !! data = Some d →
  heap w `prefix_of`
    heap (for_each tps (PreprocessorFactory.fit_type cfg data) (self, w)).1.2.
Proof.
  revert self w. induction tps as [|tp tps IH]; intros self w Hd; simpl; [done|].
  pose proof (factory_fit_type_prefix cfg data tp self w d Hd) as Hp.
  unfold bind.
  destruct (PreprocessorFactory.fit_type cfg data tp (self, w))
    as [[self1 w1] [[]|e]]; simpl in *; [|done].
  etrans; [exact Hp|]. apply IH. by eapply prefix_lookup_Some.
Qed.

Lemma factory_fit_prefix data self w d :
  heap w !! data = Some d →
  heap w `prefix_of` heap (PreprocessorFactory.fit data (self, w)).1.2.
Proof.
  intros Hd. unfold PreprocessorFactory.fit, bind, get_self. simpl.
  by eapply factory_fit_loop_prefix.
Qed.

Lemma transform_outcome_intact {Self} (m : loc → M (Self * World) loc) pure :
  transform_outcome m pure → heap_intact m.
Proof.
  intros Hout self w data d Hd l dl Hl.
  destruct (Hout self w data d Hd) as (w' & Hp & _ & Hres).
  destruct (pure self d).
  - destruct Hres as (out & -> & _). simpl. by eapply prefix_lookup_Some.
  - rewrite Hres. simpl. by eapply prefix_lookup_Some.
Qed.

Lemma fit_outcome_intact {Self} (m : loc → M (Self * World) unit) pure :
  fit_outcome m pure → heap_intact m.
Proof.
  intros Hout self w data d Hd l dl Hl.
  destruct (Hout self w data d Hd) as (w' & Hp & _ & Hres).
  destruct (pure self d).
  - rewrite Hres. simpl. by eapply prefix_lookup_Some.
  - destruct Hres as [self' ->]. simpl. by eapply prefix_lookup_Some.
Qed.

End factory_runs.

(** ** Rows are kept *)

Section rows.
Context `{External}.
Implicit Types (d : DataFrame).

Lemma rows_kept_refl d : df_wf d → rows_kept d d.
Proof. by split. Qed.

Lemma rows_kept_trans d1 d2 d3 :
  rows_kept d1 d2 → rows_kept d2 d3 → rows_kept d1 d3.
Proof. intros [H1 ?] [H2 ?]. split; [congruence|done]. Qed.

Lemma result_map_length {A B} (f : A → result B) xs ys :
  result_map f xs = Ok ys → length ys = length xs.
Proof.
  revert ys. induction xs as [|x xs IH]; intros ys; simpl.
  - by intros [= <-].
  - unfold result_bind. destruct (f x); [|done].
    destruct (result_map f xs) as [ys'|]; [|done].
    intros [= <-]. simpl. f_equal. by apply IH.
Qed.

Lemma lookup_column_length col d s :
  df_wf d → pd.lookup_column col d = Some s → length s = nrows d.
Proof.
  intros Hwf Hs. apply find_column_Some in Hs.
  unfold df_wf in Hwf. rewrite list.Forall_forall in Hwf.
  exact (Hwf (col, s) Hs).
Qed.

Lemma rows_update_column col f d :
  df_wf d → (∀ s, length (f s) = length s) →
  rows_kept d (pd.update_column col f d).
Proof.
  intros Hwf Hf. split; [done|]. unfold df_wf, pd.update_column, nrows in *.
  simpl. apply Forall_fmap. eapply list.Forall_impl; [exact Hwf|].
  intros [n s] Hs. simpl in *. case_decide; simpl; [by rewrite Hf|done].
Qed.

Lemma rows_set_column col vals d :
  df_wf d → length vals = nrows d → rows_kept d (pd.set_column col vals d).
Proof.
  intros Hwf Hlen. unfold pd.set_column. destruct (pd.has_column d col).
  - split; [done|]. unfold df_wf, pd.update_column, nrows in *.
    simpl. apply Forall_fmap. eapply list.Forall_impl; [exact Hwf|].
    intros [n s] Hs. simpl in *. by case_decide.
  - split; [done|]. unfold df_wf, nrows in *. simpl.
    apply Forall_app. split; [done|]. by repeat constructor.
Qed.

Lemma rows_drop_column col d : df_wf d → rows_kept d (pd.drop_column col d).
Proof.
  intros Hwf. split; [done|]. unfold df_wf, pd.drop_column, nrows in *. simpl.
  rewrite list.Forall_forall in Hwf. apply list.Forall_forall.
  intros c Hc. apply list_elem_of_filter in Hc as [_ Hc]. by apply Hwf.
Qed.

Lemma rows_concat_columns d ds :
  ds ≠ [] → Forall (rows_kept d) ds → rows_kept d (pd.concat_columns ds).
Proof.
  intros Hne Hds. destruct ds as [|d0 ds]; [done|].
  unfold pd.concat_columns. simpl.
  pose proof (Forall_inv Hds) as [Hi0 _].
  split; [done|]. unfold df_wf, nrows. simpl. rewrite Hi0.
  change (df_columns d0 ++ concat (map df_columns ds))
    with (concat (map df_columns (d0 :: ds))).
  apply Forall_concat. apply Forall_fmap. eapply list.Forall_impl; [exact Hds|].
  intros d' [Hi Hw]. simpl. unfold df_wf, nrows in Hw. by rewrite Hi in Hw.
Qed.

Lemma rows_from_rows rows names index e :
  pd.from_rows rows names index = Some e → length rows = length index →
  df_index e = index ∧ df_wf e.
Proof.
  unfold pd.from_rows. destruct (forallb _ rows); [|done].
  intros [= <-] Hlen. split; [done|]. unfold df_wf, nrows. simpl.
  apply list.Forall_forall. intros [n s] Hin.
  apply elem_of_lookup_imap in Hin as (j & nm & [= -> ->] & _).
  simpl. by rewrite length_map.
Qed.

Lemma mapM_select_wf d cols cs :
  df_wf d →
  mapM (λ col, (λ s, (col, s)) <$> pd.lookup_column col d) cols = Some cs →
  Forall (λ c : string * list cell, length c.2 = nrows d) cs.
Proof.
  intros Hwf Hcs. apply mapM_Some in Hcs.
  induction Hcs as [|col c cols cs Hc _ IH]; [done|].
  constructor; [|done].
  apply fmap_Some in Hc as (s & Hs & ->). simpl.
  by eapply lookup_column_length.
Qed.

Lemma rows_select cols d slice :
  df_wf d → pd.select cols d = Some slice → rows_kept d slice.
Proof.
  intros Hwf. unfold pd.select. intros Hs.
  apply bind_Some in Hs as (cs & Hcs & [= <-]).
  split; [done|]. unfold df_wf, nrows. simpl.
  by eapply mapM_select_wf.
Qed.

(** Loops of steps that keep the rows. *)
Lemma for_each_rows {X} (step : X → M DataFrame unit) (xs : list X) :
  (∀ x d d', df_wf d → step x d = (d', Ok tt) → rows_kept d d') →
  ∀ d d', df_wf d → for_each xs step d = (d', Ok tt) → rows_kept d d'.
Proof.
  intros Hstep. induction xs as [|x xs IH]; intros d d' Hwf; simpl.
  - intros [= <-]. by apply rows_kept_refl.
  - unfold bind. destruct (step x d) as [d1 [[]|e]] eqn:E1; [|done].
    intros E2. pose proof (Hstep x d d1 Hwf E1) as Hk.
    eapply rows_kept_trans; [exact Hk|]. apply IH; [apply Hk|done].
Qed.

Lemma result_fold_rows {X} (step : X → DataFrame → result DataFrame)
    (xs : list X) :
  (∀ x d d', df_wf d → step x d = Ok d' → rows_kept d d') →
  ∀ d d', df_wf d → result_fold step xs d = Ok d' → rows_kept d d'.
Proof.
  intros Hstep. induction xs as [|x xs IH]; intros d d' Hwf; simpl.
  - intros [= <-]. by apply rows_kept_refl.
  - unfold result_bind. destruct (step x d) as [d1|e] eqn:E1; [|done].
    intros E2. pose proof (Hstep x d d1 Hwf E1) as Hk.
    eapply rows_kept_trans; [exact Hk|]. apply IH; [apply Hk|done].
Qed.

Lemma fill_with_rows choose col d d' :
  df_wf d → fill_with choose col d = (d', Ok tt) → rows_kept d d'.
Proof.
  intros Hwf. unfold fill_with.
  destruct (pd.lookup_column col d); [|done].
  destruct (choose l); [|done]. intros [= <-].
  apply rows_update_column; [done|]. intros s. apply length_map.
Qed.

Lemma numeric_fill_rows method col d d' :
  df_wf d → numeric_fill method col d = (d', Ok tt) → rows_kept d d'.
Proof.
  intros Hwf. unfold numeric_fill.
  destruct (numeric_statistic method); [by apply fill_with_rows|done].
Qed.

Lemma categorical_fill_rows method col d d' :
  df_wf d → categorical_fill method col d = (d', Ok tt) → rows_kept d d'.
Proof.
  intros Hwf. unfold categorical_fill. case_decide; by apply fill_with_rows.
Qed.

Lemma scale_column_rows scalers col d d' :
  df_wf d → scale_column scalers col d = (d', Ok tt) → rows_kept d d'.
Proof.
  intros Hwf. unfold scale_column.
  destruct (scalers !! col) as [sc|].
  2: { intros [= <-]. by apply rows_kept_refl. }
  destruct (pd.lookup_column col d) as [x|] eqn:Hx; [|done].
  destruct (scaler_transform sc x) as [y|] eqn:Hy; [|done].
  intros [= <-]. apply rows_set_column; [done|].
  unfold scaler_transform in Hy. destruct sc; [done|].
  apply result_map_length in Hy. rewrite Hy. by eapply lookup_column_length.
Qed.

Lemma text_column_rows self col d d' :
  df_wf d → text_column self col d = (d', Ok tt) → rows_kept d d'.
Proof.
  intros Hwf. unfold text_column.
  destruct (pd.lookup_column col d) as [x|] eqn:Hx; [|done].
  intros [= <-]. apply rows_set_column; [done|].
  rewrite length_map. by eapply lookup_column_length.
Qed.

Lemma encode_column_rows self col d d' :
  df_wf d → encode_column self col d = Ok d' → rows_kept d d'.
Proof.
  intros Hwf. unfold encode_column, result_bind, lookup_or_raise.
  destruct (CategoricalPreprocessor.encoders self !! col) as [[enc|enc]|].
  - destruct (pd.lookup_column col d) as [y|] eqn:Hy; [|done].
    destruct (sk.LabelEncoder_transform enc y) as [codes|] eqn:Hc; [|done].
    intros [= <-]. apply rows_set_column; [done|].
    unfold sk.LabelEncoder_transform in Hc. destruct (sk.classes_ enc); [|done].
    apply result_map_length in Hc. rewrite Hc. by eapply lookup_column_length.
  - destruct (pd.lookup_column col d) as [x|] eqn:Hx; [|done].
    destruct (sk.OneHotEncoder_transform enc x) as [rows|] eqn:Hr; [|done].
    destruct (feature_names_of self col) as [names|]; [|done].
    unfold encoded_frame.
    destruct (pd.from_rows rows names (df_index d)) as [e|] eqn:He; [|done].
    intros [= <-]. apply rows_concat_columns; [done|].
    constructor; [by apply rows_drop_column|]. constructor; [|done].
    apply rows_from_rows in He; [done|].
    unfold sk.OneHotEncoder_transform in Hr.
    destruct (sk.categories_ enc); [|done]. injection Hr as <-.
    rewrite length_map. by eapply lookup_column_length.
  - intros [= <-]. by apply rows_kept_refl.
Qed.

Lemma text_transform_rows self d d' :
  df_wf d → text_transform_pure self d = Ok d' → rows_kept d d'.
Proof.
  intros Hwf. unfold text_transform_pure.
  destruct (valid_input _ d); [|done].
  destruct (for_each _ _ d) as [d1 [[]|e]] eqn:E; [|done].
  intros [= <-]. eapply for_each_rows; [|done|exact E].
  intros. by eapply text_column_rows.
Qed.

Lemma numeric_transform_rows self d d' :
  df_wf d → numeric_transform_pure self d = Ok d' → rows_kept d d'.
Proof.
  intros Hwf. unfold numeric_transform_pure, numeric_transform_frame, bind.
  destruct (valid_input _ d); [|done].
  destruct (for_each _ (numeric_fill _) d) as [d1 [[]|e]] eqn:E1; [|done].
  destruct (for_each _ (scale_column _) d1) as [d2 [[]|e]] eqn:E2; [|done].
  intros [= <-].
  assert (rows_kept d d1) as Hk1.
  { eapply for_each_rows; [|done|exact E1]. intros. by eapply numeric_fill_rows. }
  eapply rows_kept_trans; [exact Hk1|].
  eapply for_each_rows; [|apply Hk1|exact E2]. intros. by eapply scale_column_rows.
Qed.

Lemma categorical_transform_rows self d d' :
  df_wf d → categorical_transform_pure self d = Ok d' → rows_kept d d'.
Proof.
  intros Hwf. unfold categorical_transform_pure.
  destruct (valid_input _ d); [|done].
  destruct (for_each _ (categorical_fill _) d) as [d1 [[]|e]] eqn:E1; [|done].
  intros E2.
  assert (rows_kept d d1) as Hk1.
  { eapply for_each_rows; [|done|exact E1]. intros. by eapply categorical_fill_rows. }
  eapply rows_kept_trans; [exact Hk1|].
  eapply result_fold_rows; [|apply Hk1|exact E2].
  intros. by eapply encode_column_rows.
Qed.

Lemma preprocessor_transform_rows p d d' :
  df_wf d → preprocessor_transform_pure p d = Ok d' → rows_kept d d'.
Proof.
  destruct p; simpl.
  - apply text_transform_rows.
  - apply numeric_transform_rows.
  - apply categorical_transform_rows.
Qed.

Lemma transform_item_rows self d tp acc acc' :
  df_wf d → Forall (rows_kept d) acc → transform_item self d tp acc = Ok acc' →
  Forall (rows_kept d) acc'.
Proof.
  intros Hwf Hacc. unfold transform_item, result_bind.
  case_bool_decide; [|by intros [= <-]].
  destruct (pd.select _ d) as [slice|] eqn:Hs; [|done].
  destruct (PreprocessorFactory.get_item tp _) as [p|]; [|done].
  destruct (preprocessor_transform_pure p slice) as [out|] eqn:Ho; [|done].
  intros [= <-]. apply Forall_app. split; [done|]. constructor; [|done].
  pose proof (rows_select _ _ _ Hwf Hs) as Hk.
  eapply rows_kept_trans; [exact Hk|].
  eapply preprocessor_transform_rows; [apply Hk|done].
Qed.

Lemma factory_transform_rows self d d' :
  df_wf d → factory_transform_pure self d = Ok d' → rows_kept d d'.
Proof.
  intros Hwf. unfold factory_transform_pure, processed_frames, result_bind.
  destruct (result_fold _ _ []) as [outs|] eqn:E; [|done].
  assert (Forall (rows_kept d) outs) as Houts.
  { revert E. generalize (PreprocessorFactory.preprocessors self).*1.
    assert (Forall (rows_kept d) []) as Hnil by constructor.
    revert Hnil. generalize (@nil DataFrame).
    intros acc Hacc tps. revert acc Hacc.
    induction tps as [|tp tps IH]; intros acc Hacc; simpl.
    - by intros [= <-].
    - unfold result_bind.
      destruct (transform_item self d tp acc) as [acc1|] eqn:E1; [|done].
      apply IH. by eapply transform_item_rows. }
  case_bool_decide.
  - intros [= <-]. by apply rows_concat_columns.
  - intros [= <-]. by apply rows_kept_refl.
Qed.

(** From outcomes to runs. *)
Lemma outcome_rows {Self} (m : loc → M (Self * World) loc) pure :
  transform_outcome m pure →
  (∀ self d d', df_wf d → pure self d = Ok d' → rows_kept d d') →
  ∀ self w data d s' out,
    heap w !! data = Some d → df_wf d → m data (self, w) = (s', Ok out) →
    ∃ dout, heap s'.2 !! out = Some dout ∧ rows_kept d dout.
Proof.
  intros Hout Hrows self w data d s' out Hd Hwf Hrun.
  destruct (Hout self w data d Hd) as (w' & _ & _ & Hres).
  destruct (pure self d) as [d'|e] eqn:Hp.
  - destruct Hres as (out' & Hrun' & Hl & _). rewrite Hrun in Hrun'.
    injection Hrun' as -> ->. exists d'. split; [done|]. by eapply Hrows.
  - rewrite Hrun in Hres. done.
Qed.

Lemma outcome_keeps_rows {Self} (m : loc → M (Self * World) loc) pure :
  transform_outcome m pure →
  (∀ self d d', df_wf d → pure self d = Ok d' → rows_kept d d') →
  keeps_rows m.
Proof.
  intros Hout Hrows self w data d s' out Hd Hwf Hrun.
  destruct (outcome_rows m pure Hout Hrows self w data d s' out Hd Hwf Hrun)
    as (dout & Hl & Hi & Hw).
  exists dout. repeat split; [done..| |done]. unfold nrows. by rewrite Hi.
Qed.

(** Validation and column names. *)
Lemma filter_nil_iff {A} (P : A → Prop) `{!∀ x, Decision (P x)} (l : list A) :
  filter P l = [] ↔ ∀ x, x ∈ l → ¬ P x.
Proof.
  split.
  - intros Hf x Hx HP. by eapply filter_nil_not_elem_of.
  - induction l as [|x l IH]; [done|]. intros Hall.
    rewrite filter_cons. destruct (decide (P x)) as [HP|HP].
    + exfalso. eapply Hall; [apply list_elem_of_here|done].
    + apply IH. intros y Hy. apply Hall. by apply list_elem_of_further.
Qed.

Lemma valid_input_spec cfg d :
  valid_input cfg d = true ↔
  ∀ c, c ∈ input_columns cfg → col_name c ∈ column_names d.
Proof.
  unfold valid_input, missing_columns.
  rewrite bool_decide_eq_true, filter_nil_iff. split.
  - intros Hf c Hc. destruct (decide (col_name c ∈ column_names d)) as [|Hn]; [done|].
    exfalso. eapply Hf; [|exact Hn]. by apply list_elem_of_fmap_2.
  - intros Hall x Hx Hn. apply list_elem_of_fmap in Hx as (c & -> & Hc).
    by apply Hn, Hall.
Qed.

Lemma columns_of_type_declared cfg ty col :
  col ∈ columns_of_type cfg ty →
  ∃ c, c ∈ input_columns cfg ∧ col_name c = col ∧ col_type c = ty.
Proof.
  unfold columns_of_type. intros Hc.
  apply list_elem_of_fmap in Hc as (c & -> & Hc).
  apply list_elem_of_filter in Hc as [Ht Hc]. by exists c.
Qed.

Lemma valid_input_columns_of_type cfg d ty col :
  valid_input cfg d = true → col ∈ columns_of_type cfg ty →
  col ∈ column_names d.
Proof.
  intros Hv Hc. apply columns_of_type_declared in Hc as (c & Hc & <- & _).
  by apply (proj1 (valid_input_spec cfg d) Hv).
Qed.

Lemma column_names_update_column col f d :
  column_names (pd.update_column col f d) = column_names d.
Proof.
  unfold column_names, pd.update_column. simpl.
  rewrite <- list_fmap_compose. apply list_fmap_ext.
  intros i [n s] _. simpl. by case_decide.
Qed.

Lemma column_names_set_column col vals d :
  col ∈ column_names d →
  column_names (pd.set_column col vals d) = column_names d.
Proof.
  intros Hc. unfold pd.set_column, pd.has_column.
  rewrite bool_decide_eq_true_2 by done. apply column_names_update_column.
Qed.

Lemma lookup_column_is_Some col d :
  is_Some (pd.lookup_column col d) ↔ col ∈ column_names d.
Proof. apply find_column_is_Some. Qed.

(** The text transform returns a table for every table that passes the
    validation. *)
Lemma text_loop_total self cols d :
  (∀ c, c ∈ cols → c ∈ column_names d) →
  ∃ d', for_each cols (text_column self) d = (d', Ok tt).
Proof.
  revert d. induction cols as [|col cols IH]; intros d Hall; simpl.
  - by eexists.
  - unfold bind, text_column at 1.
    assert (col ∈ column_names d) as Hc by (apply Hall, list_elem_of_here).
    destruct (proj2 (lookup_column_is_Some col d) Hc) as [x Hx]. rewrite Hx.
    apply IH. intros c Hcin. rewrite column_names_set_column by done.
    apply Hall. by apply list_elem_of_further.
Qed.

Lemma text_transform_total self d :
  valid_input (TextPreprocessor.config self) d = true →
  ∃ d', text_transform_pure self d = Ok d'.
Proof.
  intros Hv. unfold text_transform_pure. rewrite Hv.
  destruct (text_loop_total self
              (columns_of_type (TextPreprocessor.config self) "text") d)
    as [d' Hd'].
  { intros c Hc. by eapply valid_input_columns_of_type. }
  rewrite Hd'. by eexists.
Qed.

End rows.

(** * The claims *)

Section claim_C7.
Context `{External}.

Lemma text_of_cell_spec cfg c :
  text_of_cell (TextPreprocessor.__init__ cfg) c
  = spec_process_cell (text_config cfg) c.
Proof.
  destruct c as [| |text]; [done..|].
  unfold text_of_cell, spec_process_cell, text_steps, spec_text_pipeline,
    spec_tokenize, spec_remove_stopwords, spec_stem, spec_rejoin,
    spec_strip_punctuation, spec_lowercase, TextPreprocessor.__init__.
  simpl. by destruct (stemming (text_config cfg)).
Qed.

(** C7. The per-cell text function is total. On the receiver built by the
    constructor it never raises and changes neither the receiver nor the
    heap; it returns the empty string for a cell that is not a string, and
    for a string the result of lowercase, strip punctuation, tokenize,
    remove stopwords, stem (each optional step when enabled) rejoined with
    single spaces, or the empty string when one of these steps fails. The
    column-wise application returns one string per cell and never raises. *)
Theorem C7_preprocess_text_total (cfg : Config) (w : World) :
  let self := TextPreprocessor.__init__ cfg in
  (∀ c, ∃ l',
      TextPreprocessor._preprocess_text c (self, w)
      = ((self, mkWorld (heap w) (logs w ++ l')),
         Ok (spec_process_cell (text_config cfg) c))) ∧
  (∀ c, is_str c = false → spec_process_cell (text_config cfg) c = "") ∧
  (∀ s, ∃ l',
      for_map s TextPreprocessor._preprocess_text (self, w)
      = ((self, mkWorld (heap w) (logs w ++ l')),
         Ok (map (spec_process_cell (text_config cfg)) s))).
Proof.
  intros self. subst self. set (self := TextPreprocessor.__init__ cfg).
  split; [|split].
  - intros c. destruct (preprocess_text_run self w c) as [l' Hl].
    exists l'. rewrite Hl. unfold self. by rewrite text_of_cell_spec.
  - by intros [| |text].
  - intros s. destruct (apply_preprocess_text_run self w s) as [l' Hl].
    exists l'. rewrite Hl. do 2 f_equal. apply map_ext. intros c.
    apply text_of_cell_spec.
Qed.

End claim_C7.

(** The text function on the cells of the example. *)
Example C7_example :
  map (spec_process_cell (H:=example_external) example_text_config)
      [Str "The Cat, is here"; NaN; num 3]
  = ["cat here"; ""; ""].
Proof. reflexivity. Qed.

Section claim_C8.
Context `{External}.

(** C8. Neither [fit] nor [transform] of any preprocessor, nor of the
    factory, mutates the table it is called on: every object that the heap
    held before the call - the caller's table with its columns, cells, row
    labels and their order - is the same after the call, whether the call
    returns or raises. All updates go to copies made by the call. *)
Theorem C8_input_not_mutated :
  heap_intact TextPreprocessor.fit ∧
  heap_intact TextPreprocessor.transform ∧
  heap_intact NumericPreprocessor.fit ∧
  heap_intact NumericPreprocessor.transform ∧
  heap_intact CategoricalPreprocessor.fit ∧
  heap_intact CategoricalPreprocessor.transform ∧
  heap_intact PreprocessorFactory.fit ∧
  heap_intact PreprocessorFactory.transform.
Proof.
  repeat split.
  - eapply fit_outcome_intact, text_fit_outcome.
  - eapply transform_outcome_intact, text_transform_outcome.
  - eapply fit_outcome_intact, numeric_fit_outcome.
  - eapply transform_outcome_intact, numeric_transform_outcome.
  - eapply fit_outcome_intact, categorical_fit_outcome.
  - eapply transform_outcome_intact, categorical_transform_outcome.
  - intros self w data d Hd l dl Hl.
    eapply prefix_lookup_Some; [exact Hl|]. by eapply factory_fit_prefix.
  - eapply transform_outcome_intact, factory_transform_outcome.
Qed.

End claim_C8.


Section claim_C9.
Context `{External}.

Lemma fit_outcome_Ok {Self} (m : loc → M (Self * World) unit) pure
    self w data d self' w' :
  fit_outcome m pure → heap w !! data = Some d →
  m data (self, w) = ((self', w'), Ok tt) → pure self d = Ok self'.
Proof.
  intros Hout Hd Hrun. destruct (Hout self w data d Hd) as (w1 & _ & _ & Hres).
  destruct (pure self d) as [s1|e].
  - rewrite Hrun in Hres. by injection Hres as -> _.
  - destruct Hres as [s1 Hres]. rewrite Hrun in Hres. done.
Qed.

(** The loop of the numeric [fit] overwrites the entry of every numeric
    column and touches no other entry. *)
Lemma fit_scaler_loop_other cls d cols (m m' : gmap string scaler_obj) r k :
  for_each cols (fit_scaler cls d) m = (m', r) → k ∉ cols → m' !! k = m !! k.
Proof.
  revert m. induction cols as [|col cols IH]; intros m; simpl.
  - by intros [= <- _].
  - intros Hrun Hk. apply not_elem_of_cons in Hk as [Hne Hk].
    unfold bind, fit_scaler at 1 in Hrun.
    destruct (pd.lookup_column col d) as [x|].
    2: { injection Hrun as <- _. by rewrite lookup_insert_ne. }
    destruct (sk_scaler_fit cls x) as [s|e].
    2: { injection Hrun as <- _. by rewrite lookup_insert_ne. }
    rewrite (IH _ Hrun Hk). by rewrite lookup_insert_ne.
Qed.

Lemma fit_scaler_loop_agree cls d cols (m1 m2 m1' : gmap string scaler_obj) :
  for_each cols (fit_scaler cls d) m1 = (m1', Ok tt) →
  (∀ k, k ∉ cols → m1 !! k = m2 !! k) →
  for_each cols (fit_scaler cls d) m2 = (m1', Ok tt).
Proof.
  revert m1 m2. induction cols as [|col cols IH]; intros m1 m2; simpl.
  - intros [= <-] Hag. unfold ret. f_equal. apply map_eq. intros k.
    symmetry. apply Hag. apply not_elem_of_nil.
  - unfold bind, fit_scaler at 1 3.
    destruct (pd.lookup_column col d) as [x|]; [|done].
    destruct (sk_scaler_fit cls x) as [s|e]; [|done].
    intros Hrun Hag. eapply IH; [exact Hrun|].
    intros k Hk. destruct (decide (col = k)) as [->|Hne].
    + by rewrite !lookup_insert_eq.
    + rewrite !lookup_insert_ne by done. apply Hag.
      by apply not_elem_of_cons.
Qed.

Lemma numeric_fit_pure_fields self d self' :
  numeric_fit_pure self d = Ok self' →
  NumericPreprocessor.config self' = NumericPreprocessor.config self ∧
  NumericPreprocessor.scaler_class self' = NumericPreprocessor.scaler_class self ∧
  ∀ k, k ∉ columns_of_type (NumericPreprocessor.config self) "numeric" →
       NumericPreprocessor.scalers self' !! k
       = NumericPreprocessor.scalers self !! k.
Proof.
  unfold numeric_fit_pure. destruct (valid_input _ d); [|done].
  destruct (for_each _ (numeric_fill _) d) as [d1 [[]|e]]; [|done].
  destruct (for_each _ (fit_scaler _ d1) _) as [m [[]|e]] eqn:E; [|done].
  intros [= <-]. simpl. repeat split. intros k Hk.
  by eapply fit_scaler_loop_other.
Qed.

Lemma numeric_refit self0 self1 d1 d2 self2 self2' :
  NumericPreprocessor.scalers self0 = ∅ →
  numeric_fit_pure self0 d1 = Ok self1 →
  numeric_fit_pure self1 d2 = Ok self2 →
  numeric_fit_pure self0 d2 = Ok self2' →
  self2 = self2'.
Proof.
  intros Hfresh H1 H2 H2'.
  destruct (numeric_fit_pure_fields _ _ _ H1) as (Hc1 & Hk1 & Hs1).
  revert H2 H2'. unfold numeric_fit_pure. rewrite Hc1, Hk1.
  destruct (valid_input _ d2); [|done].
  destruct (for_each _ (numeric_fill _) d2) as [d' [[]|e]]; [|done].
  destruct (for_each _ (fit_scaler _ d') (NumericPreprocessor.scalers self1))
    as [m [[]|e]] eqn:E; [|done].
  intros [= <-].
  rewrite (fit_scaler_loop_agree _ _ _ _ (NumericPreprocessor.scalers self0) _ E).
  - by intros [= <-].
  - intros k Hk. by apply Hs1.
Qed.

Lemma fit_encoder_agree d col cols s1 s2 s1' :
  agree_outside (col :: cols) s1 s2 → fit_encoder d col s1 = Ok s1' →
  ∃ s2', fit_encoder d col s2 = Ok s2' ∧ agree_outside cols s1' s2'.
Proof.
  intros [Hcfg Hag]. unfold fit_encoder, result_bind. rewrite <- Hcfg.
  assert (∀ (e1 : CategoricalPreprocessor.encoder)
            (m1 : CategoricalPreprocessor.encoding_map),
    agree_outside cols
      (CategoricalPreprocessor.mk (CategoricalPreprocessor.config s1)
         (<[col := e1]> (CategoricalPreprocessor.encoders s1))
         (<[col := m1]> (CategoricalPreprocessor.encoding_maps s1)))
      (CategoricalPreprocessor.mk (CategoricalPreprocessor.config s1)
         (<[col := e1]> (CategoricalPreprocessor.encoders s2))
         (<[col := m1]> (CategoricalPreprocessor.encoding_maps s2)))) as Hnew.
  { intros e1 m1. split; [done|]. simpl. intros k Hk.
    destruct (decide (col = k)) as [->|Hne].
    - by rewrite !lookup_insert_eq.
    - rewrite !lookup_insert_ne by done. apply Hag. by apply not_elem_of_cons. }
  repeat case_decide; [| |done].
  - destruct (lookup_or_raise col d) as [y|]; [|done].
    destruct (sk.LabelEncoder_fit y) as [enc|]; [|done].
    destruct (sk.LabelEncoder_transform enc _) as [codes|]; [|done].
    intros [= <-]. eexists. split; [done|]. apply Hnew.
  - destruct (lookup_or_raise col d) as [x|]; [|done].
    destruct (sk.OneHotEncoder_fit x) as [enc|]; [|done].
    destruct (get_feature_names_out enc col) as [names|]; [|done].
    intros [= <-]. eexists. split; [done|]. apply Hnew.
Qed.

Lemma agree_outside_nil s1 s2 : agree_outside [] s1 s2 → s1 = s2.
Proof.
  destruct s1 as [c1 e1 m1], s2 as [c2 e2 m2]. intros [Hc Hag]. simpl in *.
  subst. f_equal; apply map_eq; intros k; apply Hag, not_elem_of_nil.
Qed.

Lemma fit_encoder_loop_agree d cols s1 s2 s1' :
  agree_outside cols s1 s2 → result_fold (fit_encoder d) cols s1 = Ok s1' →
  result_fold (fit_encoder d) cols s2 = Ok s1'.
Proof.
  revert s1 s2. induction cols as [|col cols IH]; intros s1 s2 Hag; simpl.
  - intros [= <-]. f_equal. symmetry. by apply agree_outside_nil.
  - unfold result_bind. destruct (fit_encoder d col s1) as [s1a|] eqn:E1; [|done].
    destruct (fit_encoder_agree d col cols s1 s2 s1a Hag E1) as (s2a & -> & Hag').
    by apply IH.
Qed.

Lemma fit_encoder_loop_other d cols s s' :
  result_fold (fit_encoder d) cols s = Ok s' → agree_outside cols s' s.
Proof.
  revert s. induction cols as [|col cols IH]; intros s; simpl.
  - intros [= <-]. by split.
  - unfold result_bind. destruct (fit_encoder d col s) as [sa|] eqn:E1; [|done].
    intros E2. destruct (IH _ E2) as [Hc Hag].
    assert (agree_outside [col] sa s) as [Hc1 Hag1].
    { revert E1. unfold fit_encoder, result_bind.
      repeat case_decide; [| |done].
      - destruct (lookup_or_raise col d) as [y|]; [|done].
        destruct (sk.LabelEncoder_fit y) as [enc|]; [|done].
        destruct (sk.LabelEncoder_transform enc _) as [codes|]; [|done].
        intros [= <-]. split; [done|]. simpl. intros k Hk.
        apply not_elem_of_cons in Hk as [Hne _].
        by rewrite !lookup_insert_ne.
      - destruct (lookup_or_raise col d) as [x|]; [|done].
        destruct (sk.OneHotEncoder_fit x) as [enc|]; [|done].
        destruct (get_feature_names_out enc col) as [names|]; [|done].
        intros [= <-]. split; [done|]. simpl. intros k Hk.
        apply not_elem_of_cons in Hk as [Hne _].
        by rewrite !lookup_insert_ne. }
    split; [congruence|]. intros k Hk.
    apply not_elem_of_cons in Hk as [Hne Hk].
    destruct (Hag k Hk) as [-> ->]. apply Hag1.
    apply not_elem_of_cons. split; [done|apply not_elem_of_nil].
Qed.

Lemma categorical_refit self0 self1 d1 d2 self2 self2' :
  categorical_fit_pure self0 d1 = Ok self1 →
  categorical_fit_pure self1 d2 = Ok self2 →
  categorical_fit_pure self0 d2 = Ok self2' →
  self2 = self2'.
Proof.
  intros H1 H2 H2'.
  assert (agree_outside
            (columns_of_type (CategoricalPreprocessor.config self0) "categorical")
            self1 self0) as Hag.
  { revert H1. unfold categorical_fit_pure. destruct (valid_input _ d1); [|done].
    destruct (for_each _ (categorical_fill _) d1) as [d' [[]|e]]; [|done].
    apply fit_encoder_loop_other. }
  revert H2 H2'. unfold categorical_fit_pure. rewrite (proj1 Hag).
  destruct (valid_input _ d2); [|done].
  destruct (for_each _ (categorical_fill _) d2) as [d' [[]|e]]; [|done].
  intros E. rewrite (fit_encoder_loop_agree _ _ _ _ _ Hag E). by intros [= <-].
Qed.

(** C9. A second [fit] replaces the fitted state: the scalers (numeric),
    the encoders and encoding maps (categorical) after [fit] on F1 followed
    by [fit] on F2 are those of a new instance after [fit] on F2 alone,
    whenever these calls succeed; nothing of the first fit is carried over.
    The text preprocessor has no fitted state and [fit] leaves it as it
    is. *)
Theorem C9_refit_replaces_state :
  (∀ cfg self0 w0 f1 d1 self1 w1 w1' f2 d2 self2 w2 wa fa self2' wa',
     NumericPreprocessor.__init__ cfg = Ok self0 →
     heap w0 !! f1 = Some d1 →
     NumericPreprocessor.fit f1 (self0, w0) = ((self1, w1), Ok tt) →
     heap w1' !! f2 = Some d2 →
     NumericPreprocessor.fit f2 (self1, w1') = ((self2, w2), Ok tt) →
     heap wa !! fa = Some d2 →
     NumericPreprocessor.fit fa (self0, wa) = ((self2', wa'), Ok tt) →
     self2 = self2') ∧
  (∀ cfg w0 f1 d1 self1 w1 w1' f2 d2 self2 w2 wa fa self2' wa',
     let self0 := CategoricalPreprocessor.__init__ cfg in
     heap w0 !! f1 = Some d1 →
     CategoricalPreprocessor.fit f1 (self0, w0) = ((self1, w1), Ok tt) →
     heap w1' !! f2 = Some d2 →
     CategoricalPreprocessor.fit f2 (self1, w1') = ((self2, w2), Ok tt) →
     heap wa !! fa = Some d2 →
     CategoricalPreprocessor.fit fa (self0, wa) = ((self2', wa'), Ok tt) →
     self2 = self2') ∧
  (∀ self w data d self' w' r,
     heap w !! data = Some d →
     TextPreprocessor.fit data (self, w) = ((self', w'), r) → self' = self).
Proof.
  split; [|split].
  - intros cfg self0 w0 f1 d1 self1 w1 w1' f2 d2 self2 w2 wa fa self2' wa'
      Hinit Hd1 Hfit1 Hd2 Hfit2 Hda Hfita.
    apply (fit_outcome_Ok _ _ _ _ _ _ _ _ numeric_fit_outcome Hd1) in Hfit1.
    apply (fit_outcome_Ok _ _ _ _ _ _ _ _ numeric_fit_outcome Hd2) in Hfit2.
    apply (fit_outcome_Ok _ _ _ _ _ _ _ _ numeric_fit_outcome Hda) in Hfita.
    eapply (numeric_refit self0 self1 d1 d2); [|done..].
    unfold NumericPreprocessor.__init__, result_bind in Hinit.
    destruct (NumericPreprocessor._setup_scalers cfg); [|done].
    by injection Hinit as <-.
  - intros cfg w0 f1 d1 self1 w1 w1' f2 d2 self2 w2 wa fa self2' wa' self0
      Hd1 Hfit1 Hd2 Hfit2 Hda Hfita.
    apply (fit_outcome_Ok _ _ _ _ _ _ _ _ categorical_fit_outcome Hd1) in Hfit1.
    apply (fit_outcome_Ok _ _ _ _ _ _ _ _ categorical_fit_outcome Hd2) in Hfit2.
    apply (fit_outcome_Ok _ _ _ _ _ _ _ _ categorical_fit_outcome Hda) in Hfita.
    by eapply (categorical_refit self0 self1 d1 d2).
  - intros self w data d self' w' r Hd.
    unfold TextPreprocessor.fit, bind, get_self. simpl.
    rewrite (validate_input_run _ _ data self w d Hd).
    destruct (valid_input _ d); simpl; by intros [= <- _ _].
Qed.

End claim_C9.

Section claim_C1.
Context `{External}.

Lemma find_column_update col c f cs :
  pd.find_column c
    (map (λ x : string * list cell,
            if decide (x.1 = col) then (x.1, f x.2) else x) cs)
  = if decide (c = col) then f <$> pd.find_column c cs else pd.find_column c cs.
Proof.
  induction cs as [|[n x] cs IH]; simpl; [by case_decide|].
  rewrite IH. repeat (case_decide; simpl in *; subst); done.
Qed.

Lemma lookup_column_update_column c col f d :
  pd.lookup_column c (pd.update_column col f d)
  = if decide (c = col) then f <$> pd.lookup_column c d
    else pd.lookup_column c d.
Proof. apply find_column_update. Qed.

Lemma lookup_column_set_column c col vals d x :
  pd.lookup_column col d = Some x →
  pd.lookup_column c (pd.set_column col vals d)
  = if decide (c = col) then Some vals else pd.lookup_column c d.
Proof.
  intros Hx. unfold pd.set_column.
  rewrite (lookup_column_has_column _ _ _ Hx), lookup_column_update_column.
  case_decide; [|done]. subst. by rewrite Hx.
Qed.

(** The fill loop: every listed column is filled with the value chosen from
    that column of the table the loop runs on; other columns are as they
    were. *)
Lemma fill_with_loop_columns choose cols d d1 :
  NoDup cols → for_each cols (fill_with choose) d = (d1, Ok tt) →
  (∀ c, c ∈ cols → ∃ x v,
      pd.lookup_column c d = Some x ∧ choose x = Ok v ∧
      pd.lookup_column c d1 = Some (pd.fillna v x)) ∧
  (∀ c, c ∉ cols → pd.lookup_column c d1 = pd.lookup_column c d).
Proof.
  revert d. induction cols as [|col cols IH]; intros d Hnd; simpl.
  - intros [= <-]. split; [by intros c ?%elem_of_nil|done].
  - apply list.NoDup_cons in Hnd as [Hnin Hnd]. unfold bind, fill_with at 1.
    destruct (pd.lookup_column col d) as [x|] eqn:Hx; [|done].
    destruct (choose x) as [v|] eqn:Hv; [|done].
    intros Hrun. destruct (IH _ Hnd Hrun) as [Hin Hout]. split.
    + intros c [->|Hc]%elem_of_cons.
      * exists x, v. split; [done|]. split; [done|].
        rewrite (Hout col Hnin), lookup_column_update_column.
        rewrite decide_True by done. by rewrite Hx.
      * destruct (Hin c Hc) as (x' & v' & Hx' & Hv' & Hd1).
        exists x', v'. split; [|done].
        rewrite lookup_column_update_column in Hx'.
        rewrite decide_False in Hx'; [done|]. by intros ->.
    + intros c [Hne Hc]%not_elem_of_cons.
      rewrite (Hout c Hc), lookup_column_update_column.
      by rewrite decide_False.
Qed.

Lemma numeric_fill_loop_columns method cols d d1 :
  NoDup cols → for_each cols (numeric_fill method) d = (d1, Ok tt) →
  (∀ c, c ∈ cols → ∃ stat x v,
      numeric_statistic method = Some stat ∧
      pd.lookup_column c d = Some x ∧ stat x = Ok v ∧
      pd.lookup_column c d1 = Some (pd.fillna v x)) ∧
  (∀ c, c ∉ cols → pd.lookup_column c d1 = pd.lookup_column c d).
Proof.
  intros Hnd. unfold numeric_fill.
  destruct (numeric_statistic method) as [stat|].
  - intros Hrun. destruct (fill_with_loop_columns stat cols d d1 Hnd Hrun)
      as [Hin Hout].
    split; [|done]. intros c Hc. destruct (Hin c Hc) as (x & v & ?).
    by exists stat, x, v.
  - destruct cols as [|col cols]; simpl.
    + intros [= <-]. split; [by intros c ?%elem_of_nil|done].
    + done.
Qed.

(** The scaling loop: a listed column with a scaler is replaced by its
    scaled values, one without a scaler is as it was. *)
Lemma scale_loop_columns (scalers : gmap string scaler_obj) cols d1 d2 :
  NoDup cols → for_each cols (scale_column scalers) d1 = (d2, Ok tt) →
  (∀ c, c ∈ cols →
      match scalers !! c with
      | Some sc => ∃ x y,
          pd.lookup_column c d1 = Some x ∧ scaler_transform sc x = Ok y ∧
          pd.lookup_column c d2 = Some y
      | None => pd.lookup_column c d2 = pd.lookup_column c d1
      end) ∧
  (∀ c, c ∉ cols → pd.lookup_column c d2 = pd.lookup_column c d1).
Proof.
  revert d1. induction cols as [|col cols IH]; intros d1 Hnd; simpl.
  - intros [= <-]. split; [by intros c ?%elem_of_nil|done].
  - apply list.NoDup_cons in Hnd as [Hnin Hnd]. unfold bind, scale_column at 1.
    destruct (scalers !! col) as [sc|] eqn:Hsc.
    + destruct (pd.lookup_column col d1) as [x|] eqn:Hx; [|done].
      destruct (scaler_transform sc x) as [y|] eqn:Hy; [|done].
      intros Hrun. destruct (IH _ Hnd Hrun) as [Hin Hout]. split.
      * intros c [->|Hc]%elem_of_cons.
        -- rewrite Hsc. exists x, y. split; [done|]. split; [done|].
           rewrite (Hout col Hnin), (lookup_column_set_column _ _ _ _ x Hx).
           by rewrite decide_True.
        -- specialize (Hin c Hc).
           rewrite (lookup_column_set_column _ _ _ _ x Hx) in Hin.
           rewrite decide_False in Hin; [done|]. by intros ->.
      * intros c [Hne Hc]%not_elem_of_cons.
        rewrite (Hout c Hc), (lookup_column_set_column _ _ _ _ x Hx).
        by rewrite decide_False.
    + intros Hrun. destruct (IH _ Hnd Hrun) as [Hin Hout]. split.
      * intros c [->|Hc]%elem_of_cons.
        -- rewrite Hsc. by apply Hout.
        -- by apply Hin.
      * intros c [Hne Hc]%not_elem_of_cons. by apply Hout.
Qed.

Lemma transform_outcome_Ok {Self} (m : loc → M (Self * World) loc) pure
    self w data d s' out :
  transform_outcome m pure → heap w !! data = Some d →
  m data (self, w) = (s', Ok out) →
  ∃ dout, pure self d = Ok dout ∧ heap s'.2 !! out = Some dout ∧ s'.1 = self.
Proof.
  intros Hout Hd Hrun. destruct (Hout self w data d Hd) as (w1 & _ & _ & Hres).
  destruct (pure self d) as [d'|e].
  - destruct Hres as (out' & Hrun' & Hl & _). rewrite Hrun in Hrun'.
    injection Hrun' as -> ->. by exists d'.
  - rewrite Hrun in Hres. done.
Qed.

(** The columns of the table that the numeric [transform] returns. *)
Lemma numeric_transform_columns (self : NumericPreprocessor.t) (d dout : DataFrame) :
  let cfg := NumericPreprocessor.config self in
  NoDup (columns_of_type cfg "numeric") →
  numeric_transform_pure self d = Ok dout →
  ∀ c, c ∈ columns_of_type cfg "numeric" →
    ∃ stat x v,
      numeric_statistic (num_handle_missing (numeric_config cfg)) = Some stat ∧
      pd.lookup_column c d = Some x ∧ stat x = Ok v ∧
      match NumericPreprocessor.scalers self !! c with
      | Some sc => ∃ y, scaler_transform sc (pd.fillna v x) = Ok y ∧
                        pd.lookup_column c dout = Some y
      | None => pd.lookup_column c dout = Some (pd.fillna v x)
      end.
Proof.
  intros cfg Hnd Hpure c Hc.
  revert Hpure. unfold numeric_transform_pure, numeric_transform_frame, bind.
  fold cfg. destruct (valid_input cfg d); [|done].
  destruct (for_each _ (numeric_fill _) d) as [d1 [[]|e]] eqn:E1; [|done].
  destruct (for_each _ (scale_column _) d1) as [d2 [[]|e]] eqn:E2; [|done].
  intros [= <-].
  destruct (numeric_fill_loop_columns _ _ _ _ Hnd E1) as [Hfill _].
  destruct (scale_loop_columns _ _ _ _ Hnd E2) as [Hscale _].
  destruct (Hfill c Hc) as (stat & x & v & Hstat & Hx & Hv & Hd1).
  exists stat, x, v. split; [done|]. split; [done|]. split; [done|].
  specialize (Hscale c Hc).
  destruct (NumericPreprocessor.scalers self !! c) as [sc|].
  - destruct Hscale as (x1 & y & Hx1 & Hy & Hd2). rewrite Hd1 in Hx1.
    injection Hx1 as <-. by exists y.
  - by rewrite Hscale.
Qed.

(** C1, as the code has it. In the table that the numeric [transform]
    returns for a table T, a numeric column is the column of T with its
    missing cells filled with the statistic (mean, median or mode, per
    configuration) of that column of T itself, then scaled with the scaler
    fitted for the column (or left unscaled when there is none). The fit
    table plays no part in the fill value. *)
Theorem C1_fill_statistic_of_transform_table
    (self : NumericPreprocessor.t) (w : World) (data : loc) (d : DataFrame)
    (s' : NumericPreprocessor.t * World) (out : loc) :
  let cfg := NumericPreprocessor.config self in
  heap w !! data = Some d →
  NoDup (columns_of_type cfg "numeric") →
  NumericPreprocessor.transform data (self, w) = (s', Ok out) →
  ∃ dout, heap s'.2 !! out = Some dout ∧
    ∀ c, c ∈ columns_of_type cfg "numeric" →
      ∃ stat x v,
        numeric_statistic (num_handle_missing (numeric_config cfg)) = Some stat ∧
        pd.lookup_column c d = Some x ∧ stat x = Ok v ∧
        match NumericPreprocessor.scalers self !! c with
        | Some sc => ∃ y, scaler_transform sc (pd.fillna v x) = Ok y ∧
                          pd.lookup_column c dout = Some y
        | None => pd.lookup_column c dout = Some (pd.fillna v x)
        end.
Proof.
  intros cfg Hd Hnd Hrun.
  destruct (transform_outcome_Ok _ _ _ _ _ _ _ _ numeric_transform_outcome Hd Hrun)
    as (dout & Hpure & Hout & _).
  exists dout. split; [done|]. by apply numeric_transform_columns.
Qed.

End claim_C1.

(** C1 as stated fails on the scenario of the specification. The fit table
    has ages 10, 20 and a missing one (mean 15, min-max parameters 10 and
    20); the transform table has ages 100 and a missing one. The missing
    cell comes out as 9, the scaled mean 100 of the transform table, and
    not as 1/2, the scaled mean 15 of the fit table. *)
Lemma C1_counterexample :
  let r1 := NumericPreprocessor.fit 0%nat (example_numeric, example_world) in
  let r2 := NumericPreprocessor.transform 1%nat r1.1 in
  NumericPreprocessor.__init__ (example_config "minmax" "label")
    = Ok example_numeric ∧
  r1.2 = Ok tt ∧ r2.2 = Ok 4%nat ∧
  pd.mean [num 10; num 20; NaN] = Ok (num 15) ∧
  pd.mean [num 100; NaN] = Ok (num 100) ∧
  (d ← heap r2.1.2 !! 4%nat; pd.lookup_column "age" d) = Some [num 9; num 9] ∧
  (sc ← NumericPreprocessor.scalers r1.1.1 !! "age";
   Some (scaler_transform (H:=example_external) sc [num 15]))
    = Some (Ok [Num (Q2Qc (1 # 2))]) ∧
  [Num (Q2Qc (1 # 2))] ≠ [num 9].
Proof.
  cbv zeta. split; [reflexivity|]. repeat split; by_compute.
Qed.

Section claim_C3.
Context `{External}.

Lemma fit_outcome_Raise {Self} (m : loc → M (Self * World) unit) pure
    self w data d e :
  fit_outcome m pure → heap w !! data = Some d → pure self d = Raise e →
  (m data (self, w)).2 = Raise e.
Proof.
  intros Hout Hd Hp. destruct (Hout self w data d Hd) as (w1 & _ & _ & Hres).
  rewrite Hp in Hres. by destruct Hres as [self' ->].
Qed.

Lemma transform_outcome_Raise {Self} (m : loc → M (Self * World) loc) pure
    self w data d e :
  transform_outcome m pure → heap w !! data = Some d → pure self d = Raise e →
  (m data (self, w)).2 = Raise e.
Proof.
  intros Hout Hd Hp. destruct (Hout self w data d Hd) as (w1 & _ & _ & Hres).
  rewrite Hp in Hres. by rewrite Hres.
Qed.

Lemma for_each_cons {St X} (x : X) xs (body : X → M St unit) s :
  for_each (x :: xs) body s
  = match body x s with
    | (s', Ok _) => for_each xs body s'
    | (s', Raise e) => (s', Raise e)
    end.
Proof. reflexivity. Qed.

Lemma numeric_statistic_unknown method :
  method ∉ ["mean"; "median"; "mode"] → numeric_statistic method = None.
Proof.
  intros Hm. unfold numeric_statistic.
  repeat case_decide; subst; try done; exfalso; apply Hm; set_solver.
Qed.

(** C3, as the code has it. Of the four options, only the scaling method is
    checked when the preprocessor is constructed: a value other than
    standard, minmax and robust makes the constructor raise. The other
    constructors never raise. An unknown numeric missing-value policy raises
    when [fit] or [transform] fills the first numeric column; an unknown
    encoding method raises when [fit] reaches the first categorical column;
    every categorical missing-value policy other than mode fills with the
    sentinel 'MISSING'. *)
Theorem C3_unknown_options :
  (∀ cfg,
     scaling (numeric_config cfg) ∉ ["standard"; "minmax"; "robust"] →
     NumericPreprocessor.__init__ cfg
     = Raise (ValueError ("Unknown scaling method: "
                          +:+ scaling (numeric_config cfg)))) ∧
  (∀ (self : NumericPreprocessor.t) w data d col cols,
     let cfg := NumericPreprocessor.config self in
     let method := num_handle_missing (numeric_config cfg) in
     heap w !! data = Some d → valid_input cfg d = true →
     columns_of_type cfg "numeric" = col :: cols →
     method ∉ ["mean"; "median"; "mode"] →
     (NumericPreprocessor.fit data (self, w)).2
     = Raise (ValueError ("Unknown missing value handling method: " +:+ method)) ∧
     (NumericPreprocessor.transform data (self, w)).2
     = Raise (ValueError ("Unknown missing value handling method: " +:+ method))) ∧
  (∀ (self : CategoricalPreprocessor.t) w data d d1 col cols,
     let cfg := CategoricalPreprocessor.config self in
     let method := encoding (categorical_config cfg) in
     heap w !! data = Some d → valid_input cfg d = true →
     columns_of_type cfg "categorical" = col :: cols →
     for_each (col :: cols)
       (categorical_fill (cat_handle_missing (categorical_config cfg))) d
       = (d1, Ok tt) →
     method ∉ ["label"; "onehot"] →
     (CategoricalPreprocessor.fit data (self, w)).2
     = Raise (ValueError ("Unknown encoding method: " +:+ method))) ∧
  (∀ method (df : loc) col,
     method ≠ "mode" →
     CategoricalPreprocessor.fill_missing method df col
     = df_fillna_inplace df col (Str "MISSING")).
Proof.
  split; [|split; [|split]].
  - intros cfg Hm. unfold NumericPreprocessor.__init__,
      NumericPreprocessor._setup_scalers, result_bind.
    repeat case_decide; try done; exfalso; apply Hm; set_solver.
  - intros self w data d col cols cfg method Hd Hv Hcols Hm. split.
    + apply (fit_outcome_Raise _ _ _ _ _ _ _ numeric_fit_outcome Hd).
      unfold numeric_fit_pure. fold cfg. rewrite Hv, Hcols, for_each_cons.
      unfold numeric_fill at 1. fold method.
      by rewrite (numeric_statistic_unknown _ Hm).
    + apply (transform_outcome_Raise _ _ _ _ _ _ _ numeric_transform_outcome Hd).
      unfold numeric_transform_pure, numeric_transform_frame, bind. fold cfg.
      rewrite Hv, Hcols, for_each_cons. unfold numeric_fill at 1. fold method.
      by rewrite (numeric_statistic_unknown _ Hm).
  - intros self w data d d1 col cols cfg method Hd Hv Hcols Hfill Hm.
    apply (fit_outcome_Raise _ _ _ _ _ _ _ categorical_fit_outcome Hd).
    unfold categorical_fit_pure. fold cfg. rewrite Hv, Hcols, Hfill.
    cbn [result_fold]. unfold result_bind, fit_encoder at 1. fold cfg.
    fold method.
    repeat case_decide; try done; exfalso; apply Hm; set_solver.
  - intros method df col Hm. unfold CategoricalPreprocessor.fill_missing.
    by rewrite decide_False.
Qed.

End claim_C3.

(** C3 as stated fails. With the missing-value policy [bogus] for a
    categorical column, the constructors succeed, [fit] succeeds, and the
    missing cell is silently filled with 'MISSING', which ends up in the
    vocabulary; with the encoding method [bogus] the constructors succeed
    as well, and the error is raised by [fit]. *)
Lemma C3_counterexample :
  let cfg := example_unknown_options "label" in
  let self0 := CategoricalPreprocessor.__init__ cfg in
  let r := CategoricalPreprocessor.fit (H:=example_external) 0%nat
             (self0, mkWorld [example_city_table] []) in
  is_ok (PreprocessorFactory.__init__ (H:=example_external) cfg) = true ∧
  r.2 = Ok tt ∧
  (e ← CategoricalPreprocessor.encoders r.1.1 !! "city";
   match e with
   | CategoricalPreprocessor.Label enc => sk.classes_ enc
   | _ => None
   end) = Some [Str "A"; Str "MISSING"] ∧
  is_ok (PreprocessorFactory.__init__ (H:=example_external)
           (example_unknown_options "bogus")) = true ∧
  (CategoricalPreprocessor.fit (H:=example_external) 0%nat
     (CategoricalPreprocessor.__init__ (example_unknown_options "bogus"),
      mkWorld [example_city_table] [])).2
  = Raise (ValueError "Unknown encoding method: bogus").
Proof. cbv zeta. repeat split; by_compute. Qed.

(** C2 fails on the scenario of the specification (a numeric column [age]
    and a categorical column [city]). The factory slices the table to the
    columns of each type; the slice for the numeric preprocessor holds every
    numeric column, but [validate_input] looks for the columns of all types,
    misses [city], logs it and returns false, so that [fit] and
    [fit_transform] of the factory raise [ValueError]. *)
Theorem C2_validate_input_rejects_engine_slice :
  let cfg := example_config "minmax" "label" in
  let w := mkWorld [example_fit_table] [] in
  PreprocessorFactory.__init__ cfg = Ok example_factory ∧
  pd.select (PreprocessorFactory._get_columns_by_type cfg "numeric")
    example_fit_table = Some example_numeric_slice ∧
  Forall (λ col, col ∈ column_names example_numeric_slice)
    (columns_of_type cfg "numeric") ∧
  validate_input cfg NumericPreprocessor.__name__ 0%nat
    (example_numeric, mkWorld [example_numeric_slice] [])
  = ((example_numeric,
      mkWorld [example_numeric_slice]
        [mkLog "NumericPreprocessor" ERROR "Missing columns: ['city']"]),
     Ok false) ∧
  (PreprocessorFactory.fit 0%nat (example_factory, w)).2
  = Raise (ValueError "Invalid input data") ∧
  (PreprocessorFactory.fit_transform 0%nat (example_factory, w)).2
  = Raise (ValueError "Invalid input data").
Proof.
  cbv zeta. split; [reflexivity|]. split; [reflexivity|].
  split; [by_compute|]. split; [reflexivity|]. split; by_compute.
Qed.

Section engine_columns.
Context `{External}.

Lemma transform_item_outputs self d key acc acc' :
  transform_item self d key acc = Ok acc' →
  ∃ new, acc' = acc ++ new ∧
    Forall2 (λ k out, ∃ p slice,
        PreprocessorFactory.get_item k (PreprocessorFactory.preprocessors self)
          = Some p ∧
        pd.select
          (PreprocessorFactory._get_columns_by_type
             (PreprocessorFactory.config self) k) d = Some slice ∧
        preprocessor_transform_pure p slice = Ok out)
      (filter
         (λ k, PreprocessorFactory._get_columns_by_type
                 (PreprocessorFactory.config self) k ≠ []) [key])
      new.
Proof.
  unfold transform_item, result_bind. rewrite filter_cons, filter_nil.
  case_bool_decide as Hc; case_decide as Hc'; simpl in Hc'; try done.
  - destruct (pd.select _ d) as [slice|] eqn:Hs; [|done].
    destruct (PreprocessorFactory.get_item key _) as [p|] eqn:Hp; [|done].
    destruct (preprocessor_transform_pure p slice) as [out|] eqn:Ho; [|done].
    intros [= <-]. exists [out]. split; [done|].
    constructor; [|constructor]. by exists p, slice.
  - intros [= <-]. exists [].
    split; [by rewrite app_nil_r|constructor].
Qed.

Lemma processed_frames_outputs self d keys acc processed :
  result_fold (transform_item self d) keys acc = Ok processed →
  ∃ new, processed = acc ++ new ∧
    Forall2 (λ k out, ∃ p slice,
        PreprocessorFactory.get_item k (PreprocessorFactory.preprocessors self)
          = Some p ∧
        pd.select
          (PreprocessorFactory._get_columns_by_type
             (PreprocessorFactory.config self) k) d = Some slice ∧
        preprocessor_transform_pure p slice = Ok out)
      (filter
         (λ k, PreprocessorFactory._get_columns_by_type
                 (PreprocessorFactory.config self) k ≠ []) keys)
      new.
Proof.
  revert acc. induction keys as [|key keys IH]; intros acc; simpl.
  - intros [= <-]. exists []. split; [by rewrite app_nil_r|constructor].
  - unfold result_bind.
    destruct (transform_item self d key acc) as [acc1|] eqn:E1; [|done].
    intros E2.
    destruct (transform_item_outputs _ _ _ _ _ E1) as (new1 & -> & Hn1).
    destruct (IH _ E2) as (new2 & -> & Hn2).
    exists (new1 ++ new2). split; [by rewrite app_assoc|].
    change (key :: keys) with ([key] ++ keys). rewrite list.filter_app.
    by apply Forall2_app.
Qed.

Lemma pure_transform_returns p slice out :
  preprocessor_transform_pure p slice = Ok out →
  transform_returns PreprocessorFactory.preprocessor_transform p slice out.
Proof.
  intros Hp w data Hd.
  destruct (preprocessor_transform_outcome p w data slice Hd)
    as (w' & _ & _ & Hres).
  rewrite Hp in Hres. destruct Hres as (o & Hrun & Ho & _). by exists w', o.
Qed.

End engine_columns.

(** C6 as stated fails. The configuration declares the column [id] of the
    type [other], for which no preprocessor exists; the factory holds no
    preprocessor, and [transform] returns the table as it is: [id] is a
    column of the result. *)
Lemma C6_counterexample :
  let cfg := example_other_config in
  let self := PreprocessorFactory.mk (H:=example_external) cfg [] in
  let r := PreprocessorFactory.transform 0%nat
             (self, mkWorld [example_other_table] []) in
  PreprocessorFactory.__init__ cfg = Ok self ∧
  mkColumn "id" "other" ∈ input_columns cfg ∧
  PreprocessorFactory.get_preprocessor self "other" = None ∧
  r.2 = Ok 1%nat ∧
  heap r.1.2 !! 1%nat = Some example_other_table ∧
  "id" ∈ column_names example_other_table.
Proof.
  cbv zeta. split; [reflexivity|]. split; [by_compute|].
  split; [reflexivity|]. repeat split; by_compute.
Qed.

(** ** Unseen categories *)

Section unseen.
Context `{External}.
Implicit Types (self : CategoricalPreprocessor.t) (d : DataFrame).


Lemma fit_encoder_fitted d col self self' :
  fit_encoder d col self = Ok self' →
  CategoricalPreprocessor.config self' = CategoricalPreprocessor.config self ∧
  fitted_column self' col ∧
  ∀ c, c ≠ col →
    CategoricalPreprocessor.encoders self' !! c
    = CategoricalPreprocessor.encoders self !! c ∧
    CategoricalPreprocessor.encoding_maps self' !! c
    = CategoricalPreprocessor.encoding_maps self !! c.
Proof.
  unfold fit_encoder, result_bind, fitted_column.
  destruct (decide (encoding _ = "label")) as [Hl|Hl].
  - destruct (lookup_or_raise col d) as [y|]; [|done].
    unfold sk.LabelEncoder_fit, result_bind.
    destruct (sk.unique y) as [cs|]; [|done]. simpl.
    destruct (sk.LabelEncoder_transform _ cs) as [codes|]; [|done].
    intros [= <-]. simpl. split; [done|]. split.
    + left. split; [done|]. exists cs. by rewrite lookup_insert_eq.
    + intros c Hc. by rewrite !lookup_insert_ne.
  - destruct (decide (encoding _ = "onehot")) as [Ho|Ho]; [|done].
    destruct (lookup_or_raise col d) as [x|]; [|done].
    unfold sk.OneHotEncoder_fit, result_bind.
    destruct (sk.unique x) as [cs|]; [|done]. simpl.
    intros [= <-]. simpl. split; [done|]. split.
    + right. split; [done|]. split; [done|]. exists cs.
      by rewrite !lookup_insert_eq.
    + intros c Hc. by rewrite !lookup_insert_ne.
Qed.

Lemma fitted_column_agree self self' col :
  CategoricalPreprocessor.config self' = CategoricalPreprocessor.config self →
  CategoricalPreprocessor.encoders self' !! col
  = CategoricalPreprocessor.encoders self !! col →
  CategoricalPreprocessor.encoding_maps self' !! col
  = CategoricalPreprocessor.encoding_maps self !! col →
  fitted_column self col → fitted_column self' col.
Proof. unfold fitted_column. intros -> -> ->. done. Qed.

Lemma fit_encoder_loop_fitted d cols self self' :
  result_fold (fit_encoder d) cols self = Ok self' →
  CategoricalPreprocessor.config self' = CategoricalPreprocessor.config self ∧
  ∀ col, (col ∈ cols ∨ fitted_column self col) → fitted_column self' col.
Proof.
  revert self. induction cols as [|c cols IH]; intros self; simpl.
  - intros [= <-]. split; [done|]. intros col [?%elem_of_nil|?]; done.
  - unfold result_bind. destruct (fit_encoder d c self) as [s1|] eqn:E1; [|done].
    intros E2. destruct (fit_encoder_fitted _ _ _ _ E1) as (Hc1 & Hf1 & Ho1).
    destruct (IH _ E2) as [Hc2 Hf2]. split; [congruence|].
    intros col Hcol. apply Hf2.
    destruct (decide (col = c)) as [->|Hne]; [by right|].
    destruct Hcol as [[->|Hin]%elem_of_cons|Hfit]; [done|by left|].
    right. destruct (Ho1 col Hne) as [He Hm].
    by apply (fitted_column_agree self s1 col).
Qed.

(** After a successful [fit], every categorical column is fitted. *)
Lemma categorical_fit_fitted self0 d self :
  categorical_fit_pure self0 d = Ok self →
  CategoricalPreprocessor.config self = CategoricalPreprocessor.config self0 ∧
  ∀ col, col ∈ columns_of_type (CategoricalPreprocessor.config self0) "categorical" →
         fitted_column self col.
Proof.
  unfold categorical_fit_pure. destruct (valid_input _ d); [|done].
  destruct (for_each _ (categorical_fill _) d) as [d1 [[]|e]]; [|done].
  intros E. destruct (fit_encoder_loop_fitted _ _ _ _ E) as [Hc Hf].
  split; [done|]. intros col Hcol. apply Hf. by left.
Qed.

Lemma find_column_app col a b :
  pd.find_column col (a ++ b)
  = match pd.find_column col a with
    | Some s => Some s
    | None => pd.find_column col b
    end.
Proof.
  induction a as [|[n x] a IH]; simpl; [done|]. by case_decide.
Qed.

Lemma find_column_filter_ne col c cs :
  c ≠ col →
  pd.find_column c (filter (λ x : string * list cell, x.1 ≠ col) cs)
  = pd.find_column c cs.
Proof.
  intros Hne. induction cs as [|[n x] cs IH]; [done|].
  rewrite filter_cons. simpl. destruct (decide (n ≠ col)) as [Hn|Hn]; simpl.
  - by rewrite IH.
  - rewrite IH. case_decide; [|done]. subst. by destruct Hn.
Qed.

Lemma label_code_unseen cs v :
  v ∉ cs →
  sk.label_code cs v = Raise (ValueError "y contains previously unseen labels").
Proof.
  intros Hv. unfold sk.label_code, sk.index_of.
  destruct (list_find _ cs) as [[j c]|] eqn:E; [|done].
  apply list_find_Some in E as (Hj & -> & _).
  destruct Hv. by eapply list_elem_of_lookup_2.
Qed.






Lemma categorical_fill_fill_with method :
  categorical_fill method = fill_with (categorical_fill_value method).
Proof.
  unfold categorical_fill, categorical_fill_value. by case_decide.
Qed.

(** The fill loop of the categorical [transform]: every categorical column
    is filled with the value of the policy for that column. *)
Lemma categorical_fill_loop_columns method cols d d1 :
  NoDup cols → for_each cols (categorical_fill method) d = (d1, Ok tt) →
  ∀ c, c ∈ cols → ∃ x u,
    pd.lookup_column c d = Some x ∧ categorical_fill_value method x = Ok u ∧
    pd.lookup_column c d1 = Some (pd.fillna u x).
Proof.
  intros Hnd Hrun. rewrite categorical_fill_fill_with in Hrun.
  by destruct (fill_with_loop_columns _ _ _ _ Hnd Hrun) as [Hin _].
Qed.


End unseen.

Section claim_C4.
Context `{External}.



End claim_C4.

(** ** Columns without fitted state *)

Section unfitted.
Context `{External}.

Lemma numeric_transform_loop_unfitted cols (df : loc) self w :
  NumericPreprocessor.scalers self = ∅ →
  for_each cols (NumericPreprocessor.transform_column df) (self, w)
  = ((self, mkWorld (heap w) (logs w ++ map no_scaler_warning cols)), Ok tt).
Proof.
  intros Hempty. revert w. induction cols as [|col cols IH]; intros w; simpl.
  - unfold ret. destruct w. simpl. by rewrite app_nil_r.
  - unfold bind at 1, NumericPreprocessor.transform_column at 1, bind at 1,
      get_self. cbn [fst snd]. rewrite Hempty, lookup_empty.
    unfold log. cbn [fst snd]. rewrite IH. simpl.
    by rewrite <- app_assoc.
Qed.

Lemma categorical_transform_loop_unfitted cols (df : loc) self w :
  CategoricalPreprocessor.encoders self = ∅ →
  for_fold cols df CategoricalPreprocessor.transform_column (self, w)
  = ((self, mkWorld (heap w) (logs w ++ map no_encoder_warning cols)), Ok df).
Proof.
  intros Hempty. revert w. induction cols as [|col cols IH]; intros w; simpl.
  - unfold ret. destruct w. simpl. by rewrite app_nil_r.
  - unfold bind at 1, CategoricalPreprocessor.transform_column at 1, bind at 1,
      get_self. cbn [fst snd]. rewrite Hempty, lookup_empty.
    unfold bind at 1, log, ret. cbn [fst snd]. rewrite IH. simpl.
    by rewrite <- app_assoc.
Qed.

(** An iteration of the categorical loop leaves a column without
    encoder as it is. *)
Lemma encode_column_unfitted self col c cur d1 :
  CategoricalPreprocessor.encoders self !! c = None →
  is_Some (pd.lookup_column c cur) →
  encode_column self col cur = Ok d1 →
  pd.lookup_column c d1 = pd.lookup_column c cur.
Proof.
  intros Hc [x Hx]. unfold encode_column.
  destruct (CategoricalPreprocessor.encoders self !! col) as [[enc|enc]|] eqn:He.
  - assert (c ≠ col) as Hne by (intros ->; congruence).
    unfold lookup_or_raise.
    destruct (pd.lookup_column col cur) as [y|] eqn:Hy; [|done]. simpl.
    destruct (sk.LabelEncoder_transform enc y) as [codes|]; [|done]. simpl.
    intros [= <-]. rewrite (lookup_column_set_column _ _ _ _ _ Hy).
    by rewrite decide_False.
  - assert (c ≠ col) as Hne by (intros ->; congruence).
    unfold lookup_or_raise.
    destruct (pd.lookup_column col cur) as [y|] eqn:Hy; [|done]. simpl.
    destruct (sk.OneHotEncoder_transform enc y) as [rows|]; [|done]. simpl.
    destruct (feature_names_of self col) as [names|]; [|done]. simpl.
    destruct (encoded_frame rows names (df_index cur)) as [e|]; [|done]. simpl.
    intros [= <-]. unfold pd.lookup_column in *. simpl.
    by rewrite find_column_app, find_column_filter_ne, Hx.
  - by intros [= <-].
Qed.

Lemma encode_loop_unfitted self cols c cur dout :
  CategoricalPreprocessor.encoders self !! c = None →
  is_Some (pd.lookup_column c cur) →
  result_fold (encode_column self) cols cur = Ok dout →
  pd.lookup_column c dout = pd.lookup_column c cur.
Proof.
  intros Hc. revert cur. induction cols as [|col cols IH]; intros cur Hx; simpl.
  - by intros [= <-].
  - unfold result_bind.
    destruct (encode_column self col cur) as [d1|] eqn:E1; [|done].
    intros E2. pose proof (encode_column_unfitted _ _ _ _ _ Hc Hx E1) as H1.
    rewrite <- H1. apply IH; [|done]. by rewrite H1.
Qed.

(** The columns without encoder in the table that the categorical
    [transform] returns. *)
Lemma categorical_transform_unfitted_column (self : CategoricalPreprocessor.t)
    (d dout : DataFrame) (c : string) :
  let cfg := CategoricalPreprocessor.config self in
  NoDup (columns_of_type cfg "categorical") →
  categorical_transform_pure self d = Ok dout →
  c ∈ columns_of_type cfg "categorical" →
  CategoricalPreprocessor.encoders self !! c = None →
  ∃ x u,
    pd.lookup_column c d = Some x ∧
    categorical_fill_value (cat_handle_missing (categorical_config cfg)) x = Ok u ∧
    pd.lookup_column c dout = Some (pd.fillna u x).
Proof.
  intros cfg Hnd Hpure Hc Hnone. revert Hpure.
  unfold categorical_transform_pure. fold cfg.
  destruct (valid_input cfg d); [|done].
  destruct (for_each _ (categorical_fill _) d) as [d1 [[]|e]] eqn:E1; [|done].
  intros E2.
  destruct (categorical_fill_loop_columns _ _ _ _ Hnd E1 c Hc)
    as (x & u & Hx & Hu & Hx1).
  exists x, u. split; [done|]. split; [done|].
  rewrite (encode_loop_unfitted _ _ _ _ _ Hnone (ex_intro _ _ Hx1) E2). done.
Qed.

End unfitted.

(** * Further properties of the code *)

(** ** base_preprocessor.py: [validate_input] *)

(** X1. [validate_input] returns True exactly when every column name that
    the configuration declares, of whatever type, is a column of the table.
    It changes neither the receiver nor the heap. It logs nothing when it
    returns True; when it returns False it logs one ERROR record that lists
    the declared names that the table lacks. *)
Theorem X1_validate_input_verdict {Self} (cfg : Config) (logger : string)
    (data : loc) (self : Self) (w : World) (d : DataFrame) :
  heap w !! data = Some d →
  ∃ verdict l',
    validate_input cfg logger data (self, w)
    = ((self, mkWorld (heap w) (logs w ++ l')), Ok verdict) ∧
    (verdict = true ↔
     ∀ c, c ∈ input_columns cfg → col_name c ∈ column_names d) ∧
    (verdict = true → l' = []) ∧
    (verdict = false →
     ∃ missing,
       l' = [mkLog logger ERROR ("Missing columns: " +:+ py_repr_list missing)] ∧
       missing ≠ [] ∧
       ∀ col, col ∈ missing ↔
              col ∈ map col_name (input_columns cfg) ∧ col ∉ column_names d).
Proof.
  intros Hd. rewrite (validate_input_run cfg logger data self w d Hd).
  eexists _, _. split; [reflexivity|]. split; [apply valid_input_spec|].
  split.
  - by intros ->.
  - intros Hv. rewrite Hv. exists (missing_columns cfg d). split; [done|].
    split.
    + unfold valid_input in Hv. by apply bool_decide_eq_false in Hv.
    + intros col. unfold missing_columns. rewrite list_elem_of_filter. tauto.
Qed.

Lemma X1_witness :
  heap (mkWorld [example_numeric_slice] []) !! 0%nat = Some example_numeric_slice ∧
  ∃ verdict l',
    validate_input (example_config "minmax" "label") "NumericPreprocessor" 0%nat
      (example_numeric, mkWorld [example_numeric_slice] [])
    = ((example_numeric, mkWorld [example_numeric_slice] ([] ++ l')), Ok verdict) ∧
    (verdict = true ↔
     ∀ c, c ∈ input_columns (example_config "minmax" "label") →
          col_name c ∈ column_names example_numeric_slice) ∧
    (verdict = true → l' = []) ∧
    (verdict = false →
     ∃ missing,
       l' = [mkLog "NumericPreprocessor" ERROR
               ("Missing columns: " +:+ py_repr_list missing)] ∧
       missing ≠ [] ∧
       ∀ col, col ∈ missing ↔
              col ∈ map col_name (input_columns (example_config "minmax" "label")) ∧
              col ∉ column_names example_numeric_slice).
Proof.
  split; [reflexivity|].
  apply (X1_validate_input_verdict (example_config "minmax" "label")
           "NumericPreprocessor" 0%nat example_numeric
           (mkWorld [example_numeric_slice] []) example_numeric_slice).
  reflexivity.
Defined.

(** ** preprocessor_factory.py: construction *)

Section factory_construction.
Context `{External}.

Lemma numeric_init_outcome cfg :
  (scaling (numeric_config cfg) ∈ ["standard"; "minmax"; "robust"] →
   ∃ cls, NumericPreprocessor.__init__ cfg = Ok (NumericPreprocessor.mk cfg cls ∅)) ∧
  (scaling (numeric_config cfg) ∉ ["standard"; "minmax"; "robust"] →
   NumericPreprocessor.__init__ cfg
   = Raise (ValueError ("Unknown scaling method: " +:+ scaling (numeric_config cfg)))).
Proof.
  unfold NumericPreprocessor.__init__, NumericPreprocessor._setup_scalers,
    result_bind.
  split; intros Hs.
  - rewrite !elem_of_cons, elem_of_nil in Hs.
    destruct Hs as [->|[->|[->|[]]]]; by eexists.
  - rewrite !not_elem_of_cons in Hs. destruct Hs as (H1 & H2 & H3 & _).
    by rewrite !decide_False by done.
Qed.

Lemma get_item_app key (ps qs : list (string * PreprocessorFactory.preprocessor)) :
  PreprocessorFactory.get_item key (ps ++ qs)
  = match PreprocessorFactory.get_item key ps with
    | Some p => Some p
    | None => PreprocessorFactory.get_item key qs
    end.
Proof.
  unfold PreprocessorFactory.get_item.
  induction ps as [|kv ps IH]; simpl.
  - by destruct (list_find _ qs) as [[i kv]|].
  - case_decide; [done|]. simpl.
    revert IH. destruct (list_find _ (ps ++ qs)) as [[i x]|];
      destruct (list_find _ ps) as [[j y]|]; simpl; try done.
Qed.

(** X2. The constructor of the factory builds one preprocessor for each of
    the types text, numeric and categorical that some declared column has,
    and none for any other type: the keys of [self.preprocessors] are these
    types, in this order, and [get_preprocessor] returns the new
    preprocessor of a type that is present and None for every other type,
    declared or not. The constructor raises exactly when a numeric column
    is declared and the scaling method is unknown. *)
Theorem X2_factory_construction (cfg : Config) :
  let types := map col_type (input_columns cfg) in
  let known := scaling (numeric_config cfg) ∈ ["standard"; "minmax"; "robust"] in
  ("numeric" ∈ types → ¬ known →
   PreprocessorFactory.__init__ cfg
   = Raise (ValueError ("Unknown scaling method: "
                        +:+ scaling (numeric_config cfg)))) ∧
  ("numeric" ∉ types ∨ known →
   ∃ self,
     PreprocessorFactory.__init__ cfg = Ok self ∧
     PreprocessorFactory.config self = cfg ∧
     (PreprocessorFactory.preprocessors self).*1
     = filter (λ ty, ty ∈ types) ["text"; "numeric"; "categorical"] ∧
     PreprocessorFactory.get_preprocessor self "text"
     = (if decide ("text" ∈ types)
        then Some (PreprocessorFactory.Text (TextPreprocessor.__init__ cfg))
        else None) ∧
     (if decide ("numeric" ∈ types)
      then ∃ p, NumericPreprocessor.__init__ cfg = Ok p ∧
                PreprocessorFactory.get_preprocessor self "numeric"
                = Some (PreprocessorFactory.Numeric p)
      else PreprocessorFactory.get_preprocessor self "numeric" = None) ∧
     PreprocessorFactory.get_preprocessor self "categorical"
     = (if decide ("categorical" ∈ types)
        then Some (PreprocessorFactory.Categorical
                     (CategoricalPreprocessor.__init__ cfg))
        else None) ∧
     ∀ ty, ty ∉ ["text"; "numeric"; "categorical"] →
           PreprocessorFactory.get_preprocessor self ty = None).
Proof.
  intros types known.
  destruct (numeric_init_outcome cfg) as [Hok Hraise]. fold known in Hok, Hraise.
  unfold PreprocessorFactory.__init__, PreprocessorFactory._initialize_preprocessors.
  fold types. split.
  - intros Hn Hk. rewrite (bool_decide_eq_true_2 _ Hn), (Hraise Hk).
    by case_bool_decide.
  - intros Hcase.
    assert (∃ p_numeric,
      (if bool_decide ("numeric" ∈ types)
       then result_bind (NumericPreprocessor.__init__ cfg)
              (λ p, Ok [("numeric", PreprocessorFactory.Numeric p)])
       else Ok []) = Ok p_numeric ∧
      p_numeric.*1 = filter (λ ty, ty ∈ types) ["numeric"] ∧
      (if decide ("numeric" ∈ types)
       then ∃ p, NumericPreprocessor.__init__ cfg = Ok p ∧
                 p_numeric = [("numeric", PreprocessorFactory.Numeric p)]
       else p_numeric = [])) as (p_numeric & -> & Hkeys & Hnum).
    { rewrite filter_cons, filter_nil. case_bool_decide as Hn.
      - destruct Hcase as [Hnot|Hk]; [done|]. destruct (Hok Hk) as [cls ->].
        eexists. split; [reflexivity|]. rewrite !decide_True by done.
        split; [done|]. by eexists.
      - exists []. by rewrite !decide_False by done. }
    set (p_text := if bool_decide ("text" ∈ types)
                   then [("text", PreprocessorFactory.Text
                                    (TextPreprocessor.__init__ cfg))]
                   else []).
    set (p_cat := if bool_decide ("categorical" ∈ types)
                  then [("categorical",
                         PreprocessorFactory.Categorical
                           (CategoricalPreprocessor.__init__ cfg))]
                  else []).
    exists (PreprocessorFactory.mk cfg (p_text ++ p_numeric ++ p_cat)).
    split.
    { subst p_text p_cat. by repeat case_bool_decide. }
    split; [done|]. simpl.
    assert (p_text.*1 = filter (λ ty, ty ∈ types) ["text"]) as Ht.
    { subst p_text. rewrite filter_cons, filter_nil.
      case_bool_decide; [by rewrite decide_True|by rewrite decide_False]. }
    assert (p_cat.*1 = filter (λ ty, ty ∈ types) ["categorical"]) as Hc.
    { subst p_cat. rewrite filter_cons, filter_nil.
      case_bool_decide; [by rewrite decide_True|by rewrite decide_False]. }
    split.
    { rewrite !fmap_app, Ht, Hkeys, Hc.
      change ["text"; "numeric"; "categorical"]
        with (["text"] ++ ["numeric"] ++ ["categorical"]).
      by rewrite !list.filter_app. }
    unfold PreprocessorFactory.get_preprocessor. simpl.
    assert (p_text = [] ∧ "text" ∉ types ∨
            p_text = [("text", PreprocessorFactory.Text
                                 (TextPreprocessor.__init__ cfg))] ∧
            "text" ∈ types) as Hpt.
    { subst p_text. case_bool_decide; [by right|by left]. }
    assert (p_cat = [] ∧ "categorical" ∉ types ∨
            p_cat = [("categorical",
                      PreprocessorFactory.Categorical
                        (CategoricalPreprocessor.__init__ cfg))] ∧
            "categorical" ∈ types) as Hpc.
    { subst p_cat. case_bool_decide; [by right|by left]. }
    clearbody p_text p_cat. clear Ht Hc Hkeys Hok Hraise Hcase.
    unfold PreprocessorFactory.get_preprocessor. simpl.
    assert (∀ ty key p, PreprocessorFactory.get_item ty [(key, p)]
                        = if decide (key = ty) then Some p else None) as Hone.
    { intros ty key p. unfold PreprocessorFactory.get_item. simpl.
      destruct (decide (key = ty)); reflexivity. }
    split; [|split; [|split]].
    + destruct Hpt as [[-> Hnt]|[-> Hit]].
      * rewrite decide_False by done. simpl.
        destruct (decide ("numeric" ∈ types)).
        -- destruct Hnum as (p & _ & ->).
           destruct Hpc as [[-> _]|[-> _]]; done.
        -- rewrite Hnum. destruct Hpc as [[-> _]|[-> _]]; done.
      * by rewrite decide_True by done.
    + destruct (decide ("numeric" ∈ types)).
      * destruct Hnum as (p & Hp & ->). exists p. split; [done|].
        destruct Hpt as [[-> _]|[-> _]]; done.
      * rewrite Hnum.
        destruct Hpt as [[-> _]|[-> _]]; destruct Hpc as [[-> _]|[-> _]]; done.
    + assert (PreprocessorFactory.get_item "categorical" (p_text ++ p_numeric)
              = None) as Hnone.
      { destruct (decide ("numeric" ∈ types)).
        - destruct Hnum as (p & _ & ->). destruct Hpt as [[-> _]|[-> _]]; done.
        - rewrite Hnum. destruct Hpt as [[-> _]|[-> _]]; done. }
      rewrite app_assoc, get_item_app, Hnone.
      destruct Hpc as [[-> Hn]|[-> Hi]];
        [by rewrite decide_False|by rewrite decide_True].
    + intros ty Hty. rewrite !not_elem_of_cons in Hty.
      destruct Hty as (H1 & H2 & H3 & _).
      rewrite !get_item_app.
      assert (PreprocessorFactory.get_item ty p_text = None) as ->.
      { destruct Hpt as [[-> _]|[-> _]]; [done|].
        rewrite Hone. by rewrite decide_False. }
      assert (PreprocessorFactory.get_item ty p_numeric = None) as ->.
      { destruct (decide ("numeric" ∈ types)).
        - destruct Hnum as (p & _ & ->). rewrite Hone. by rewrite decide_False.
        - by rewrite Hnum. }
      destruct Hpc as [[-> _]|[-> _]]; [done|].
      rewrite Hone. by rewrite decide_False.
Qed.

End factory_construction.

Lemma X2_witness :
  let cfg := example_config "minmax" "label" in
  let types := map col_type (input_columns cfg) in
  PreprocessorFactory.__init__ (H:=example_external) (example_config "bogus" "label")
  = Raise (ValueError "Unknown scaling method: bogus") ∧
  ∃ self,
    PreprocessorFactory.__init__ (H:=example_external) cfg = Ok self ∧
    PreprocessorFactory.config self = cfg ∧
    (PreprocessorFactory.preprocessors self).*1
    = filter (λ ty, ty ∈ types) ["text"; "numeric"; "categorical"] ∧
    PreprocessorFactory.get_preprocessor self "text"
    = (if decide ("text" ∈ types)
       then Some (PreprocessorFactory.Text (TextPreprocessor.__init__ cfg))
       else None) ∧
    (if decide ("numeric" ∈ types)
     then ∃ p, NumericPreprocessor.__init__ cfg = Ok p ∧
               PreprocessorFactory.get_preprocessor self "numeric"
               = Some (PreprocessorFactory.Numeric p)
     else PreprocessorFactory.get_preprocessor self "numeric" = None) ∧
    PreprocessorFactory.get_preprocessor self "categorical"
    = (if decide ("categorical" ∈ types)
       then Some (PreprocessorFactory.Categorical
                    (CategoricalPreprocessor.__init__ cfg))
       else None) ∧
    ∀ ty, ty ∉ ["text"; "numeric"; "categorical"] →
          PreprocessorFactory.get_preprocessor self ty = None.
Proof.
  cbv zeta. split.
  - apply (proj1 (X2_factory_construction (H:=example_external)
                    (example_config "bogus" "label"))); by_compute.
  - apply (proj2 (X2_factory_construction (H:=example_external)
                    (example_config "minmax" "label"))).
    right. by_compute.
Defined.

(** ** The columns that a transform does not work on *)

Section other_columns.
Context `{External}.

Lemma same_outside_refl cols d : same_outside cols d d.
Proof. done. Qed.

Lemma same_outside_trans cols d1 d2 d3 :
  same_outside cols d1 d2 → same_outside cols d2 d3 → same_outside cols d1 d3.
Proof.
  intros (Hi1 & Hn1 & Hc1) (Hi2 & Hn2 & Hc2). split; [congruence|].
  split; [congruence|]. intros c Hc. by rewrite Hc2, Hc1.
Qed.

Lemma same_outside_update_column cols col f d :
  col ∈ cols → same_outside cols d (pd.update_column col f d).
Proof.
  intros Hcol. split; [done|]. split; [apply column_names_update_column|].
  intros c Hc. rewrite lookup_column_update_column.
  rewrite decide_False; [done|]. by intros ->.
Qed.

Lemma same_outside_set_column cols col vals d :
  col ∈ cols → is_Some (pd.lookup_column col d) →
  same_outside cols d (pd.set_column col vals d).
Proof.
  intros Hcol [x Hx]. unfold pd.set_column.
  rewrite (lookup_column_has_column _ _ _ Hx).
  by apply same_outside_update_column.
Qed.

Lemma fill_with_same_outside cols choose col d d' :
  col ∈ cols → fill_with choose col d = (d', Ok tt) → same_outside cols d d'.
Proof.
  intros Hcol. unfold fill_with.
  destruct (pd.lookup_column col d) as [x|]; [|done].
  destruct (choose x) as [v|]; [|done]. intros [= <-].
  by apply same_outside_update_column.
Qed.

Lemma numeric_fill_same_outside cols method col d d' :
  col ∈ cols → numeric_fill method col d = (d', Ok tt) → same_outside cols d d'.
Proof.
  intros Hcol. unfold numeric_fill.
  destruct (numeric_statistic method); [|done].
  by apply fill_with_same_outside.
Qed.

Lemma scale_column_same_outside cols scalers col d d' :
  col ∈ cols → scale_column scalers col d = (d', Ok tt) → same_outside cols d d'.
Proof.
  intros Hcol. unfold scale_column. destruct (scalers !! col) as [sc|].
  - destruct (pd.lookup_column col d) as [x|] eqn:Hx; [|done].
    destruct (scaler_transform sc x) as [y|]; [|done]. intros [= <-].
    by apply same_outside_set_column.
  - intros [= <-]. apply same_outside_refl.
Qed.

Lemma for_each_same_outside_in cols (step : string → M DataFrame unit) xs :
  (∀ x d d', x ∈ cols → step x d = (d', Ok tt) → same_outside cols d d') →
  xs ⊆ cols →
  ∀ d d', for_each xs step d = (d', Ok tt) → same_outside cols d d'.
Proof.
  intros Hstep. induction xs as [|x xs IH]; intros Hsub d d'; simpl.
  - intros [= <-]. apply same_outside_refl.
  - unfold bind. destruct (step x d) as [d1 [[]|e]] eqn:E1; [|done].
    intros E2. eapply same_outside_trans.
    + eapply Hstep; [|done]. apply Hsub, list_elem_of_here.
    + apply IH; [|done]. intros y Hy. by apply Hsub, list_elem_of_further.
Qed.

Lemma numeric_transform_same_outside (self : NumericPreprocessor.t) d dout :
  numeric_transform_pure self d = Ok dout →
  same_outside (columns_of_type (NumericPreprocessor.config self) "numeric")
    d dout.
Proof.
  unfold numeric_transform_pure, numeric_transform_frame, bind.
  destruct (valid_input _ d); [|done].
  destruct (for_each _ (numeric_fill _) d) as [d1 [[]|e]] eqn:E1; [|done].
  destruct (for_each _ (scale_column _) d1) as [d2 [[]|e]] eqn:E2; [|done].
  intros [= <-]. eapply same_outside_trans.
  - eapply for_each_same_outside_in; [|done|exact E1].
    intros. by eapply numeric_fill_same_outside.
  - eapply for_each_same_outside_in; [|done|exact E2].
    intros. by eapply scale_column_same_outside.
Qed.

(** X3. The table that the numeric [transform] returns has the row labels,
    the column names and the column order of its input, and every column
    that the configuration does not declare as numeric - a column of
    another type, or one that is not declared at all - is returned as it
    was given. *)
Theorem X3_numeric_transform_other_columns
    (self : NumericPreprocessor.t) (w : World) (data : loc) (d : DataFrame)
    (s' : NumericPreprocessor.t * World) (out : loc) :
  heap w !! data = Some d →
  NumericPreprocessor.transform data (self, w) = (s', Ok out) →
  ∃ dout,
    heap s'.2 !! out = Some dout ∧
    df_index dout = df_index d ∧
    column_names dout = column_names d ∧
    ∀ c, c ∉ columns_of_type (NumericPreprocessor.config self) "numeric" →
         pd.lookup_column c dout = pd.lookup_column c d.
Proof.
  intros Hd Hrun.
  destruct (transform_outcome_Ok _ _ _ _ _ _ _ _ numeric_transform_outcome Hd Hrun)
    as (dout & Hpure & Hout & _).
  exists dout. split; [done|]. by apply numeric_transform_same_outside.
Qed.

End other_columns.

Lemma X3_witness :
  let run := NumericPreprocessor.transform 1%nat (example_numeric, example_world) in
  run.2 = Ok 3%nat ∧
  ∃ dout,
    heap run.1.2 !! 3%nat = Some dout ∧
    df_index dout = df_index example_transform_table ∧
    column_names dout = column_names example_transform_table ∧
    ∀ c, c ∉ columns_of_type (example_config "minmax" "label") "numeric" →
         pd.lookup_column c dout = pd.lookup_column c example_transform_table.
Proof.
  cbv zeta.
  assert ((NumericPreprocessor.transform 1%nat (example_numeric, example_world)).2
          = Ok 3%nat) as Hrun by by_compute.
  split; [exact Hrun|].
  apply (X3_numeric_transform_other_columns example_numeric example_world 1%nat
           example_transform_table _ 3%nat); [reflexivity|apply run_eq, Hrun].
Defined.

Section text_columns.
Context `{External}.

Lemma text_column_same_outside cols self col d d' :
  col ∈ cols → text_column self col d = (d', Ok tt) → same_outside cols d d'.
Proof.
  intros Hcol. unfold text_column.
  destruct (pd.lookup_column col d) as [x|] eqn:Hx; [|done]. intros [= <-].
  by apply same_outside_set_column.
Qed.

(** A text column is a column of strings after its iteration, and stays
    one. *)
Lemma text_loop_strings self cols d d' :
  for_each cols (text_column self) d = (d', Ok tt) →
  ∀ c, c ∈ cols ∨
       (∃ y, pd.lookup_column c d = Some y ∧ Forall (λ v, is_str v = true) y) →
       ∃ y, pd.lookup_column c d' = Some y ∧ Forall (λ v, is_str v = true) y.
Proof.
  revert d. induction cols as [|col cols IH]; intros d; simpl.
  - intros [= <-] c [?%elem_of_nil|?]; done.
  - unfold bind, text_column at 1.
    destruct (pd.lookup_column col d) as [x|] eqn:Hx; [|done].
    intros Hrun c Hc. apply (IH _ Hrun).
    rewrite (lookup_column_set_column _ _ _ _ _ Hx).
    destruct (decide (c = col)) as [->|Hne].
    + right. eexists. split; [done|]. apply Forall_fmap.
      by apply list.Forall_forall.
    + destruct Hc as [[->|Hc]%elem_of_cons|Hc]; [done|by left|by right].
Qed.

Lemma text_loop_columns self cols d d' :
  NoDup cols → for_each cols (text_column self) d = (d', Ok tt) →
  (∀ c, c ∈ cols → ∃ x,
      pd.lookup_column c d = Some x ∧
      pd.lookup_column c d' = Some (map (λ v, Str (text_of_cell self v)) x)) ∧
  (∀ c, c ∉ cols → pd.lookup_column c d' = pd.lookup_column c d).
Proof.
  revert d. induction cols as [|col cols IH]; intros d Hnd; simpl.
  - intros [= <-]. split; [by intros c ?%elem_of_nil|done].
  - apply list.NoDup_cons in Hnd as [Hnin Hnd]. unfold bind, text_column at 1.
    destruct (pd.lookup_column col d) as [x|] eqn:Hx; [|done].
    intros Hrun. destruct (IH _ Hnd Hrun) as [Hin Hout]. split.
    + intros c [->|Hc]%elem_of_cons.
      * exists x. split; [done|].
        rewrite (Hout col Hnin), (lookup_column_set_column _ _ _ _ x Hx).
        by rewrite decide_True.
      * destruct (Hin c Hc) as (x' & Hx' & Hd').
        rewrite (lookup_column_set_column _ _ _ _ x Hx) in Hx'.
        rewrite decide_False in Hx' by (by intros ->). by exists x'.
    + intros c [Hne Hc]%not_elem_of_cons.
      rewrite (Hout c Hc), (lookup_column_set_column _ _ _ _ x Hx).
      by rewrite decide_False.
Qed.

(** X4. In the table that the text [transform] returns, every text column
    holds strings only - a missing value or a number has become the empty
    string - and, the names of the text columns being distinct, cell by cell
    the result of the per-cell function on the input column. The row labels,
    the column names and their order are those of the input, and every
    column that is not declared as text is returned as it was given. *)
Theorem X4_text_transform_columns
    (self : TextPreprocessor.t) (w : World) (data : loc) (d : DataFrame)
    (s' : TextPreprocessor.t * World) (out : loc) :
  let cols := columns_of_type (TextPreprocessor.config self) "text" in
  heap w !! data = Some d →
  TextPreprocessor.transform data (self, w) = (s', Ok out) →
  ∃ dout,
    heap s'.2 !! out = Some dout ∧
    same_outside cols d dout ∧
    (∀ c, c ∈ cols →
       ∃ y, pd.lookup_column c dout = Some y ∧
            Forall (λ v, is_str v = true) y) ∧
    (NoDup cols → ∀ c, c ∈ cols →
       ∃ x, pd.lookup_column c d = Some x ∧
            pd.lookup_column c dout
            = Some (map (λ v, Str (text_of_cell self v)) x)).
Proof.
  intros cols Hd Hrun.
  destruct (transform_outcome_Ok _ _ _ _ _ _ _ _ text_transform_outcome Hd Hrun)
    as (dout & Hpure & Hout & _).
  exists dout. split; [done|]. revert Hpure. unfold text_transform_pure.
  fold cols. destruct (valid_input _ d); [|done].
  destruct (for_each cols (text_column self) d) as [d1 [[]|e]] eqn:E1; [|done].
  intros [= <-]. split; [|split].
  - eapply for_each_same_outside_in; [|done|exact E1].
    intros. by eapply text_column_same_outside.
  - intros c Hc. apply (text_loop_strings _ _ _ _ E1). by left.
  - intros Hnd c Hc. by apply (text_loop_columns _ _ _ _ Hnd E1).
Qed.

End text_columns.

Lemma X4_witness :
  let self := TextPreprocessor.__init__ example_text_only in
  let w := mkWorld [example_text_table] [] in
  let run := TextPreprocessor.transform (H:=example_external) 0%nat (self, w) in
  run.2 = Ok 1%nat ∧
  (d ← heap run.1.2 !! 1%nat; pd.lookup_column "note" d)
  = Some [Str "cat here"; Str ""; Str ""] ∧
  ∃ dout,
    heap run.1.2 !! 1%nat = Some dout ∧
    same_outside ["note"] example_text_table dout ∧
    (∀ c, c ∈ ["note"] →
       ∃ y, pd.lookup_column c dout = Some y ∧
            Forall (λ v, is_str v = true) y) ∧
    (NoDup ["note"] → ∀ c, c ∈ ["note"] →
       ∃ x, pd.lookup_column c example_text_table = Some x ∧
            pd.lookup_column c dout
            = Some (map (λ v, Str (text_of_cell (H:=example_external) self v)) x)).
Proof.
  cbv zeta.
  assert ((TextPreprocessor.transform (H:=example_external) 0%nat
             (TextPreprocessor.__init__ example_text_only,
              mkWorld [example_text_table] [])).2 = Ok 1%nat) as Hrun
    by by_compute.
  split; [exact Hrun|]. split; [by_compute|].
  apply (X4_text_transform_columns (H:=example_external)
           (TextPreprocessor.__init__ example_text_only)
           (mkWorld [example_text_table] []) 0%nat example_text_table _ 1%nat);
    [reflexivity|apply run_eq, Hrun].
Defined.

Section categorical_columns.
Context `{External}.

Lemma same_outside_kept_outside cols d d' :
  same_outside cols d d' → kept_outside cols d d'.
Proof. intros (Hi & _ & Hc). split; [done|]. intros c Hn _. by apply Hc. Qed.

Lemma kept_outside_trans cols d1 d2 d3 :
  kept_outside cols d1 d2 → kept_outside cols d2 d3 → kept_outside cols d1 d3.
Proof.
  intros [Hi1 Hc1] [Hi2 Hc2]. split; [congruence|]. intros c Hn Hs.
  rewrite Hc2, Hc1; try done. by rewrite Hc1.
Qed.

Lemma categorical_fill_same_outside cols method col d d' :
  col ∈ cols → categorical_fill method col d = (d', Ok tt) →
  same_outside cols d d'.
Proof.
  intros Hcol. rewrite categorical_fill_fill_with.
  by apply fill_with_same_outside.
Qed.

Lemma encode_column_kept_outside cols self col cur d1 :
  col ∈ cols → encode_column self col cur = Ok d1 → kept_outside cols cur d1.
Proof.
  intros Hcol. unfold encode_column.
  destruct (CategoricalPreprocessor.encoders self !! col) as [[enc|enc]|].
  - unfold lookup_or_raise.
    destruct (pd.lookup_column col cur) as [y|] eqn:Hy; [|done]. simpl.
    destruct (sk.LabelEncoder_transform enc y) as [codes|]; [|done]. simpl.
    intros [= <-]. apply same_outside_kept_outside.
    by apply same_outside_set_column.
  - unfold lookup_or_raise.
    destruct (pd.lookup_column col cur) as [y|] eqn:Hy; [|done]. simpl.
    destruct (sk.OneHotEncoder_transform enc y) as [rows|]; [|done]. simpl.
    destruct (feature_names_of self col) as [names|]; [|done]. simpl.
    destruct (encoded_frame rows names (df_index cur)) as [e|]; [|done]. simpl.
    intros [= <-]. split; [done|]. intros c Hc [x Hx].
    unfold pd.lookup_column in *. simpl.
    rewrite find_column_app, find_column_filter_ne, Hx; [done|].
    by intros ->.
  - intros [= <-]. split; done.
Qed.

Lemma encode_loop_kept_outside cols self xs cur dout :
  xs ⊆ cols → result_fold (encode_column self) xs cur = Ok dout →
  kept_outside cols cur dout.
Proof.
  revert cur. induction xs as [|col xs IH]; intros cur Hsub; simpl.
  - intros [= <-]. split; done.
  - unfold result_bind.
    destruct (encode_column self col cur) as [d1|] eqn:E1; [|done].
    intros E2. eapply kept_outside_trans.
    + eapply encode_column_kept_outside; [|done]. apply Hsub, list_elem_of_here.
    + apply IH; [|done]. intros y Hy. by apply Hsub, list_elem_of_further.
Qed.

(** With label encoders only, an iteration replaces the cells of its
    column and nothing else. *)
Lemma encode_loop_same_outside cols self xs cur dout :
  (∀ c enc, c ∈ xs →
            CategoricalPreprocessor.encoders self !! c
            ≠ Some (CategoricalPreprocessor.OneHot enc)) →
  xs ⊆ cols → result_fold (encode_column self) xs cur = Ok dout →
  same_outside cols cur dout.
Proof.
  revert cur. induction xs as [|col xs IH]; intros cur Hlabel Hsub; simpl.
  - intros [= <-]. apply same_outside_refl.
  - unfold result_bind.
    destruct (encode_column self col cur) as [d1|] eqn:E1; [|done].
    intros E2. eapply same_outside_trans.
    2: { apply IH; [| |done].
         - intros c enc Hc. by apply Hlabel, list_elem_of_further.
         - intros y Hy. by apply Hsub, list_elem_of_further. }
    revert E1. unfold encode_column.
    destruct (CategoricalPreprocessor.encoders self !! col) as [[enc|enc]|] eqn:He.
    + unfold lookup_or_raise.
      destruct (pd.lookup_column col cur) as [y|] eqn:Hy; [|done]. simpl.
      destruct (sk.LabelEncoder_transform enc y) as [codes|]; [|done]. simpl.
      intros [= <-]. apply same_outside_set_column; [|done].
      apply Hsub, list_elem_of_here.
    + destruct (Hlabel col enc); [apply list_elem_of_here|done].
    + intros [= <-]. apply same_outside_refl.
Qed.

(** X5. The table that the categorical [transform] returns has the row
    labels of its input, and every column of the input that is not declared
    as categorical is found in the result as it was given. When the
    receiver holds no one-hot encoder (label encoding, or no fitted state),
    the column names and their order are those of the input as well: only
    the cells of the categorical columns change. *)
Theorem X5_categorical_transform_other_columns
    (self : CategoricalPreprocessor.t) (w : World) (data : loc) (d : DataFrame)
    (s' : CategoricalPreprocessor.t * World) (out : loc) :
  let cols := columns_of_type (CategoricalPreprocessor.config self) "categorical" in
  heap w !! data = Some d →
  CategoricalPreprocessor.transform data (self, w) = (s', Ok out) →
  ∃ dout,
    heap s'.2 !! out = Some dout ∧
    kept_outside cols d dout ∧
    ((∀ c enc, CategoricalPreprocessor.encoders self !! c
               ≠ Some (CategoricalPreprocessor.OneHot enc)) →
     same_outside cols d dout).
Proof.
  intros cols Hd Hrun.
  destruct (transform_outcome_Ok _ _ _ _ _ _ _ _ categorical_transform_outcome
              Hd Hrun) as (dout & Hpure & Hout & _).
  exists dout. split; [done|]. revert Hpure. unfold categorical_transform_pure.
  fold cols. destruct (valid_input _ d); [|done].
  destruct (for_each cols (categorical_fill _) d) as [d1 [[]|e]] eqn:E1; [|done].
  intros E2.
  assert (same_outside cols d d1) as Hfill.
  { eapply for_each_same_outside_in; [|done|exact E1].
    intros. by eapply categorical_fill_same_outside. }
  split.
  - eapply kept_outside_trans; [by apply same_outside_kept_outside|].
    by eapply encode_loop_kept_outside.
  - intros Hlabel. eapply same_outside_trans; [done|].
    eapply encode_loop_same_outside; [|done|exact E2].
    intros c enc _. apply Hlabel.
Qed.

End categorical_columns.

Lemma X5_witness :
  let onehot := example_categorical "onehot" in
  let run := CategoricalPreprocessor.transform 1%nat (onehot, example_world) in
  run.2 = Ok 6%nat ∧
  (d ← heap run.1.2 !! 6%nat; Some (column_names d))
  = Some ["age"; "city_A"; "city_B"] ∧
  ∃ dout,
    heap run.1.2 !! 6%nat = Some dout ∧
    kept_outside ["city"] example_transform_table dout ∧
    ((∀ c enc, CategoricalPreprocessor.encoders onehot !! c
               ≠ Some (CategoricalPreprocessor.OneHot enc)) →
     same_outside ["city"] example_transform_table dout).
Proof.
  cbv zeta.
  assert ((CategoricalPreprocessor.transform 1%nat
             (example_categorical "onehot", example_world)).2 = Ok 6%nat) as Hrun
    by by_compute.
  split; [exact Hrun|]. split; [by_compute|].
  apply (X5_categorical_transform_other_columns
           (example_categorical "onehot") example_world 1%nat
           example_transform_table _ 6%nat);
    [reflexivity|apply run_eq, Hrun].
Defined.

(** ** Missing values after [_handle_missing_values] *)

Section statistics.

Lemma insert_sorted_elem_of {A} (leb : A → A → bool) a x l :
  x ∈ pd.insert_sorted leb a l ↔ x = a ∨ x ∈ l.
Proof.
  induction l as [|y l IH]; simpl.
  - rewrite list_elem_of_singleton. set_unfold. tauto.
  - destruct (leb a y).
    + by rewrite elem_of_cons.
    + rewrite !elem_of_cons, IH. tauto.
Qed.

Lemma sort_elem_of {A} (leb : A → A → bool) x l :
  x ∈ pd.sort leb l ↔ x ∈ l.
Proof.
  unfold pd.sort. induction l as [|y l IH]; simpl; [done|].
  by rewrite insert_sorted_elem_of, elem_of_cons, IH.
Qed.

Lemma insert_sorted_length {A} (leb : A → A → bool) a l :
  length (pd.insert_sorted leb a l) = S (length l).
Proof.
  induction l as [|y l IH]; simpl; [done|]. destruct (leb a y); simpl; by rewrite ?IH.
Qed.

Lemma sort_length {A} (leb : A → A → bool) l :
  length (pd.sort leb l) = length l.
Proof.
  unfold pd.sort. induction l as [|y l IH]; simpl; [done|].
  by rewrite insert_sorted_length, IH.
Qed.

Lemma distinct_elem_of x s : x ∈ pd.distinct s ↔ x ∈ s.
Proof.
  induction s as [|c s IH]; simpl; [done|].
  rewrite !elem_of_cons, list_elem_of_filter, IH.
  destruct (decide (x = c)); tauto.
Qed.

Lemma mean_not_nan x v :
  pd.mean x = Ok v → pd.numbers x ≠ [] → v ≠ NaN.
Proof.
  unfold pd.mean. destruct (existsb is_str x); [done|].
  destruct (pd.numbers x); [done|]. by intros [= <-].
Qed.

Lemma mean_no_numbers x v :
  pd.mean x = Ok v → pd.numbers x = [] → v = NaN.
Proof.
  unfold pd.mean. destruct (existsb is_str x); [done|].
  intros Hm Hn. rewrite Hn in Hm. by injection Hm.
Qed.

Lemma median_not_nan x v :
  pd.median x = Ok v → pd.numbers x ≠ [] → v ≠ NaN.
Proof.
  unfold pd.median. destruct (existsb is_str x); [done|].
  destruct (_ !! _) as [hi|] eqn:Hhi.
  - by destruct (Nat.even _); intros [= <-].
  - intros _ Hn. apply lookup_ge_None in Hhi. rewrite sort_length in Hhi.
    destruct (pd.numbers x) as [|q qs]; [done|].
    pose proof (Nat.div_lt (length (q :: qs)) 2) as Hlt.
    cbn [length] in Hhi, Hlt. lia.
Qed.

Lemma median_no_numbers x v :
  pd.median x = Ok v → pd.numbers x = [] → v = NaN.
Proof.
  unfold pd.median. destruct (existsb is_str x); [done|].
  intros Hm Hn. rewrite Hn in Hm. simpl in Hm. by injection Hm.
Qed.

Lemma mode_elem_of v x : v ∈ pd.mode x → v ∈ x ∧ v ≠ NaN.
Proof.
  unfold pd.mode. intros Hv.
  assert (v ∈ filter (λ c, c ≠ NaN) x) as Hin.
  { apply distinct_elem_of.
    destruct (pd.uniform _); [apply sort_elem_of in Hv|];
      apply list_elem_of_filter in Hv; tauto. }
  apply list_elem_of_filter in Hin. tauto.
Qed.

Lemma mode0_value x v : pd.mode0 x = Ok v → v ∈ x ∧ v ≠ NaN.
Proof.
  unfold pd.mode0. destruct (pd.mode x) as [|c l] eqn:Hm; [done|].
  intros [= <-]. apply mode_elem_of. rewrite Hm. apply list_elem_of_here.
Qed.

Lemma fillna_no_missing v x : v ≠ NaN → NaN ∉ pd.fillna v x.
Proof.
  intros Hv Hin. unfold pd.fillna in Hin.
  apply list_elem_of_fmap in Hin as (c & Hc & _). by destruct c.
Qed.

Lemma fillna_nan x : pd.fillna NaN x = x.
Proof.
  unfold pd.fillna. induction x as [|c x IH]; simpl; [done|].
  rewrite IH. by destruct c.
Qed.

End statistics.

Section fill_missing_values.
Context `{External}.

Lemma numeric_statistic_value method stat x v :
  numeric_statistic method = Some stat → stat x = Ok v →
  (method = "mode" → v ∈ x ∧ v ≠ NaN) ∧
  (pd.numbers x ≠ [] → v ≠ NaN) ∧
  (pd.numbers x = [] → method ≠ "mode" → v = NaN).
Proof.
  unfold numeric_statistic. intros Hs Hv.
  destruct (decide (method = "mean")) as [->|Hmean].
  { injection Hs as <-. split; [done|]. split.
    - by apply mean_not_nan.
    - intros Hn _. by apply (mean_no_numbers x). }
  destruct (decide (method = "median")) as [->|Hmedian].
  { injection Hs as <-. split; [done|]. split.
    - by apply median_not_nan.
    - intros Hn _. by apply (median_no_numbers x). }
  destruct (decide (method = "mode")) as [->|Hmode]; [|done].
  injection Hs as <-. destruct (mode0_value x v Hv) as [Hin Hnan].
  split; [done|]. split; [done|]. done.
Qed.

(** X6. When the numeric [_handle_missing_values] returns, its result is a
    new table and the table it was given is still on the heap as it was;
    the receiver and the log are unchanged. Outside of the listed columns
    the new table equals the given one. A listed column is the given column
    with its missing cells filled with one value of the policy. With the
    policy mode that value is a value of the column that is not missing, so
    the column has one; in a column with at least one number, or with the
    policy mode, no missing cell is left. With mean or median a column
    without any number is left as it is, missing cells included, and no
    error is raised. The names of the listed columns are distinct. *)
Theorem X6_numeric_handle_missing_values
    (self : NumericPreprocessor.t) (w : World) (data : loc) (d : DataFrame)
    (cols : list string) (s' : NumericPreprocessor.t * World) (df : loc) :
  let method :=
    num_handle_missing (numeric_config (NumericPreprocessor.config self)) in
  heap w !! data = Some d → NoDup cols →
  NumericPreprocessor._handle_missing_values data cols (self, w) = (s', Ok df) →
  ∃ d1,
    s' = (self, mkWorld (heap w ++ [d1]) (logs w)) ∧ df = length (heap w) ∧
    same_outside cols d d1 ∧
    ∀ c, c ∈ cols → ∃ x v,
      pd.lookup_column c d = Some x ∧
      pd.lookup_column c d1 = Some (pd.fillna v x) ∧
      (method = "mode" → v ∈ x ∧ v ≠ NaN) ∧
      (pd.numbers x ≠ [] ∨ method = "mode" → NaN ∉ pd.fillna v x) ∧
      (pd.numbers x = [] → method ≠ "mode" → pd.fillna v x = x).
Proof.
  intros method Hd Hnd.
  rewrite (numeric_handle_missing_values_run_exact self w data d cols Hd).
  cbv zeta. fold method.
  destruct (for_each cols (numeric_fill method) d) as [d1 [[]|e]] eqn:E1;
    simpl; [|done].
  intros [= <- <-]. exists d1. split; [done|]. split; [done|]. split.
  { eapply for_each_same_outside_in; [|done|exact E1].
    intros. by eapply numeric_fill_same_outside. }
  destruct (numeric_fill_loop_columns _ _ _ _ Hnd E1) as [Hfill _].
  intros c Hc. destruct (Hfill c Hc) as (stat & x & v & Hstat & Hx & Hv & Hx1).
  destruct (numeric_statistic_value _ _ _ _ Hstat Hv) as (Hmode & Hnum & Hnone).
  exists x, v. split; [done|]. split; [done|]. split; [done|]. split.
  - intros Hcase. apply fillna_no_missing.
    destruct Hcase as [Hn|Hm]; [by apply Hnum|by apply Hmode].
  - intros Hn Hm. rewrite (Hnone Hn Hm). apply fillna_nan.
Qed.

(** X7. When the categorical [_handle_missing_values] returns, its result
    is a new table and the table it was given is still on the heap as it
    was; outside of the listed columns the new table equals the given one.
    A listed column is the given column with its missing cells filled, and
    no missing cell is left in it. With the policy mode the fill value is a
    value of the column that is not missing (a column without any value
    makes the call raise); with any other policy it is the string
    'MISSING'. The names of the listed columns are distinct. *)
Theorem X7_categorical_handle_missing_values
    (self : CategoricalPreprocessor.t) (w : World) (data : loc) (d : DataFrame)
    (cols : list string) (s' : CategoricalPreprocessor.t * World) (df : loc) :
  let method :=
    cat_handle_missing (categorical_config (CategoricalPreprocessor.config self)) in
  heap w !! data = Some d → NoDup cols →
  CategoricalPreprocessor._handle_missing_values data cols (self, w)
  = (s', Ok df) →
  ∃ d1,
    s' = (self, mkWorld (heap w ++ [d1]) (logs w)) ∧ df = length (heap w) ∧
    same_outside cols d d1 ∧
    ∀ c, c ∈ cols → ∃ x v,
      pd.lookup_column c d = Some x ∧
      pd.lookup_column c d1 = Some (pd.fillna v x) ∧
      (NaN ∉ pd.fillna v x) ∧
      (method = "mode" → v ∈ x ∧ v ≠ NaN) ∧
      (method ≠ "mode" → v = Str "MISSING").
Proof.
  intros method Hd Hnd.
  rewrite (categorical_handle_missing_values_run_exact self w data d cols Hd).
  cbv zeta. fold method.
  destruct (for_each cols (categorical_fill method) d) as [d1 [[]|e]] eqn:E1;
    simpl; [|done].
  intros [= <- <-]. exists d1. split; [done|]. split; [done|]. split.
  { eapply for_each_same_outside_in; [|done|exact E1].
    intros. by eapply categorical_fill_same_outside. }
  intros c Hc.
  destruct (categorical_fill_loop_columns _ _ _ _ Hnd E1 c Hc)
    as (x & v & Hx & Hv & Hx1).
  exists x, v. split; [done|]. split; [done|].
  unfold categorical_fill_value in Hv.
  destruct (decide (method = "mode")) as [Hm|Hm].
  - destruct (mode0_value x v Hv) as [Hin Hnan].
    split; [by apply fillna_no_missing|]. split; done.
  - injection Hv as <-. split; [by apply fillna_no_missing|]. split; done.
Qed.

End fill_missing_values.

Lemma X6_witness :
  let run :=
    NumericPreprocessor._handle_missing_values 1%nat ["age"]
      (example_numeric, example_world) in
  NoDup ["age"] ∧ run.2 = Ok 2%nat ∧
  (d ← heap run.1.2 !! 2%nat; pd.lookup_column "age" d)
  = Some [num 100; num 100] ∧
  ∃ d1,
    run.1 = (example_numeric,
             mkWorld (heap example_world ++ [d1]) (logs example_world)) ∧
    2%nat = length (heap example_world) ∧
    same_outside ["age"] example_transform_table d1 ∧
    ∀ c, c ∈ ["age"] → ∃ x v,
      pd.lookup_column c example_transform_table = Some x ∧
      pd.lookup_column c d1 = Some (pd.fillna v x) ∧
      ("mean" = "mode" → v ∈ x ∧ v ≠ NaN) ∧
      (pd.numbers x ≠ [] ∨ "mean" = "mode" → NaN ∉ pd.fillna v x) ∧
      (pd.numbers x = [] → "mean" ≠ "mode" → pd.fillna v x = x).
Proof.
  cbv zeta.
  assert ((NumericPreprocessor._handle_missing_values 1%nat ["age"]
             (example_numeric, example_world)).2 = Ok 2%nat) as Hrun
    by by_compute.
  assert (NoDup ["age"]) as Hnd by by_compute.
  split; [exact Hnd|]. split; [exact Hrun|]. split; [by_compute|].
  apply (X6_numeric_handle_missing_values example_numeric example_world 1%nat
           example_transform_table ["age"] _ 2%nat);
    [reflexivity|exact Hnd|apply run_eq, Hrun].
Defined.

Lemma X7_witness :
  let self := CategoricalPreprocessor.__init__ (example_unknown_options "label") in
  let w := mkWorld [example_city_table] [] in
  let run := CategoricalPreprocessor._handle_missing_values 0%nat ["city"] (self, w) in
  NoDup ["city"] ∧ run.2 = Ok 1%nat ∧
  (d ← heap run.1.2 !! 1%nat; pd.lookup_column "city" d)
  = Some [Str "A"; Str "MISSING"] ∧
  ∃ d1,
    run.1 = (self, mkWorld (heap w ++ [d1]) (logs w)) ∧
    1%nat = length (heap w) ∧
    same_outside ["city"] example_city_table d1 ∧
    ∀ c, c ∈ ["city"] → ∃ x v,
      pd.lookup_column c example_city_table = Some x ∧
      pd.lookup_column c d1 = Some (pd.fillna v x) ∧
      (NaN ∉ pd.fillna v x) ∧
      ("bogus" = "mode" → v ∈ x ∧ v ≠ NaN) ∧
      ("bogus" ≠ "mode" → v = Str "MISSING").
Proof.
  cbv zeta.
  assert ((CategoricalPreprocessor._handle_missing_values 0%nat ["city"]
             (CategoricalPreprocessor.__init__ (example_unknown_options "label"),
              mkWorld [example_city_table] [])).2 = Ok 1%nat) as Hrun
    by by_compute.
  assert (NoDup ["city"]) as Hnd by by_compute.
  split; [exact Hnd|]. split; [exact Hrun|]. split; [by_compute|].
  apply (X7_categorical_handle_missing_values
           (CategoricalPreprocessor.__init__ (example_unknown_options "label"))
           (mkWorld [example_city_table] []) 0%nat example_city_table
           ["city"] _ 1%nat);
    [reflexivity|exact Hnd|apply run_eq, Hrun].
Defined.

(** ** The fitted state of the numeric preprocessor *)

Section numeric_fit.
Context `{External}.

Lemma bind_Ok_inv {St A B} (m : M St A) (k : A → M St B) s s' b :
  bind m k s = (s', Ok b) → ∃ s1 a, m s = (s1, Ok a) ∧ k a s1 = (s', Ok b).
Proof.
  unfold bind. destruct (m s) as [s1 [a|e]]; [|done]. intros Hk.
  by exists s1, a.
Qed.

(** After the loop of [fit], every numeric column has a scaler fitted on
    the column of the filled table. *)
Lemma fit_scaler_loop_fitted cls d cols (m m' : gmap string scaler_obj) :
  for_each cols (fit_scaler cls d) m = (m', Ok tt) →
  ∀ c, c ∈ cols → ∃ x s,
    pd.lookup_column c d = Some x ∧ sk_scaler_fit cls x = Ok s ∧
    m' !! c = Some (Fitted s).
Proof.
  revert m. induction cols as [|col cols IH]; intros m; simpl.
  - by intros _ c ?%elem_of_nil.
  - unfold bind, fit_scaler at 1.
    destruct (pd.lookup_column col d) as [x|] eqn:Hx; [|done].
    destruct (sk_scaler_fit cls x) as [s|e] eqn:Hs; [|done].
    intros Hrun c Hc. destruct (decide (c ∈ cols)) as [Hin|Hnin].
    + by apply (IH _ Hrun).
    + apply elem_of_cons in Hc as [->|Hc]; [|done].
      exists x, s. split; [done|]. split; [done|].
      rewrite (fit_scaler_loop_other _ _ _ _ _ _ _ Hrun Hnin).
      by rewrite lookup_insert_eq.
Qed.

Lemma numeric_fit_pure_scalers self d self' :
  let cfg := NumericPreprocessor.config self in
  NoDup (columns_of_type cfg "numeric") →
  numeric_fit_pure self d = Ok self' →
  ∀ c, c ∈ columns_of_type cfg "numeric" → ∃ stat x v s,
    numeric_statistic (num_handle_missing (numeric_config cfg)) = Some stat ∧
    pd.lookup_column c d = Some x ∧ stat x = Ok v ∧
    sk_scaler_fit (NumericPreprocessor.scaler_class self) (pd.fillna v x) = Ok s ∧
    NumericPreprocessor.scalers self' !! c = Some (Fitted s).
Proof.
  intros cfg Hnd. unfold numeric_fit_pure. fold cfg.
  destruct (valid_input _ d); [|done].
  destruct (for_each _ (numeric_fill _) d) as [d1 [[]|e]] eqn:E1; [|done].
  destruct (for_each _ (fit_scaler _ d1) _) as [m [[]|e]] eqn:E2; [|done].
  intros [= <-] c Hc. simpl.
  destruct (numeric_fill_loop_columns _ _ _ _ Hnd E1) as [Hfill _].
  destruct (Hfill c Hc) as (stat & x & v & Hstat & Hx & Hv & Hx1).
  destruct (fit_scaler_loop_fitted _ _ _ _ _ E2 c Hc) as (x1 & s & Hx1' & Hs & Hm).
  rewrite Hx1 in Hx1'. injection Hx1' as <-. by exists stat, x, v, s.
Qed.

(** X8. After a successful [fit] of the numeric preprocessor, every
    numeric column has a fitted scaler of the configured class, fitted on
    the column of the fit table with its missing cells filled by the
    statistic of the policy; the configuration, the scaler class and the
    scalers stored under other names are unchanged. The names of the
    numeric columns are distinct. *)
Theorem X8_numeric_fit_state
    (self self' : NumericPreprocessor.t) (w w' : World) (data : loc)
    (d : DataFrame) :
  let cfg := NumericPreprocessor.config self in
  let cols := columns_of_type cfg "numeric" in
  heap w !! data = Some d → NoDup cols →
  NumericPreprocessor.fit data (self, w) = ((self', w'), Ok tt) →
  NumericPreprocessor.config self' = cfg ∧
  NumericPreprocessor.scaler_class self' = NumericPreprocessor.scaler_class self ∧
  (∀ k, k ∉ cols →
        NumericPreprocessor.scalers self' !! k
        = NumericPreprocessor.scalers self !! k) ∧
  ∀ c, c ∈ cols → ∃ stat x v s,
    numeric_statistic (num_handle_missing (numeric_config cfg)) = Some stat ∧
    pd.lookup_column c d = Some x ∧ stat x = Ok v ∧
    sk_scaler_fit (NumericPreprocessor.scaler_class self) (pd.fillna v x) = Ok s ∧
    NumericPreprocessor.scalers self' !! c = Some (Fitted s).
Proof.
  intros cfg cols Hd Hnd Hrun.
  pose proof (fit_outcome_Ok _ _ _ _ _ _ _ _ numeric_fit_outcome Hd Hrun) as Hpure.
  destruct (numeric_fit_pure_fields _ _ _ Hpure) as (Hcfg & Hcls & Hother).
  split; [done|]. split; [done|]. split; [done|].
  by apply numeric_fit_pure_scalers.
Qed.

(** X9. [preprocess] ([fit_transform]) of the numeric preprocessor fits and
    transforms on one table. When it returns, a numeric column of the
    result is the column of the input with its missing cells filled with
    the statistic of that column, scaled cell by cell with the scaler that
    was fitted on this same filled column; a missing fill value stays
    missing. The names of the numeric columns are distinct. *)
Theorem X9_numeric_preprocess
    (self : NumericPreprocessor.t) (w : World) (data : loc) (d : DataFrame)
    (s' : NumericPreprocessor.t * World) (out : loc) :
  let cfg := NumericPreprocessor.config self in
  let cols := columns_of_type cfg "numeric" in
  heap w !! data = Some d → NoDup cols →
  NumericPreprocessor.preprocess data (self, w) = (s', Ok out) →
  ∃ dout,
    heap s'.2 !! out = Some dout ∧
    ∀ c, c ∈ cols → ∃ stat x v s y,
      numeric_statistic (num_handle_missing (numeric_config cfg)) = Some stat ∧
      pd.lookup_column c d = Some x ∧ stat x = Ok v ∧
      sk_scaler_fit (NumericPreprocessor.scaler_class self) (pd.fillna v x) = Ok s ∧
      result_map (scale_cell s) (pd.fillna v x) = Ok y ∧
      pd.lookup_column c dout = Some y.
Proof.
  intros cfg cols Hd Hnd Hrun.
  change (bind (NumericPreprocessor.fit data)
            (λ _, NumericPreprocessor.transform data) (self, w) = (s', Ok out))
    in Hrun.
  apply bind_Ok_inv in Hrun as ([self1 w1] & [] & Hfit & Htr).
  pose proof (fit_outcome_Ok _ _ _ _ _ _ _ _ numeric_fit_outcome Hd Hfit) as Hpure.
  destruct (numeric_fit_pure_fields _ _ _ Hpure) as (Hcfg & Hcls & _).
  assert (heap w1 !! data = Some d) as Hd1.
  { destruct (numeric_fit_outcome self w data d Hd) as (w2 & Hp & _ & Hres).
    rewrite Hpure, Hfit in Hres. injection Hres as <-.
    by eapply prefix_lookup_Some. }
  destruct (transform_outcome_Ok _ _ _ _ _ _ _ _ numeric_transform_outcome
              Hd1 Htr) as (dout & Hpt & Hout & _).
  exists dout. split; [done|]. intros c Hc.
  destruct (numeric_fit_pure_scalers _ _ _ Hnd Hpure c Hc)
    as (stat & x & v & s & Hstat & Hx & Hv & Hs & Hsc).
  assert (NoDup (columns_of_type (NumericPreprocessor.config self1) "numeric"))
    as Hnd1 by by rewrite Hcfg.
  destruct (numeric_transform_columns self1 d dout Hnd1 Hpt c)
    as (stat' & x' & v' & Hstat' & Hx' & Hv' & Hres).
  { by rewrite Hcfg. }
  rewrite Hcfg in Hstat'.
  assert (stat' = stat) as -> by congruence.
  assert (x' = x) as -> by congruence.
  assert (v' = v) as -> by congruence.
  rewrite Hsc in Hres. destruct Hres as (y & Hy & Hdy).
  by exists stat, x, v, s, y.
Qed.

End numeric_fit.

Lemma X8_witness :
  let run := NumericPreprocessor.fit 0%nat (example_numeric, example_world) in
  NoDup (columns_of_type (example_config "minmax" "label") "numeric") ∧
  run.2 = Ok tt ∧
  NumericPreprocessor.config run.1.1 = example_config "minmax" "label" ∧
  NumericPreprocessor.scaler_class run.1.1 = sk.MinMaxScaler ∧
  (∀ k, k ∉ columns_of_type (example_config "minmax" "label") "numeric" →
        NumericPreprocessor.scalers run.1.1 !! k
        = NumericPreprocessor.scalers example_numeric !! k) ∧
  ∀ c, c ∈ columns_of_type (example_config "minmax" "label") "numeric" →
    ∃ stat x v s,
      numeric_statistic "mean" = Some stat ∧
      pd.lookup_column c example_fit_table = Some x ∧ stat x = Ok v ∧
      sk_scaler_fit (External:=example_external) sk.MinMaxScaler (pd.fillna v x)
      = Ok s ∧
      NumericPreprocessor.scalers run.1.1 !! c = Some (Fitted s).
Proof.
  cbv zeta.
  assert ((NumericPreprocessor.fit 0%nat (example_numeric, example_world)).2
          = Ok tt) as Hrun by by_compute.
  assert (NoDup (columns_of_type (example_config "minmax" "label") "numeric"))
    as Hnd by by_compute.
  split; [exact Hnd|]. split; [exact Hrun|].
  apply (X8_numeric_fit_state example_numeric
           (NumericPreprocessor.fit 0%nat (example_numeric, example_world)).1.1
           example_world
           (NumericPreprocessor.fit 0%nat (example_numeric, example_world)).1.2
           0%nat example_fit_table);
    [reflexivity|exact Hnd|apply run_eq_world, Hrun].
Defined.

Lemma X9_witness :
  let run := NumericPreprocessor.preprocess 0%nat (example_numeric, example_world) in
  NoDup (columns_of_type (example_config "minmax" "label") "numeric") ∧
  run.2 = Ok 4%nat ∧
  (d ← heap run.1.2 !! 4%nat; pd.lookup_column "age" d)
  = Some [num 0; num 1; Num (Q2Qc (1 # 2))] ∧
  ∃ dout,
    heap run.1.2 !! 4%nat = Some dout ∧
    ∀ c, c ∈ columns_of_type (example_config "minmax" "label") "numeric" →
      ∃ stat x v s y,
        numeric_statistic "mean" = Some stat ∧
        pd.lookup_column c example_fit_table = Some x ∧ stat x = Ok v ∧
        sk_scaler_fit (External:=example_external) sk.MinMaxScaler (pd.fillna v x)
        = Ok s ∧
        result_map (scale_cell s) (pd.fillna v x) = Ok y ∧
        pd.lookup_column c dout = Some y.
Proof.
  cbv zeta.
  assert ((NumericPreprocessor.preprocess 0%nat (example_numeric, example_world)).2
          = Ok 4%nat) as Hrun by by_compute.
  assert (NoDup (columns_of_type (example_config "minmax" "label") "numeric"))
    as Hnd by by_compute.
  split; [exact Hnd|]. split; [exact Hrun|]. split; [by_compute|].
  apply (X9_numeric_preprocess example_numeric example_world 0%nat
           example_fit_table _ 4%nat);
    [reflexivity|exact Hnd|apply run_eq, Hrun].
Defined.

(** ** The vocabulary of the categorical preprocessor *)

Section vocabulary.
Context `{External}.

Lemma distinct_NoDup s : NoDup (pd.distinct s).
Proof.
  induction s as [|c s IH]; simpl; [constructor|].
  apply list.NoDup_cons. split.
  - rewrite list_elem_of_filter. tauto.
  - by apply list.NoDup_filter.
Qed.

Lemma insert_sorted_Permutation {A} (leb : A → A → bool) a l :
  pd.insert_sorted leb a l ≡ₚ a :: l.
Proof.
  induction l as [|y l IH]; simpl; [done|]. destruct (leb a y); [done|].
  rewrite IH. apply Permutation_swap.
Qed.

Lemma sort_Permutation {A} (leb : A → A → bool) l : pd.sort leb l ≡ₚ l.
Proof.
  unfold pd.sort. induction l as [|y l IH]; simpl; [done|].
  by rewrite insert_sorted_Permutation, IH.
Qed.

Lemma existsb_is_nan y : existsb is_nan y = true ↔ NaN ∈ y.
Proof.
  rewrite existsb_exists. split.
  - intros (c & Hc & Hn). destruct c; try done. by apply list_elem_of_In.
  - intros Hin. exists NaN. split; [by apply list_elem_of_In|done].
Qed.

(** The vocabulary that an encoder computes: no value twice, and exactly
    the values of the column. *)
Lemma unique_NoDup y cs : sk.unique y = Ok cs → NoDup cs.
Proof.
  unfold sk.unique. destruct (pd.uniform _); [|done]. intros [= <-].
  apply list.NoDup_app. split; [|split].
  - rewrite sort_Permutation. apply distinct_NoDup.
  - intros v Hv Hn.
    rewrite sort_elem_of, distinct_elem_of, list_elem_of_filter in Hv.
    destruct Hv as [Hv _].
    destruct (existsb is_nan y); [|by apply elem_of_nil in Hn].
    by apply list_elem_of_singleton in Hn.
  - destruct (existsb is_nan y); [|constructor].
    apply list.NoDup_singleton.
Qed.

Lemma unique_elem_of y cs v : sk.unique y = Ok cs → v ∈ cs ↔ v ∈ y.
Proof.
  unfold sk.unique. destruct (pd.uniform _); [|done]. intros [= <-].
  rewrite elem_of_app, sort_elem_of, distinct_elem_of, list_elem_of_filter.
  destruct (decide (v = NaN)) as [->|Hv].
  - destruct (existsb is_nan y) eqn:E.
    + apply existsb_is_nan in E. rewrite list_elem_of_singleton. tauto.
    + split; [intros [[? _]|?%elem_of_nil]; done|].
      intros Hin. apply existsb_is_nan in Hin. congruence.
  - split; [intros [[_ ?]|Hn]; [done|]|tauto].
    destruct (existsb is_nan y); [|by apply elem_of_nil in Hn].
    by apply list_elem_of_singleton in Hn.
Qed.

Lemma index_of_lookup v cs i :
  sk.index_of v cs = Some i → cs !! i = Some v.
Proof.
  unfold sk.index_of. destruct (list_find _ cs) as [[j c]|] eqn:E; [|done].
  simpl. intros [= <-]. by apply list_find_Some in E as (Hj & -> & _).
Qed.

Lemma lookup_index_of v cs i :
  NoDup cs → cs !! i = Some v → sk.index_of v cs = Some i.
Proof.
  intros Hnd Hi. unfold sk.index_of.
  destruct (list_find (λ c, c = v) cs) as [[j c]|] eqn:E.
  - apply list_find_Some in E as (Hj & -> & _). simpl. f_equal.
    by eapply NoDup_lookup.
  - apply list_find_None in E. rewrite list.Forall_forall in E.
    destruct (E v); [by eapply list_elem_of_lookup_2|done].
Qed.

Lemma Num_inj p q : Num p = Num q → p = q.
Proof.
  intros Heq.
  exact (f_equal (λ c, match c with Num r => r | _ => p end) Heq).
Qed.

Lemma Qc_of_nat_inj i j : pd.Qc_of_nat i = pd.Qc_of_nat j → i = j.
Proof.
  unfold pd.Qc_of_nat. intros Heq. apply Q2Qc_eq_iff in Heq.
  unfold Qeq, inject_Z in Heq. simpl in Heq. lia.
Qed.

(** The code of a value is its position in the classes; a value outside
    has none. *)
Lemma label_code_Ok cs v c :
  sk.label_code cs v = Ok c ↔
  ∃ i, sk.index_of v cs = Some i ∧ c = Num (pd.Qc_of_nat i).
Proof.
  unfold sk.label_code. destruct (sk.index_of v cs) as [i|].
  - split; [intros [= <-]; by exists i|]. by intros (j & [= <-] & ->).
  - split; [done|]. by intros (j & ? & _).
Qed.

Lemma result_map_imap {A B} (f : A → result B) (g : nat → A → B) l :
  (∀ i x, l !! i = Some x → f x = Ok (g i x)) →
  result_map f l = Ok (imap g l).
Proof.
  revert g. induction l as [|x l IH]; intros g Hg; simpl; [done|].
  rewrite (Hg 0%nat x eq_refl). simpl.
  rewrite (IH (g ∘ S)); [done|]. intros i y Hy. by apply (Hg (S i)).
Qed.

Lemma result_map_lookup {A B} (f : A → result B) l ys :
  result_map f l = Ok ys →
  length ys = length l ∧
  ∀ i x, l !! i = Some x → ∃ y, f x = Ok y ∧ ys !! i = Some y.
Proof.
  revert ys. induction l as [|x l IH]; intros ys; simpl.
  - intros [= <-]. split; [done|]. by intros i x ?.
  - unfold result_bind. destruct (f x) as [y|] eqn:Hfx; [|done].
    destruct (result_map f l) as [ys'|]; [|done]. intros [= <-].
    destruct (IH ys' eq_refl) as [Hlen Hall]. split; [simpl; by rewrite Hlen|].
    intros [|i] x' Hx'; simpl in *.
    + injection Hx' as <-. by exists y.
    + by apply Hall.
Qed.

Lemma result_map_total {A B} (f : A → result B) l :
  (∀ x, x ∈ l → is_ok (f x) = true) → ∃ ys, result_map f l = Ok ys.
Proof.
  induction l as [|x l IH]; intros Hall; simpl; [by eexists|].
  pose proof (Hall x (list_elem_of_here _ _)) as Hx.
  destruct (f x) as [y|]; [|done]. simpl.
  destruct IH as [ys ->].
  { intros z Hz. by apply Hall, list_elem_of_further. }
  by eexists.
Qed.

Lemma label_codes_of_classes cs :
  NoDup cs →
  result_map (sk.label_code cs) cs = Ok (imap (λ i _, Num (pd.Qc_of_nat i)) cs).
Proof.
  intros Hnd. apply result_map_imap. intros i x Hx.
  apply label_code_Ok. exists i. split; [|done]. by apply lookup_index_of.
Qed.

Lemma class_codes_zip cs :
  zip cs (imap (λ i _, Num (pd.Qc_of_nat i)) cs) = class_codes cs.
Proof.
  unfold class_codes.
  assert (∀ (g : nat → nat),
    zip cs (imap (λ i _, Num (pd.Qc_of_nat (g i))) cs)
    = imap (λ i c, (c, Num (pd.Qc_of_nat (g i)))) cs) as Hg.
  { induction cs as [|c cs IH]; intros g; simpl; [done|].
    f_equal. apply (IH (g ∘ S)). }
  apply (Hg id).
Qed.

(** One iteration of the loop of [fit]: what it stores for its column. *)
Lemma fit_encoder_state d col self self' :
  fit_encoder d col self = Ok self' →
  ∃ y cs,
    pd.lookup_column col d = Some y ∧ sk.unique y = Ok cs ∧
    stored_for self' col cs.
Proof.
  unfold fit_encoder, result_bind, stored_for, lookup_or_raise.
  destruct (decide (encoding _ = "label")) as [Hl|Hl].
  - destruct (pd.lookup_column col d) as [y|]; [|done].
    unfold sk.LabelEncoder_fit, result_bind.
    destruct (sk.unique y) as [cs|] eqn:Hu; [|done]. simpl.
    unfold sk.LabelEncoder_transform. simpl.
    rewrite (label_codes_of_classes cs (unique_NoDup _ _ Hu)).
    intros [= <-]. simpl. exists y, cs. rewrite !lookup_insert_eq.
    split; [done|]. split; [done|]. left.
    by rewrite class_codes_zip.
  - destruct (decide (encoding _ = "onehot")) as [Ho|Ho]; [|done].
    destruct (pd.lookup_column col d) as [y|]; [|done].
    unfold sk.OneHotEncoder_fit, result_bind.
    destruct (sk.unique y) as [cs|] eqn:Hu; [|done]. simpl.
    intros [= <-]. simpl. exists y, cs. rewrite !lookup_insert_eq.
    split; [done|]. split; [done|]. by right.
Qed.

Lemma stored_for_agree self self' col cs :
  CategoricalPreprocessor.config self' = CategoricalPreprocessor.config self →
  CategoricalPreprocessor.encoders self' !! col
  = CategoricalPreprocessor.encoders self !! col →
  CategoricalPreprocessor.encoding_maps self' !! col
  = CategoricalPreprocessor.encoding_maps self !! col →
  stored_for self col cs → stored_for self' col cs.
Proof. unfold stored_for. intros -> -> ->. done. Qed.

Lemma stored_for_vocabulary self col cs :
  stored_for self col cs → vocabulary self col = Some cs.
Proof.
  unfold stored_for, vocabulary.
  by intros [(_ & -> & _)|(_ & _ & -> & _)].
Qed.

Lemma fit_encoder_loop_state d cols self self' :
  result_fold (fit_encoder d) cols self = Ok self' →
  ∀ c, c ∈ cols → ∃ y cs,
    pd.lookup_column c d = Some y ∧ sk.unique y = Ok cs ∧
    stored_for self' c cs.
Proof.
  revert self. induction cols as [|col cols IH]; intros self; simpl.
  - by intros _ c ?%elem_of_nil.
  - unfold result_bind.
    destruct (fit_encoder d col self) as [s1|] eqn:E1; [|done].
    intros E2 c Hc. destruct (decide (c ∈ cols)) as [Hin|Hnin].
    + by apply (IH _ E2).
    + apply elem_of_cons in Hc as [->|Hc]; [|done].
      destruct (fit_encoder_state _ _ _ _ E1) as (y & cs & Hy & Hu & Hst).
      exists y, cs. split; [done|]. split; [done|].
      destruct (fit_encoder_loop_other _ _ _ _ E2) as [Hcfg Hag].
      destruct (Hag col Hnin) as [He Hm].
      by apply (stored_for_agree s1).
Qed.

(** The state after a successful [fit]. *)
Lemma categorical_fit_pure_state self0 d self :
  let cfg := CategoricalPreprocessor.config self0 in
  let cols := columns_of_type cfg "categorical" in
  NoDup cols → categorical_fit_pure self0 d = Ok self →
  CategoricalPreprocessor.config self = cfg ∧
  ∃ d1,
    for_each cols
      (categorical_fill (cat_handle_missing (categorical_config cfg))) d
    = (d1, Ok tt) ∧
    valid_input cfg d = true ∧
    ∀ c, c ∈ cols → ∃ x u cs,
      pd.lookup_column c d = Some x ∧
      categorical_fill_value (cat_handle_missing (categorical_config cfg)) x
      = Ok u ∧
      pd.lookup_column c d1 = Some (pd.fillna u x) ∧
      sk.unique (pd.fillna u x) = Ok cs ∧ stored_for self c cs.
Proof.
  intros cfg cols Hnd Hpure.
  destruct (categorical_fit_fitted _ _ _ Hpure) as [Hcfg _].
  split; [done|]. revert Hpure. unfold categorical_fit_pure. fold cfg cols.
  destruct (valid_input cfg d); [|done].
  destruct (for_each cols (categorical_fill _) d) as [d1 [[]|e]] eqn:E1; [|done].
  intros E2. exists d1. split; [done|]. split; [done|]. intros c Hc.
  destruct (categorical_fill_loop_columns _ _ _ _ Hnd E1 c Hc)
    as (x & u & Hx & Hu & Hx1).
  destruct (fit_encoder_loop_state _ _ _ _ E2 c Hc) as (y & cs & Hy & Hcs & Hst).
  rewrite Hx1 in Hy. injection Hy as <-. by exists x, u, cs.
Qed.

(** X10. After a successful [fit] of the categorical preprocessor, the
    vocabulary stored for a categorical column is computed from the column
    of the fit table with its missing cells filled: it holds every value of
    that filled column and no other value, each value once, and no missing
    value. With it the preprocessor stores, for label encoding, a label
    encoder and the dict of the codes, and for one-hot encoding a one-hot
    encoder and one feature name per value. The names of the categorical
    columns are distinct. *)
Theorem X10_categorical_fit_vocabulary
    (self0 self : CategoricalPreprocessor.t) (w w' : World) (data : loc)
    (d : DataFrame) :
  let cfg := CategoricalPreprocessor.config self0 in
  let cols := columns_of_type cfg "categorical" in
  heap w !! data = Some d → NoDup cols →
  CategoricalPreprocessor.fit data (self0, w) = ((self, w'), Ok tt) →
  CategoricalPreprocessor.config self = cfg ∧
  ∀ c, c ∈ cols → ∃ x u cs,
    pd.lookup_column c d = Some x ∧
    categorical_fill_value (cat_handle_missing (categorical_config cfg)) x
    = Ok u ∧
    vocabulary self c = Some cs ∧ stored_for self c cs ∧
    NoDup cs ∧ (∀ v, v ∈ cs ↔ v ∈ pd.fillna u x) ∧ NaN ∉ cs.
Proof.
  intros cfg cols Hd Hnd Hrun.
  pose proof (fit_outcome_Ok _ _ _ _ _ _ _ _ categorical_fit_outcome Hd Hrun)
    as Hpure.
  destruct (categorical_fit_pure_state _ _ _ Hnd Hpure)
    as (Hcfg & d1 & Hfill & _ & Hcols).
  split; [done|]. intros c Hc.
  destruct (Hcols c Hc) as (x & u & cs & Hx & Hu & Hx1 & Hcs & Hst).
  exists x, u, cs. split; [done|]. split; [done|].
  split; [by apply stored_for_vocabulary|]. split; [done|].
  split; [by eapply unique_NoDup|].
  split; [intros v; by apply unique_elem_of|].
  rewrite (unique_elem_of _ _ NaN Hcs). apply fillna_no_missing.
  unfold categorical_fill_value in Hu. case_decide.
  - by destruct (mode0_value x u Hu).
  - by injection Hu as <-.
Qed.

(** X11. The codes of label encoding. For a label encoder stored by a
    successful [fit], with the classes [cs]: the dict stored in
    [encoding_maps] pairs the class at position [i] with the code [i], and
    it is the graph of the encoder on its classes; the encoder returns the
    code [i] for the class at position [i], so that the class at the
    position of a code is the value that was encoded; two values with the
    same code are equal; a value outside of the classes has no code. *)
Theorem X11_label_codes_round_trip
    (self0 self : CategoricalPreprocessor.t) (w w' : World) (data : loc)
    (d : DataFrame) (c : string) :
  let cfg := CategoricalPreprocessor.config self0 in
  let cols := columns_of_type cfg "categorical" in
  heap w !! data = Some d → NoDup cols →
  CategoricalPreprocessor.fit data (self0, w) = ((self, w'), Ok tt) →
  encoding (categorical_config cfg) = "label" → c ∈ cols →
  ∃ cs,
    CategoricalPreprocessor.encoders self !! c
    = Some (CategoricalPreprocessor.Label (sk.mkLabelEncoder (Some cs))) ∧
    CategoricalPreprocessor.encoding_maps self !! c
    = Some (CategoricalPreprocessor.ClassCodes (class_codes cs)) ∧
    (∀ v code, (v, code) ∈ class_codes cs ↔ sk.label_code cs v = Ok code) ∧
    (∀ i v, cs !! i = Some v ↔
            sk.label_code cs v = Ok (Num (pd.Qc_of_nat i))) ∧
    (∀ v v' code, sk.label_code cs v = Ok code →
                  sk.label_code cs v' = Ok code → v = v') ∧
    (∀ v, v ∉ cs → is_ok (sk.label_code cs v) = false).
Proof.
  intros cfg cols Hd Hnd Hrun Hlabel Hc.
  pose proof (fit_outcome_Ok _ _ _ _ _ _ _ _ categorical_fit_outcome Hd Hrun)
    as Hpure.
  destruct (categorical_fit_pure_state _ _ _ Hnd Hpure)
    as (Hcfg & d1 & Hfill & _ & Hcols).
  destruct (Hcols c Hc) as (x & u & cs & Hx & Hu & Hx1 & Hcs & Hst).
  pose proof (unique_NoDup _ _ Hcs) as Hndcs.
  exists cs. unfold stored_for in Hst. rewrite Hcfg in Hst. fold cfg in Hst.
  destruct Hst as [(_ & He & Hm)|(_ & Hn & _)]; [|done].
  split; [done|]. split; [done|].
  assert (∀ i v, cs !! i = Some v ↔
                 sk.label_code cs v = Ok (Num (pd.Qc_of_nat i))) as Hcode.
  { intros i v. rewrite label_code_Ok. split.
    - intros Hi. exists i. split; [by apply lookup_index_of|done].
    - intros (j & Hj & Heq). apply Num_inj, Qc_of_nat_inj in Heq.
      subst j. by apply index_of_lookup. }
  split; [|split; [done|split]].
  - intros v code. unfold class_codes. rewrite elem_of_lookup_imap. split.
    + intros (i & v' & Heq & Hi). injection Heq as -> ->. by apply Hcode.
    + intros Hv. pose proof Hv as Hv'.
      apply label_code_Ok in Hv' as (i & Hi & ->).
      exists i, v. split; [done|]. by apply index_of_lookup.
  - intros v v' code Hv Hv'.
    pose proof Hv as Hv1. apply label_code_Ok in Hv1 as (i & _ & ->).
    apply Hcode in Hv, Hv'. congruence.
  - intros v Hv. by rewrite label_code_unseen.
Qed.

End vocabulary.

Lemma X10_witness :
  let cfg := example_config "minmax" "onehot" in
  let run :=
    CategoricalPreprocessor.fit (H:=example_external) 0%nat
      (CategoricalPreprocessor.__init__ cfg, example_world) in
  NoDup (columns_of_type cfg "categorical") ∧ run.2 = Ok tt ∧
  vocabulary run.1.1 "city" = Some [Str "A"; Str "B"] ∧
  CategoricalPreprocessor.config run.1.1 = cfg ∧
  ∀ c, c ∈ columns_of_type cfg "categorical" → ∃ x u cs,
    pd.lookup_column c example_fit_table = Some x ∧
    categorical_fill_value "mode" x = Ok u ∧
    vocabulary run.1.1 c = Some cs ∧
    stored_for (H:=example_external) run.1.1 c cs ∧
    NoDup cs ∧ (∀ v, v ∈ cs ↔ v ∈ pd.fillna u x) ∧ NaN ∉ cs.
Proof.
  cbv zeta.
  set (cfg := example_config "minmax" "onehot").
  set (run := CategoricalPreprocessor.fit (H:=example_external) 0%nat
                (CategoricalPreprocessor.__init__ cfg, example_world)).
  assert (run.2 = Ok tt) as Hrun by by_compute.
  assert (NoDup (columns_of_type cfg "categorical")) as Hnd by by_compute.
  split; [exact Hnd|]. split; [exact Hrun|]. split; [reflexivity|].
  apply (X10_categorical_fit_vocabulary (H:=example_external)
           (CategoricalPreprocessor.__init__ cfg) run.1.1 example_world run.1.2
           0%nat example_fit_table);
    [reflexivity|exact Hnd|apply run_eq_world, Hrun].
Defined.

Lemma X11_witness :
  let cfg := example_config "minmax" "label" in
  let run :=
    CategoricalPreprocessor.fit (H:=example_external) 0%nat
      (CategoricalPreprocessor.__init__ cfg, example_world) in
  NoDup (columns_of_type cfg "categorical") ∧ run.2 = Ok tt ∧
  CategoricalPreprocessor.encoding_maps run.1.1 !! "city"
  = Some (CategoricalPreprocessor.ClassCodes
            [(Str "A", num 0); (Str "B", num 1)]) ∧
  ∃ cs,
    CategoricalPreprocessor.encoders run.1.1 !! "city"
    = Some (CategoricalPreprocessor.Label (sk.mkLabelEncoder (Some cs))) ∧
    CategoricalPreprocessor.encoding_maps run.1.1 !! "city"
    = Some (CategoricalPreprocessor.ClassCodes (class_codes cs)) ∧
    (∀ v code, (v, code) ∈ class_codes cs ↔ sk.label_code cs v = Ok code) ∧
    (∀ i v, cs !! i = Some v ↔
            sk.label_code cs v = Ok (Num (pd.Qc_of_nat i))) ∧
    (∀ v v' code, sk.label_code cs v = Ok code →
                  sk.label_code cs v' = Ok code → v = v') ∧
    (∀ v, v ∉ cs → is_ok (sk.label_code cs v) = false).
Proof.
  cbv zeta.
  set (cfg := example_config "minmax" "label").
  set (run := CategoricalPreprocessor.fit (H:=example_external) 0%nat
                (CategoricalPreprocessor.__init__ cfg, example_world)).
  assert (run.2 = Ok tt) as Hrun by by_compute.
  assert (NoDup (columns_of_type cfg "categorical")) as Hnd by by_compute.
  split; [exact Hnd|]. split; [exact Hrun|]. split; [reflexivity|].
  apply (X11_label_codes_round_trip (H:=example_external)
           (CategoricalPreprocessor.__init__ cfg) run.1.1 example_world run.1.2
           0%nat example_fit_table "city");
    [reflexivity|exact Hnd|apply run_eq_world, Hrun|reflexivity|by_compute].
Defined.

(** ** [preprocess] of the categorical preprocessor *)

Section categorical_preprocess.
Context `{External}.

Lemma label_code_seen cs v : v ∈ cs → is_ok (sk.label_code cs v) = true.
Proof.
  intros Hv. unfold sk.label_code, sk.index_of.
  destruct (list_find (λ c, c = v) cs) as [[i c]|] eqn:E; [done|].
  apply list_find_None in E. rewrite list.Forall_forall in E.
  by destruct (E v Hv).
Qed.

(** The loop of [transform] with label encoders, on columns whose values
    are all in the classes: it returns, and every column holds its codes. *)
Lemma label_loop_columns self cols cur :
  NoDup cols →
  (∀ c, c ∈ cols → ∃ y cs,
      pd.lookup_column c cur = Some y ∧
      CategoricalPreprocessor.encoders self !! c
      = Some (CategoricalPreprocessor.Label (sk.mkLabelEncoder (Some cs))) ∧
      ∀ v, v ∈ y → v ∈ cs) →
  ∃ dout,
    result_fold (encode_column self) cols cur = Ok dout ∧
    ∀ c, c ∈ cols → ∃ y cs codes,
      pd.lookup_column c cur = Some y ∧
      CategoricalPreprocessor.encoders self !! c
      = Some (CategoricalPreprocessor.Label (sk.mkLabelEncoder (Some cs))) ∧
      result_map (sk.label_code cs) y = Ok codes ∧
      pd.lookup_column c dout = Some codes.
Proof.
  intros Hnd. revert cur. induction cols as [|col cols IH]; intros cur Hall.
  { exists cur. split; [done|]. by intros c ?%elem_of_nil. }
  apply list.NoDup_cons in Hnd as [Hnin Hnd].
  destruct (Hall col) as (y & cs & Hy & He & Hseen); [apply list_elem_of_here|].
  destruct (result_map_total (sk.label_code cs) y) as [codes Hcodes].
  { intros v Hv. by apply label_code_seen, Hseen. }
  assert (encode_column self col cur = Ok (pd.set_column col codes cur)) as Hstep.
  { unfold encode_column, lookup_or_raise. rewrite He, Hy. simpl.
    unfold sk.LabelEncoder_transform. simpl. by rewrite Hcodes. }
  destruct (IH Hnd (pd.set_column col codes cur)) as (dout & Hloop & Hcols).
  { intros c Hc. destruct (Hall c) as (y' & cs' & Hy' & He' & Hs');
      [by apply list_elem_of_further|].
    exists y', cs'. rewrite (lookup_column_set_column _ _ _ _ _ Hy).
    rewrite decide_False by (by intros ->). done. }
  exists dout. split.
  { simpl. by rewrite Hstep. }
  intros c [->|Hc]%elem_of_cons.
  - exists y, cs, codes. split; [done|]. split; [done|]. split; [done|].
    destruct (encode_loop_kept_outside cols self cols _ _ (reflexivity _) Hloop)
      as [_ Hkept].
    rewrite Hkept; [| done |].
    + rewrite (lookup_column_set_column _ _ _ _ _ Hy). by rewrite decide_True.
    + rewrite (lookup_column_set_column _ _ _ _ _ Hy). rewrite decide_True by done.
      by eexists.
  - destruct (Hcols c Hc) as (y' & cs' & codes' & Hy' & He' & Hc' & Hd').
    exists y', cs', codes'.
    rewrite (lookup_column_set_column _ _ _ _ _ Hy) in Hy'.
    rewrite decide_False in Hy' by (by intros ->). done.
Qed.

(** [preprocess] is [fit] followed by [transform] on the same table. *)
Lemma categorical_preprocess_run self0 self w w1 data d :
  heap w !! data = Some d →
  CategoricalPreprocessor.fit data (self0, w) = ((self, w1), Ok tt) →
  CategoricalPreprocessor.preprocess data (self0, w)
  = CategoricalPreprocessor.transform data (self, w1) ∧
  heap w1 !! data = Some d ∧
  categorical_fit_pure self0 d = Ok self.
Proof.
  intros Hd Hfit.
  pose proof (fit_outcome_Ok _ _ _ _ _ _ _ _ categorical_fit_outcome Hd Hfit)
    as Hpure.
  split; [|split; [|done]].
  - change (CategoricalPreprocessor.preprocess data (self0, w))
      with (bind (CategoricalPreprocessor.fit data)
              (λ _, CategoricalPreprocessor.transform data) (self0, w)).
    unfold bind. by rewrite Hfit.
  - destruct (categorical_fit_outcome self0 w data d Hd) as (w2 & Hp & _ & Hres).
    rewrite Hpure, Hfit in Hres. injection Hres as <-.
    by eapply prefix_lookup_Some.
Qed.

(** X12. With label encoding, [preprocess] ([fit_transform]) of the
    categorical preprocessor returns whenever its [fit] does: on the table
    that [fit] has seen, [transform] never meets an unseen label. In the
    result a categorical column holds, row by row, the position of the
    filled value in the classes of its column; the row labels, the column
    names and their order, and the other columns are those of the input.
    The names of the categorical columns are distinct. *)
Theorem X12_label_preprocess
    (self0 self : CategoricalPreprocessor.t) (w w1 : World) (data : loc)
    (d : DataFrame) :
  let cfg := CategoricalPreprocessor.config self0 in
  let cols := columns_of_type cfg "categorical" in
  heap w !! data = Some d → NoDup cols →
  encoding (categorical_config cfg) = "label" →
  CategoricalPreprocessor.fit data (self0, w) = ((self, w1), Ok tt) →
  ∃ w' out dout,
    CategoricalPreprocessor.preprocess data (self0, w) = ((self, w'), Ok out) ∧
    heap w' !! out = Some dout ∧
    same_outside cols d dout ∧
    ∀ c, c ∈ cols → ∃ x u cs y,
      pd.lookup_column c d = Some x ∧
      categorical_fill_value (cat_handle_missing (categorical_config cfg)) x
      = Ok u ∧
      vocabulary self c = Some cs ∧
      pd.lookup_column c dout = Some y ∧ length y = length x ∧
      ∀ i v, pd.fillna u x !! i = Some v →
             ∃ j, cs !! j = Some v ∧ y !! i = Some (Num (pd.Qc_of_nat j)).
Proof.
  intros cfg cols Hd Hnd Hlabel Hfit.
  destruct (categorical_preprocess_run _ _ _ _ _ _ Hd Hfit) as (-> & Hd1 & Hpure).
  destruct (categorical_fit_pure_state _ _ _ Hnd Hpure)
    as (Hcfg & d1 & Hfill & Hvalid & Hcols).
  fold cfg cols in Hfill, Hcols, Hvalid.
  assert (∀ c, c ∈ cols → ∃ x u cs,
    pd.lookup_column c d = Some x ∧
    categorical_fill_value (cat_handle_missing (categorical_config cfg)) x = Ok u ∧
    pd.lookup_column c d1 = Some (pd.fillna u x) ∧
    sk.unique (pd.fillna u x) = Ok cs ∧
    CategoricalPreprocessor.encoders self !! c
    = Some (CategoricalPreprocessor.Label (sk.mkLabelEncoder (Some cs)))) as Hst.
  { intros c Hc. destruct (Hcols c Hc) as (x & u & cs & Hx & Hu & Hx1 & Hcs & Hs).
    exists x, u, cs. repeat (split; [done|]).
    unfold stored_for in Hs. rewrite Hcfg in Hs. fold cfg in Hs.
    by destruct Hs as [(_ & He & _)|(_ & Hn & _)]. }
  destruct (label_loop_columns self cols d1 Hnd) as (dout & Hloop & Hout).
  { intros c Hc. destruct (Hst c Hc) as (x & u & cs & Hx & Hu & Hx1 & Hcs & He).
    exists (pd.fillna u x), cs. split; [done|]. split; [done|].
    intros v Hv. by apply (unique_elem_of _ _ v Hcs). }
  assert (categorical_transform_pure self d = Ok dout) as Htr.
  { unfold categorical_transform_pure. rewrite Hcfg. fold cfg cols.
    by rewrite Hvalid, Hfill. }
  destruct (categorical_transform_outcome self w1 data d Hd1)
    as (w' & _ & _ & Hres).
  rewrite Htr in Hres. destruct Hres as (out & Hrun & Hdout & _).
  exists w', out, dout. split; [done|]. split; [done|]. split.
  { eapply same_outside_trans.
    - eapply for_each_same_outside_in; [|done|exact Hfill].
      intros. by eapply categorical_fill_same_outside.
    - eapply encode_loop_same_outside; [|done|exact Hloop].
      intros c enc Hc. destruct (Hst c Hc) as (_ & _ & cs & _ & _ & _ & _ & He).
      by rewrite He. }
  intros c Hc. destruct (Hst c Hc) as (x & u & cs & Hx & Hu & Hx1 & Hcs & He).
  destruct (Hout c Hc) as (y1 & cs' & codes & Hy1 & He' & Hcodes & Hlook).
  rewrite Hx1 in Hy1. injection Hy1 as <-.
  rewrite He in He'. injection He' as <-.
  destruct (result_map_lookup _ _ _ Hcodes) as [Hlen Helem].
  exists x, u, cs, codes. split; [done|]. split; [done|].
  split; [unfold vocabulary; by rewrite He|]. split; [done|]. split.
  { rewrite Hlen. unfold pd.fillna. by rewrite length_map. }
  intros i v Hi. destruct (Helem i v Hi) as (code & Hcode & Hyi).
  apply label_code_Ok in Hcode as (j & Hj & ->).
  exists j. split; [by apply index_of_lookup|done].
Qed.


End categorical_preprocess.

Lemma X12_witness :
  let cfg := example_config "minmax" "label" in
  let self0 := CategoricalPreprocessor.__init__ cfg in
  let fitted := CategoricalPreprocessor.fit (H:=example_external) 0%nat
                  (self0, example_world) in
  let run := CategoricalPreprocessor.preprocess (H:=example_external) 0%nat
               (self0, example_world) in
  NoDup (columns_of_type cfg "categorical") ∧ fitted.2 = Ok tt ∧
  run.2 = Ok 4%nat ∧
  (d ← heap run.1.2 !! 4%nat; pd.lookup_column "city" d)
  = Some [num 0; num 1; num 0] ∧
  ∃ w' out dout,
    run = ((fitted.1.1, w'), Ok out) ∧
    heap w' !! out = Some dout ∧
    same_outside (columns_of_type cfg "categorical") example_fit_table dout ∧
    ∀ c, c ∈ columns_of_type cfg "categorical" → ∃ x u cs y,
      pd.lookup_column c example_fit_table = Some x ∧
      categorical_fill_value "mode" x = Ok u ∧
      vocabulary fitted.1.1 c = Some cs ∧
      pd.lookup_column c dout = Some y ∧ length y = length x ∧
      ∀ i v, pd.fillna u x !! i = Some v →
             ∃ j, cs !! j = Some v ∧ y !! i = Some (Num (pd.Qc_of_nat j)).
Proof.
  cbv zeta.
  set (cfg := example_config "minmax" "label").
  set (self0 := CategoricalPreprocessor.__init__ cfg).
  set (fitted := CategoricalPreprocessor.fit (H:=example_external) 0%nat
                   (self0, example_world)).
  assert (fitted.2 = Ok tt) as Hfit by by_compute.
  assert (NoDup (columns_of_type cfg "categorical")) as Hnd by by_compute.
  split; [exact Hnd|]. split; [exact Hfit|]. split; [by_compute|].
  split; [by_compute|].
  apply (X12_label_preprocess (H:=example_external) self0 fitted.1.1
           example_world fitted.1.2 0%nat example_fit_table);
    [reflexivity|exact Hnd|reflexivity|apply run_eq_world, Hfit].
Defined.


(** ** The factory and configurations with several types *)

Section factory_types.
Context `{External}.

Lemma select_column_names cols d slice :
  pd.select cols d = Some slice → column_names slice = cols.
Proof.
  unfold pd.select. intros Hs. apply bind_Some in Hs as (cs & Hcs & [= <-]).
  unfold column_names. simpl. apply mapM_Some in Hcs.
  induction Hcs as [|col c cols cs Hc _ IH]; [done|].
  apply fmap_Some in Hc as (s & _ & ->). rewrite fmap_cons. simpl.
  by f_equal.
Qed.

Lemma preprocessor_fit_pure_valid p slice p' :
  preprocessor_fit_pure p slice = Ok p' →
  valid_input (preprocessor_config p) slice = true ∧
  preprocessor_config p' = preprocessor_config p ∧
  preprocessor_kind p' = preprocessor_kind p.
Proof.
  destruct p as [p|p|p]; simpl; unfold result_bind.
  - unfold text_fit_pure. destruct (valid_input _ slice); [|done].
    by intros [= <-].
  - destruct (numeric_fit_pure p slice) as [q|] eqn:E; [|done]. intros [= <-].
    destruct (numeric_fit_pure_fields _ _ _ E) as (Hc & _). split; [|done].
    revert E. unfold numeric_fit_pure. by destruct (valid_input _ slice).
  - destruct (categorical_fit_pure p slice) as [q|] eqn:E; [|done].
    intros [= <-].
    destruct (categorical_fit_fitted _ _ _ E) as (Hc & _). split; [|done].
    revert E. unfold categorical_fit_pure. by destruct (valid_input _ slice).
Qed.

Lemma set_item_keys key p (ps : list (string * PreprocessorFactory.preprocessor)) :
  (PreprocessorFactory.set_item key p ps).*1 = ps.*1.
Proof.
  induction ps as [|kv ps IH]; simpl; [done|].
  case_decide; rewrite !fmap_cons; simpl; by rewrite ?IH.
Qed.

Lemma preprocessor_transform_pure_valid p slice out :
  preprocessor_transform_pure p slice = Ok out →
  valid_input (preprocessor_config p) slice = true.
Proof.
  destruct p as [p|p|p]; simpl.
  - unfold text_transform_pure. by destruct (valid_input _ slice).
  - unfold numeric_transform_pure. by destruct (valid_input _ slice).
  - unfold categorical_transform_pure. by destruct (valid_input _ slice).
Qed.

Lemma get_item_elem_of key ps p :
  PreprocessorFactory.get_item key ps = Some p → (key, p) ∈ ps.
Proof.
  unfold PreprocessorFactory.get_item. intros Hg.
  apply fmap_Some in Hg as ([i [k q]] & Hf & ->).
  apply list_find_Some in Hf as (Hi & Hk & _). simpl in *. subst k.
  by eapply list_elem_of_lookup_2.
Qed.

Lemma set_item_Forall (P : string * PreprocessorFactory.preprocessor → Prop)
    key p ps :
  P (key, p) → Forall P ps → Forall P (PreprocessorFactory.set_item key p ps).
Proof.
  intros Hp. induction 1 as [|kv ps Hkv Hps IH]; simpl; [constructor|].
  case_decide as Hk; constructor; try done. destruct kv as [k q].
  simpl in Hk. by subst k.
Qed.

(** A table slice with the columns [cols] passes the validation only when
    every declared name is in [cols]. *)
Lemma valid_slice_covers cfg cols d slice :
  pd.select cols d = Some slice → valid_input cfg slice = true →
  ∀ c, c ∈ input_columns cfg → col_name c ∈ cols.
Proof.
  intros Hs Hv c Hc. rewrite <- (select_column_names _ _ _ Hs).
  by apply (proj1 (valid_input_spec cfg slice) Hv).
Qed.

(** One iteration of the loop of [fit] that returns. *)
Lemma factory_fit_type_Ok cfg data tp self w d self1 w1 :
  heap w !! data = Some d →
  PreprocessorFactory.config self = cfg → same_config self →
  PreprocessorFactory.fit_type cfg data tp (self, w) = ((self1, w1), Ok tt) →
  heap w1 !! data = Some d ∧
  PreprocessorFactory.config self1 = cfg ∧ same_config self1 ∧
  (PreprocessorFactory.preprocessors self1).*1
  = (PreprocessorFactory.preprocessors self).*1 ∧
  (columns_of_type cfg tp ≠ [] →
   ∀ c, c ∈ input_columns cfg → col_name c ∈ columns_of_type cfg tp).
Proof.
  intros Hd Hcfg Hsame. unfold PreprocessorFactory.fit_type,
    PreprocessorFactory._get_columns_by_type.
  case_bool_decide as Hcols.
  2: { unfold ret. intros [= <- <-]. done. }
  unfold bind. rewrite (df_getitem_list_run data _ self w d Hd).
  destruct (pd.select _ d) as [slice|] eqn:Hs; [|done].
  unfold PreprocessorFactory.call. cbn [fst snd].
  destruct (PreprocessorFactory.get_item tp _) as [p|] eqn:Hp; [|done].
  set (w0 := mkWorld (heap w ++ [slice]) (logs w)).
  destruct (preprocessor_fit_outcome p w0 (length (heap w)) slice
              (lookup_snoc _ _)) as (w2 & Hp2 & _ & Hres).
  destruct (preprocessor_fit_pure p slice) as [p'|e] eqn:Hpure.
  2: { destruct Hres as [p' ->]. done. }
  rewrite Hres. cbn [fst snd]. intros [= <- <-].
  destruct (preprocessor_fit_pure_valid _ _ _ Hpure) as (Hv & Hc' & Hk').
  assert (preprocessor_config p = cfg ∧ preprocessor_kind p = tp) as [Hpc Hpk].
  { apply get_item_elem_of in Hp. unfold same_config in Hsame.
    rewrite list.Forall_forall in Hsame. rewrite <- Hcfg.
    by apply (Hsame _ Hp). }
  split.
  { eapply prefix_lookup_Some; [|exact Hp2]. by apply lookup_app_l_Some. }
  split; [done|]. split.
  { unfold same_config. simpl. apply set_item_Forall; [|done].
    simpl. split; congruence. }
  split; [apply set_item_keys|].
  intros _. rewrite Hpc in Hv. by eapply valid_slice_covers.
Qed.

Lemma factory_fit_loop_Ok cfg data tps self w d s' :
  heap w !! data = Some d →
  PreprocessorFactory.config self = cfg → same_config self →
  for_each tps (PreprocessorFactory.fit_type cfg data) (self, w) = (s', Ok tt) →
  heap s'.2 !! data = Some d ∧
  PreprocessorFactory.config s'.1 = cfg ∧ same_config s'.1 ∧
  (PreprocessorFactory.preprocessors s'.1).*1
  = (PreprocessorFactory.preprocessors self).*1 ∧
  ∀ tp, tp ∈ tps → columns_of_type cfg tp ≠ [] →
    ∀ c, c ∈ input_columns cfg → col_name c ∈ columns_of_type cfg tp.
Proof.
  revert self w. induction tps as [|tp tps IH]; intros self w Hd Hcfg Hsame; simpl.
  - intros [= <-]. repeat (split; [done|]). by intros tp ?%elem_of_nil.
  - unfold bind.
    destruct (PreprocessorFactory.fit_type cfg data tp (self, w))
      as [[self1 w1] [[]|e]] eqn:E1; [|done].
    destruct (factory_fit_type_Ok _ _ _ _ _ _ _ _ Hd Hcfg Hsame E1)
      as (Hd1 & Hcfg1 & Hsame1 & Hkeys1 & Hcover).
    intros E2.
    destruct (IH self1 w1 Hd1 Hcfg1 Hsame1 E2) as (Hd2 & Hcfg2 & Hs2 & Hk2 & Hc2).
    repeat (split; [done|]). split; [congruence|].
    intros tp' [->|Hin]%elem_of_cons; [done|]. by apply Hc2.
Qed.

(** The factory after its constructor. *)
Lemma factory_init_state cfg self :
  PreprocessorFactory.__init__ cfg = Ok self →
  PreprocessorFactory.config self = cfg ∧ same_config self ∧
  (PreprocessorFactory.preprocessors self).*1
  = filter (λ ty, ty ∈ map col_type (input_columns cfg))
      ["text"; "numeric"; "categorical"].
Proof.
  unfold PreprocessorFactory.__init__, PreprocessorFactory._initialize_preprocessors,
    same_config, result_bind.
  set (types := map col_type (input_columns cfg)).
  rewrite !filter_cons, filter_nil.
  destruct (decide ("text" ∈ types)) as [Ht|Ht];
    [rewrite (bool_decide_eq_true_2 _ Ht)|rewrite (bool_decide_eq_false_2 _ Ht)];
  (destruct (decide ("numeric" ∈ types)) as [Hn|Hn];
    [rewrite (bool_decide_eq_true_2 _ Hn)|rewrite (bool_decide_eq_false_2 _ Hn)]);
  (destruct (decide ("categorical" ∈ types)) as [Hc|Hc];
    [rewrite (bool_decide_eq_true_2 _ Hc)|rewrite (bool_decide_eq_false_2 _ Hc)]);
  try (destruct (NumericPreprocessor.__init__ cfg) as [p|] eqn:Hp; [|done];
       unfold NumericPreprocessor.__init__, result_bind in Hp;
       destruct (NumericPreprocessor._setup_scalers cfg); [|done];
       injection Hp as <-);
  simpl; intros [= <-]; simpl; repeat split; repeat constructor.
Qed.

Lemma columns_of_type_nonempty cfg ty :
  columns_of_type cfg ty ≠ [] ↔ ty ∈ map col_type (input_columns cfg).
Proof.
  unfold columns_of_type. split.
  - intros Hne. destruct (filter _ _) as [|c l] eqn:E; [done|].
    assert (c ∈ filter (λ c, col_type c = ty) (input_columns cfg)) as Hc.
    { rewrite E. apply list_elem_of_here. }
    apply list_elem_of_filter in Hc as [<- Hc]. by apply list_elem_of_fmap_2.
  - intros Hin Hnil. apply list_elem_of_fmap in Hin as (c & -> & Hc).
    apply fmap_nil_inv in Hnil.
    apply (filter_nil_not_elem_of _ _ c Hnil); done.
Qed.

Lemma unique_name_type cfg ty c :
  NoDup (map col_name (input_columns cfg)) →
  c ∈ input_columns cfg → col_name c ∈ columns_of_type cfg ty →
  col_type c = ty.
Proof.
  intros Hnd Hc Hin.
  apply columns_of_type_declared in Hin as (c' & Hc' & Hname & <-).
  f_equal. apply list_elem_of_lookup_1 in Hc as [i Hi].
  apply list_elem_of_lookup_1 in Hc' as [j Hj].
  assert (i = j) as ->.
  { eapply NoDup_lookup; [exact Hnd| |].
    - by rewrite list_lookup_fmap, Hi.
    - rewrite list_lookup_fmap, Hj. simpl. by rewrite Hname. }
  congruence.
Qed.

(** X14. [fit] of the factory on a configuration with several types. When
    [fit] of a new factory returns, every declared column name is the name
    of a column of each type, among text, numeric and categorical, that
    some declared column has: the slice that the factory passes to the
    preprocessor of a type holds the columns of that type only, and the
    preprocessor validates it against all declared names. So, the declared
    names being distinct, all declared columns then have that one type: on
    a configuration with columns of a registered type and columns of any
    other type, [fit] of the factory never returns. *)
Theorem X14_factory_fit_single_type
    (cfg : Config) (self : PreprocessorFactory.t) (w : World) (data : loc)
    (d : DataFrame) (s' : PreprocessorFactory.t * World) (ty : string) :
  PreprocessorFactory.__init__ cfg = Ok self →
  heap w !! data = Some d →
  PreprocessorFactory.fit data (self, w) = (s', Ok tt) →
  ty ∈ ["text"; "numeric"; "categorical"] →
  ty ∈ map col_type (input_columns cfg) →
  (∀ c, c ∈ input_columns cfg → col_name c ∈ columns_of_type cfg ty) ∧
  (NoDup (map col_name (input_columns cfg)) →
   ∀ c, c ∈ input_columns cfg → col_type c = ty).
Proof.
  intros Hinit Hd Hfit Hreg Hty.
  destruct (factory_init_state _ _ Hinit) as (Hcfg & Hsame & Hkeys).
  unfold PreprocessorFactory.fit, bind, get_self in Hfit. cbn [fst snd] in Hfit.
  rewrite Hcfg in Hfit.
  assert (∀ c, c ∈ input_columns cfg → col_name c ∈ columns_of_type cfg ty)
    as Hcover.
  { destruct (factory_fit_loop_Ok cfg data _ self w d s' Hd Hcfg Hsame Hfit)
      as (_ & _ & _ & _ & Hall).
    apply (Hall ty).
    - rewrite Hkeys. by apply list_elem_of_filter.
    - by apply columns_of_type_nonempty. }
  split; [done|]. intros Hnd c Hc. apply (unique_name_type cfg ty c Hnd Hc).
  by apply Hcover.
Qed.

End factory_types.

Lemma X14_witness :
  let w := mkWorld [example_numeric_slice] [] in
  let run := PreprocessorFactory.fit 0%nat (example_numeric_factory, w) in
  PreprocessorFactory.__init__ example_numeric_only = Ok example_numeric_factory ∧
  run.2 = Ok tt ∧
  ("numeric" ∈ ["text"; "numeric"; "categorical"]) ∧
  ("numeric" ∈ map col_type (input_columns example_numeric_only)) ∧
  (∀ c, c ∈ input_columns example_numeric_only →
        col_name c ∈ columns_of_type example_numeric_only "numeric") ∧
  (NoDup (map col_name (input_columns example_numeric_only)) →
   ∀ c, c ∈ input_columns example_numeric_only → col_type c = "numeric").
Proof.
  cbv zeta.
  assert ((PreprocessorFactory.fit 0%nat
             (example_numeric_factory, mkWorld [example_numeric_slice] [])).2
          = Ok tt) as Hrun by by_compute.
  assert ("numeric" ∈ ["text"; "numeric"; "categorical"]) as Hreg by by_compute.
  assert ("numeric" ∈ map col_type (input_columns example_numeric_only))
    as Hty by by_compute.
  split; [reflexivity|]. split; [exact Hrun|]. split; [exact Hreg|].
  split; [exact Hty|].
  apply (X14_factory_fit_single_type (H:=example_external) example_numeric_only
           example_numeric_factory (mkWorld [example_numeric_slice] []) 0%nat
           example_numeric_slice
           (PreprocessorFactory.fit 0%nat
              (example_numeric_factory, mkWorld [example_numeric_slice] [])).1
           "numeric");
    [reflexivity|reflexivity|apply run_eq, Hrun|exact Hreg|exact Hty].
Defined.

Section factory_output.
Context `{External}.

Lemma text_transform_same_outside (self : TextPreprocessor.t) d dout :
  text_transform_pure self d = Ok dout →
  same_outside (columns_of_type (TextPreprocessor.config self) "text") d dout.
Proof.
  unfold text_transform_pure. destruct (valid_input _ d); [|done].
  destruct (for_each _ (text_column self) d) as [d1 [[]|e]] eqn:E1; [|done].
  intros [= <-]. eapply for_each_same_outside_in; [|done|exact E1].
  intros. by eapply text_column_same_outside.
Qed.

(** The text and the numeric preprocessor return a table with the row
    labels and the column names of their input. *)
Lemma preprocessor_transform_names p slice out :
  preprocessor_kind p ∈ ["text"; "numeric"] →
  preprocessor_transform_pure p slice = Ok out →
  df_index out = df_index slice ∧ column_names out = column_names slice.
Proof.
  destruct p as [p|p|p]; simpl; intros Hk Hp.
  - by destruct (text_transform_same_outside _ _ _ Hp) as (? & ? & _).
  - by destruct (numeric_transform_same_outside _ _ _ Hp) as (? & ? & _).
  - rewrite !elem_of_cons, elem_of_nil in Hk. by destruct Hk as [?|[?|[]]].
Qed.

Lemma single_type_keys (types : list string) ty :
  ty ∈ ["text"; "numeric"; "categorical"] →
  (∀ t, t ∈ types ↔ t = ty) →
  filter (λ t, t ∈ types) ["text"; "numeric"; "categorical"] = [ty].
Proof.
  intros Hty Hall.
  rewrite (list_filter_iff _ (λ t, t = ty)) by done.
  rewrite !elem_of_cons, elem_of_nil in Hty.
  destruct Hty as [->|[->|[->|[]]]]; reflexivity.
Qed.

Lemma columns_of_single_type cfg ty :
  (∀ c, c ∈ input_columns cfg → col_type c = ty) →
  columns_of_type cfg ty = map col_name (input_columns cfg).
Proof.
  intros Hall. unfold columns_of_type. f_equal.
  induction (input_columns cfg) as [|c l IH]; [done|].
  rewrite filter_cons. rewrite decide_True.
  - f_equal. apply IH. intros c' Hc'. by apply Hall, list_elem_of_further.
  - apply Hall, list_elem_of_here.
Qed.

(** X15. [fit_transform] of a new factory on a configuration whose declared
    names are distinct and that declares a text or a numeric column. When
    it returns, all declared columns have that one type, and the result has
    the row labels of the input and exactly the declared columns, in the
    order of the configuration: columns of the input that the configuration
    does not declare are not part of the result. *)
Theorem X15_factory_fit_transform_columns
    (cfg : Config) (self0 : PreprocessorFactory.t) (w : World) (data : loc)
    (d : DataFrame) (s' : PreprocessorFactory.t * World) (out : loc)
    (ty : string) :
  PreprocessorFactory.__init__ cfg = Ok self0 →
  heap w !! data = Some d →
  NoDup (map col_name (input_columns cfg)) →
  ty ∈ ["text"; "numeric"] → ty ∈ map col_type (input_columns cfg) →
  PreprocessorFactory.fit_transform data (self0, w) = (s', Ok out) →
  ∃ dout,
    heap s'.2 !! out = Some dout ∧
    (∀ c, c ∈ input_columns cfg → col_type c = ty) ∧
    column_names dout = map col_name (input_columns cfg) ∧
    df_index dout = df_index d.
Proof.
  intros Hinit Hd Hnd Hty Hin Hrun.
  assert (ty ∈ ["text"; "numeric"; "categorical"]) as Hreg.
  { rewrite !elem_of_cons, elem_of_nil in Hty. rewrite !elem_of_cons. tauto. }
  destruct (factory_init_state _ _ Hinit) as (Hcfg & Hsame & Hkeys).
  apply bind_Ok_inv in Hrun as ([self1 w1] & [] & Hfit & Htr).
  unfold PreprocessorFactory.fit, bind, get_self in Hfit. cbn [fst snd] in Hfit.
  rewrite Hcfg in Hfit.
  destruct (factory_fit_loop_Ok cfg data _ self0 w d _ Hd Hcfg Hsame Hfit)
    as (Hd1 & Hcfg1 & Hsame1 & Hkeys1 & Hall). cbn [fst snd] in *.
  assert (∀ c, c ∈ input_columns cfg → col_type c = ty) as Hsingle.
  { intros c Hc. apply (unique_name_type cfg ty c Hnd Hc).
    apply (Hall ty); [|by apply columns_of_type_nonempty|done].
    rewrite Hkeys. by apply list_elem_of_filter. }
  destruct (transform_outcome_Ok _ _ _ _ _ _ _ _ factory_transform_outcome
              Hd1 Htr) as (dout & Hpure & Hout & _).
  exists dout. split; [done|]. split; [done|].
  revert Hpure. unfold factory_transform_pure, processed_frames.
  rewrite Hkeys1, Hkeys.
  rewrite (single_type_keys _ ty Hreg).
  2: { intros t. split.
       - intros Ht. apply list_elem_of_fmap in Ht as (c & -> & Hc).
         by apply Hsingle.
       - by intros ->. }
  simpl. unfold transform_item, PreprocessorFactory._get_columns_by_type.
  rewrite Hcfg1. rewrite bool_decide_eq_true_2
    by (by apply columns_of_type_nonempty).
  destruct (pd.select _ d) as [slice|] eqn:Hs; [|done].
  destruct (PreprocessorFactory.get_item ty _) as [p|] eqn:Hp; [|done].
  simpl. unfold result_bind.
  destruct (preprocessor_transform_pure p slice) as [o|] eqn:Ho; [|done].
  simpl. intros [= <-].
  assert (preprocessor_kind p = ty) as Hk.
  { apply get_item_elem_of in Hp. unfold same_config in Hsame1.
    rewrite list.Forall_forall in Hsame1. by destruct (Hsame1 _ Hp). }
  destruct (preprocessor_transform_names p slice o) as [Hi Hn];
    [by rewrite Hk|done|].
  assert (column_names (pd.concat_columns [o]) = column_names o) as ->.
  { unfold column_names, pd.concat_columns. simpl. by rewrite app_nil_r. }
  assert (df_index (pd.concat_columns [o]) = df_index o) as -> by done.
  rewrite Hn, Hi. split.
  - rewrite (select_column_names _ _ _ Hs). by apply columns_of_single_type.
  - unfold pd.select in Hs. apply bind_Some in Hs as (cs & _ & [= <-]). done.
Qed.

End factory_output.

Lemma X15_witness :
  let w := mkWorld [example_fit_table] [] in
  let run := PreprocessorFactory.fit_transform 0%nat (example_numeric_factory, w) in
  PreprocessorFactory.__init__ example_numeric_only = Ok example_numeric_factory ∧
  NoDup (map col_name (input_columns example_numeric_only)) ∧
  run.2 = Ok 7%nat ∧
  column_names example_fit_table = ["age"; "city"] ∧
  ∃ dout,
    heap run.1.2 !! 7%nat = Some dout ∧
    (∀ c, c ∈ input_columns example_numeric_only → col_type c = "numeric") ∧
    column_names dout = map col_name (input_columns example_numeric_only) ∧
    df_index dout = df_index example_fit_table.
Proof.
  cbv zeta.
  assert ((PreprocessorFactory.fit_transform 0%nat
             (example_numeric_factory, mkWorld [example_fit_table] [])).2
          = Ok 7%nat) as Hrun by by_compute.
  assert (NoDup (map col_name (input_columns example_numeric_only)))
    as Hnd by by_compute.
  split; [reflexivity|]. split; [exact Hnd|]. split; [exact Hrun|].
  split; [reflexivity|].
  apply (X15_factory_fit_transform_columns (H:=example_external)
           example_numeric_only example_numeric_factory
           (mkWorld [example_fit_table] []) 0%nat example_fit_table
           (PreprocessorFactory.fit_transform 0%nat
              (example_numeric_factory, mkWorld [example_fit_table] [])).1
           7%nat "numeric");
    [reflexivity|reflexivity|exact Hnd|by_compute|by_compute|apply run_eq, Hrun].
Defined.

(** ** data_ingestion.py: [process_data] *)

Section process_data.
Context `{External}.

(** [fit_transform] of the factory leaves the objects of the heap as they
    are. *)
Lemma factory_fit_transform_prefix data self w d :
  heap w !! data = Some d →
  heap w `prefix_of`
    heap (PreprocessorFactory.fit_transform data (self, w)).1.2.
Proof.
  intros Hd. unfold PreprocessorFactory.fit_transform, bind.
  pose proof (factory_fit_prefix data self w d Hd) as Hp.
  destruct (PreprocessorFactory.fit data (self, w)) as [[self1 w1] [[]|e]];
    simpl in *; [|done].
  assert (heap w1 !! data = Some d) as Hd1 by by eapply prefix_lookup_Some.
  destruct (factory_transform_outcome self1 w1 data d Hd1)
    as (w2 & Hp2 & _ & Hres).
  etrans; [exact Hp|].
  destruct (factory_transform_pure self1 d).
  - destruct Hres as (out & -> & _). done.
  - by rewrite Hres.
Qed.

(** A run of [process_data]. *)
Lemma process_data_run
    (config_yaml : Config) (df : loc) (config : Config) (logger : string)
    (w : World) (d : DataFrame) :
  heap w !! df = Some d →
  ∃ w' r,
    data_ingestion.process_data config_yaml df config logger (tt, w)
    = ((tt, w'), r) ∧
    heap w `prefix_of` heap w' ∧
    match PreprocessorFactory.__init__ config_yaml with
    | Raise e =>
        r = Raise e ∧
        w' = mkWorld (heap w)
               (logs w ++ [mkLog logger ERROR
                             ("Error processing data: " +:+ exn_str e)])
    | Ok preprocessor =>
        let run := PreprocessorFactory.fit_transform df (preprocessor, w) in
        heap w' = heap run.1.2 ∧
        match run.2 with
        | Ok out =>
            r = Ok out ∧
            logs w' = logs run.1.2
                        ++ [mkLog logger DEBUG "Data preprocessing completed"]
        | Raise e =>
            r = Raise e ∧
            logs w' = logs run.1.2
                        ++ [mkLog logger ERROR
                              ("Error processing data: " +:+ exn_str e)]
        end
    end.
Proof.
  intros Hd.
  unfold data_ingestion.process_data, try_except, bind at 1, lift_result.
  destruct (PreprocessorFactory.__init__ config_yaml) as [p|e].
  - unfold bind at 1, data_ingestion.on_local. cbn [fst snd].
    pose proof (factory_fit_transform_prefix df p w d Hd) as Hp.
    destruct (PreprocessorFactory.fit_transform df (p, w)) as [[p1 w1] [out|e]];
      cbn [fst snd] in *.
    + unfold bind, log, ret. cbn [fst snd].
      eexists _, _. split; [reflexivity|]. simpl. done.
    + unfold bind, log, raise. cbn [fst snd].
      eexists _, _. split; [reflexivity|]. simpl. done.
  - unfold bind, log, raise. cbn [fst snd].
    eexists _, _. split; [reflexivity|]. simpl. done.
Qed.



End process_data.

Section mixed_types.
Context `{External}.

Lemma select_is_Some cols d :
  (∀ c, c ∈ cols → c ∈ column_names d) → is_Some (pd.select cols d).
Proof.
  intros Hall. unfold pd.select.
  assert (is_Some (mapM (λ col, (λ s, (col, s)) <$> pd.lookup_column col d) cols))
    as [cs Hcs].
  { apply mapM_is_Some. apply list.Forall_forall. intros c Hc. simpl.
    destruct (proj2 (lookup_column_is_Some c d) (Hall c Hc)) as [s ->].
    by eexists. }
  rewrite Hcs. by eexists.
Qed.

Lemma preprocessor_fit_pure_invalid p slice :
  valid_input (preprocessor_config p) slice = false →
  preprocessor_fit_pure p slice = Raise (ValueError "Invalid input data").
Proof.
  destruct p as [p|p|p]; simpl; intros Hv;
    unfold text_fit_pure, numeric_fit_pure, categorical_fit_pure;
    by rewrite Hv.
Qed.

Lemma get_item_is_Some key (ps : list (string * PreprocessorFactory.preprocessor)) :
  key ∈ ps.*1 → is_Some (PreprocessorFactory.get_item key ps).
Proof.
  intros Hk. unfold PreprocessorFactory.get_item.
  apply list_elem_of_fmap in Hk as ([k p] & -> & Hin).
  destruct (list_find _ ps) as [[i kv]|] eqn:E; [by eexists|].
  apply list_find_None in E. rewrite list.Forall_forall in E.
  by destruct (E _ Hin).
Qed.

(** The first iteration of the loop of [fit] on a slice that lacks a
    declared column. *)
Lemma factory_fit_type_invalid cfg data tp self w d c :
  heap w !! data = Some d →
  PreprocessorFactory.config self = cfg → same_config self →
  tp ∈ (PreprocessorFactory.preprocessors self).*1 →
  columns_of_type cfg tp ≠ [] →
  (∀ col, col ∈ columns_of_type cfg tp → col ∈ column_names d) →
  c ∈ input_columns cfg → col_name c ∉ columns_of_type cfg tp →
  (PreprocessorFactory.fit_type cfg data tp (self, w)).2
  = Raise (ValueError "Invalid input data").
Proof.
  intros Hd Hcfg Hsame Hkey Hne Hpresent Hc Hmiss.
  unfold PreprocessorFactory.fit_type, PreprocessorFactory._get_columns_by_type.
  rewrite bool_decide_eq_true_2 by done.
  unfold bind. rewrite (df_getitem_list_run data _ self w d Hd).
  destruct (select_is_Some _ d Hpresent) as [slice Hs]. rewrite Hs.
  unfold PreprocessorFactory.call. cbn [fst snd].
  destruct (get_item_is_Some tp _ Hkey) as [p Hp]. rewrite Hp.
  assert (preprocessor_config p = cfg) as Hpc.
  { apply get_item_elem_of in Hp. unfold same_config in Hsame.
    rewrite list.Forall_forall in Hsame. rewrite <- Hcfg.
    by destruct (Hsame _ Hp). }
  assert (valid_input cfg slice = false) as Hv.
  { destruct (valid_input cfg slice) eqn:Hv; [|done].
    destruct Hmiss. by eapply valid_slice_covers. }
  set (w0 := mkWorld (heap w ++ [slice]) (logs w)).
  destruct (preprocessor_fit_outcome p w0 (length (heap w)) slice
              (lookup_snoc _ _)) as (w2 & _ & _ & Hres).
  rewrite preprocessor_fit_pure_invalid in Hres by by rewrite Hpc.
  destruct Hres as [p' ->]. done.
Qed.

(** X17. A configuration with distinct declared names that declares a
    column of one of the types text, numeric and categorical and a column
    of a different type. For every table that has all declared columns,
    [fit] and [fit_transform] of a new factory, and [process_data], raise
    ValueError('Invalid input data'): the preprocessor of the first type
    is given the columns of its own type only and looks for the columns of
    all types. *)
Theorem X17_factory_mixed_types
    (cfg config : Config) (logger : string) (self : PreprocessorFactory.t)
    (w : World) (data : loc) (d : DataFrame) (c1 c2 : ColumnSpec) :
  PreprocessorFactory.__init__ cfg = Ok self →
  heap w !! data = Some d →
  NoDup (map col_name (input_columns cfg)) →
  valid_input cfg d = true →
  c1 ∈ input_columns cfg → c2 ∈ input_columns cfg →
  col_type c1 ∈ ["text"; "numeric"; "categorical"] →
  col_type c2 ≠ col_type c1 →
  (PreprocessorFactory.fit data (self, w)).2
  = Raise (ValueError "Invalid input data") ∧
  (PreprocessorFactory.fit_transform data (self, w)).2
  = Raise (ValueError "Invalid input data") ∧
  (data_ingestion.process_data cfg data config logger (tt, w)).2
  = Raise (ValueError "Invalid input data").
Proof.
  intros Hinit Hd Hnd Hvalid Hc1 Hc2 Hreg Hdiff.
  destruct (factory_init_state _ _ Hinit) as (Hcfg & Hsame & Hkeys).
  assert ((PreprocessorFactory.fit data (self, w)).2
          = Raise (ValueError "Invalid input data")) as Hfit.
  { unfold PreprocessorFactory.fit, bind at 1, get_self. cbn [fst snd].
    rewrite Hcfg.
    destruct ((PreprocessorFactory.preprocessors self).*1) as [|t1 keys] eqn:Ek.
    { exfalso.
      assert (col_type c1 ∈ filter (λ ty, ty ∈ map col_type (input_columns cfg))
                             ["text"; "numeric"; "categorical"]) as Hin.
      { apply list_elem_of_filter. split; [by apply list_elem_of_fmap_2|done]. }
      rewrite <- Hkeys in Hin. by apply elem_of_nil in Hin. }
    assert (t1 ∈ filter (λ ty, ty ∈ map col_type (input_columns cfg))
                   ["text"; "numeric"; "categorical"]) as Ht1.
    { rewrite <- Hkeys. apply list_elem_of_here. }
    apply list_elem_of_filter in Ht1 as [Ht1 _].
    assert (∃ c, c ∈ input_columns cfg ∧ col_type c ≠ t1) as (c & Hc & Hct).
    { destruct (decide (col_type c1 = t1)) as [E1|E1].
      - exists c2. split; [done|]. congruence.
      - by exists c1. }
    simpl. unfold bind.
    pose proof (factory_fit_type_invalid cfg data t1 self w d c Hd Hcfg Hsame)
      as Hraise.
    destruct (PreprocessorFactory.fit_type cfg data t1 (self, w))
      as [s1 r1]. simpl in Hraise. rewrite Hraise; [done| | | |done|].
    - rewrite Ek. apply list_elem_of_here.
    - by apply columns_of_type_nonempty.
    - intros col Hcol. by eapply valid_input_columns_of_type.
    - intros Hin. by apply Hct, (unique_name_type cfg t1 c Hnd Hc). }
  assert ((PreprocessorFactory.fit_transform data (self, w)).2
          = Raise (ValueError "Invalid input data")) as Hft.
  { unfold PreprocessorFactory.fit_transform, bind.
    destruct (PreprocessorFactory.fit data (self, w)) as [s1 r1].
    simpl in Hfit. by rewrite Hfit. }
  split; [done|]. split; [done|].
  destruct (process_data_run cfg data config logger w d Hd)
    as (w' & r & Hrun & _ & Hres).
  rewrite Hrun. simpl. rewrite Hinit in Hres. cbv zeta in Hres.
  destruct Hres as [_ Hres]. rewrite Hft in Hres. by destruct Hres as [-> _].
Qed.

End mixed_types.


Lemma X17_witness :
  let cfg := example_config "minmax" "label" in
  let w := mkWorld [example_fit_table] [] in
  PreprocessorFactory.__init__ cfg = Ok example_factory ∧
  NoDup (map col_name (input_columns cfg)) ∧
  valid_input cfg example_fit_table = true ∧
  (PreprocessorFactory.fit 0%nat (example_factory, w)).2
  = Raise (ValueError "Invalid input data") ∧
  (PreprocessorFactory.fit_transform 0%nat (example_factory, w)).2
  = Raise (ValueError "Invalid input data") ∧
  (data_ingestion.process_data (H:=example_external) cfg 0%nat cfg
     "data_ingestion" (tt, w)).2
  = Raise (ValueError "Invalid input data").
Proof.
  cbv zeta.
  assert (NoDup (map col_name (input_columns (example_config "minmax" "label"))))
    as Hnd by by_compute.
  split; [reflexivity|]. split; [exact Hnd|]. split; [reflexivity|].
  apply (X17_factory_mixed_types (H:=example_external)
           (example_config "minmax" "label") (example_config "minmax" "label")
           "data_ingestion" example_factory (mkWorld [example_fit_table] [])
           0%nat example_fit_table
           (mkColumn "age" "numeric") (mkColumn "city" "categorical"));
    [reflexivity|reflexivity|exact Hnd|reflexivity|by_compute|by_compute
    |by_compute|done].
Defined.

(** ** What the preprocessors log *)

Section logging.
Context `{External}.

Lemma try_except_raise_inv {Self A} (m : M (Self * World) A) name
    (msg : exn → string) s s' e :
  try_except m (λ e, log name ERROR (msg e) ;;; raise e) s = (s', Raise e) →
  ∃ s1, m s = (s1, Raise e) ∧
        s' = (s1.1, mkWorld (heap s1.2) (logs s1.2 ++ [mkLog name ERROR (msg e)])).
Proof.
  unfold try_except. destruct (m s) as [s1 [a|e1]]; [done|].
  unfold bind, log, raise. cbn [fst snd]. intros [= <- <-]. by exists s1.
Qed.

Lemma try_except_Ok_inv {Self A} (m : M (Self * World) A) name
    (msg : exn → string) s s' a :
  try_except m (λ e, log name ERROR (msg e) ;;; raise e) s = (s', Ok a) →
  m s = (s', Ok a).
Proof.
  unfold try_except. destruct (m s) as [s1 [a1|e1]]; [done|].
  unfold bind, log, raise. cbn [fst snd]. done.
Qed.

Lemma last_snoc_log (l : list LogRecord) x : list.last (l ++ [x]) = Some x.
Proof. apply last_snoc. Qed.

Lemma log_last {Self} name lv msg (s s' : Self * World) :
  log name lv msg s = (s', Ok tt) → list.last (logs s'.2) = Some (mkLog name lv msg).
Proof. unfold log. intros [= <-]. simpl. apply last_snoc. Qed.

Lemma raised_last {Self A} (m : M (Self * World) A) name msg s s' e :
  try_except m (λ e, log name ERROR (msg e) ;;; raise e) s = (s', Raise e) →
  list.last (logs s'.2) = Some (mkLog name ERROR (msg e)).
Proof.
  intros Hr. apply try_except_raise_inv in Hr as (s1 & _ & ->). simpl.
  apply last_snoc.
Qed.

(** X18. What is logged last. When [fit] or [transform] of the numeric or
    of the categorical preprocessor, or [transform] of the text
    preprocessor, raises an exception, the last record of the log is the
    ERROR record 'Error in fit: ...' or 'Error in transform: ...' with the
    message of that exception, under the name of the class. When [fit] of
    one of the three preprocessors returns, the last record is its DEBUG
    record '... fit complete'. [fit] of the text preprocessor has no
    handler: it raises nothing but ValueError('Invalid input data'), and
    then it has logged nothing but the missing columns. *)
Theorem X18_last_log_record :
  (∀ self w data s' e,
     NumericPreprocessor.fit data (self, w) = (s', Raise e) →
     list.last (logs s'.2)
     = Some (mkLog "NumericPreprocessor" ERROR ("Error in fit: " +:+ exn_str e))) ∧
  (∀ self w data s' e,
     NumericPreprocessor.transform data (self, w) = (s', Raise e) →
     list.last (logs s'.2)
     = Some (mkLog "NumericPreprocessor" ERROR
               ("Error in transform: " +:+ exn_str e))) ∧
  (∀ self w data s' e,
     CategoricalPreprocessor.fit data (self, w) = (s', Raise e) →
     list.last (logs s'.2)
     = Some (mkLog "CategoricalPreprocessor" ERROR
               ("Error in fit: " +:+ exn_str e))) ∧
  (∀ self w data s' e,
     CategoricalPreprocessor.transform data (self, w) = (s', Raise e) →
     list.last (logs s'.2)
     = Some (mkLog "CategoricalPreprocessor" ERROR
               ("Error in transform: " +:+ exn_str e))) ∧
  (∀ self w data s' e,
     TextPreprocessor.transform data (self, w) = (s', Raise e) →
     list.last (logs s'.2)
     = Some (mkLog "TextPreprocessor" ERROR
               ("Error in transform: " +:+ exn_str e))) ∧
  (∀ self w data s',
     NumericPreprocessor.fit data (self, w) = (s', Ok tt) →
     list.last (logs s'.2)
     = Some (mkLog "NumericPreprocessor" DEBUG
               "Numeric preprocessor fit complete")) ∧
  (∀ self w data s',
     CategoricalPreprocessor.fit data (self, w) = (s', Ok tt) →
     list.last (logs s'.2)
     = Some (mkLog "CategoricalPreprocessor" DEBUG
               "Categorical preprocessor fit complete")) ∧
  (∀ self w data d,
     heap w !! data = Some d →
     TextPreprocessor.fit data (self, w)
     = if valid_input (TextPreprocessor.config self) d
       then ((self,
              mkWorld (heap w)
                (logs w ++ [mkLog "TextPreprocessor" DEBUG
                              "Text preprocessor fit complete"])),
             Ok tt)
       else ((self,
              mkWorld (heap w)
                (logs w ++ [mkLog "TextPreprocessor" ERROR
                              ("Missing columns: "
                               +:+ py_repr_list
                                     (missing_columns (TextPreprocessor.config self) d))])),
             Raise (ValueError "Invalid input data"))).
Proof.
  split; [|split; [|split; [|split; [|split; [|split; [|split]]]]]].
  - intros self w data s' e. apply raised_last.
  - intros self w data s' e. apply raised_last.
  - intros self w data s' e. apply raised_last.
  - intros self w data s' e. apply raised_last.
  - intros self w data s' e. apply raised_last.
  - intros self w data s' Hr. apply try_except_Ok_inv in Hr.
    apply bind_Ok_inv in Hr as (s1 & self1 & _ & Hr).
    apply bind_Ok_inv in Hr as (s2 & valid & _ & Hr).
    destruct (negb valid); [done|].
    apply bind_Ok_inv in Hr as (s3 & df & _ & Hr).
    apply bind_Ok_inv in Hr as (s4 & [] & _ & Hr).
    by apply log_last in Hr.
  - intros self w data s' Hr. apply try_except_Ok_inv in Hr.
    apply bind_Ok_inv in Hr as (s1 & self1 & _ & Hr).
    apply bind_Ok_inv in Hr as (s2 & valid & _ & Hr).
    destruct (negb valid); [done|].
    apply bind_Ok_inv in Hr as (s3 & df & _ & Hr).
    apply bind_Ok_inv in Hr as (s4 & [] & _ & Hr).
    by apply log_last in Hr.
  - intros self w data d Hd.
    unfold TextPreprocessor.fit, bind, get_self. cbn [fst snd].
    rewrite (validate_input_run _ _ data self w d Hd).
    destruct (valid_input _ d); simpl.
    + unfold log. simpl. by rewrite app_nil_r.
    + done.
Qed.

End logging.

Lemma X18_witness :
  let run := NumericPreprocessor.fit 0%nat (example_unknown_policy, example_world) in
  run.2 = Raise (ValueError "Unknown missing value handling method: bogus") ∧
  list.last (logs run.1.2)
  = Some (mkLog "NumericPreprocessor" ERROR
            "Error in fit: Unknown missing value handling method: bogus").
Proof.
  cbv zeta.
  assert ((NumericPreprocessor.fit 0%nat
             (example_unknown_policy, example_world)).2
          = Raise (ValueError "Unknown missing value handling method: bogus"))
    as Hrun by by_compute.
  split; [exact Hrun|].
  destruct (X18_last_log_record (H:=example_external)) as (Hfit & _).
  apply (Hfit example_unknown_policy example_world 0%nat _ _ (run_eq _ _ Hrun)).
Defined.

(** ** [fit] on one table, [transform] on another *)

Section fit_then_transform.
Context `{External}.

(** X19. The numeric preprocessor fitted on a table F transforms a table
    T. A numeric column of the result is the column of T with its missing
    cells filled with the statistic of that column of T, scaled cell by
    cell with the scaler that [fit] fitted on the filled column of F: the
    scaler comes from the fit table, the fill value from the table that is
    transformed. The names of the numeric columns are distinct. *)
Theorem X19_numeric_fit_then_transform
    (self self1 : NumericPreprocessor.t) (w w1 w2 : World)
    (table data : loc) (F T : DataFrame)
    (s' : NumericPreprocessor.t * World) (out : loc) :
  let cfg := NumericPreprocessor.config self in
  let cols := columns_of_type cfg "numeric" in
  heap w !! table = Some F → NoDup cols →
  NumericPreprocessor.fit table (self, w) = ((self1, w1), Ok tt) →
  heap w2 !! data = Some T →
  NumericPreprocessor.transform data (self1, w2) = (s', Ok out) →
  ∃ dout,
    heap s'.2 !! out = Some dout ∧
    ∀ c, c ∈ cols → ∃ stat xF vF s xT vT y,
      numeric_statistic (num_handle_missing (numeric_config cfg)) = Some stat ∧
      pd.lookup_column c F = Some xF ∧ stat xF = Ok vF ∧
      sk_scaler_fit (NumericPreprocessor.scaler_class self) (pd.fillna vF xF)
      = Ok s ∧
      pd.lookup_column c T = Some xT ∧ stat xT = Ok vT ∧
      result_map (scale_cell s) (pd.fillna vT xT) = Ok y ∧
      pd.lookup_column c dout = Some y.
Proof.
  intros cfg cols HF Hnd Hfit HT Htr.
  pose proof (fit_outcome_Ok _ _ _ _ _ _ _ _ numeric_fit_outcome HF Hfit) as Hpure.
  destruct (numeric_fit_pure_fields _ _ _ Hpure) as (Hcfg & Hcls & _).
  destruct (transform_outcome_Ok _ _ _ _ _ _ _ _ numeric_transform_outcome
              HT Htr) as (dout & Hpt & Hout & _).
  exists dout. split; [done|]. intros c Hc.
  destruct (numeric_fit_pure_scalers _ _ _ Hnd Hpure c Hc)
    as (stat & xF & vF & s & Hstat & HxF & HvF & Hs & Hsc).
  assert (NoDup (columns_of_type (NumericPreprocessor.config self1) "numeric"))
    as Hnd1 by by rewrite Hcfg.
  destruct (numeric_transform_columns self1 T dout Hnd1 Hpt c)
    as (stat' & xT & vT & Hstat' & HxT & HvT & Hres).
  { by rewrite Hcfg. }
  rewrite Hcfg in Hstat'.
  assert (stat' = stat) as -> by congruence.
  rewrite Hsc in Hres. destruct Hres as (y & Hy & Hdy).
  by exists stat, xF, vF, s, xT, vT, y.
Qed.

(** X20. The categorical preprocessor fitted with label encoding
    transforms a table that passes the validation, whose missing values
    can be filled, and whose filled categorical columns hold values of the
    vocabulary only. Then [transform] returns, and a categorical column of
    the result holds, row by row, the position of the filled value in the
    vocabulary of its column; the row labels, the column names and their
    order, and the other columns are those of the input. The names of the
    categorical columns are distinct. *)
Theorem X20_label_transform_seen
    (self0 self : CategoricalPreprocessor.t) (w w1 w2 : World)
    (table data : loc) (F T d1 : DataFrame) :
  let cfg := CategoricalPreprocessor.config self0 in
  let cols := columns_of_type cfg "categorical" in
  heap w !! table = Some F → NoDup cols →
  encoding (categorical_config cfg) = "label" →
  CategoricalPreprocessor.fit table (self0, w) = ((self, w1), Ok tt) →
  heap w2 !! data = Some T →
  valid_input cfg T = true →
  for_each cols
    (categorical_fill (cat_handle_missing (categorical_config cfg))) T
  = (d1, Ok tt) →
  (∀ c x1 cs v, c ∈ cols → pd.lookup_column c d1 = Some x1 →
                vocabulary self c = Some cs → v ∈ x1 → v ∈ cs) →
  ∃ w' out dout,
    CategoricalPreprocessor.transform data (self, w2) = ((self, w'), Ok out) ∧
    heap w' !! out = Some dout ∧
    same_outside cols T dout ∧
    ∀ c, c ∈ cols → ∃ x1 cs y,
      pd.lookup_column c d1 = Some x1 ∧ vocabulary self c = Some cs ∧
      pd.lookup_column c dout = Some y ∧ length y = length x1 ∧
      ∀ i v, x1 !! i = Some v →
             ∃ j, cs !! j = Some v ∧ y !! i = Some (Num (pd.Qc_of_nat j)).
Proof.
  intros cfg cols HF Hnd Hlabel Hfit HT Hvalid Hfill Hseen.
  pose proof (fit_outcome_Ok _ _ _ _ _ _ _ _ categorical_fit_outcome HF Hfit)
    as Hpure.
  destruct (categorical_fit_pure_state _ _ _ Hnd Hpure)
    as (Hcfg & dF & _ & _ & Hcols). fold cfg cols in Hcols.
  pose proof (categorical_fill_loop_columns _ _ _ _ Hnd Hfill) as Hfilled.
  assert (∀ c, c ∈ cols → ∃ x1 cs,
    pd.lookup_column c d1 = Some x1 ∧
    CategoricalPreprocessor.encoders self !! c
    = Some (CategoricalPreprocessor.Label (sk.mkLabelEncoder (Some cs))) ∧
    ∀ v, v ∈ x1 → v ∈ cs) as Hst.
  { intros c Hc. destruct (Hcols c Hc) as (x & u & cs & _ & _ & _ & _ & Hs).
    destruct (Hfilled c Hc) as (xT & uT & _ & _ & Hx1).
    exists (pd.fillna uT xT), cs. split; [done|].
    unfold stored_for in Hs. rewrite Hcfg in Hs. fold cfg in Hs.
    destruct Hs as [(_ & He & _)|(_ & Hn & _)]; [|done].
    split; [done|]. intros v Hv. apply (Hseen c _ cs v Hc Hx1); [|done].
    unfold vocabulary. by rewrite He. }
  destruct (label_loop_columns self cols d1 Hnd) as (dout & Hloop & Hout).
  { intros c Hc. destruct (Hst c Hc) as (x1 & cs & Hx1 & He & Hin).
    by exists x1, cs. }
  assert (categorical_transform_pure self T = Ok dout) as Htr.
  { unfold categorical_transform_pure. rewrite Hcfg. fold cfg cols.
    by rewrite Hvalid, Hfill. }
  destruct (categorical_transform_outcome self w2 data T HT)
    as (w' & _ & _ & Hres).
  rewrite Htr in Hres. destruct Hres as (out & Hrun & Hdout & _).
  exists w', out, dout. split; [done|]. split; [done|]. split.
  { eapply same_outside_trans.
    - eapply for_each_same_outside_in; [|done|exact Hfill].
      intros. by eapply categorical_fill_same_outside.
    - eapply encode_loop_same_outside; [|done|exact Hloop].
      intros c enc Hc. destruct (Hst c Hc) as (_ & cs & _ & He & _).
      by rewrite He. }
  intros c Hc. destruct (Hst c Hc) as (x1 & cs & Hx1 & He & Hin).
  destruct (Hout c Hc) as (y1 & cs' & codes & Hy1 & He' & Hcodes & Hlook).
  rewrite Hx1 in Hy1. injection Hy1 as <-.
  rewrite He in He'. injection He' as <-.
  destruct (result_map_lookup _ _ _ Hcodes) as [Hlen Helem].
  exists x1, cs, codes. split; [done|].
  split; [unfold vocabulary; by rewrite He|]. split; [done|]. split; [done|].
  intros i v Hi. destruct (Helem i v Hi) as (code & Hcode & Hyi).
  apply label_code_Ok in Hcode as (j & Hj & ->).
  exists j. split; [by apply index_of_lookup|done].
Qed.

End fit_then_transform.

Lemma X19_witness :
  let fitted := NumericPreprocessor.fit 0%nat (example_numeric, example_world) in
  let run := NumericPreprocessor.transform 1%nat fitted.1 in
  NoDup (columns_of_type (example_config "minmax" "label") "numeric") ∧
  fitted.2 = Ok tt ∧ run.2 = Ok 4%nat ∧
  (d ← heap run.1.2 !! 4%nat; pd.lookup_column "age" d)
  = Some [num 9; num 9] ∧
  ∃ dout,
    heap run.1.2 !! 4%nat = Some dout ∧
    ∀ c, c ∈ columns_of_type (example_config "minmax" "label") "numeric" →
      ∃ stat xF vF s xT vT y,
        numeric_statistic "mean" = Some stat ∧
        pd.lookup_column c example_fit_table = Some xF ∧ stat xF = Ok vF ∧
        sk_scaler_fit (External:=example_external) sk.MinMaxScaler
          (pd.fillna vF xF) = Ok s ∧
        pd.lookup_column c example_transform_table = Some xT ∧
        stat xT = Ok vT ∧
        result_map (scale_cell s) (pd.fillna vT xT) = Ok y ∧
        pd.lookup_column c dout = Some y.
Proof.
  cbv zeta.
  set (fitted := NumericPreprocessor.fit 0%nat (example_numeric, example_world)).
  assert (fitted.2 = Ok tt) as Hfit by by_compute.
  assert ((NumericPreprocessor.transform 1%nat fitted.1).2 = Ok 4%nat)
    as Hrun by by_compute.
  assert (NoDup (columns_of_type (example_config "minmax" "label") "numeric"))
    as Hnd by by_compute.
  split; [exact Hnd|]. split; [exact Hfit|]. split; [exact Hrun|].
  split; [by_compute|].
  apply (X19_numeric_fit_then_transform example_numeric fitted.1.1
           example_world fitted.1.2 fitted.1.2 0%nat 1%nat
           example_fit_table example_transform_table
           (NumericPreprocessor.transform 1%nat fitted.1).1 4%nat).
  - reflexivity.
  - exact Hnd.
  - apply run_eq_world, Hfit.
  - by_compute.
  - exact (run_eq _ _ Hrun).
Defined.

Lemma X20_witness :
  let cfg := example_config "minmax" "label" in
  let self0 := CategoricalPreprocessor.__init__ cfg in
  let fitted := CategoricalPreprocessor.fit (H:=example_external) 0%nat
                  (self0, example_world) in
  let d1 := (for_each ["city"] (categorical_fill "mode") example_fit_table).1 in
  NoDup (columns_of_type cfg "categorical") ∧ fitted.2 = Ok tt ∧
  pd.lookup_column "city" d1 = Some [Str "A"; Str "B"; Str "A"] ∧
  vocabulary fitted.1.1 "city" = Some [Str "A"; Str "B"] ∧
  ∃ w' out dout,
    CategoricalPreprocessor.transform 0%nat (fitted.1.1, example_world)
    = ((fitted.1.1, w'), Ok out) ∧
    heap w' !! out = Some dout ∧
    same_outside (columns_of_type cfg "categorical") example_fit_table dout ∧
    ∀ c, c ∈ columns_of_type cfg "categorical" → ∃ x1 cs y,
      pd.lookup_column c d1 = Some x1 ∧ vocabulary fitted.1.1 c = Some cs ∧
      pd.lookup_column c dout = Some y ∧ length y = length x1 ∧
      ∀ i v, x1 !! i = Some v →
             ∃ j, cs !! j = Some v ∧ y !! i = Some (Num (pd.Qc_of_nat j)).
Proof.
  cbv zeta.
  set (cfg := example_config "minmax" "label").
  set (self0 := CategoricalPreprocessor.__init__ cfg).
  set (fitted := CategoricalPreprocessor.fit (H:=example_external) 0%nat
                   (self0, example_world)).
  set (d1 := (for_each ["city"] (categorical_fill "mode") example_fit_table).1).
  assert (fitted.2 = Ok tt) as Hfit by by_compute.
  assert (NoDup (columns_of_type cfg "categorical")) as Hnd by by_compute.
  assert (pd.lookup_column "city" d1 = Some [Str "A"; Str "B"; Str "A"])
    as Hcity by reflexivity.
  assert (vocabulary fitted.1.1 "city" = Some [Str "A"; Str "B"])
    as Hvoc by reflexivity.
  split; [exact Hnd|]. split; [exact Hfit|]. split; [exact Hcity|].
  split; [exact Hvoc|].
  apply (X20_label_transform_seen (H:=example_external) self0 fitted.1.1
           example_world fitted.1.2 example_world 0%nat 0%nat
           example_fit_table example_fit_table d1).
  - reflexivity.
  - exact Hnd.
  - reflexivity.
  - apply run_eq_world, Hfit.
  - reflexivity.
  - reflexivity.
  - apply run_eq. by_compute.
  - intros c x1 cs v Hc Hx1 Hcs Hv.
    assert (c = "city") as ->.
    { change (columns_of_type cfg "categorical") with ["city"] in Hc.
      by apply list_elem_of_singleton in Hc. }
    rewrite Hcity in Hx1. injection Hx1 as <-.
    rewrite Hvoc in Hcs. injection Hcs as <-.
    rewrite !elem_of_cons, elem_of_nil in Hv.
    destruct Hv as [->|[->|[->|[]]]]; by_compute.
Defined.

(** ** Columns with an unfitted scaler or encoder *)

Section unfitted_entries.
Context `{External}.

(** The scaling loop stops with an exception at a column whose scaler was
    created and never fitted, if not before. *)
Lemma scale_loop_unfitted_raises (scalers : gmap string scaler_obj) cols col cls d :
  col ∈ cols → scalers !! col = Some (Unfitted cls) →
  ∃ d' e, for_each cols (scale_column scalers) d = (d', Raise e).
Proof.
  intros Hcol Hsc. revert d. induction cols as [|c cols IH]; intros d.
  { by apply elem_of_nil in Hcol. }
  simpl. unfold bind.
  destruct (scale_column scalers c d) as [d1 [[]|e]] eqn:E1; [|by eexists _, _].
  apply elem_of_cons in Hcol as [<-|Hcol]; [|by apply IH].
  exfalso. revert E1. unfold scale_column. rewrite Hsc.
  destruct (pd.lookup_column col d); [|done]. done.
Qed.

Lemma numeric_transform_unfitted_raises (self : NumericPreprocessor.t) col cls d :
  col ∈ columns_of_type (NumericPreprocessor.config self) "numeric" →
  NumericPreprocessor.scalers self !! col = Some (Unfitted cls) →
  ∃ e, numeric_transform_pure self d = Raise e.
Proof.
  intros Hcol Hsc. unfold numeric_transform_pure, numeric_transform_frame, bind.
  destruct (valid_input _ d); [|by eexists].
  destruct (for_each _ (numeric_fill _) d) as [d1 [[]|e]]; [|by eexists].
  destruct (scale_loop_unfitted_raises _ _ _ _ d1 Hcol Hsc) as (d2 & e & ->).
  by eexists.
Qed.

(** The encoding loop stops with an exception at a column whose encoder
    was created and never fitted, if not before. *)
Lemma encode_loop_unfitted_raises (self : CategoricalPreprocessor.t) cols col d :
  col ∈ cols →
  (CategoricalPreprocessor.encoders self !! col
   = Some (CategoricalPreprocessor.Label (sk.mkLabelEncoder None)) ∨
   CategoricalPreprocessor.encoders self !! col
   = Some (CategoricalPreprocessor.OneHot (sk.mkOneHotEncoder None))) →
  ∃ e, result_fold (encode_column self) cols d = Raise e.
Proof.
  intros Hcol Henc. revert d. induction cols as [|c cols IH]; intros d.
  { by apply elem_of_nil in Hcol. }
  simpl. unfold result_bind.
  destruct (encode_column self c d) as [d1|e] eqn:E1; [|by eexists].
  apply elem_of_cons in Hcol as [<-|Hcol]; [|by apply IH].
  exfalso. revert E1. unfold encode_column, lookup_or_raise, result_bind.
  destruct Henc as [-> | ->]; by destruct (pd.lookup_column col d).
Qed.

Lemma categorical_transform_unfitted_raises (self : CategoricalPreprocessor.t)
    col d :
  col ∈ columns_of_type (CategoricalPreprocessor.config self) "categorical" →
  (CategoricalPreprocessor.encoders self !! col
   = Some (CategoricalPreprocessor.Label (sk.mkLabelEncoder None)) ∨
   CategoricalPreprocessor.encoders self !! col
   = Some (CategoricalPreprocessor.OneHot (sk.mkOneHotEncoder None))) →
  ∃ e, categorical_transform_pure self d = Raise e.
Proof.
  intros Hcol Henc. unfold categorical_transform_pure.
  destruct (valid_input _ d); [|by eexists].
  destruct (for_each _ (categorical_fill _) d) as [d1 [[]|e]]; [|by eexists].
  by apply encode_loop_unfitted_raises with col.
Qed.

(** A loop of [fit] that raises leaves the scaler that it created for the
    column at which it stopped, unfitted. *)
Lemma fit_scaler_loop_raise cls d cols (m m' : gmap string scaler_obj) e :
  for_each cols (fit_scaler cls d) m = (m', Raise e) →
  ∃ col, col ∈ cols ∧ m' !! col = Some (Unfitted cls).
Proof.
  revert m. induction cols as [|c cols IH]; intros m; simpl; [done|].
  unfold bind. destruct (fit_scaler cls d c m) as [m1 [[]|e1]] eqn:E1.
  - intros E2. destruct (IH _ E2) as (col & Hcol & Hm).
    exists col. split; [by apply list_elem_of_further|done].
  - intros [= <- <-]. exists c. split; [apply list_elem_of_here|].
    revert E1. unfold fit_scaler.
    destruct (pd.lookup_column c d) as [x|].
    + destruct (sk_scaler_fit cls x); [done|].
      intros [= <- _]. apply lookup_insert_eq.
    + intros [= <- _]. apply lookup_insert_eq.
Qed.

(** The receiver after a [fit] that has passed the validation and filled
    the missing values. *)
Lemma numeric_fit_run (self : NumericPreprocessor.t) w data d d1 :
  let cfg := NumericPreprocessor.config self in
  let cls := NumericPreprocessor.scaler_class self in
  let cols := columns_of_type cfg "numeric" in
  heap w !! data = Some d → valid_input cfg d = true →
  for_each cols (numeric_fill (num_handle_missing (numeric_config cfg))) d
  = (d1, Ok tt) →
  let r := for_each cols (fit_scaler cls d1) (NumericPreprocessor.scalers self) in
  ∃ w', NumericPreprocessor.fit data (self, w)
        = ((NumericPreprocessor.mk cfg cls r.1, w'), r.2).
Proof.
  intros cfg cls cols Hd Hv Hfill r.
  unfold NumericPreprocessor.fit, try_except, bind, get_self. simpl.
  rewrite (validate_input_run _ _ data self w d Hd). fold cfg. rewrite Hv. simpl.
  set (w0 := mkWorld (heap w) (logs w ++ _)).
  destruct (numeric_handle_missing_values_run self w0 data d
              (columns_of_type cfg "numeric") Hd) as [l1 H1].
  fold cfg. rewrite H1. clear H1. simpl. fold cfg cols. rewrite Hfill. simpl.
  set (w2 := mkWorld _ _).
  rewrite (sim_run (length (heap w)) _
             (for_each cols (NumericPreprocessor.fit_column 0%nat)) self w2 d1).
  2: { apply sim_for_each. intros col. apply sim_numeric_fit_column. }
  2: { apply lookup_snoc. }
  unfold mini. rewrite numeric_fit_loop_mini. simpl. fold cfg cls cols r.
  destruct r as [m [[]|e]]; simpl; by eexists.
Qed.

(** An iteration of the loop of [fit] that raises, with one of the two
    encoding methods, leaves the encoder that [_setup_encoder] created for
    the column, unfitted. *)
Lemma categorical_fit_column_raise col (self self' : CategoricalPreprocessor.t)
    d lg w' e :
  let method :=
    encoding (categorical_config (CategoricalPreprocessor.config self)) in
  method = "label" ∨ method = "onehot" →
  CategoricalPreprocessor.fit_column 0%nat col (self, mkWorld [d] lg)
  = ((self', w'), Raise e) →
  CategoricalPreprocessor.encoders self' !! col
  = Some (CategoricalPreprocessor.Label (sk.mkLabelEncoder None)) ∨
  CategoricalPreprocessor.encoders self' !! col
  = Some (CategoricalPreprocessor.OneHot (sk.mkOneHotEncoder None)).
Proof.
  intros method Hm. subst method.
  cbv [CategoricalPreprocessor.fit_column
         CategoricalPreprocessor._setup_encoder
         CategoricalPreprocessor.get_encoder CategoricalPreprocessor.set_encoder
         CategoricalPreprocessor.set_encoding_map lookup_or_raise result_bind
         bind get_self set_self df_getitem df_load lift_result ret raise].
  simpl.
  destruct (decide (encoding _ = "label")) as [Hl|Hl]; simpl.
  - rewrite lookup_insert_eq. simpl.
    destruct (pd.lookup_column col d) as [y|]; simpl.
    2: { intros [= <- _ _]. left. simpl. apply lookup_insert_eq. }
    unfold sk.LabelEncoder_fit, result_bind.
    destruct (sk.unique y) as [cs|e1] eqn:Hcs; simpl.
    2: { intros [= <- _ _]. left. simpl. apply lookup_insert_eq. }
    unfold sk.LabelEncoder_transform. simpl.
    by rewrite (label_codes_of_classes cs (unique_NoDup _ _ Hcs)).
  - destruct (decide (encoding _ = "onehot")) as [Ho|Ho]; simpl.
    2: { by destruct Hm. }
    rewrite lookup_insert_eq. simpl.
    destruct (pd.lookup_column col d) as [y|]; simpl.
    2: { intros [= <- _ _]. right. simpl. apply lookup_insert_eq. }
    unfold sk.OneHotEncoder_fit, result_bind.
    destruct (sk.unique y) as [cs|e1] eqn:Hcs; simpl; [done|].
    intros [= <- _ _]. right. simpl. apply lookup_insert_eq.
Qed.

Lemma categorical_fit_loop_raise cols (self self' : CategoricalPreprocessor.t)
    d lg w' e :
  let method :=
    encoding (categorical_config (CategoricalPreprocessor.config self)) in
  method = "label" ∨ method = "onehot" →
  for_each cols (CategoricalPreprocessor.fit_column 0%nat) (self, mkWorld [d] lg)
  = ((self', w'), Raise e) →
  ∃ col, col ∈ cols ∧
    (CategoricalPreprocessor.encoders self' !! col
     = Some (CategoricalPreprocessor.Label (sk.mkLabelEncoder None)) ∨
     CategoricalPreprocessor.encoders self' !! col
     = Some (CategoricalPreprocessor.OneHot (sk.mkOneHotEncoder None))).
Proof.
  intros method. subst method. revert self.
  induction cols as [|c cols IH]; intros self Hm; simpl; [done|].
  pose proof (categorical_fit_column_mini c self d lg) as Hc.
  unfold bind.
  destruct (fit_encoder d c self) as [self1|e1] eqn:E1.
  - rewrite Hc. intros Hrun.
    destruct (fit_encoder_fitted _ _ _ _ E1) as (Hcfg & _ & _).
    destruct (IH self1) as (col & Hcol & Hcase); [by rewrite Hcfg|done|].
    exists col. split; [by apply list_elem_of_further|done].
  - destruct Hc as [self2 Hc]. rewrite Hc. intros [= <- <- <-].
    exists c. split; [apply list_elem_of_here|].
    by eapply categorical_fit_column_raise.
Qed.

(** The receiver after a [fit] that has passed the validation and filled
    the missing values, and has raised. *)
Lemma categorical_fit_run_raise (self self' : CategoricalPreprocessor.t)
    w w' data d d1 e :
  let cfg := CategoricalPreprocessor.config self in
  let cols := columns_of_type cfg "categorical" in
  heap w !! data = Some d → valid_input cfg d = true →
  for_each cols (categorical_fill (cat_handle_missing (categorical_config cfg))) d
  = (d1, Ok tt) →
  encoding (categorical_config cfg) = "label" ∨
  encoding (categorical_config cfg) = "onehot" →
  CategoricalPreprocessor.fit data (self, w) = ((self', w'), Raise e) →
  ∃ col, col ∈ cols ∧
    (CategoricalPreprocessor.encoders self' !! col
     = Some (CategoricalPreprocessor.Label (sk.mkLabelEncoder None)) ∨
     CategoricalPreprocessor.encoders self' !! col
     = Some (CategoricalPreprocessor.OneHot (sk.mkOneHotEncoder None))).
Proof.
  intros cfg cols Hd Hv Hfill Hm.
  unfold CategoricalPreprocessor.fit, try_except, bind, get_self. simpl.
  rewrite (validate_input_run _ _ data self w d Hd). fold cfg. rewrite Hv. simpl.
  set (w0 := mkWorld (heap w) (logs w ++ _)).
  destruct (categorical_handle_missing_values_run self w0 data d
              (columns_of_type cfg "categorical") Hd) as [l1 H1].
  fold cfg. rewrite H1. clear H1. simpl. fold cfg cols. rewrite Hfill. simpl.
  set (w2 := mkWorld _ _).
  rewrite (sim_run (length (heap w)) _
             (for_each cols (CategoricalPreprocessor.fit_column 0%nat))
             self w2 d1).
  2: { apply sim_for_each. intros col. apply sim_categorical_fit_column. }
  2: { apply lookup_snoc. }
  unfold mini.
  destruct (for_each cols (CategoricalPreprocessor.fit_column 0%nat)
              (self, mkWorld [d1] [])) as [[s1 w1] [[]|e1]] eqn:Hloop; simpl.
  - done.
  - intros [= <- _ _]. by eapply categorical_fit_loop_raise.
Qed.


(** C10, as the code has it. A column without an entry in [self.scalers],
    or in [self.encoders], raises no error in [transform]: the iteration of
    the loop for such a column logs one warning and changes nothing else,
    and in the table that [transform] returns the column is the column of
    the input with its missing values filled, neither scaled nor encoded.
    On a preprocessor without any entry (for example before any [fit]),
    for a table that passes the validation and whose missing values can be
    filled, [transform] returns the copy of the table with the missing
    values filled, and what it logs is one warning per column of the type,
    and nothing else.

    A column whose entry is a scaler or an encoder that was created and
    never fitted has no fitted state either, and there [transform] raises:
    the iteration for such a column raises [NotFittedError], and
    [transform] of a preprocessor with such a column of its type returns no
    table. A [fit] that raises after the validation and the filling of the
    missing values (with one of the two encoding methods, for the
    categorical preprocessor) leaves such an entry, for the column at which
    it stopped. *)
Theorem C10_transform_without_fitted_state :
  (∀ (self : NumericPreprocessor.t) w (df : loc) col,
     NumericPreprocessor.scalers self !! col = None →
     NumericPreprocessor.transform_column df col (self, w)
     = ((self, mkWorld (heap w) (logs w ++ [no_scaler_warning col])), Ok tt)) ∧
  (∀ (self : CategoricalPreprocessor.t) w (df : loc) col,
     CategoricalPreprocessor.encoders self !! col = None →
     CategoricalPreprocessor.transform_column col df (self, w)
     = ((self, mkWorld (heap w) (logs w ++ [no_encoder_warning col])), Ok df)) ∧
  (∀ (self : NumericPreprocessor.t) w data d s' out col,
     let cfg := NumericPreprocessor.config self in
     heap w !! data = Some d →
     NoDup (columns_of_type cfg "numeric") →
     col ∈ columns_of_type cfg "numeric" →
     NumericPreprocessor.scalers self !! col = None →
     NumericPreprocessor.transform data (self, w) = (s', Ok out) →
     ∃ dout stat x v,
       heap s'.2 !! out = Some dout ∧
       numeric_statistic (num_handle_missing (numeric_config cfg)) = Some stat ∧
       pd.lookup_column col d = Some x ∧ stat x = Ok v ∧
       pd.lookup_column col dout = Some (pd.fillna v x)) ∧
  (∀ (self : CategoricalPreprocessor.t) w data d s' out col,
     let cfg := CategoricalPreprocessor.config self in
     heap w !! data = Some d →
     NoDup (columns_of_type cfg "categorical") →
     col ∈ columns_of_type cfg "categorical" →
     CategoricalPreprocessor.encoders self !! col = None →
     CategoricalPreprocessor.transform data (self, w) = (s', Ok out) →
     ∃ dout x u,
       heap s'.2 !! out = Some dout ∧
       pd.lookup_column col d = Some x ∧
       categorical_fill_value (cat_handle_missing (categorical_config cfg)) x
       = Ok u ∧
       pd.lookup_column col dout = Some (pd.fillna u x)) ∧
  (∀ (self : NumericPreprocessor.t) w data d d1,
     let cfg := NumericPreprocessor.config self in
     let cols := columns_of_type cfg "numeric" in
     heap w !! data = Some d →
     NumericPreprocessor.scalers self = ∅ →
     valid_input cfg d = true →
     for_each cols (numeric_fill (num_handle_missing (numeric_config cfg))) d
       = (d1, Ok tt) →
     NumericPreprocessor.transform data (self, w)
     = ((self,
         mkWorld (heap w ++ [d; d1]) (logs w ++ map no_scaler_warning cols)),
        Ok (S (length (heap w))))) ∧
  (∀ (self : CategoricalPreprocessor.t) w data d d1,
     let cfg := CategoricalPreprocessor.config self in
     let cols := columns_of_type cfg "categorical" in
     heap w !! data = Some d →
     CategoricalPreprocessor.encoders self = ∅ →
     valid_input cfg d = true →
     for_each cols
       (categorical_fill (cat_handle_missing (categorical_config cfg))) d
       = (d1, Ok tt) →
     CategoricalPreprocessor.transform data (self, w)
     = ((self,
         mkWorld (heap w ++ [d; d1]) (logs w ++ map no_encoder_warning cols)),
        Ok (S (length (heap w))))) ∧
  (∀ (self : NumericPreprocessor.t) w (df : loc) d col cls x,
     heap w !! df = Some d → pd.lookup_column col d = Some x →
     NumericPreprocessor.scalers self !! col = Some (Unfitted cls) →
     (NumericPreprocessor.transform_column df col (self, w)).2
     = Raise (NotFittedError "This scaler instance is not fitted yet")) ∧
  (∀ (self : CategoricalPreprocessor.t) w (df : loc) d col x,
     heap w !! df = Some d → pd.lookup_column col d = Some x →
     (CategoricalPreprocessor.encoders self !! col
      = Some (CategoricalPreprocessor.Label (sk.mkLabelEncoder None)) →
      (CategoricalPreprocessor.transform_column col df (self, w)).2
      = Raise (NotFittedError "This LabelEncoder instance is not fitted yet")) ∧
     (CategoricalPreprocessor.encoders self !! col
      = Some (CategoricalPreprocessor.OneHot (sk.mkOneHotEncoder None)) →
      (CategoricalPreprocessor.transform_column col df (self, w)).2
      = Raise (NotFittedError "This OneHotEncoder instance is not fitted yet"))) ∧
  (∀ (self : NumericPreprocessor.t) w data d col cls,
     heap w !! data = Some d →
     col ∈ columns_of_type (NumericPreprocessor.config self) "numeric" →
     NumericPreprocessor.scalers self !! col = Some (Unfitted cls) →
     ∃ e, (NumericPreprocessor.transform data (self, w)).2 = Raise e) ∧
  (∀ (self : CategoricalPreprocessor.t) w data d col,
     heap w !! data = Some d →
     col ∈ columns_of_type (CategoricalPreprocessor.config self) "categorical" →
     CategoricalPreprocessor.encoders self !! col
     = Some (CategoricalPreprocessor.Label (sk.mkLabelEncoder None)) ∨
     CategoricalPreprocessor.encoders self !! col
     = Some (CategoricalPreprocessor.OneHot (sk.mkOneHotEncoder None)) →
     ∃ e, (CategoricalPreprocessor.transform data (self, w)).2 = Raise e) ∧
  (∀ (self self' : NumericPreprocessor.t) w w' data d d1 e,
     let cfg := NumericPreprocessor.config self in
     let cols := columns_of_type cfg "numeric" in
     heap w !! data = Some d →
     valid_input cfg d = true →
     for_each cols (numeric_fill (num_handle_missing (numeric_config cfg))) d
       = (d1, Ok tt) →
     NumericPreprocessor.fit data (self, w) = ((self', w'), Raise e) →
     NumericPreprocessor.config self' = cfg ∧
     ∃ col, col ∈ cols ∧
       NumericPreprocessor.scalers self' !! col
       = Some (Unfitted (NumericPreprocessor.scaler_class self))) ∧
  (∀ (self self' : CategoricalPreprocessor.t) w w' data d d1 e,
     let cfg := CategoricalPreprocessor.config self in
     let cols := columns_of_type cfg "categorical" in
     heap w !! data = Some d →
     valid_input cfg d = true →
     for_each cols
       (categorical_fill (cat_handle_missing (categorical_config cfg))) d
       = (d1, Ok tt) →
     encoding (categorical_config cfg) = "label" ∨
     encoding (categorical_config cfg) = "onehot" →
     CategoricalPreprocessor.fit data (self, w) = ((self', w'), Raise e) →
     ∃ col, col ∈ cols ∧
       (CategoricalPreprocessor.encoders self' !! col
        = Some (CategoricalPreprocessor.Label (sk.mkLabelEncoder None)) ∨
        CategoricalPreprocessor.encoders self' !! col
        = Some (CategoricalPreprocessor.OneHot (sk.mkOneHotEncoder None)))).
Proof.
  split; [|split; [|split; [|split; [|split; [|split; [|split; [|split; [|split; [|split; [|split]]]]]]]]]].
  - intros self w df col Hnone.
    unfold NumericPreprocessor.transform_column, bind, get_self. cbn [fst snd].
    by rewrite Hnone.
  - intros self w df col Hnone.
    unfold CategoricalPreprocessor.transform_column, bind at 1, get_self.
    cbn [fst snd]. by rewrite Hnone.
  - intros self w data d s' out col cfg Hd Hnd Hcol Hnone Hrun.
    destruct (transform_outcome_Ok _ _ _ _ _ _ _ _ numeric_transform_outcome
                Hd Hrun) as (dout & Hpure & Hout & _).
    destruct (numeric_transform_columns self d dout Hnd Hpure col Hcol)
      as (stat & x & v & Hstat & Hx & Hv & Hres).
    rewrite Hnone in Hres. by exists dout, stat, x, v.
  - intros self w data d s' out col cfg Hd Hnd Hcol Hnone Hrun.
    destruct (transform_outcome_Ok _ _ _ _ _ _ _ _ categorical_transform_outcome
                Hd Hrun) as (dout & Hpure & Hout & _).
    destruct (categorical_transform_unfitted_column self d dout col Hnd Hpure
                Hcol Hnone) as (x & u & Hx & Hu & Hres).
    by exists dout, x, u.
  - intros self w data d d1 cfg cols Hd Hempty Hv Hfill. subst cols cfg.
    unfold NumericPreprocessor.transform, try_except, bind, get_self. simpl.
    rewrite (validate_input_run _ _ data self w d Hd). rewrite Hv.
    simpl. set (w0 := mkWorld (heap w) (logs w ++ [])).
    rewrite (df_copy_run data self w0 d Hd). simpl.
    set (w1 := mkWorld (heap w ++ [d]) (logs w ++ [])).
    rewrite (numeric_handle_missing_values_run_exact self w1 (length (heap w)) d
               _ (lookup_snoc _ _)).
    simpl. rewrite Hfill. simpl.
    rewrite (numeric_transform_loop_unfitted _ _ self _ Hempty). simpl.
    rewrite app_nil_r, <- app_assoc, length_app. simpl.
    by rewrite Nat.add_1_r.
  - intros self w data d d1 cfg cols Hd Hempty Hv Hfill. subst cols cfg.
    unfold CategoricalPreprocessor.transform, try_except, bind, get_self. simpl.
    rewrite (validate_input_run _ _ data self w d Hd). rewrite Hv.
    simpl. set (w0 := mkWorld (heap w) (logs w ++ [])).
    rewrite (df_copy_run data self w0 d Hd). simpl.
    set (w1 := mkWorld (heap w ++ [d]) (logs w ++ [])).
    rewrite (categorical_handle_missing_values_run_exact self w1 (length (heap w)) d
               _ (lookup_snoc _ _)).
    simpl. rewrite Hfill. simpl.
    rewrite (categorical_transform_loop_unfitted _ _ self _ Hempty). simpl.
    rewrite app_nil_r, <- app_assoc, length_app. simpl.
    by rewrite Nat.add_1_r.
  - intros self w df d col cls x Hd Hx Hsc.
    unfold NumericPreprocessor.transform_column, bind at 1, get_self.
    cbn [fst snd]. rewrite Hsc. unfold bind at 1.
    rewrite (df_getitem_run df col self w d Hd). unfold lookup_or_raise.
    by rewrite Hx.
  - intros self w df d col x Hd Hx. split; intros Henc.
    + unfold CategoricalPreprocessor.transform_column, bind at 1, get_self.
      cbn [fst snd]. rewrite Henc. unfold bind at 1.
      rewrite (df_getitem_run df col self w d Hd). unfold lookup_or_raise.
      by rewrite Hx.
    + unfold CategoricalPreprocessor.transform_column, bind at 1, get_self.
      cbn [fst snd]. rewrite Henc. unfold bind at 1.
      rewrite (df_getitem_run df col self w d Hd). unfold lookup_or_raise.
      by rewrite Hx.
  - intros self w data d col cls Hd Hcol Hsc.
    destruct (numeric_transform_unfitted_raises self col cls d Hcol Hsc)
      as [e He].
    destruct (numeric_transform_outcome self w data d Hd) as (w1 & _ & _ & Hres).
    rewrite He in Hres. exists e. by rewrite Hres.
  - intros self w data d col Hd Hcol Henc.
    destruct (categorical_transform_unfitted_raises self col d Hcol Henc)
      as [e He].
    destruct (categorical_transform_outcome self w data d Hd)
      as (w1 & _ & _ & Hres).
    rewrite He in Hres. exists e. by rewrite Hres.
  - intros self self' w w' data d d1 e cfg cols Hd Hv Hfill Hrun.
    destruct (numeric_fit_run self w data d d1 Hd Hv Hfill) as [w1 Hfit].
    rewrite Hrun in Hfit. injection Hfit as -> _ Hr. split; [done|].
    simpl. symmetry in Hr.
    destruct (for_each _ (fit_scaler _ d1) _) as [m r] eqn:Hloop.
    simpl in *. subst r. by eapply fit_scaler_loop_raise.
  - intros self self' w w' data d d1 e cfg cols Hd Hv Hfill Hm Hrun.
    by eapply categorical_fit_run_raise.
Qed.

End unfitted_entries.

(** C10 as stated fails. [fit] of the numeric preprocessor on a table with
    a string in the column [age] raises in [scaler.fit], after it has
    stored the new scaler: no fitted state exists for [age], and the
    [transform] of a table that passes the validation raises
    [NotFittedError] where the claim has a warning and a returned table.
    The same happens for the categorical column [city] after [fit] on a
    table with a number among the cities. *)
Lemma C10_counterexample :
  let fitted :=
    NumericPreprocessor.fit 0%nat (example_mode_numeric, example_dirty_world) in
  let run := NumericPreprocessor.transform 1%nat fitted.1 in
  let cfitted :=
    CategoricalPreprocessor.fit (H:=example_external) 0%nat
      (CategoricalPreprocessor.__init__ (example_config "minmax" "label"),
       example_dirty_world) in
  let crun := CategoricalPreprocessor.transform 1%nat cfitted.1 in
  (fitted.2 = Raise (ValueError "could not convert string to float") ∧
   NumericPreprocessor.scalers fitted.1.1 !! "age"
   = Some (Unfitted sk.MinMaxScaler) ∧
   heap fitted.1.2 !! 1%nat = Some example_transform_table ∧
   valid_input (NumericPreprocessor.config fitted.1.1) example_transform_table
   = true ∧
   run.2 = Raise (NotFittedError "This scaler instance is not fitted yet") ∧
   list.last (logs run.1.2)
   = Some (mkLog "NumericPreprocessor" ERROR
             "Error in transform: This scaler instance is not fitted yet")) ∧
  (cfitted.2
   = Raise (TypeError "Encoders require their input argument must be uniformly strings or numbers") ∧
   CategoricalPreprocessor.encoders cfitted.1.1 !! "city"
   = Some (CategoricalPreprocessor.Label (sk.mkLabelEncoder None)) ∧
   heap cfitted.1.2 !! 1%nat = Some example_transform_table ∧
   valid_input (CategoricalPreprocessor.config cfitted.1.1)
     example_transform_table = true ∧
   crun.2
   = Raise (NotFittedError "This LabelEncoder instance is not fitted yet") ∧
   list.last (logs crun.1.2)
   = Some (mkLog "CategoricalPreprocessor" ERROR
             "Error in transform: This LabelEncoder instance is not fitted yet")).
Proof. cbv zeta. repeat split; by_compute. Qed.

(** ** Row by row *)

Section row_by_row.
Context `{External}.

Lemma by_row_result_map (f : cell → result cell) x y :
  result_map f x = Ok y → by_row f x y.
Proof.
  intros Hy. split; [by eapply result_map_length|].
  revert y Hy. induction x as [|a x IH]; intros y; simpl; [done|].
  unfold result_bind. destruct (f a) as [b|] eqn:Hb; [|done].
  destruct (result_map f x) as [y'|]; [|done]. intros [= <-].
  intros [|i] v Hi; simpl in *.
  - injection Hi as <-. by exists b.
  - by apply IH.
Qed.

Lemma by_row_map (g : cell → cell) x : by_row (λ v, Ok (g v)) x (map g x).
Proof.
  split; [apply length_map|]. intros i v Hi. exists (g v). split; [done|].
  by rewrite list_lookup_fmap, Hi.
Qed.

Lemma by_row_after_map (f : cell → result cell) (g : cell → cell) x y :
  by_row f (map g x) y → by_row (λ v, f (g v)) x y.
Proof.
  intros [Hlen Hrows]. split; [by rewrite Hlen, length_map|].
  intros i v Hi. apply Hrows. by rewrite list_lookup_fmap, Hi.
Qed.

Lemma by_row_fillna u x : by_row (λ v, Ok (fill_cell u v)) x (pd.fillna u x).
Proof. apply (by_row_map (fill_cell u)). Qed.

Lemma fillna_fill_cell u x : pd.fillna u x = map (fill_cell u) x.
Proof. done. Qed.

(** The text [transform], row by row. *)
Lemma text_transform_by_row (self : TextPreprocessor.t) d dout :
  text_transform_pure self d = Ok dout → text_rows self d dout.
Proof.
  intros Hpure. split; [by apply text_transform_same_outside|].
  intros Hnd c Hc. revert Hpure. unfold text_transform_pure.
  destruct (valid_input _ d); [|done].
  destruct (for_each _ (text_column self) d) as [d1 [[]|e]] eqn:E; [|done].
  intros [= <-].
  destruct (text_loop_columns _ _ _ _ Hnd E) as [Hin _].
  destruct (Hin c Hc) as (x & Hx & Hy). eexists x, _.
  split; [done|]. split; [exact Hy|].
  apply (by_row_map (λ v, Str (text_of_cell self v))).
Qed.

(** The numeric [transform], row by row. *)
Lemma numeric_transform_by_row (self : NumericPreprocessor.t) d dout :
  numeric_transform_pure self d = Ok dout → numeric_rows self d dout.
Proof.
  intros Hpure. split; [by apply numeric_transform_same_outside|].
  intros Hnd c Hc.
  destruct (numeric_transform_columns self d dout Hnd Hpure c Hc)
    as (stat & x & u & Hstat & Hx & Hu & Hres).
  unfold numeric_cell.
  destruct (NumericPreprocessor.scalers self !! c) as [sc|].
  - destruct Hres as (y & Hy & Hout). exists stat, x, u, y.
    repeat (split; [done|]).
    apply by_row_after_map with (f := scaler_cell sc) (g := fill_cell u).
    rewrite <- fillna_fill_cell. unfold scaler_transform in Hy.
    destruct sc as [cls|s]; [done|]. by apply by_row_result_map.
  - exists stat, x, u, (pd.fillna u x). repeat (split; [done|]).
    apply by_row_fillna.
Qed.

(** A slice of a table. *)
Lemma mapM_select_find d cols cs :
  mapM (λ col, (λ s, (col, s)) <$> pd.lookup_column col d) cols = Some cs →
  ∀ c, c ∈ cols → pd.find_column c cs = pd.lookup_column c d.
Proof.
  intros Hcs. apply mapM_Some in Hcs.
  induction Hcs as [|col c0 cols cs Hc _ IH]; intros c Hin.
  { by apply elem_of_nil in Hin. }
  apply fmap_Some in Hc as (s & Hs & ->). simpl.
  case_decide as Hcol; [by subst|].
  apply elem_of_cons in Hin as [->|Hin]; [done|]. by apply IH.
Qed.

Lemma select_slice_rows cols d slice :
  pd.select cols d = Some slice → slice_rows cols d slice.
Proof.
  intros Hs. split; [|split].
  - unfold pd.select in Hs. apply bind_Some in Hs as (cs & _ & [= <-]). done.
  - by eapply select_column_names.
  - unfold pd.select in Hs. apply bind_Some in Hs as (cs & Hcs & [= <-]).
    intros c Hc. unfold pd.lookup_column at 1. simpl.
    by eapply mapM_select_find.
Qed.



Lemma find_column_filter_eq col cs :
  pd.find_column col (filter (λ x : string * list cell, x.1 ≠ col) cs) = None.
Proof.
  induction cs as [|[n x] cs IH]; [done|].
  rewrite filter_cons. simpl. destruct (decide (n ≠ col)) as [Hn|Hn]; [|done].
  simpl. by rewrite decide_False.
Qed.

Lemma find_column_filter_Some n col cs y :
  pd.find_column n (filter (λ x : string * list cell, x.1 ≠ col) cs) = Some y →
  n ≠ col ∧ pd.find_column n cs = Some y.
Proof.
  intros Hy. destruct (decide (n = col)) as [->|Hne].
  - by rewrite find_column_filter_eq in Hy.
  - split; [done|]. by rewrite find_column_filter_ne in Hy.
Qed.

(** An iteration of the loop of the categorical [transform] leaves the
    columns with other names that the frame has as they are. *)
Lemma encode_column_other self col c cur cur' :
  c ≠ col → is_Some (pd.lookup_column c cur) →
  encode_column self col cur = Ok cur' →
  pd.lookup_column c cur' = pd.lookup_column c cur.
Proof.
  intros Hne [x Hx]. unfold encode_column, lookup_or_raise, result_bind.
  destruct (CategoricalPreprocessor.encoders self !! col) as [[enc|enc]|].
  - destruct (pd.lookup_column col cur) as [y|] eqn:Hy; [|done].
    destruct (sk.LabelEncoder_transform enc y) as [codes|]; [|done].
    intros [= <-]. rewrite (lookup_column_set_column _ _ _ _ _ Hy).
    by rewrite decide_False.
  - destruct (pd.lookup_column col cur) as [y|] eqn:Hy; [|done].
    destruct (sk.OneHotEncoder_transform enc y) as [rows|]; [|done].
    destruct (feature_names_of self col) as [names|]; [|done].
    destruct (encoded_frame rows names (df_index cur)) as [e|]; [|done].
    intros [= <-]. unfold pd.lookup_column in *. simpl.
    by rewrite find_column_app, find_column_filter_ne, Hx.
  - by intros [= <-].
Qed.

Lemma encoded_column_treated self d1 treated treated' n y :
  (∀ c, c ∈ treated → c ∈ treated') →
  ((n ∈ treated') → n ∈ treated ∨ CategoricalPreprocessor.encoders self !! n = None) →
  encoded_column self d1 treated n y → encoded_column self d1 treated' n y.
Proof.
  intros Hsub Hn [[Hy Hcase]|(c & x & Hc & Hx & Hm)].
  - left. split; [done|].
    destruct (decide (n ∈ treated')) as [Hin|Hnin]; [|by left].
    destruct (Hn Hin) as [Hin'|Hnone]; [|by right].
    destruct Hcase as [Hnin|Hnone]; [done|by right].
  - right. exists c, x. split; [by apply Hsub|done].
Qed.

(** One iteration of the loop, on the columns of the current frame. *)
Lemma encode_column_step self d1 treated c x cur cur' :
  pd.lookup_column c cur = Some x → pd.lookup_column c d1 = Some x →
  (∀ n y, pd.lookup_column n cur = Some y → encoded_column self d1 treated n y) →
  encode_column self c cur = Ok cur' →
  ∀ n y, pd.lookup_column n cur' = Some y →
         encoded_column self d1 (c :: treated) n y.
Proof.
  intros Hx Hx1 Hinv. unfold encode_column, lookup_or_raise, result_bind.
  rewrite Hx.
  assert (∀ n y, n ≠ c → pd.lookup_column n cur = Some y →
                 encoded_column self d1 (c :: treated) n y) as Hother.
  { intros n y Hne Hy. eapply encoded_column_treated; [| |by apply Hinv].
    - intros c' Hc'. by apply list_elem_of_further.
    - intros [->|Hin]%elem_of_cons; [done|by left]. }
  destruct (CategoricalPreprocessor.encoders self !! c) as [[enc|enc]|] eqn:He.
  - unfold sk.LabelEncoder_transform.
    destruct (sk.classes_ enc) as [cs|] eqn:Hcs; [|done].
    destruct (result_map (sk.label_code cs) x) as [codes|] eqn:Hcodes; [|done].
    intros [= <-] n y. rewrite (lookup_column_set_column _ _ _ _ _ Hx).
    case_decide as Hn; [|by apply Hother]. subst n. intros [= <-].
    right. exists c, x. split; [apply list_elem_of_here|]. split; [done|].
    rewrite He. split; [done|]. exists cs. split; [done|].
    by apply by_row_result_map.
  - unfold sk.OneHotEncoder_transform.
    destruct (sk.categories_ enc) as [cs|] eqn:Hcs; [|done].
    unfold feature_names_of.
    destruct (CategoricalPreprocessor.encoding_maps self !! c)
      as [[codes|names]|] eqn:Hm; try done.
    unfold encoded_frame, pd.from_rows.
    destruct (forallb _ _); [|done]. intros [= <-] n y.
    unfold pd.lookup_column at 1, pd.concat_columns. simpl.
    rewrite app_nil_r, find_column_app.
    destruct (pd.find_column n (filter _ _)) as [s|] eqn:Hs.
    + intros [= <-]. apply find_column_filter_Some in Hs as [Hne Hs].
      by apply Hother.
    + intros Hy. apply find_column_Some in Hy.
      apply elem_of_lookup_imap in Hy as (j & nm & [= <- ->] & Hj).
      right. exists c, x. split; [apply list_elem_of_here|]. split; [done|].
      rewrite He. exists cs, names, j. repeat (split; [done|]).
      rewrite map_map.
      assert (map (λ v, default NaN (map (sk.indicator v) cs !! j)) x
              = map (indicator_at cs j) x) as ->.
      { apply map_ext. intros v. unfold indicator_at.
        by rewrite list_lookup_fmap. }
      apply (by_row_map (indicator_at cs j)).
  - intros [= <-] n y Hy. destruct (decide (n = c)) as [->|Hne].
    + rewrite Hx in Hy. injection Hy as <-. left. split; [done|by right].
    + by apply Hother.
Qed.

Lemma encode_loop_columns self d1 cols treated cur dout :
  NoDup cols →
  (∀ c, c ∈ cols → is_Some (pd.lookup_column c d1) ∧
                   pd.lookup_column c cur = pd.lookup_column c d1) →
  (∀ n y, pd.lookup_column n cur = Some y → encoded_column self d1 treated n y) →
  result_fold (encode_column self) cols cur = Ok dout →
  ∀ n y, pd.lookup_column n dout = Some y →
         encoded_column self d1 (reverse cols ++ treated) n y.
Proof.
  intros Hnd. revert treated cur.
  induction cols as [|c cols IH]; intros treated cur Hpres Hinv; simpl.
  - by intros [= <-].
  - apply list.NoDup_cons in Hnd as [Hnin Hnd]. unfold result_bind.
    destruct (encode_column self c cur) as [cur1|] eqn:E1; [|done].
    intros E2 n y Hy. rewrite reverse_cons, <- app_assoc. simpl.
    destruct (Hpres c) as [[x Hx1] Hx]; [apply list_elem_of_here|].
    rewrite Hx1 in Hx.
    eapply (IH Hnd (c :: treated) cur1); [| |exact E2|exact Hy].
    + intros c' Hc'. destruct (Hpres c') as [Hs Heq];
        [by apply list_elem_of_further|].
      split; [done|]. rewrite <- Heq.
      eapply encode_column_other; [|by rewrite Heq|exact E1].
      by intros ->.
    + by eapply encode_column_step.
Qed.

(** The categorical [transform], row by row. *)
Lemma categorical_transform_by_row (self : CategoricalPreprocessor.t) d dout :
  categorical_transform_pure self d = Ok dout → categorical_rows self d dout.
Proof.
  unfold categorical_transform_pure, categorical_rows.
  set (cfg := CategoricalPreprocessor.config self).
  set (cols := columns_of_type cfg "categorical").
  destruct (valid_input cfg d) eqn:Hv; [|done].
  destruct (for_each _ (categorical_fill _) d) as [d1 [[]|e]] eqn:E1; [|done].
  intros E2. split.
  - eapply kept_outside_trans.
    + apply same_outside_kept_outside.
      eapply (for_each_same_outside_in cols); [|done|exact E1].
      intros x d0 d0' Hx. by apply categorical_fill_same_outside.
    + by eapply encode_loop_kept_outside.
  - intros Hnd n y Hy.
    pose proof E1 as E1'. rewrite categorical_fill_fill_with in E1'.
    destruct (fill_with_loop_columns _ _ _ _ Hnd E1') as [Hin Hout].
    assert (encoded_column self d1 (reverse cols ++ []) n y) as Henc.
    { eapply encode_loop_columns; [done| | |exact E2|exact Hy].
      - intros c Hc. destruct (Hin c Hc) as (x & u & _ & _ & Hx1).
        split; [by eexists|done].
      - intros n' y' Hy'. left. split; [done|]. left. apply not_elem_of_nil. }
    rewrite app_nil_r in Henc.
    destruct Henc as [[Hy1 Hcase]|(c & x1 & Hc & Hx1 & Hm)].
    + destruct (decide (n ∈ cols)) as [Hn|Hn].
      * right. destruct (Hin n Hn) as (x & u & Hx & Hu & Hx1).
        exists n, x, u. repeat (split; [done|]).
        unfold categorical_column.
        destruct Hcase as [Hnin|Hnone].
        { destruct Hnin. by rewrite elem_of_reverse. }
        rewrite Hnone. split; [done|]. rewrite Hy1 in Hx1.
        injection Hx1 as ->. apply by_row_fillna.
      * left. split; [done|]. by rewrite <- (Hout n Hn).
    + right. rewrite elem_of_reverse in Hc.
      destruct (Hin c Hc) as (x & u & Hx & Hu & Hx1').
      rewrite Hx1 in Hx1'. injection Hx1' as ->.
      exists c, x, u. repeat (split; [done|]).
      unfold categorical_column.
      destruct (CategoricalPreprocessor.encoders self !! c) as [[enc|enc]|];
        [| |done].
      * destruct Hm as (-> & cs & Hcs & Hrow). split; [done|].
        exists cs. split; [done|].
        by apply by_row_after_map with (f := sk.label_code cs) (g := fill_cell u).
      * destruct Hm as (cs & names & j & Hcs & Hnames & Hj & Hrow).
        exists cs, names, j. repeat (split; [done|]).
        by apply by_row_after_map
          with (f := λ v, Ok (indicator_at cs j v)) (g := fill_cell u).
Qed.

Lemma preprocessor_transform_by_row p d dout :
  preprocessor_transform_pure p d = Ok dout → preprocessor_rows p d dout.
Proof.
  destruct p; simpl.
  - apply text_transform_by_row.
  - apply numeric_transform_by_row.
  - apply categorical_transform_by_row.
Qed.

Lemma preprocessor_rows_index p d dout :
  preprocessor_rows p d dout → df_index dout = df_index d.
Proof. destruct p; simpl; by intros [[Hi _] _]. Qed.

(** The engine's [transform], row by row. *)
Lemma factory_transform_by_row (self : PreprocessorFactory.t) d dout :
  factory_transform_pure self d = Ok dout →
  ∃ processed,
    df_index dout = df_index d ∧
    Forall2 (rows_of_type self d) (active_types self) processed ∧
    (processed ≠ [] → df_columns dout = concat (map df_columns processed)) ∧
    (processed = [] → dout = d).
Proof.
  unfold factory_transform_pure, processed_frames, result_bind.
  destruct (result_fold _ _ []) as [processed|] eqn:E; [|done].
  destruct (processed_frames_outputs _ _ _ _ _ E) as (new & -> & Hnew).
  simpl. intros Hdout. exists new.
  assert (Forall2 (rows_of_type self d) (active_types self) new) as Hrows.
  { unfold active_types. eapply list.Forall2_impl; [exact Hnew|].
    intros k o (p & slice & Hp & Hs & Ho). exists p, slice.
    split; [done|]. split; [done|].
    split; [by apply select_slice_rows|by apply preprocessor_transform_by_row]. }
  case_bool_decide as Hne; injection Hdout as <-.
  - split; [|done]. destruct Hrows as [|k o ks os Ho _]; [done|].
    unfold pd.concat_columns. simpl.
    destruct Ho as (p & slice & _ & _ & (Hi & _) & Hp).
    rewrite <- Hi. by eapply preprocessor_rows_index.
  - split; [done|]. split; [done|]. split; [|done]. intros Hne'. by destruct Hne'.
Qed.

(** C5, as the code has it. Whenever [transform] of a preprocessor, or of
    the factory, returns a table for a table T, the result has the row
    labels of T in the same order - so exactly as many rows, none dropped,
    added or moved - and one cell per row in every column; rows with
    missing values are kept like the others. The text transform returns
    such a table for every T that passes [validate_input].

    Row [i] of the result is computed from row [i] of T. In the result of
    the text and of the numeric [transform] the columns of the other types
    are the columns of T, and a column of the type holds in every row the
    value of the per-cell function on the cell of T: the processed text;
    the cell filled with the statistic of the column of T, then scaled
    with the scaler of the column. In the result of the categorical
    [transform] every column is a column of T that is not categorical, or
    holds in every row the filled cell of a categorical column of T, its
    label code, or its indicator for one category. The result of the
    factory has the columns of the tables that its preprocessors compute
    in this way from the slices of T with the columns of their types, or
    is T itself when no preprocessor has columns. The names of the columns
    of a type are distinct. *)
Theorem C5_rows_preserved :
  keeps_rows TextPreprocessor.transform ∧
  keeps_rows NumericPreprocessor.transform ∧
  keeps_rows CategoricalPreprocessor.transform ∧
  keeps_rows PreprocessorFactory.transform ∧
  (∀ self w data d,
     heap w !! data = Some d →
     valid_input (TextPreprocessor.config self) d = true →
     ∃ out, (TextPreprocessor.transform data (self, w)).2 = Ok out) ∧
  (∀ (self : TextPreprocessor.t) w data d,
     heap w !! data = Some d →
     valid_input (TextPreprocessor.config self) d = true →
     ∃ s' out dout,
       TextPreprocessor.transform data (self, w) = (s', Ok out) ∧
       heap s'.2 !! out = Some dout ∧ text_rows self d dout) ∧
  (∀ (self : NumericPreprocessor.t) w data d s' out,
     heap w !! data = Some d →
     NumericPreprocessor.transform data (self, w) = (s', Ok out) →
     ∃ dout, heap s'.2 !! out = Some dout ∧ numeric_rows self d dout) ∧
  (∀ (self : CategoricalPreprocessor.t) w data d s' out,
     heap w !! data = Some d →
     CategoricalPreprocessor.transform data (self, w) = (s', Ok out) →
     ∃ dout, heap s'.2 !! out = Some dout ∧ categorical_rows self d dout) ∧
  (∀ (self : PreprocessorFactory.t) w data d s' out,
     heap w !! data = Some d →
     PreprocessorFactory.transform data (self, w) = (s', Ok out) →
     ∃ processed dout,
       heap s'.2 !! out = Some dout ∧
       df_index dout = df_index d ∧
       Forall2 (rows_of_type self d) (active_types self) processed ∧
       (processed ≠ [] → df_columns dout = concat (map df_columns processed)) ∧
       (processed = [] → dout = d)).
Proof.
  split; [|split; [|split; [|split; [|split; [|split; [|split; [|split]]]]]]].
  - eapply outcome_keeps_rows; [apply text_transform_outcome|].
    apply text_transform_rows.
  - eapply outcome_keeps_rows; [apply numeric_transform_outcome|].
    apply numeric_transform_rows.
  - eapply outcome_keeps_rows; [apply categorical_transform_outcome|].
    apply categorical_transform_rows.
  - eapply outcome_keeps_rows; [apply factory_transform_outcome|].
    apply factory_transform_rows.
  - intros self w data d Hd Hv.
    destruct (text_transform_outcome self w data d Hd) as (w' & _ & _ & Hres).
    destruct (text_transform_total self d Hv) as [d' Hd'].
    rewrite Hd' in Hres. destruct Hres as (out & -> & _). by exists out.
  - intros self w data d Hd Hv.
    destruct (text_transform_outcome self w data d Hd) as (w' & _ & _ & Hres).
    destruct (text_transform_total self d Hv) as [d' Hd'].
    rewrite Hd' in Hres. destruct Hres as (out & Hrun & Hout & _).
    exists (self, w'), out, d'. split; [done|]. split; [done|].
    by apply text_transform_by_row.
  - intros self w data d s' out Hd Hrun.
    destruct (transform_outcome_Ok _ _ _ _ _ _ _ _ numeric_transform_outcome
                Hd Hrun) as (dout & Hpure & Hout & _).
    exists dout. split; [done|]. by apply numeric_transform_by_row.
  - intros self w data d s' out Hd Hrun.
    destruct (transform_outcome_Ok _ _ _ _ _ _ _ _ categorical_transform_outcome
                Hd Hrun) as (dout & Hpure & Hout & _).
    exists dout. split; [done|]. by apply categorical_transform_by_row.
  - intros self w data d s' out Hd Hrun.
    destruct (transform_outcome_Ok _ _ _ _ _ _ _ _ factory_transform_outcome
                Hd Hrun) as (dout & Hpure & Hout & _).
    destruct (factory_transform_by_row self d dout Hpure)
      as (processed & Hi & Hrows & Hcols & Hnone).
    by exists processed, dout.
Qed.

End row_by_row.

(** C5 as stated fails: [transform] does not return a table for every
    table that passes [validate_input]. The categorical preprocessor of the
    scenario, fitted with label encoding on the cities A and B, raises on
    the transform table, whose first city is C; the numeric preprocessor
    raises on a table with a string in the column [age]; the factory for
    the categorical column alone, after [fit] on the fit table, raises on
    the transform table. Each of the three tables has every declared
    column. *)
Lemma C5_counterexample :
  let cfg := example_config "minmax" "label" in
  let fitted :=
    PreprocessorFactory.fit 0%nat (example_city_factory, example_world) in
  (valid_input cfg example_transform_table = true ∧
   (CategoricalPreprocessor.transform 1%nat
      (example_categorical "label", example_world)).2
   = Raise (ValueError "y contains previously unseen labels")) ∧
  (valid_input cfg example_string_table = true ∧
   (NumericPreprocessor.transform 0%nat
      (example_numeric, mkWorld [example_string_table] [])).2
   = Raise (TypeError "Could not convert string to numeric")) ∧
  (PreprocessorFactory.__init__ example_city_only = Ok example_city_factory ∧
   fitted.2 = Ok tt ∧
   heap fitted.1.2 !! 1%nat = Some example_transform_table ∧
   valid_input example_city_only example_transform_table = true ∧
   (PreprocessorFactory.transform 1%nat fitted.1).2
   = Raise (ValueError "y contains previously unseen labels")).
Proof.
  cbv zeta. split; [split; by_compute|]. split; [split; by_compute|].
  split; [reflexivity|]. repeat split; by_compute.
Qed.

(** ** The column names of the engine's result *)

Section engine_names.
Context `{External}.

Lemma elem_of_concat {A} (x : A) (ls : list (list A)) :
  x ∈ concat ls → ∃ l, x ∈ l ∧ l ∈ ls.
Proof.
  induction ls as [|l ls IH]; simpl; [by intros ?%elem_of_nil|].
  rewrite elem_of_app. intros [Hx|Hx].
  - exists l. split; [done|apply list_elem_of_here].
  - destruct (IH Hx) as (l' & Hl' & Hin). exists l'.
    split; [done|by apply list_elem_of_further].
Qed.

Lemma column_names_concat_columns ds :
  column_names (pd.concat_columns ds) = concat (map column_names ds).
Proof.
  unfold column_names, pd.concat_columns. simpl.
  induction ds as [|d ds IH]; simpl; [done|]. by rewrite fmap_app, IH.
Qed.

(** An iteration of the loop of the categorical [transform] adds no column
    name but the feature names stored for its column. *)
Lemma encode_column_names (self : CategoricalPreprocessor.t) col cur cur' n :
  encode_column self col cur = Ok cur' → n ∈ column_names cur' →
  n ∈ column_names cur ∨
  ∃ names, CategoricalPreprocessor.encoding_maps self !! col
           = Some (CategoricalPreprocessor.FeatureNames names) ∧ n ∈ names.
Proof.
  unfold encode_column, lookup_or_raise, result_bind.
  destruct (CategoricalPreprocessor.encoders self !! col) as [[enc|enc]|].
  - destruct (pd.lookup_column col cur) as [y|] eqn:Hy; [|done].
    destruct (sk.LabelEncoder_transform enc y) as [codes|]; [|done].
    intros [= <-] Hn. left. rewrite column_names_set_column in Hn; [done|].
    apply lookup_column_is_Some. by eexists.
  - destruct (pd.lookup_column col cur) as [y|] eqn:Hy; [|done].
    destruct (sk.OneHotEncoder_transform enc y) as [rows|]; [|done].
    unfold feature_names_of.
    destruct (CategoricalPreprocessor.encoding_maps self !! col)
      as [[codes|names]|]; try done.
    unfold encoded_frame, pd.from_rows. destruct (forallb _ _); [|done].
    intros [= <-]. rewrite column_names_concat_columns. simpl.
    rewrite app_nil_r, elem_of_app. intros [Hn|Hn].
    + left. unfold column_names, pd.drop_column in *. simpl in Hn.
      apply list_elem_of_fmap in Hn as (c & -> & Hc).
      apply list_elem_of_filter in Hc as [_ Hc]. by apply list_elem_of_fmap_2.
    + right. exists names. split; [done|].
      unfold column_names in Hn. simpl in Hn.
      apply list_elem_of_fmap in Hn as ([nm s] & -> & Hc).
      apply elem_of_lookup_imap in Hc as (j & nm' & [= -> ->] & Hj).
      by eapply list_elem_of_lookup_2.
  - intros [= <-] Hn. by left.
Qed.

Lemma encode_loop_names (self : CategoricalPreprocessor.t) cols cur dout n :
  result_fold (encode_column self) cols cur = Ok dout → n ∈ column_names dout →
  n ∈ column_names cur ∨
  ∃ col names, CategoricalPreprocessor.encoding_maps self !! col
               = Some (CategoricalPreprocessor.FeatureNames names) ∧ n ∈ names.
Proof.
  revert cur. induction cols as [|c cols IH]; intros cur; simpl.
  - intros [= <-] Hn. by left.
  - unfold result_bind.
    destruct (encode_column self c cur) as [cur1|] eqn:E1; [|done].
    intros E2 Hn. destruct (IH _ E2 Hn) as [Hn1|Hfeat]; [|by right].
    destruct (encode_column_names _ _ _ _ _ E1 Hn1) as [Hn0|(names & Hm & Hin)];
      [by left|].
    right. by exists c, names.
Qed.

Lemma categorical_transform_names (self : CategoricalPreprocessor.t) d dout n :
  categorical_transform_pure self d = Ok dout → n ∈ column_names dout →
  n ∈ column_names d ∨
  ∃ col names, CategoricalPreprocessor.encoding_maps self !! col
               = Some (CategoricalPreprocessor.FeatureNames names) ∧ n ∈ names.
Proof.
  unfold categorical_transform_pure.
  destruct (valid_input _ d); [|done].
  destruct (for_each _ (categorical_fill _) d) as [d1 [[]|e]] eqn:E1; [|done].
  intros E2 Hn.
  assert (column_names d1 = column_names d) as Hnames.
  { eapply (for_each_same_outside_in
              (columns_of_type (CategoricalPreprocessor.config self) "categorical"));
      [|done|exact E1].
    intros x d0 d0' Hx. by apply categorical_fill_same_outside. }
  rewrite <- Hnames. by eapply encode_loop_names.
Qed.

(** The names of the columns that a preprocessor of the factory returns
    for a slice. *)
Lemma output_of_type_names self d key p slice out n :
  PreprocessorFactory.get_item key (PreprocessorFactory.preprocessors self)
    = Some p →
  pd.select
    (PreprocessorFactory._get_columns_by_type
       (PreprocessorFactory.config self) key) d = Some slice →
  preprocessor_transform_pure p slice = Ok out → n ∈ column_names out →
  n ∈ PreprocessorFactory._get_columns_by_type
        (PreprocessorFactory.config self) key ∨
  stored_feature_name self n.
Proof.
  intros Hp Hs Ho Hn. rewrite <- (select_column_names _ _ _ Hs).
  destruct p as [q|q|q]; simpl in Ho.
  - left. apply text_transform_same_outside in Ho as (_ & Hnames & _).
    by rewrite <- Hnames.
  - left. apply numeric_transform_same_outside in Ho as (_ & Hnames & _).
    by rewrite <- Hnames.
  - destruct (categorical_transform_names _ _ _ _ Ho Hn)
      as [Hin|(col & names & Hm & Hin)]; [by left|].
    right. by exists key, q, col, names.
Qed.

(** C6, as the code has it. When [transform] of the factory returns a
    table for a table T: there is one table per preprocessor that the
    factory holds and that has columns declared - the table that this
    preprocessor returns for the slice of T with the columns of its type -
    and, if there is at least one, the columns of the result are the columns
    of these tables, one table after the other in the order of the dict.
    Every column name of the result is then a name that the configuration
    declares with the type of one of these preprocessors, or a feature name
    that a categorical preprocessor has stored for a one-hot encoded
    column: a column of T with any other name is not part of the result.
    If there is no such preprocessor, the result is T as it was given, with
    all its columns. *)
Theorem C6_engine_output_columns
    (self : PreprocessorFactory.t) (w : World) (data : loc) (d : DataFrame)
    (s' : PreprocessorFactory.t * World) (out : loc) :
  heap w !! data = Some d →
  PreprocessorFactory.transform data (self, w) = (s', Ok out) →
  ∃ processed dout,
    heap s'.2 !! out = Some dout ∧
    Forall2 (output_of_type self d) (active_types self) processed ∧
    (processed ≠ [] → df_columns dout = concat (map df_columns processed)) ∧
    (processed = [] → dout = d) ∧
    (processed ≠ [] → ∀ n, n ∈ column_names dout →
       (∃ key, key ∈ active_types self ∧
               n ∈ PreprocessorFactory._get_columns_by_type
                     (PreprocessorFactory.config self) key) ∨
       stored_feature_name self n).
Proof.
  intros Hd Hrun.
  destruct (transform_outcome_Ok _ _ _ _ _ _ _ _ factory_transform_outcome Hd Hrun)
    as (dout & Hpure & Hout & _).
  revert Hpure. unfold factory_transform_pure, processed_frames, result_bind.
  destruct (result_fold _ _ []) as [processed|] eqn:E; [|done].
  destruct (processed_frames_outputs _ _ _ _ _ E) as (new & -> & Hnew).
  simpl. intros Hdout. exists new, dout. split; [done|]. split.
  { unfold active_types. eapply list.Forall2_impl; [exact Hnew|].
    intros k o (p & slice & Hp & Hs & Ho). exists p, slice.
    split; [done|]. split; [done|]. by apply pure_transform_returns. }
  case_bool_decide as Hne; injection Hdout as <-.
  - split; [done|]. split; [done|]. intros _ n Hn.
    rewrite column_names_concat_columns in Hn.
    apply elem_of_concat in Hn as (names & Hn & Hnames).
    apply list_elem_of_fmap in Hnames as (o & -> & Ho).
    apply list_elem_of_lookup in Ho as [i Ho].
    destruct (Forall2_lookup_r _ _ _ _ _ Hnew Ho)
      as (key & Hkey & p & slice & Hp & Hs & Hpure).
    destruct (output_of_type_names _ _ _ _ _ _ _ Hp Hs Hpure Hn) as [Hin|Hf];
      [|by right].
    left. exists key. split; [|done]. unfold active_types.
    by eapply list_elem_of_lookup_2.
  - split; [done|]. split; [done|]. intros Hne'. by destruct Hne'.
Qed.

End engine_names.

(** * The theorems on the scenario of the specification *)

(** C1 on the transform table of the scenario, before any [fit]: the
    missing age is filled with the mean 100 of the transform table. *)
Lemma C1_witness :
  let run := NumericPreprocessor.transform 1%nat (example_numeric, example_world) in
  heap example_world !! 1%nat = Some example_transform_table ∧
  NoDup (columns_of_type (example_config "minmax" "label") "numeric") ∧
  run.2 = Ok 3%nat ∧
  ∃ dout, heap run.1.2 !! 3%nat = Some dout ∧
    ∀ c, c ∈ columns_of_type (example_config "minmax" "label") "numeric" →
      ∃ stat x v,
        numeric_statistic "mean" = Some stat ∧
        pd.lookup_column c example_transform_table = Some x ∧ stat x = Ok v ∧
        match NumericPreprocessor.scalers example_numeric !! c with
        | Some sc => ∃ y, scaler_transform sc (pd.fillna v x) = Ok y ∧
                          pd.lookup_column c dout = Some y
        | None => pd.lookup_column c dout = Some (pd.fillna v x)
        end.
Proof.
  cbv zeta.
  assert ((NumericPreprocessor.transform 1%nat (example_numeric, example_world)).2
          = Ok 3%nat) as Hrun by by_compute.
  assert (NoDup (columns_of_type (example_config "minmax" "label") "numeric"))
    as Hnd by by_compute.
  split; [reflexivity|]. split; [exact Hnd|]. split; [exact Hrun|].
  apply (C1_fill_statistic_of_transform_table example_numeric example_world
           1%nat example_transform_table _ 3%nat);
    [reflexivity|exact Hnd|apply run_eq, Hrun].
Defined.

(** C3 on configurations with an unknown option: the scaling method
    [bogus] raises in the constructor, the numeric missing-value policy
    [bogus] raises in [fit] and [transform]. *)
Lemma C3_witness :
  ("bogus" ∉ ["standard"; "minmax"; "robust"]) ∧
  NumericPreprocessor.__init__ (H:=example_external) (example_config "bogus" "label")
  = Raise (ValueError "Unknown scaling method: bogus") ∧
  ("bogus" ∉ ["mean"; "median"; "mode"]) ∧
  (NumericPreprocessor.fit 0%nat (example_unknown_policy, example_world)).2
  = Raise (ValueError "Unknown missing value handling method: bogus") ∧
  (NumericPreprocessor.transform 0%nat (example_unknown_policy, example_world)).2
  = Raise (ValueError "Unknown missing value handling method: bogus").
Proof.
  assert ("bogus" ∉ ["standard"; "minmax"; "robust"]) as Hs by by_compute.
  assert ("bogus" ∉ ["mean"; "median"; "mode"]) as Hm by by_compute.
  destruct (C3_unknown_options (H:=example_external)) as (Hinit & Hfill & _).
  split; [exact Hs|]. split; [exact (Hinit (example_config "bogus" "label") Hs)|].
  split; [exact Hm|].
  apply (Hfill example_unknown_policy example_world 0%nat example_fit_table
           "age" []); [reflexivity|reflexivity|reflexivity|exact Hm].
Defined.


(** C8 on the scenario: after [fit] of the numeric preprocessor on the fit
    table, the heap holds the fit table as it was. *)
Lemma C8_witness :
  heap (NumericPreprocessor.fit 0%nat (example_numeric, example_world)).1.2 !! 0%nat
  = Some example_fit_table.
Proof.
  destruct (C8_input_not_mutated (H:=example_external)) as (_ & _ & Hfit & _).
  apply (Hfit example_numeric example_world 0%nat example_fit_table);
    reflexivity.
Defined.

(** C9 on the scenario: [fit] on the fit table and then on the transform
    table leaves the numeric preprocessor as [fit] on the transform table
    alone does. *)
Lemma C9_witness :
  let r1 := NumericPreprocessor.fit 0%nat (example_numeric, example_world) in
  let r2 := NumericPreprocessor.fit 1%nat r1.1 in
  let ra := NumericPreprocessor.fit 1%nat (example_numeric, example_world) in
  r1.2 = Ok tt ∧ r2.2 = Ok tt ∧ ra.2 = Ok tt ∧ r2.1.1 = ra.1.1.
Proof.
  cbv zeta.
  set (r1 := NumericPreprocessor.fit 0%nat (example_numeric, example_world)).
  set (r2 := NumericPreprocessor.fit 1%nat r1.1).
  set (ra := NumericPreprocessor.fit 1%nat (example_numeric, example_world)).
  assert (r1.2 = Ok tt) as H1 by by_compute.
  assert (r2.2 = Ok tt) as H2 by by_compute.
  assert (ra.2 = Ok tt) as Ha by by_compute.
  split; [exact H1|]. split; [exact H2|]. split; [exact Ha|].
  destruct (C9_refit_replaces_state (H:=example_external)) as (Hnum & _).
  apply (Hnum (example_config "minmax" "label") example_numeric example_world
           0%nat example_fit_table r1.1.1 r1.1.2 r1.1.2
           1%nat example_transform_table r2.1.1 r2.1.2
           example_world 1%nat ra.1.1 ra.1.2).
  - reflexivity.
  - reflexivity.
  - apply run_eq_world, H1.
  - by_compute.
  - rewrite (run_eq_world r2 _ H2) at 1. subst r2.
    by rewrite <- surjective_pairing.
  - reflexivity.
  - apply run_eq_world, Ha.
Defined.



(** C10 on the scenario, before any [fit]: the numeric [transform] of the
    transform table returns the filled copy and logs the warning for the
    column [age]. *)
Lemma C10_witness :
  let filled :=
    (for_each ["age"] (numeric_fill "mean") example_transform_table).1 in
  NumericPreprocessor.scalers example_numeric = ∅ ∧
  valid_input (example_config "minmax" "label") example_transform_table = true ∧
  (for_each ["age"] (numeric_fill "mean") example_transform_table).2 = Ok tt ∧
  pd.lookup_column "age" filled = Some [num 100; num 100] ∧
  NumericPreprocessor.transform 1%nat (example_numeric, example_world)
  = ((example_numeric,
      mkWorld [example_fit_table; example_transform_table;
               example_transform_table; filled]
        [no_scaler_warning "age"]),
     Ok 3%nat).
Proof.
  cbv zeta.
  assert ((for_each ["age"] (numeric_fill "mean") example_transform_table).2
          = Ok tt) as Hfill by by_compute.
  split; [reflexivity|]. split; [reflexivity|]. split; [exact Hfill|].
  split; [by_compute|].
  destruct (C10_transform_without_fitted_state (H:=example_external))
    as (_ & _ & _ & _ & Hnum & _).
  apply (Hnum example_numeric example_world 1%nat example_transform_table);
    [reflexivity|reflexivity|reflexivity|apply run_eq, Hfill].
Defined.

(** C5 on the transform table of the scenario: the numeric [transform]
    returns a table with the same two row labels, whose column [age] holds,
    row by row, the filled cell of the transform table (no scaler is
    fitted), and whose column [city] is that of the transform table. *)
Lemma C5_witness :
  let run := NumericPreprocessor.transform 1%nat (example_numeric, example_world) in
  df_wf example_transform_table ∧ run.2 = Ok 3%nat ∧
  (d ← heap run.1.2 !! 3%nat; pd.lookup_column "age" d)
  = Some [num 100; num 100] ∧
  (∃ dout, heap run.1.2 !! 3%nat = Some dout ∧
           df_index dout = df_index example_transform_table ∧
           nrows dout = nrows example_transform_table ∧ df_wf dout) ∧
  (∃ dout, heap run.1.2 !! 3%nat = Some dout ∧
           numeric_rows example_numeric example_transform_table dout).
Proof.
  cbv zeta.
  assert ((NumericPreprocessor.transform 1%nat (example_numeric, example_world)).2
          = Ok 3%nat) as Hrun by by_compute.
  assert (df_wf example_transform_table) as Hwf by by_compute.
  split; [exact Hwf|]. split; [exact Hrun|]. split; [by_compute|].
  destruct (C5_rows_preserved (H:=example_external))
    as (_ & Hnum & _ & _ & _ & _ & Hrows & _).
  split.
  - apply (Hnum example_numeric example_world 1%nat example_transform_table _ 3%nat);
      [reflexivity|exact Hwf|apply run_eq, Hrun].
  - apply (Hrows example_numeric example_world 1%nat example_transform_table _ 3%nat);
      [reflexivity|apply run_eq, Hrun].
Defined.

(** C6 on a configuration with one numeric column and the fit table of the
    scenario, which has the column [city] besides: the result of the
    factory has the columns of the table that the numeric preprocessor
    returns for the slice, and [city] is not among them. *)
Lemma C6_witness :
  let w := mkWorld [example_fit_table] [] in
  let run := PreprocessorFactory.transform 0%nat (example_numeric_factory, w) in
  PreprocessorFactory.__init__ example_numeric_only = Ok example_numeric_factory ∧
  active_types example_numeric_factory = ["numeric"] ∧
  column_names example_fit_table = ["age"; "city"] ∧
  run.2 = Ok 5%nat ∧
  (d ← heap run.1.2 !! 5%nat; Some (column_names d)) = Some ["age"] ∧
  ∃ processed dout,
    heap run.1.2 !! 5%nat = Some dout ∧
    Forall2 (output_of_type example_numeric_factory example_fit_table)
      (active_types example_numeric_factory) processed ∧
    (processed ≠ [] → df_columns dout = concat (map df_columns processed)) ∧
    (processed = [] → dout = example_fit_table) ∧
    (processed ≠ [] → ∀ n, n ∈ column_names dout →
       (∃ key, key ∈ active_types example_numeric_factory ∧
               n ∈ PreprocessorFactory._get_columns_by_type
                     (PreprocessorFactory.config example_numeric_factory) key) ∨
       stored_feature_name example_numeric_factory n).
Proof.
  cbv zeta.
  assert ((PreprocessorFactory.transform 0%nat
             (example_numeric_factory, mkWorld [example_fit_table] [])).2
          = Ok 5%nat) as Hrun by by_compute.
  split; [reflexivity|]. split; [reflexivity|]. split; [reflexivity|].
  split; [exact Hrun|]. split; [by_compute|].
  apply (C6_engine_output_columns example_numeric_factory
           (mkWorld [example_fit_table] []) 0%nat example_fit_table
           _ 5%nat); [reflexivity|apply run_eq, Hrun].
Defined.
